(** * backstage-plugin-aws-backend: credentials broker and resource providers

    A shallow embedding of the TypeScript sources

      - [src/credentials/AwsCredentialsProvider.ts]
      - [src/providers/DynamoDbProvider.ts], [S3Provider.ts], [LambdaProvider.ts],
        [EcrProvider.ts], [SsmProvider.ts], [SecretsManagerProvider.ts],
        [EfsProvider.ts], [EcsProvider.ts], [DocumentDbProvider.ts],
        [RdsProvider.ts], [ApiGatewayProvider.ts]
      - [src/service/router.ts]

    Async methods become computations in a reader/state/error monad [M]:
    the reader part is the outside world (account registry loaded at
    start-up, wall clock, AWS behind the SDK, the order in which the
    answers to concurrent requests arrive), the state part is the
    credentials cache, the heap of credential objects and the trace of
    SDK requests.  Loops that only stop when the vendor says so
    ([do ... while (nextToken)]) take fuel; bounded loops do not.  The
    calls that run side by side under [Promise.all] are tasks that are
    suspended at each [await] of a request.  Calls to [logger] are left
    out: they return nothing and change none of the modelled state.
    Numbers are integers, [NaN] or an infinity; the code computes with
    integers only and passes every other number through. *)

From Stdlib Require Import ZArith Lia Sorting.Sorted Sorting.Permutation.
From Stdlib Require Import FunctionalExtensionality.
From stdpp Require Import base option list gmap strings pretty.
From Equations Require Import Equations.

Open Scope Z_scope.

(** ** JavaScript values *)

(** Truthiness of [string | undefined]: [undefined] and [''] are falsy. *)
Definition truthy (o : option string) : bool :=
  match o with
  | Some s => negb (String.eqb s "")
  | None => false
  end.

(** [a ?? b] *)
Definition nullish {A} (o : option A) (d : A) : A :=
  match o with Some a => a | None => d end.
Infix "??" := nullish (at level 45, left associativity).

(** [a || b] on [string | undefined] with a string default. *)
Definition or_else (o : option string) (d : string) : string :=
  if truthy o then nullish o d else d.

(** A [number] as the callers of this code can produce one: an integer,
    [NaN] or an infinity (all three from [parseInt]). *)
Inductive JsNumber :=
| NaN
| Num (z : Z)
| Infinity
| NegInfinity.

(** Truthiness of [number | undefined]: [undefined], [NaN] and [0] are falsy. *)
Definition truthy_num (o : option JsNumber) : bool :=
  match o with
  | Some (Num z) => negb (z =? 0)
  | Some Infinity | Some NegInfinity => true
  | _ => false
  end.

(** [n >= m] for an array length [n] and a number [m]; false on [NaN]. *)
Definition length_ge (n : nat) (m : JsNumber) : bool :=
  match m with
  | Num z => z <=? Z.of_nat n
  | NegInfinity => true
  | NaN | Infinity => false
  end.

(** [Array.prototype.slice(start, end)] for integer arguments: negative
    indices count from the end, everything is clamped to the array. *)
Definition slice_index (len i : Z) : Z :=
  if i <? 0 then Z.max (len + i) 0 else Z.min i len.

Definition slice {A} (start stop : Z) (l : list A) : list A :=
  let len := Z.of_nat (length l) in
  let k := slice_index len start in
  let final := slice_index len stop in
  take (Z.to_nat (final - k)) (drop (Z.to_nat k) l).

(** [arr.slice(0, n)] for [n : number]; [NaN] converts to [0], and an
    infinity is clamped to the array like any other bound. *)
Definition slice_to {A} (n : JsNumber) (l : list A) : list A :=
  match n with
  | Num z => slice 0 z l
  | Infinity => l
  | NaN | NegInfinity => []
  end.

(** [Array.prototype.sort(cmp)]: the sort is stable, and [a] stays in
    front of [b] unless [cmp(a, b) > 0].  Insertion from the right keeps
    equal elements in their original order. *)
Fixpoint sort_insert {A} (cmp : A -> A -> Z) (x : A) (l : list A) : list A :=
  match l with
  | [] => [x]
  | y :: l' => if cmp x y <=? 0 then x :: y :: l' else y :: sort_insert cmp x l'
  end.

Definition sort {A} (cmp : A -> A -> Z) (l : list A) : list A :=
  foldr (sort_insert cmp) [] l.

(** A plain object used as a string map.  [obj[k] = v] adds or replaces
    the own property [k], except for the key ["__proto__"], which hits
    the prototype setter and creates no own property when [v] is a
    string. *)
Definition obj_set (k v : string) (o : gmap string string) : gmap string string :=
  if String.eqb k "__proto__" then o else <[k := v]> o.

(** [Object.keys(o).length > 0] *)
Definition has_keys (o : gmap string string) : bool :=
  negb (bool_decide (o = ∅)).

(** Thrown values: every error this code inspects is read through
    [error.name]; [new Error(msg)] has the name ["Error"]. *)
Record JsError := { err_name : string; err_message : string }.

Definition mkError (msg : string) : JsError :=
  {| err_name := "Error"; err_message := msg |}.

(** A vendor tag as every AWS SDK package declares it. *)
Record Tag := { Key : option string; Value : option string }.

(** The loop shared by the mappers and the tag sub-fetches:
    [for (const tag of tags) if (tag.Key && tag.Value) obj[tag.Key] = tag.Value]. *)
Definition collect_tags (tags : list Tag) (o : gmap string string) : gmap string string :=
  foldl (fun o tag =>
           if truthy (Key tag) && truthy (Value tag)
           then obj_set (Key tag ?? "") (Value tag ?? "") o
           else o) o tags.

(** ** Vendor records

    The request and response shapes of the AWS SDK packages, restricted
    to the fields this code reads or writes.  Every response field is
    optional in the SDK; a [Date] is its [getTime()] in milliseconds. *)

Module Sts.
Record AssumeRoleRequest := {
  RoleArn : string;
  RoleSessionName : string;
  DurationSeconds : Z;
  ExternalId : option string }.
Record StsCredentials := {
  AccessKeyId : option string;
  SecretAccessKey : option string;
  SessionToken : option string;
  Expiration : option Z }.
Record AssumeRoleResponse := { Credentials : option StsCredentials }.
End Sts.

Module DynamoDB.
Record KeySchemaElement := { AttributeName : option string; KeyType : option string }.
Record AttributeDefinition := { ad_AttributeName : option string; AttributeType : option string }.
Record Projection := { ProjectionType : option string; NonKeyAttributes : option (list string) }.
Record ProvisionedThroughputDescription := {
  ReadCapacityUnits : option Z;
  WriteCapacityUnits : option Z }.
Record GlobalSecondaryIndexDescription := {
  gsi_IndexName : option string;
  gsi_IndexArn : option string;
  gsi_IndexStatus : option string;
  gsi_KeySchema : option (list KeySchemaElement);
  gsi_Projection : option Projection;
  gsi_ItemCount : option Z;
  gsi_IndexSizeBytes : option Z;
  gsi_ProvisionedThroughput : option ProvisionedThroughputDescription }.
Record LocalSecondaryIndexDescription := {
  lsi_IndexName : option string;
  lsi_IndexArn : option string;
  lsi_KeySchema : option (list KeySchemaElement);
  lsi_Projection : option Projection;
  lsi_ItemCount : option Z;
  lsi_IndexSizeBytes : option Z }.
Record BillingModeSummary := { BillingMode : option string }.
Record StreamSpecification := { StreamEnabled : option bool; StreamViewType : option string }.
Record TableClassSummary := { TableClass : option string }.
Record TableDescription := {
  TableName : option string;
  TableArn : option string;
  TableStatus : option string;
  CreationDateTime : option Z;
  ItemCount : option Z;
  TableSizeBytes : option Z;
  BillingModeSummary_ : option BillingModeSummary;
  ProvisionedThroughput : option ProvisionedThroughputDescription;
  KeySchema : option (list KeySchemaElement);
  AttributeDefinitions : option (list AttributeDefinition);
  GlobalSecondaryIndexes : option (list GlobalSecondaryIndexDescription);
  LocalSecondaryIndexes : option (list LocalSecondaryIndexDescription);
  StreamSpecification_ : option StreamSpecification;
  DeletionProtectionEnabled : option bool;
  TableClassSummary_ : option TableClassSummary }.
Record ListTablesOutput := {
  TableNames : option (list string);
  LastEvaluatedTableName : option string }.
Record DescribeTableOutput := { Table : option TableDescription }.
Record TimeToLiveDescription := {
  TimeToLiveStatus : option string;
  ttl_AttributeName : option string }.
Record DescribeTimeToLiveOutput := { TimeToLiveDescription_ : option TimeToLiveDescription }.
Record PointInTimeRecoveryDescription := {
  PointInTimeRecoveryStatus : option string;
  LatestRestorableDateTime : option Z }.
Record ContinuousBackupsDescription := {
  PointInTimeRecoveryDescription_ : option PointInTimeRecoveryDescription }.
Record DescribeContinuousBackupsOutput := {
  ContinuousBackupsDescription_ : option ContinuousBackupsDescription }.
Record ListTagsOfResourceOutput := { Tags : option (list Tag) }.
End DynamoDB.

Module S3.
Record Bucket := { Name : option string; CreationDate : option Z }.
Record ListBucketsOutput := { Buckets : option (list Bucket) }.
Record GetBucketLocationOutput := { LocationConstraint : option string }.
Record GetBucketVersioningOutput := { Status : option string; MFADelete : option string }.
Record ServerSideEncryptionByDefault := {
  SSEAlgorithm : option string;
  KMSMasterKeyID : option string }.
Record ServerSideEncryptionRule := {
  ApplyServerSideEncryptionByDefault : option ServerSideEncryptionByDefault }.
Record ServerSideEncryptionConfiguration := { sse_Rules : option (list ServerSideEncryptionRule) }.
Record GetBucketEncryptionOutput := {
  ServerSideEncryptionConfiguration_ : option ServerSideEncryptionConfiguration }.
Record LifecycleRuleFilter := { f_Prefix : option string; f_Tag : option Tag }.
Record Transition := {
  t_Days : option Z;
  t_Date : option Z;
  t_StorageClass : option string }.
Record LifecycleExpiration := {
  e_Days : option Z;
  e_Date : option Z;
  ExpiredObjectDeleteMarker : option bool }.
Record NoncurrentVersionTransition := {
  nt_NoncurrentDays : option Z;
  nt_NewerNoncurrentVersions : option Z;
  nt_StorageClass : option string }.
Record NoncurrentVersionExpiration := {
  ne_NoncurrentDays : option Z;
  ne_NewerNoncurrentVersions : option Z }.
Record AbortIncompleteMultipartUpload := { DaysAfterInitiation : option Z }.
Record LifecycleRule := {
  ID : option string;
  r_Status : option string;
  Prefix : option string;
  Filter : option LifecycleRuleFilter;
  Transitions : option (list Transition);
  Expiration : option LifecycleExpiration;
  NoncurrentVersionTransitions : option (list NoncurrentVersionTransition);
  NoncurrentVersionExpiration_ : option NoncurrentVersionExpiration;
  AbortIncompleteMultipartUpload_ : option AbortIncompleteMultipartUpload }.
Record GetBucketLifecycleConfigurationOutput := { Rules : option (list LifecycleRule) }.
Record PublicAccessBlockConfiguration := {
  BlockPublicAcls : option bool;
  BlockPublicPolicy : option bool;
  IgnorePublicAcls : option bool;
  RestrictPublicBuckets : option bool }.
Record GetPublicAccessBlockOutput := {
  PublicAccessBlockConfiguration_ : option PublicAccessBlockConfiguration }.
Record PolicyStatus := { IsPublic : option bool }.
Record GetBucketPolicyStatusOutput := { PolicyStatus_ : option PolicyStatus }.
Record GetBucketTaggingOutput := { TagSet : option (list Tag) }.
End S3.

Module Lambda.
Record EnvironmentResponse := { Variables : option (gmap string string) }.
Record FunctionConfiguration := {
  FunctionName : option string;
  FunctionArn : option string;
  Runtime : option string;
  Handler : option string;
  CodeSize : option Z;
  Description : option string;
  Timeout : option Z;
  MemorySize : option Z;
  LastModified : option string;
  Version : option string;
  Environment : option EnvironmentResponse }.
Record ListFunctionsResponse := {
  Functions : option (list FunctionConfiguration);
  NextMarker : option string }.
Record GetFunctionResponse := {
  Configuration : option FunctionConfiguration;
  Tags : option (gmap string string) }.
Record ListVersionsByFunctionResponse := {
  Versions : option (list FunctionConfiguration);
  v_NextMarker : option string }.
End Lambda.

Module Ecr.
Record ImageDetail := {
  imageDigest : option string;
  imageTags : option (list string);
  imageSizeInBytes : option Z;
  imagePushedAt : option Z;
  imageManifestMediaType : option string;
  lastRecordedPullTime : option Z;
  artifactMediaType : option string }.
Record DescribeImagesRequest := {
  repositoryName : string;
  nextToken : option string;
  maxResults : JsNumber }.
Record DescribeImagesResponse := {
  imageDetails : option (list ImageDetail);
  r_nextToken : option string }.
Record ImageScanningConfiguration := { scanOnPush : option bool }.
Record EncryptionConfiguration := {
  encryptionType : option string;
  kmsKey : option string }.
Record Repository := {
  r_repositoryName : option string;
  repositoryArn : option string;
  repositoryUri : option string;
  registryId : option string;
  createdAt : option Z;
  imageTagMutability : option string;
  imageScanningConfiguration : option ImageScanningConfiguration;
  encryptionConfiguration : option EncryptionConfiguration }.
Record DescribeRepositoriesResponse := {
  repositories : option (list Repository);
  d_nextToken : option string }.
Record ListTagsForResourceResponse := { tags : option (list Tag) }.
Record ImageIdentifier := {
  i_imageDigest : option string;
  imageTag : option string }.
Record ImageScanFinding := {
  name : option string;
  description : option string;
  severity : option string;
  uri : option string }.
(** [findingSeverityCounts] is an object keyed by severity: its entries
    in the object's own order. *)
Record ImageScanFindings := {
  imageScanCompletedAt : option Z;
  vulnerabilitySourceUpdatedAt : option Z;
  findingSeverityCounts : option (list (string * Z));
  findings : option (list ImageScanFinding) }.
Record DescribeImageScanFindingsResponse := {
  imageId : option ImageIdentifier;
  imageScanFindings : option ImageScanFindings }.
Record GetLifecyclePolicyResponse := {
  l_repositoryName : option string;
  l_registryId : option string;
  lifecyclePolicyText : option string;
  lastEvaluatedAt : option Z }.
Record GetRepositoryPolicyResponse := { policyText : option string }.
End Ecr.

Module Ssm.
Record VendorParameter := {
  Name : option string;
  Type_ : option string;
  Value : option string;
  Version : option Z;
  LastModifiedDate : option Z;
  ARN : option string;
  DataType : option string }.
Record GetParameterRequest := { r_Name : string; WithDecryption : bool }.
Record GetParameterResult := { Parameter_ : option VendorParameter }.
Record GetParametersByPathRequest := {
  Path : string;
  Recursive : bool;
  p_WithDecryption : bool;
  NextToken : option string }.
Record GetParametersByPathResult := {
  Parameters_ : option (list VendorParameter);
  r_NextToken : option string }.
End Ssm.

Module SecretsManager.
Record SecretListEntry := {
  Name : option string;
  ARN : option string;
  Description : option string;
  KmsKeyId : option string;
  RotationEnabled : option bool;
  LastChangedDate : option Z;
  LastAccessedDate : option Z;
  Tags : option (list Tag) }.
Record ListSecretsResponse := {
  SecretList : option (list SecretListEntry);
  NextToken : option string }.
Record DescribeSecretResponse := {
  d_Name : option string;
  d_ARN : option string;
  d_Description : option string;
  d_KmsKeyId : option string;
  d_RotationEnabled : option bool;
  d_LastChangedDate : option Z;
  d_LastAccessedDate : option Z;
  d_Tags : option (list Tag) }.
End SecretsManager.

Module Efs.
Record FileSystemSize := { Value : option Z }.
Record FileSystemDescription := {
  FileSystemId : option string;
  FileSystemArn : option string;
  Name : option string;
  CreationTime : option Z;
  LifeCycleState : option string;
  NumberOfMountTargets : option Z;
  SizeInBytes : option FileSystemSize;
  PerformanceMode : option string;
  ThroughputMode : option string;
  ProvisionedThroughputInMibps : option Z;
  Encrypted : option bool;
  KmsKeyId : option string;
  Tags : option (list Tag) }.
Record DescribeFileSystemsRequest := {
  r_FileSystemId : option string;
  Marker : option string }.
Record DescribeFileSystemsResponse := {
  FileSystems : option (list FileSystemDescription);
  NextMarker : option string }.
Record MountTargetDescription := {
  MountTargetId : option string;
  m_FileSystemId : option string;
  SubnetId : option string;
  m_LifeCycleState : option string;
  IpAddress : option string;
  NetworkInterfaceId : option string;
  AvailabilityZoneId : option string;
  AvailabilityZoneName : option string;
  VpcId : option string }.
Record DescribeMountTargetsResponse := {
  MountTargets : option (list MountTargetDescription);
  m_NextMarker : option string }.
Record LifecyclePolicy := {
  TransitionToIA : option string;
  TransitionToPrimaryStorageClass : option string;
  TransitionToArchive : option string }.
Record LifecycleConfigurationDescription := {
  LifecyclePolicies : option (list LifecyclePolicy) }.
Record CreationInfo := {
  OwnerUid : option Z;
  OwnerGid : option Z;
  Permissions : option string }.
Record RootDirectory := {
  Path : option string;
  CreationInfo_ : option CreationInfo }.
Record PosixUser := {
  Uid : option Z;
  Gid : option Z;
  SecondaryGids : option (list Z) }.
Record AccessPointDescription := {
  AccessPointId : option string;
  AccessPointArn : option string;
  a_FileSystemId : option string;
  a_Name : option string;
  a_LifeCycleState : option string;
  RootDirectory_ : option RootDirectory;
  PosixUser_ : option PosixUser;
  a_Tags : option (list Tag) }.
Record DescribeAccessPointsResponse := {
  AccessPoints : option (list AccessPointDescription);
  NextToken : option string }.
End Efs.

Module Ecs.
Record ListClustersResponse := {
  clusterArns : option (list string);
  nextToken : option string }.
Record ListServicesResponse := {
  serviceArns : option (list string);
  s_nextToken : option string }.
Record Deployment := {
  d_id : option string;
  d_status : option string;
  d_taskDefinition : option string;
  d_desiredCount : option Z;
  d_runningCount : option Z;
  d_pendingCount : option Z;
  d_createdAt : option Z;
  d_updatedAt : option Z;
  d_rolloutState : option string }.
Record Service := {
  serviceName : option string;
  serviceArn : option string;
  clusterArn : option string;
  status : option string;
  desiredCount : option Z;
  runningCount : option Z;
  pendingCount : option Z;
  taskDefinition : option string;
  launchType : option string;
  platformVersion : option string;
  deployments : option (list Deployment) }.
Record DescribeServicesResponse := { services : option (list Service) }.
Record PortMapping := {
  containerPort : option Z;
  hostPort : option Z;
  protocol : option string }.
Record KeyValuePair := { kv_name : option string; kv_value : option string }.
Record ContainerDefinition := {
  name : option string;
  image : option string;
  cpu : option Z;
  memory : option Z;
  memoryReservation : option Z;
  essential : option bool;
  portMappings : option (list PortMapping);
  environment : option (list KeyValuePair) }.
Record TaskDefinition := {
  taskDefinitionArn : option string;
  family : option string;
  revision : option Z;
  td_status : option string;
  td_cpu : option string;
  td_memory : option string;
  networkMode : option string;
  containerDefinitions : option (list ContainerDefinition) }.
Record DescribeTaskDefinitionResponse := { r_taskDefinition : option TaskDefinition }.
End Ecs.

Module DocDb.
Record VpcSecurityGroupMembership := { VpcSecurityGroupId : option string }.
Record DBClusterMember := {
  m_DBInstanceIdentifier : option string;
  IsClusterWriter : option bool }.
Record DBCluster := {
  DBClusterIdentifier : option string;
  DBClusterArn : option string;
  Engine : option string;
  EngineVersion : option string;
  Status : option string;
  MasterUsername : option string;
  Endpoint : option string;
  ReaderEndpoint : option string;
  Port : option Z;
  MultiAZ : option bool;
  StorageEncrypted : option bool;
  KmsKeyId : option string;
  DBSubnetGroup : option string;
  VpcSecurityGroups : option (list VpcSecurityGroupMembership);
  BackupRetentionPeriod : option Z;
  PreferredBackupWindow : option string;
  PreferredMaintenanceWindow : option string;
  LatestRestorableTime : option Z;
  ClusterCreateTime : option Z;
  DeletionProtection : option bool;
  DBClusterMembers : option (list DBClusterMember);
  Tags : option (list Tag) }.
Record DBClusterMessage := {
  DBClusters : option (list DBCluster);
  Marker : option string }.
Record InstanceEndpoint := {
  Address : option string;
  e_Port : option Z;
  HostedZoneId : option string }.
Record DBInstance := {
  DBInstanceIdentifier : option string;
  DBInstanceArn : option string;
  DBInstanceClass : option string;
  i_Engine : option string;
  i_EngineVersion : option string;
  DBInstanceStatus : option string;
  i_DBClusterIdentifier : option string;
  AvailabilityZone : option string;
  i_Endpoint : option InstanceEndpoint;
  PromotionTier : option Z;
  PubliclyAccessible : option bool;
  AutoMinorVersionUpgrade : option bool;
  InstanceCreateTime : option Z;
  i_Tags : option (list Tag) }.
Record DBInstanceMessage := {
  DBInstances : option (list DBInstance);
  i_Marker : option string }.
Record DBClusterParameterGroup := {
  DBClusterParameterGroupName : option string;
  DBClusterParameterGroupArn : option string;
  DBParameterGroupFamily : option string;
  Description : option string }.
Record DBClusterParameterGroupsMessage := {
  DBClusterParameterGroups : option (list DBClusterParameterGroup);
  g_Marker : option string }.
Record DBClusterSnapshot := {
  DBClusterSnapshotIdentifier : option string;
  DBClusterSnapshotArn : option string;
  s_DBClusterIdentifier : option string;
  SnapshotType : option string;
  s_Status : option string;
  SnapshotCreateTime : option Z;
  s_Engine : option string;
  s_EngineVersion : option string;
  s_StorageEncrypted : option bool }.
Record DBClusterSnapshotMessage := {
  DBClusterSnapshots : option (list DBClusterSnapshot);
  s_Marker : option string }.
End DocDb.

Module Rds.
Record VpcSecurityGroupMembership := { VpcSecurityGroupId : option string }.
Record DBClusterMember := {
  m_DBInstanceIdentifier : option string;
  IsClusterWriter : option bool }.
Record ServerlessV2ScalingConfigurationInfo := {
  MinCapacity : option Z;
  MaxCapacity : option Z }.
Record DBCluster := {
  DBClusterIdentifier : option string;
  DBClusterArn : option string;
  Engine : option string;
  EngineVersion : option string;
  EngineMode : option string;
  Status : option string;
  MasterUsername : option string;
  AllocatedStorage : option Z;
  Endpoint : option string;
  ReaderEndpoint : option string;
  Port : option Z;
  MultiAZ : option bool;
  StorageEncrypted : option bool;
  KmsKeyId : option string;
  DBSubnetGroup : option string;
  VpcSecurityGroups : option (list VpcSecurityGroupMembership);
  BackupRetentionPeriod : option Z;
  PreferredBackupWindow : option string;
  PreferredMaintenanceWindow : option string;
  LatestRestorableTime : option Z;
  ClusterCreateTime : option Z;
  DeletionProtection : option bool;
  ServerlessV2ScalingConfiguration : option ServerlessV2ScalingConfigurationInfo;
  DBClusterMembers : option (list DBClusterMember);
  TagList : option (list Tag) }.
Record DBClusterMessage := {
  DBClusters : option (list DBCluster);
  Marker : option string }.
Record InstanceEndpoint := {
  Address : option string;
  e_Port : option Z;
  HostedZoneId : option string }.
Record DBParameterGroupStatus := { pg_DBParameterGroupName : option string }.
Record SubnetGroup := { DBSubnetGroupName : option string }.
Record DBInstance := {
  DBInstanceIdentifier : option string;
  DBInstanceArn : option string;
  DBInstanceClass : option string;
  i_Engine : option string;
  i_EngineVersion : option string;
  DBInstanceStatus : option string;
  i_MasterUsername : option string;
  i_AllocatedStorage : option Z;
  AvailabilityZone : option string;
  i_MultiAZ : option bool;
  i_Endpoint : option InstanceEndpoint;
  StorageType : option string;
  i_StorageEncrypted : option bool;
  i_KmsKeyId : option string;
  PubliclyAccessible : option bool;
  AutoMinorVersionUpgrade : option bool;
  DBParameterGroups : option (list DBParameterGroupStatus);
  i_VpcSecurityGroups : option (list VpcSecurityGroupMembership);
  i_DBSubnetGroup : option SubnetGroup;
  i_BackupRetentionPeriod : option Z;
  i_PreferredBackupWindow : option string;
  i_PreferredMaintenanceWindow : option string;
  i_LatestRestorableTime : option Z;
  InstanceCreateTime : option Z;
  i_TagList : option (list Tag) }.
Record DBInstanceMessage := {
  DBInstances : option (list DBInstance);
  i_Marker : option string }.
Record DBParameterGroup := {
  DBParameterGroupName : option string;
  DBParameterGroupArn : option string;
  DBParameterGroupFamily : option string;
  Description : option string }.
Record DBParameterGroupsMessage := {
  DBParameterGroups_ : option (list DBParameterGroup);
  g_Marker : option string }.
Record DBClusterParameterGroup := {
  DBClusterParameterGroupName : option string;
  DBClusterParameterGroupArn : option string;
  c_DBParameterGroupFamily : option string;
  c_Description : option string }.
Record DBClusterParameterGroupsMessage := {
  DBClusterParameterGroups : option (list DBClusterParameterGroup);
  c_Marker : option string }.
Record DBSnapshot := {
  DBSnapshotIdentifier : option string;
  DBSnapshotArn : option string;
  s_DBInstanceIdentifier : option string;
  SnapshotType : option string;
  s_Status : option string;
  SnapshotCreateTime : option Z;
  s_AllocatedStorage : option Z;
  s_Engine : option string;
  s_EngineVersion : option string;
  Encrypted : option bool }.
Record DBSnapshotMessage := {
  DBSnapshots : option (list DBSnapshot);
  s_Marker : option string }.
Record DBClusterSnapshot := {
  DBClusterSnapshotIdentifier : option string;
  DBClusterSnapshotArn : option string;
  cs_DBClusterIdentifier : option string;
  cs_SnapshotType : option string;
  cs_Status : option string;
  cs_SnapshotCreateTime : option Z;
  cs_AllocatedStorage : option Z;
  cs_Engine : option string;
  cs_EngineVersion : option string;
  cs_StorageEncrypted : option bool }.
Record DBClusterSnapshotMessage := {
  DBClusterSnapshots : option (list DBClusterSnapshot);
  cs_Marker : option string }.
End Rds.

Module ApiGateway.
Record EndpointConfiguration := {
  types : option (list string);
  vpcEndpointIds : option (list string) }.
Record RestApi := {
  id : option string;
  name : option string;
  description : option string;
  createdDate : option Z;
  version : option string;
  endpointConfiguration : option EndpointConfiguration;
  policy : option string;
  tags : option (gmap string string) }.
Record RestApis := {
  items : option (list RestApi);
  position : option string }.
Record Stage := {
  stageName : option string;
  deploymentId : option string;
  s_description : option string;
  s_createdDate : option Z;
  lastUpdatedDate : option Z;
  cacheClusterEnabled : option bool;
  cacheClusterSize : option string;
  cacheClusterStatus : option string;
  tracingEnabled : option bool;
  s_tags : option (gmap string string) }.
Record Stages := { item : option (list Stage) }.
Record Deployment := {
  d_id : option string;
  d_description : option string;
  d_createdDate : option Z }.
Record Deployments := {
  d_items : option (list Deployment);
  d_position : option string }.
(** [resourceMethods] is an object keyed by HTTP method; the code reads
    its keys only, which it gets in the object's own order. *)
Record Resource := {
  r_id : option string;
  parentId : option string;
  path : option string;
  resourceMethods : option (list string) }.
Record Resources := {
  r_items : option (list Resource);
  r_position : option string }.
End ApiGateway.

Module ApiGatewayV2.
Record Cors := {
  AllowOrigins : option (list string);
  AllowMethods : option (list string);
  AllowHeaders : option (list string);
  MaxAge : option Z }.
Record Api := {
  ApiId : option string;
  Name : option string;
  Description : option string;
  ProtocolType : option string;
  ApiEndpoint : option string;
  CreatedDate : option Z;
  Version : option string;
  CorsConfiguration : option Cors;
  Tags : option (gmap string string) }.
Record GetApisResponse := {
  Items : option (list Api);
  NextToken : option string }.
Record Stage := {
  StageName : option string;
  DeploymentId : option string;
  s_Description : option string;
  s_CreatedDate : option Z;
  LastUpdatedDate : option Z;
  AutoDeploy : option bool;
  s_Tags : option (gmap string string) }.
Record GetStagesResponse := {
  s_Items : option (list Stage);
  s_NextToken : option string }.
Record Route := {
  RouteId : option string;
  RouteKey : option string;
  Target : option string;
  AuthorizationType : option string;
  AuthorizerId : option string }.
Record GetRoutesResponse := {
  r_Items : option (list Route);
  r_NextToken : option string }.
End ApiGatewayV2.

(** ** Accounts, credentials, clients and commands *)

Record AwsAccount := {
  name : string;
  accountId : string;
  region : string;
  roleArn : string;
  externalId : option string }.

Record AwsCredentialIdentity := {
  accessKeyId : option string;
  secretAccessKey : option string;
  sessionToken : option string;
  expiration : option Z }.

(** The argument of the SDK's [fromTemporaryCredentials]. *)
Record FromTemporaryCredentialsOptions := {
  params : Sts.AssumeRoleRequest;
  clientConfig_region : string }.

(** The [credentials] entry of a client configuration is, in the SDK,
    either an identity fixed once and for all or a provider the SDK
    calls when it needs credentials.  The only provider this code
    builds is the one returned by [fromTemporaryCredentials]. *)
Inductive CredentialsSetting :=
| StaticIdentity (c : AwsCredentialIdentity)
| TemporaryCredentialsProvider (o : FromTemporaryCredentialsOptions).

Inductive Service :=
| STS | DynamoDBService | S3Service | LambdaService | ECR | SSM | SecretsManagerService | EFS
| ECS | DocDB | RDS | APIGateway | APIGatewayV2.

Record Client := {
  client_service : Service;
  client_region : string;
  client_credentials : option CredentialsSetting }.

(** A command carries its input and is indexed by the type of its output,
    as the SDK's [Command<Input, Output>] classes are. *)
Inductive Command : Type -> Type :=
| AssumeRoleCommand (input : Sts.AssumeRoleRequest) : Command Sts.AssumeRoleResponse
| ListTablesCommand (ExclusiveStartTableName : option string) : Command DynamoDB.ListTablesOutput
| DescribeTableCommand (TableName : string) : Command DynamoDB.DescribeTableOutput
| DescribeTimeToLiveCommand (TableName : string) : Command DynamoDB.DescribeTimeToLiveOutput
| DescribeContinuousBackupsCommand (TableName : string) : Command DynamoDB.DescribeContinuousBackupsOutput
| ListTagsOfResourceCommand (ResourceArn : option string) : Command DynamoDB.ListTagsOfResourceOutput
| ListBucketsCommand : Command S3.ListBucketsOutput
| GetBucketLocationCommand (Bucket : string) : Command S3.GetBucketLocationOutput
| GetBucketVersioningCommand (Bucket : string) : Command S3.GetBucketVersioningOutput
| GetBucketEncryptionCommand (Bucket : string) : Command S3.GetBucketEncryptionOutput
| GetBucketLifecycleConfigurationCommand (Bucket : string) : Command S3.GetBucketLifecycleConfigurationOutput
| GetPublicAccessBlockCommand (Bucket : string) : Command S3.GetPublicAccessBlockOutput
| GetBucketPolicyStatusCommand (Bucket : string) : Command S3.GetBucketPolicyStatusOutput
| GetBucketTaggingCommand (Bucket : string) : Command S3.GetBucketTaggingOutput
| ListFunctionsCommand (Marker : option string) : Command Lambda.ListFunctionsResponse
| GetFunctionCommand (FunctionName : string) : Command Lambda.GetFunctionResponse
| DescribeImagesCommand (input : Ecr.DescribeImagesRequest) : Command Ecr.DescribeImagesResponse
| GetParameterCommand (input : Ssm.GetParameterRequest) : Command Ssm.GetParameterResult
| GetParametersByPathCommand (input : Ssm.GetParametersByPathRequest) : Command Ssm.GetParametersByPathResult
| ListSecretsCommand (NextToken : option string) : Command SecretsManager.ListSecretsResponse
| DescribeFileSystemsCommand (input : Efs.DescribeFileSystemsRequest) : Command Efs.DescribeFileSystemsResponse
| ListVersionsByFunctionCommand (FunctionName : string) (Marker : option string)
  : Command Lambda.ListVersionsByFunctionResponse
| GetFunctionConfigurationCommand (FunctionName : string) : Command Lambda.FunctionConfiguration
| DescribeSecretCommand (SecretId : string) : Command SecretsManager.DescribeSecretResponse
| DescribeRepositoriesCommand (repositoryNames : option (list string)) (nextToken : option string)
  : Command Ecr.DescribeRepositoriesResponse
| ListTagsForResourceCommand (resourceArn : option string) : Command Ecr.ListTagsForResourceResponse
| DescribeImageScanFindingsCommand (repositoryName imageDigest : string) (imageTag : option string)
  : Command Ecr.DescribeImageScanFindingsResponse
| GetLifecyclePolicyCommand (repositoryName : string) : Command Ecr.GetLifecyclePolicyResponse
| GetRepositoryPolicyCommand (repositoryName : string) : Command Ecr.GetRepositoryPolicyResponse
| DescribeMountTargetsCommand (FileSystemId : string) (Marker : option string)
  : Command Efs.DescribeMountTargetsResponse
| DescribeLifecycleConfigurationCommand (FileSystemId : string)
  : Command Efs.LifecycleConfigurationDescription
| DescribeAccessPointsCommand (FileSystemId NextToken : option string)
  : Command Efs.DescribeAccessPointsResponse
| ListClustersCommand (nextToken : option string) : Command Ecs.ListClustersResponse
| ListServicesCommand (cluster : string) (nextToken : option string) : Command Ecs.ListServicesResponse
| DescribeServicesCommand (cluster : string) (services : list string)
  : Command Ecs.DescribeServicesResponse
| DescribeTaskDefinitionCommand (taskDefinition : string) : Command Ecs.DescribeTaskDefinitionResponse
(* @aws-sdk/client-docdb *)
| DocDbDescribeDBClustersCommand (DBClusterIdentifier Marker : option string)
  : Command DocDb.DBClusterMessage
| DocDbDescribeDBInstancesCommand (DBInstanceIdentifier Marker : option string)
  : Command DocDb.DBInstanceMessage
| DocDbDescribeDBClusterParameterGroupsCommand (Marker : option string)
  : Command DocDb.DBClusterParameterGroupsMessage
| DocDbDescribeDBClusterSnapshotsCommand (DBClusterIdentifier Marker : option string)
  : Command DocDb.DBClusterSnapshotMessage
(* @aws-sdk/client-rds *)
| RdsDescribeDBInstancesCommand (DBInstanceIdentifier Marker : option string)
  : Command Rds.DBInstanceMessage
| RdsDescribeDBClustersCommand (DBClusterIdentifier Marker : option string)
  : Command Rds.DBClusterMessage
| RdsDescribeDBParameterGroupsCommand (Marker : option string) : Command Rds.DBParameterGroupsMessage
| RdsDescribeDBClusterParameterGroupsCommand (Marker : option string)
  : Command Rds.DBClusterParameterGroupsMessage
| RdsDescribeDBSnapshotsCommand (DBInstanceIdentifier Marker : option string)
  : Command Rds.DBSnapshotMessage
| RdsDescribeDBClusterSnapshotsCommand (DBClusterIdentifier Marker : option string)
  : Command Rds.DBClusterSnapshotMessage
(* @aws-sdk/client-api-gateway *)
| GetRestApisCommand (position : option string) : Command ApiGateway.RestApis
| GetRestApiCommand (restApiId : string) : Command ApiGateway.RestApi
| GetStagesCommand (restApiId : string) : Command ApiGateway.Stages
| GetDeploymentsCommand (restApiId : string) (position : option string) : Command ApiGateway.Deployments
| GetResourcesCommand (restApiId : string) (position : option string) : Command ApiGateway.Resources
(* @aws-sdk/client-apigatewayv2 *)
| GetApisCommand (NextToken : option string) : Command ApiGatewayV2.GetApisResponse
| GetApiCommand (ApiId : string) : Command ApiGatewayV2.Api
| GetStagesV2Command (ApiId : string) (NextToken : option string) : Command ApiGatewayV2.GetStagesResponse
| GetRoutesCommand (ApiId : string) (NextToken : option string) : Command ApiGatewayV2.GetRoutesResponse.

(** One request as it leaves through [client.send]. *)
Record Call := {
  call_client : Client;
  call_output : Type;
  call_command : Command call_output }.

Definition mkCall {R} (client : Client) (cmd : Command R) : Call :=
  {| call_client := client; call_output := R; call_command := cmd |}.

(** ** The world and the state *)

(** What the code cannot influence: the accounts of the configuration
    ([aws.accounts] in app-config.yaml) and the registry [loadAccounts]
    fills from them in the constructor, never written again (in a world
    that arises, [accounts] is [loadAccounts accountsConfig]); the clock
    behind [Date.now()] (one reading per call, in order); the answer of
    AWS to each request, which is either a response or a thrown error;
    and, when several requests are outstanding at once, which of them is
    answered first: [arrival sent outstanding] is the position in
    [outstanding] of the request whose answer arrives next, after the
    requests [sent] so far. *)
Record World := {
  accountsConfig : list AwsAccount;
  accounts : gmap string AwsAccount;
  clock : nat -> Z;
  vendor : Client -> forall R, Command R -> JsError + R;
  arrival : list Call -> list Call -> nat }.

(** [loadAccounts]: [this.accounts.set(account.name, account)] per entry. *)
Definition loadAccounts (accountsConfig : list AwsAccount) : gmap string AwsAccount :=
  foldl (fun m account => <[name account := account]> m) ∅ accountsConfig.

(** References to credential objects on the heap. *)
Definition loc := nat.

(** An entry of [credentialsCache]. *)
Record CacheEntry := {
  credentials : loc;
  expiresAt : Z }.

Record St := {
  ticks : nat;
  credentialsCache : gmap string CacheEntry;
  heap : list AwsCredentialIdentity;
  requests : list Call }.

Definition initial : St :=
  {| ticks := 0; credentialsCache := ∅; heap := []; requests := [] |}.

(** The state after [n] more readings of the clock, and after more requests. *)
Definition tick (n : nat) (st : St) : St :=
  {| ticks := n + ticks st; credentialsCache := credentialsCache st;
     heap := heap st; requests := requests st |}.

Definition add_requests (calls : list Call) (st : St) : St :=
  {| ticks := ticks st; credentialsCache := credentialsCache st;
     heap := heap st; requests := requests st ++ calls |}.

(** ** The monad *)

Inductive Result (A : Type) :=
| Ok (a : A)
| Throw (e : JsError)
| OutOfFuel.
Arguments Ok {A} a.
Arguments Throw {A} e.
Arguments OutOfFuel {A}.

Definition M (A : Type) : Type := World -> St -> Result A * St.

#[global] Instance M_ret : MRet M := fun A a _ st => (Ok a, st).

#[global] Instance M_bind : MBind M := fun A B f m w st =>
  match m w st with
  | (Ok a, st') => f a w st'
  | (Throw e, st') => (Throw e, st')
  | (OutOfFuel, st') => (OutOfFuel, st')
  end.

Definition throw {A} (e : JsError) : M A := fun _ st => (Throw e, st).

(** [try { body } catch (error) { handler(error) }] *)
Definition tryCatch {A} (body : M A) (handler : JsError -> M A) : M A :=
  fun w st =>
    match body w st with
    | (Throw e, st') => handler e w st'
    | r => r
    end.

(** [Date.now()] *)
Definition Date_now : M Z := fun w st =>
  (Ok (clock w (ticks st)),
   {| ticks := S (ticks st); credentialsCache := credentialsCache st;
      heap := heap st; requests := requests st |}).

(** [this.accounts.get(name)] *)
Definition accounts_get (accountName : string) : M (option AwsAccount) :=
  fun w st => (Ok (accounts w !! accountName), st).

(** [this.credentialsCache.get(name)] and [.set(name, entry)] *)
Definition cache_get (accountName : string) : M (option CacheEntry) :=
  fun _ st => (Ok (credentialsCache st !! accountName), st).

Definition cache_set (accountName : string) (entry : CacheEntry) : M unit :=
  fun _ st =>
    (Ok tt,
     {| ticks := ticks st; credentialsCache := <[accountName := entry]> (credentialsCache st);
        heap := heap st; requests := requests st |}).

(** A new object literal: a fresh reference. *)
Definition alloc (c : AwsCredentialIdentity) : M loc := fun _ st =>
  (Ok (length (heap st)),
   {| ticks := ticks st; credentialsCache := credentialsCache st;
      heap := heap st ++ [c]; requests := requests st |}).

(** [await client.send(command)] *)
Definition send {R} (client : Client) (cmd : Command R) : M R := fun w st =>
  (match vendor w client R cmd with
   | inl e => Throw e
   | inr r => Ok r
   end,
   {| ticks := ticks st; credentialsCache := credentialsCache st;
      heap := heap st; requests := requests st ++ [mkCall client cmd] |}).

(** How one round of a loop body ended. *)
Inductive Completion (S : Type) :=
| Normal (s : S)
| Break (s : S).
Arguments Normal {S} s.
Arguments Break {S} s.

(** [do { body } while (cond)] over the loop's local variables [s].
    Nothing bounds the number of rounds, hence the fuel. *)
Fixpoint doWhile {S : Type} (fuel : nat) (body : S -> M (Completion S))
    (cond : S -> bool) (s : S) : M S :=
  match fuel with
  | O => fun _ st => (OutOfFuel, st)
  | Datatypes.S fuel' =>
      c ← body s;
      match c with
      | Break s' => mret s'
      | Normal s' => if cond s' then doWhile fuel' body cond s' else mret s'
      end
  end.

(** ** Asynchronous calls

    A call of an [async] method runs at once up to its first [await] of
    a request; from there on it is a task: suspended while its request
    is outstanding, resumed with the answer (a response or an error),
    and so on until it is fulfilled or rejected. *)
Inductive Task (A : Type) : Type :=
| Fulfilled (a : A)
| Rejected (e : JsError)
| Awaiting {R : Type} (client : Client) (cmd : Command R) (resume : JsError + R -> Task A).
Arguments Fulfilled {A} a.
Arguments Rejected {A} e.
Arguments Awaiting {A R} client cmd resume.

Fixpoint task_bind {A B} (f : A -> Task B) (t : Task A) : Task B :=
  match t with
  | Fulfilled a => f a
  | Rejected e => Rejected e
  | Awaiting client cmd resume => Awaiting client cmd (fun answer => task_bind f (resume answer))
  end.

#[global] Instance Task_ret : MRet Task := @Fulfilled.
#[global] Instance Task_bind : MBind Task := @task_bind.

(** [await client.send(command)] inside a task *)
Definition await {R} (client : Client) (cmd : Command R) : Task R :=
  Awaiting client cmd (fun answer =>
                         match answer with
                         | inl e => Rejected e
                         | inr r => Fulfilled r
                         end).

(** [throw error] inside a task *)
Definition reject {A} (e : JsError) : Task A := Rejected e.

(** [try { body } catch (error) { handler(error) }] inside a task *)
Fixpoint attempt {A} (body : Task A) (handler : JsError -> Task A) : Task A :=
  match body with
  | Fulfilled a => Fulfilled a
  | Rejected e => handler e
  | Awaiting client cmd resume =>
      Awaiting client cmd (fun answer => attempt (resume answer) handler)
  end.

(** A task awaited on its own: every request is sent when the task
    reaches it and answered before anything else happens. *)
Fixpoint run {A} (t : Task A) : M A :=
  match t with
  | Fulfilled a => mret a
  | Rejected e => throw e
  | Awaiting client cmd resume => fun w st =>
      run (resume (vendor w client _ cmd)) w (add_requests [mkCall client cmd] st)
  end.

(** [await call], for a call that becomes a task. *)
Definition awaited {A} (call : M (Task A)) : M A :=
  t ← call; run t.

(** *** Promise.all

    The calls of [calls.map(...)] are made one after the other, each
    running up to its first [await]; then the tasks run side by side.
    A task has at most one request outstanding.  Whenever an answer
    arrives, the task that waits for it runs on to its next [await],
    where its next request is sent, or to its end.  The promise of
    [Promise.all] is fulfilled with the values in the order of the
    calls once all tasks are fulfilled, and rejected with the first
    rejection in time. *)

(** The requests that wait for their answer, in the order of the calls. *)
Definition outstanding {A} (pool : list (Task A)) : list Call :=
  omap (fun t => match t with
                 | Awaiting client cmd _ => Some (mkCall client cmd)
                 | _ => None
                 end) pool.

(** The answer to the [i]-th outstanding request arrives: the pool
    afterwards, and the task that was resumed as it stands then. *)
Fixpoint answer {A} (w : World) (i : nat) (pool : list (Task A))
    : list (Task A) * option (Task A) :=
  match pool with
  | [] => ([], None)
  | Awaiting client cmd resume :: rest =>
      match i with
      | O => let t := resume (vendor w client _ cmd) in (t :: rest, Some t)
      | S i' => let '(rest', t) := answer w i' rest in (Awaiting client cmd resume :: rest', t)
      end
  | t :: rest => let '(rest', t') := answer w i rest in (t :: rest', t')
  end.

(** What the resumed task does next: it sends a request, or it is the
    first to be rejected, or neither. *)
Definition noteRequest {A} (resumed : option (Task A)) (st : St) : St :=
  match resumed with
  | Some (Awaiting client cmd _) => add_requests [mkCall client cmd] st
  | _ => st
  end.

Definition noteRejection {A} (rejection : option JsError) (resumed : option (Task A))
    : option JsError :=
  match rejection, resumed with
  | None, Some (Rejected e) => Some e
  | _, _ => rejection
  end.

(** [n] answers arrive, one after the other, in the order the world
    decides. *)
Fixpoint settleAll {A} (n : nat) (w : World) (pool : list (Task A))
    (rejection : option JsError) (st : St) : list (Task A) * option JsError * St :=
  match n with
  | O => (pool, rejection, st)
  | S n' =>
      let waiting := outstanding pool in
      let i := (arrival w (requests st) waiting `mod` length waiting)%nat in
      let '(pool', resumed) := answer w i pool in
      settleAll n' w pool' (noteRejection rejection resumed) (noteRequest resumed st)
  end.

(** The answers a task still waits for.  An answer depends on the
    request only, so their number is fixed by the world. *)
Fixpoint awaits {A} (w : World) (t : Task A) : nat :=
  match t with
  | Awaiting client cmd resume => S (awaits w (resume (vendor w client _ cmd)))
  | _ => O
  end.

(** A call that throws before its first [await] is a task rejected from
    the start. *)
Definition started {A} (call : M (Task A)) : M (Task A) :=
  tryCatch call (fun e => mret (Rejected e)).

Fixpoint startAll {A} (calls : list (M (Task A))) : M (list (Task A)) :=
  match calls with
  | [] => mret []
  | call :: calls => t ← started call; ts ← startAll calls; mret (t :: ts)
  end.

Definition firstRejection {A} (pool : list (Task A)) : option JsError :=
  foldl noteRejection None (Some <$> pool).

(** The values of a pool in which every task is fulfilled. *)
Fixpoint values {A} (pool : list (Task A)) : option (list A) :=
  match pool with
  | [] => Some []
  | Fulfilled a :: rest => cons a <$> values rest
  | _ => None
  end.

(** The tasks of [pool] have sent their first requests and run side by
    side until all are settled.  After the first rejection the other
    tasks run on to their end all the same; nothing else happens in
    between, so they are settled here before the rejection is passed on. *)
Definition settled {A} (pool : list (Task A)) : M (list A) := fun w st =>
  let '(pool', rejection, st') :=
    settleAll (sum_list (awaits w <$> pool)) w pool (firstRejection pool)
              (add_requests (outstanding pool) st) in
  (match rejection with
   | Some e => Throw e
   | None => match values pool' with
             | Some results => Ok results
             | None => OutOfFuel
             end
   end, st').

(** [await Promise.all(calls)] *)
Definition promiseAll {A} (calls : list (M (Task A))) : M (list A) :=
  pool ← startAll calls;
  settled pool.

(** ** AwsCredentialsProvider *)

Definition UnknownAccount (accountName : string) : JsError :=
  mkError ("Unknown AWS account: " +:+ accountName).

Definition AssumeRoleFailed (accountName : string) : JsError :=
  mkError ("Failed to assume role for account: " +:+ accountName).

Module AwsCredentialsProvider.

Definition getAccount (name : string) : M (option AwsAccount) :=
  accounts_get name.

(** The role-assumption request both methods build: a session name
    from the clock, one hour, and the external id when it is truthy. *)
Definition assumeRoleParams (account : AwsAccount) (now : Z) : Sts.AssumeRoleRequest :=
  {| Sts.RoleArn := roleArn account;
     Sts.RoleSessionName := "backstage-aws-plugin-" +:+ pretty now;
     Sts.DurationSeconds := 3600;
     Sts.ExternalId := if truthy (externalId account) then externalId account else None |}.

Definition stsClient (account : AwsAccount) : Client :=
  {| client_service := STS; client_region := region account; client_credentials := None |}.

Definition getCredentials (accountName : string) : M loc :=
  account ← accounts_get accountName;
  match account with
  | None => throw (UnknownAccount accountName)
  | Some account =>
      cached ← cache_get accountName;
      fresh ← match cached with
              | None => mret None
              | Some cached =>
                  now ← Date_now;
                  mret (if bool_decide (expiresAt cached > now + 60000)
                        then Some cached else None)
              end;
      match fresh with
      | Some cached => mret (credentials cached)
      | None =>
          now ← Date_now;
          response ← send (stsClient account) (AssumeRoleCommand (assumeRoleParams account now));
          match Sts.Credentials response with
          | None => throw (AssumeRoleFailed accountName)
          | Some c =>
              credentials ← alloc {| accessKeyId := Sts.AccessKeyId c;
                                     secretAccessKey := Sts.SecretAccessKey c;
                                     sessionToken := Sts.SessionToken c;
                                     expiration := Sts.Expiration c |};
              expiresAt ← match Sts.Expiration c with
                          | Some t => mret t
                          | None => now ← Date_now; mret (now + 3600000)
                          end;
              cache_set accountName {| credentials := credentials; expiresAt := expiresAt |};;
              mret credentials
          end
      end
  end.

Definition getCredentialsProvider (accountName : string) : M CredentialsSetting :=
  account ← accounts_get accountName;
  match account with
  | None => throw (UnknownAccount accountName)
  | Some account =>
      now ← Date_now;
      mret (TemporaryCredentialsProvider
              {| params := assumeRoleParams account now;
                 clientConfig_region := region account |})
  end.

End AwsCredentialsProvider.

(** ** Helpers shared by the providers *)

(** [o === 'literal'] on [string | undefined] *)
Definition str_is (o : option string) (s : string) : bool :=
  match o with
  | Some x => String.eqb x s
  | None => false
  end.

(** [o === true] and [!!o] on [boolean | undefined] *)
Definition is_true (o : option bool) : bool := o ?? false.

(** [arr.filter(x => x !== undefined)] *)
Definition defined {A} (l : list (option A)) : list A := omap id l.

(** The tag block of the detail fetches:
    [if (tags && tags.length > 0) { obj = {}; for (...) ... }] *)
Definition tags_if_any (tags : option (list Tag)) : option (gmap string string) :=
  match tags with
  | Some l => if (0 <? length l)%nat then Some (collect_tags l ∅) else None
  | None => None
  end.

(** The tag block of the list mappers:
    [Object.keys(tags).length > 0 ? tags : undefined] after the loop. *)
Definition tags_or_undefined (tags : option (list Tag)) : option (gmap string string) :=
  let obj := collect_tags (tags ?? []) ∅ in
  if has_keys obj then Some obj else None.

Definition batchSize : nat := 5.

(** [arr.map(x => x.field).filter(v => !!v)] on strings *)
Definition truthy_strings {A} (field : A -> option string) (l : list A) : list string :=
  omap (fun x => if truthy (field x) then field x else None) l.

(** [s.split('/')] *)
Fixpoint split_slash (s : string) : list string :=
  match s with
  | EmptyString => [EmptyString]
  | String c rest =>
      if String.eqb (String c EmptyString) "/"
      then EmptyString :: split_slash rest
      else match split_slash rest with
           | first :: more => String c first :: more
           | [] => [String c EmptyString]
           end
  end.

(** [arn.split('/').pop() ?? arn] *)
Definition lastSegment (arn : string) : string :=
  last (split_slash arn) ?? arn.

(** ** DynamoDbProvider *)

Module DynamoDbProvider.

Record Throughput := { readCapacityUnits : Z; writeCapacityUnits : Z }.
Record KeySchemaEntry := { attributeName : string; keyType : string }.
Record AttributeEntry := { a_attributeName : string; attributeType : string }.
Record ProjectionEntry := { projectionType : string; nonKeyAttributes : option (list string) }.

Record DynamoDbGsi := {
  g_indexName : string;
  g_indexArn : option string;
  g_indexStatus : option string;
  g_keySchema : list KeySchemaEntry;
  g_projection : ProjectionEntry;
  g_itemCount : Z;
  g_indexSizeBytes : Z;
  g_provisionedThroughput : option Throughput }.

Record DynamoDbLsi := {
  l_indexName : string;
  l_indexArn : option string;
  l_keySchema : list KeySchemaEntry;
  l_projection : ProjectionEntry;
  l_itemCount : Z;
  l_indexSizeBytes : Z }.

Record DynamoDbTable := {
  tableName : string;
  tableArn : string;
  tableStatus : string;
  creationDateTime : option Z;
  itemCount : Z;
  tableSizeBytes : Z;
  billingMode : string;
  provisionedThroughput : option Throughput;
  keySchema : list KeySchemaEntry;
  attributeDefinitions : list AttributeEntry;
  globalSecondaryIndexes : list DynamoDbGsi;
  localSecondaryIndexes : list DynamoDbLsi;
  streamEnabled : bool;
  streamViewType : option string;
  ttlEnabled : bool;
  ttlAttributeName : option string;
  pitrEnabled : bool;
  latestRestorableDateTime : option Z;
  deletionProtectionEnabled : bool;
  tableClass : option string;
  tags : option (gmap string string) }.

Definition mapKeySchema (ks : DynamoDB.KeySchemaElement) : KeySchemaEntry :=
  {| attributeName := DynamoDB.AttributeName ks ?? "";
     keyType := DynamoDB.KeyType ks ?? "" |}.

Definition mapThroughput (p : DynamoDB.ProvisionedThroughputDescription) : Throughput :=
  {| readCapacityUnits := DynamoDB.ReadCapacityUnits p ?? 0;
     writeCapacityUnits := DynamoDB.WriteCapacityUnits p ?? 0 |}.

Definition mapProjection (p : option DynamoDB.Projection) : ProjectionEntry :=
  {| projectionType := (p ≫= DynamoDB.ProjectionType) ?? "ALL";
     nonKeyAttributes := p ≫= DynamoDB.NonKeyAttributes |}.

Definition mapGsi (gsi : DynamoDB.GlobalSecondaryIndexDescription) : DynamoDbGsi :=
  {| g_indexName := DynamoDB.gsi_IndexName gsi ?? "";
     g_indexArn := DynamoDB.gsi_IndexArn gsi;
     g_indexStatus := DynamoDB.gsi_IndexStatus gsi;
     g_keySchema := map mapKeySchema (DynamoDB.gsi_KeySchema gsi ?? []);
     g_projection := mapProjection (DynamoDB.gsi_Projection gsi);
     g_itemCount := DynamoDB.gsi_ItemCount gsi ?? 0;
     g_indexSizeBytes := DynamoDB.gsi_IndexSizeBytes gsi ?? 0;
     g_provisionedThroughput := mapThroughput <$> DynamoDB.gsi_ProvisionedThroughput gsi |}.

Definition mapLsi (lsi : DynamoDB.LocalSecondaryIndexDescription) : DynamoDbLsi :=
  {| l_indexName := DynamoDB.lsi_IndexName lsi ?? "";
     l_indexArn := DynamoDB.lsi_IndexArn lsi;
     l_keySchema := map mapKeySchema (DynamoDB.lsi_KeySchema lsi ?? []);
     l_projection := mapProjection (DynamoDB.lsi_Projection lsi);
     l_itemCount := DynamoDB.lsi_ItemCount lsi ?? 0;
     l_indexSizeBytes := DynamoDB.lsi_IndexSizeBytes lsi ?? 0 |}.

Definition mapTable (table : DynamoDB.TableDescription)
    (ttlEnabled : bool) (ttlAttributeName : option string)
    (pitrEnabled : bool) (latestRestorableDateTime : option Z)
    (tags : option (gmap string string)) : DynamoDbTable :=
  {| tableName := DynamoDB.TableName table ?? "";
     tableArn := DynamoDB.TableArn table ?? "";
     tableStatus := DynamoDB.TableStatus table ?? "";
     creationDateTime := DynamoDB.CreationDateTime table;
     itemCount := DynamoDB.ItemCount table ?? 0;
     tableSizeBytes := DynamoDB.TableSizeBytes table ?? 0;
     billingMode := (DynamoDB.BillingModeSummary_ table ≫= DynamoDB.BillingMode) ?? "PROVISIONED";
     provisionedThroughput := mapThroughput <$> DynamoDB.ProvisionedThroughput table;
     keySchema := map mapKeySchema (DynamoDB.KeySchema table ?? []);
     attributeDefinitions :=
       map (fun ad => {| a_attributeName := DynamoDB.ad_AttributeName ad ?? "";
                         attributeType := DynamoDB.AttributeType ad ?? "" |})
           (DynamoDB.AttributeDefinitions table ?? []);
     globalSecondaryIndexes := map mapGsi (DynamoDB.GlobalSecondaryIndexes table ?? []);
     localSecondaryIndexes := map mapLsi (DynamoDB.LocalSecondaryIndexes table ?? []);
     streamEnabled := is_true (DynamoDB.StreamSpecification_ table ≫= DynamoDB.StreamEnabled);
     streamViewType := DynamoDB.StreamSpecification_ table ≫= DynamoDB.StreamViewType;
     ttlEnabled := ttlEnabled;
     ttlAttributeName := ttlAttributeName;
     pitrEnabled := pitrEnabled;
     latestRestorableDateTime := latestRestorableDateTime;
     deletionProtectionEnabled := DynamoDB.DeletionProtectionEnabled table ?? false;
     tableClass := DynamoDB.TableClassSummary_ table ≫= DynamoDB.TableClass;
     tags := tags |}.

Definition getClient (accountName : string) : M Client :=
  account ← AwsCredentialsProvider.getAccount accountName;
  match account with
  | None => throw (UnknownAccount accountName)
  | Some account =>
      credentials ← AwsCredentialsProvider.getCredentialsProvider accountName;
      mret {| client_service := DynamoDBService;
              client_region := region account;
              client_credentials := Some credentials |}
  end.

(** One round of the [do ... while] of [listTables]; the loop's
    variables are [tableNames] and [exclusiveStartTableName]. *)
Definition listTables_round (client : Client) (s : list string * option string)
    : M (Completion (list string * option string)) :=
  let '(tableNames, exclusiveStartTableName) := s in
  response ← send client (ListTablesCommand exclusiveStartTableName);
  mret (Normal (tableNames ++ (DynamoDB.TableNames response ?? []),
                DynamoDB.LastEvaluatedTableName response)).

Definition listTables (fuel : nat) (accountName : string) : M (list string) :=
  client ← getClient accountName;
  s ← doWhile fuel (listTables_round client) (fun s => truthy (snd s)) ([], None);
  mret (fst s).

(** [getTable] from its first request on, with the [client] it has
    built by then. *)
Definition getTable_steps (client : Client) (tableName : string) : Task (option DynamoDbTable) :=
  attempt
    (response ← await client (DescribeTableCommand tableName);
     match DynamoDB.Table response with
     | None => mret None
     | Some table =>
         (* Get TTL info *)
         ttl ← attempt
                 (ttlResponse ← await client (DescribeTimeToLiveCommand tableName);
                  let d := DynamoDB.TimeToLiveDescription_ ttlResponse in
                  mret (str_is (d ≫= DynamoDB.TimeToLiveStatus) "ENABLED",
                        d ≫= DynamoDB.ttl_AttributeName))
                 (fun _ => mret (false, None));
         (* Get PITR info *)
         pitr ← attempt
                  (pitrResponse ← await client (DescribeContinuousBackupsCommand tableName);
                   let d := DynamoDB.ContinuousBackupsDescription_ pitrResponse
                              ≫= DynamoDB.PointInTimeRecoveryDescription_ in
                   mret (str_is (d ≫= DynamoDB.PointInTimeRecoveryStatus) "ENABLED",
                         d ≫= DynamoDB.LatestRestorableDateTime))
                  (fun _ => mret (false, None));
         (* Get tags *)
         tags ← attempt
                  (tagsResponse ← await client (ListTagsOfResourceCommand (DynamoDB.TableArn table));
                   mret (tags_if_any (DynamoDB.Tags tagsResponse)))
                  (fun _ => mret None);
         mret (Some (mapTable table (fst ttl) (snd ttl) (fst pitr) (snd pitr) tags))
     end)
    (fun error =>
       if String.eqb (err_name error) "ResourceNotFoundException"
       then mret None
       else reject error).

(** A call [this.getTable(accountName, tableName)]: it builds the client
    and is then the task above. *)
Definition getTable_call (accountName tableName : string) : M (Task (option DynamoDbTable)) :=
  client ← getClient accountName;
  mret (getTable_steps client tableName).

Definition getTable (accountName tableName : string) : M (option DynamoDbTable) :=
  awaited (getTable_call accountName tableName).

(** The [for (let i = 0; i < tableNames.length; i += batchSize)] loop
    of [listTablesWithDetails], from index [i] with [tables] filled so far. *)
Equations? tableDetailsLoop (accountName : string) (tableNames : list string)
    (i : nat) (tables : list DynamoDbTable) : M (list DynamoDbTable)
    by wf (length tableNames - i)%nat lt :=
  tableDetailsLoop accountName tableNames i tables with lt_dec i (length tableNames) := {
    | left _ =>
        let batch := slice (Z.of_nat i) (Z.of_nat (i + batchSize)) tableNames in
        batchResults ← promiseAll (map (fun name => getTable_call accountName name) batch);
        tableDetailsLoop accountName tableNames (i + batchSize)%nat (tables ++ defined batchResults);
    | right _ => mret tables }.
Proof. unfold batchSize. lia. Qed.

Definition listTablesWithDetails (fuel : nat) (accountName : string) : M (list DynamoDbTable) :=
  tableNames ← listTables fuel accountName;
  tableDetailsLoop accountName tableNames 0 [].

End DynamoDbProvider.

(** ** S3Provider *)

Module S3Provider.

(** [account.region], before [S3Bucket] takes the name [region]. *)
Definition account_region (account : AwsAccount) : string := region account.

Record TransitionEntry := { days : option Z; date : option Z; storageClass : string }.
Record ExpirationEntry := {
  e_days : option Z;
  e_date : option Z;
  expiredObjectDeleteMarker : option bool }.
Record NoncurrentTransitionEntry := {
  noncurrentDays : option Z;
  newerNoncurrentVersions : option Z;
  n_storageClass : string }.
Record NoncurrentExpirationEntry := {
  x_noncurrentDays : option Z;
  x_newerNoncurrentVersions : option Z }.
Record FilterEntry := { f_prefix : option string; f_tags : option (gmap string string) }.

Record S3LifecycleRule := {
  id : string;
  status : string;
  prefix : option string;
  filter : option FilterEntry;
  transitions : list TransitionEntry;
  expiration : option ExpirationEntry;
  noncurrentVersionTransitions : list NoncurrentTransitionEntry;
  noncurrentVersionExpiration : option NoncurrentExpirationEntry;
  abortIncompleteMultipartUpload : option Z (* daysAfterInitiation *) }.

Record S3Bucket := {
  name : string;
  creationDate : option Z;
  region : option string;
  versioningEnabled : bool;
  mfaDeleteEnabled : bool;
  encryptionEnabled : bool;
  encryptionType : option string;
  kmsKeyId : option string;
  lifecycleRules : list S3LifecycleRule;
  publicAccessBlocked : bool;
  policyIsPublic : bool;
  tags : option (gmap string string) }.

Definition mapEncryptionRule (rule : S3.ServerSideEncryptionRule) : string * option string :=
  let sse := S3.ApplyServerSideEncryptionByDefault rule in
  ((sse ≫= S3.SSEAlgorithm) ?? "AES256", sse ≫= S3.KMSMasterKeyID).

Definition mapLifecycleRule (rule : S3.LifecycleRule) : S3LifecycleRule :=
  {| id := S3.ID rule ?? "";
     status := S3.r_Status rule ?? "Disabled";
     prefix := S3.Prefix rule;
     filter :=
       (fun f => {| f_prefix := S3.f_Prefix f;
                    f_tags := (fun t => {[ (Key t ?? "") := (Value t ?? "") ]}) <$> S3.f_Tag f |})
         <$> S3.Filter rule;
     transitions :=
       map (fun t => {| days := S3.t_Days t; date := S3.t_Date t;
                        storageClass := S3.t_StorageClass t ?? "" |})
           (S3.Transitions rule ?? []);
     expiration :=
       (fun e => {| e_days := S3.e_Days e; e_date := S3.e_Date e;
                    expiredObjectDeleteMarker := S3.ExpiredObjectDeleteMarker e |})
         <$> S3.Expiration rule;
     noncurrentVersionTransitions :=
       map (fun t => {| noncurrentDays := S3.nt_NoncurrentDays t;
                        newerNoncurrentVersions := S3.nt_NewerNoncurrentVersions t;
                        n_storageClass := S3.nt_StorageClass t ?? "" |})
           (S3.NoncurrentVersionTransitions rule ?? []);
     noncurrentVersionExpiration :=
       (fun e => {| x_noncurrentDays := S3.ne_NoncurrentDays e;
                    x_newerNoncurrentVersions := S3.ne_NewerNoncurrentVersions e |})
         <$> S3.NoncurrentVersionExpiration_ rule;
     abortIncompleteMultipartUpload :=
       (fun a => S3.DaysAfterInitiation a ?? 0) <$> S3.AbortIncompleteMultipartUpload_ rule |}.

Definition getClient (accountName : string) : M Client :=
  account ← AwsCredentialsProvider.getAccount accountName;
  match account with
  | None => throw (UnknownAccount accountName)
  | Some account =>
      credentials ← AwsCredentialsProvider.getCredentialsProvider accountName;
      mret {| client_service := S3Service;
              client_region := account_region account;
              client_credentials := Some credentials |}
  end.

(** A catch block of the shape
    [catch (error) { if (error.name !== literal) { /* comment only */ } }]:
    both branches are empty, the field keeps its default. *)
Definition emptyHandler {A} (literal : string) (default : A) (error : JsError) : Task A :=
  if negb (String.eqb (err_name error) literal) then mret default else mret default.

(** [getBucket] from its first request on, with the [client] it has
    built by then. *)
Definition getBucket_steps (client : Client) (bucketName : string) : Task (option S3Bucket) :=
  attempt
    ((* Get region *)
     region ← attempt
                (locationResponse ← await client (GetBucketLocationCommand bucketName);
                 mret (Some (or_else (S3.LocationConstraint locationResponse) "us-east-1")))
                (fun _ => mret None);
     (* Get versioning *)
     versioning ← attempt
                    (versioningResponse ← await client (GetBucketVersioningCommand bucketName);
                     mret (str_is (S3.Status versioningResponse) "Enabled",
                           str_is (S3.MFADelete versioningResponse) "Enabled"))
                    (fun _ => mret (false, false));
     (* Get encryption *)
     encryption ← attempt
                    (encryptionResponse ← await client (GetBucketEncryptionCommand bucketName);
                     let rules := (S3.ServerSideEncryptionConfiguration_ encryptionResponse
                                     ≫= S3.sse_Rules) ?? [] in
                     mret (match rules with
                           | rule :: _ =>
                               let encryption := mapEncryptionRule rule in
                               (true, Some (fst encryption), snd encryption)
                           | [] => (false, None, None)
                           end))
                    (emptyHandler "ServerSideEncryptionConfigurationNotFoundError" (false, None, None));
     (* Get lifecycle rules *)
     lifecycleRules ← attempt
                        (lifecycleResponse ← await client (GetBucketLifecycleConfigurationCommand bucketName);
                         mret (map mapLifecycleRule (S3.Rules lifecycleResponse ?? [])))
                        (emptyHandler "NoSuchLifecycleConfiguration" []);
     (* Get public access block *)
     publicAccessBlocked ← attempt
                             (publicAccessResponse ← await client (GetPublicAccessBlockCommand bucketName);
                              let config := S3.PublicAccessBlockConfiguration_ publicAccessResponse in
                              mret (is_true (config ≫= S3.BlockPublicAcls) &&
                                    is_true (config ≫= S3.BlockPublicPolicy) &&
                                    is_true (config ≫= S3.IgnorePublicAcls) &&
                                    is_true (config ≫= S3.RestrictPublicBuckets)))
                             (emptyHandler "NoSuchPublicAccessBlockConfiguration" false);
     (* Get policy status *)
     policyIsPublic ← attempt
                        (policyStatusResponse ← await client (GetBucketPolicyStatusCommand bucketName);
                         mret ((S3.PolicyStatus_ policyStatusResponse ≫= S3.IsPublic) ?? false))
                        (emptyHandler "NoSuchBucketPolicy" false);
     (* Get tags *)
     tags ← attempt
              (tagsResponse ← await client (GetBucketTaggingCommand bucketName);
               mret (tags_if_any (S3.TagSet tagsResponse)))
              (emptyHandler "NoSuchTagSet" None);
     mret (Some {| name := bucketName;
                   creationDate := None;
                   region := region;
                   versioningEnabled := fst versioning;
                   mfaDeleteEnabled := snd versioning;
                   encryptionEnabled := fst (fst encryption);
                   encryptionType := snd (fst encryption);
                   kmsKeyId := snd encryption;
                   lifecycleRules := lifecycleRules;
                   publicAccessBlocked := publicAccessBlocked;
                   policyIsPublic := policyIsPublic;
                   tags := tags |}))
    (fun error =>
       if String.eqb (err_name error) "NoSuchBucket"
       then mret None
       else reject error).

(** A call [this.getBucket(accountName, bucketName)]: it builds the
    client and is then the task above. *)
Definition getBucket_call (accountName bucketName : string) : M (Task (option S3Bucket)) :=
  client ← getClient accountName;
  mret (getBucket_steps client bucketName).

Definition getBucket (accountName bucketName : string) : M (option S3Bucket) :=
  awaited (getBucket_call accountName bucketName).

(** [(response.Buckets ?? []).map(b => b.Name).filter(name => !!name)] *)
Definition bucketNames (response : S3.ListBucketsOutput) : list string :=
  omap (fun b => if truthy (S3.Name b) then S3.Name b else None)
       (S3.Buckets response ?? []).

Equations? bucketDetailsLoop (accountName : string) (bucketNames : list string)
    (i : nat) (buckets : list S3Bucket) : M (list S3Bucket)
    by wf (length bucketNames - i)%nat lt :=
  bucketDetailsLoop accountName bucketNames i buckets with lt_dec i (length bucketNames) := {
    | left _ =>
        let batch := slice (Z.of_nat i) (Z.of_nat (i + batchSize)) bucketNames in
        batchResults ← promiseAll (map (fun name => getBucket_call accountName name) batch);
        bucketDetailsLoop accountName bucketNames (i + batchSize)%nat (buckets ++ defined batchResults);
    | right _ => mret buckets }.
Proof. unfold batchSize. lia. Qed.

Definition listBucketsWithDetails (accountName : string) : M (list S3Bucket) :=
  client ← getClient accountName;
  response ← send client ListBucketsCommand;
  bucketDetailsLoop accountName (bucketNames response) 0 [].

End S3Provider.

(** ** LambdaProvider *)

Module LambdaProvider.

Record LambdaFunction := {
  functionName : string;
  functionArn : string;
  runtime : option string;
  handler : option string;
  codeSize : Z;
  description : option string;
  timeout : option Z;
  memorySize : option Z;
  lastModified : option string;
  version : string;
  environment : option (gmap string string);
  tags : option (gmap string string) }.

(** The literal of [mapFunction] has no [tags] property. *)
Definition mapFunction (fn : Lambda.FunctionConfiguration) : LambdaFunction :=
  {| functionName := Lambda.FunctionName fn ?? "";
     functionArn := Lambda.FunctionArn fn ?? "";
     runtime := Lambda.Runtime fn;
     handler := Lambda.Handler fn;
     codeSize := Lambda.CodeSize fn ?? 0;
     description := Lambda.Description fn;
     timeout := Lambda.Timeout fn;
     memorySize := Lambda.MemorySize fn;
     lastModified := Lambda.LastModified fn;
     version := Lambda.Version fn ?? "$LATEST";
     environment := Lambda.Environment fn ≫= Lambda.Variables;
     tags := None |}.

(** [{ ...fn, tags }] *)
Definition with_tags (fn : LambdaFunction) (tags : option (gmap string string)) : LambdaFunction :=
  {| functionName := functionName fn;
     functionArn := functionArn fn;
     runtime := runtime fn;
     handler := handler fn;
     codeSize := codeSize fn;
     description := description fn;
     timeout := timeout fn;
     memorySize := memorySize fn;
     lastModified := lastModified fn;
     version := version fn;
     environment := environment fn;
     tags := tags |}.

Definition getClient (accountName : string) : M Client :=
  account ← AwsCredentialsProvider.getAccount accountName;
  match account with
  | None => throw (UnknownAccount accountName)
  | Some account =>
      credentials ← AwsCredentialsProvider.getCredentialsProvider accountName;
      mret {| client_service := LambdaService;
              client_region := region account;
              client_credentials := Some credentials |}
  end.

Definition listFunctions_round (client : Client) (s : list LambdaFunction * option string)
    : M (Completion (list LambdaFunction * option string)) :=
  let '(functions, marker) := s in
  response ← send client (ListFunctionsCommand marker);
  mret (Normal (functions ++ map mapFunction (Lambda.Functions response ?? []),
                Lambda.NextMarker response)).

Definition listFunctions (fuel : nat) (accountName : string) : M (list LambdaFunction) :=
  client ← getClient accountName;
  s ← doWhile fuel (listFunctions_round client) (fun s => truthy (snd s)) ([], None);
  mret (fst s).

Definition getFunction (accountName functionName : string) : M (option LambdaFunction) :=
  client ← getClient accountName;
  tryCatch
    (response ← send client (GetFunctionCommand functionName);
     match Lambda.Configuration response with
     | None => mret None
     | Some configuration =>
         mret (Some (with_tags (mapFunction configuration) (Lambda.Tags response)))
     end)
    (fun error =>
       if String.eqb (err_name error) "ResourceNotFoundException"
       then mret None
       else throw error).

Record LambdaVersion := {
  v_version : string;
  v_description : option string;
  v_lastModified : option string }.

Definition listVersions_round (client : Client) (functionName : string)
    (s : list LambdaVersion * option string)
    : M (Completion (list LambdaVersion * option string)) :=
  let '(versions, marker) := s in
  response ← send client (ListVersionsByFunctionCommand functionName marker);
  mret (Normal (versions ++ map (fun v => {| v_version := Lambda.Version v ?? "$LATEST";
                                             v_description := Lambda.Description v;
                                             v_lastModified := Lambda.LastModified v |})
                                (Lambda.Versions response ?? []),
                Lambda.v_NextMarker response)).

Definition listVersions (fuel : nat) (accountName functionName : string) : M (list LambdaVersion) :=
  client ← getClient accountName;
  s ← doWhile fuel (listVersions_round client functionName) (fun s => truthy (snd s)) ([], None);
  mret (fst s).

Definition getFunctionConfiguration (accountName functionName : string)
    : M (option LambdaFunction) :=
  client ← getClient accountName;
  tryCatch
    (response ← send client (GetFunctionConfigurationCommand functionName);
     mret (Some (mapFunction response)))
    (fun error =>
       if String.eqb (err_name error) "ResourceNotFoundException"
       then mret None
       else throw error).

End LambdaProvider.

(** ** EcrProvider *)

Module EcrProvider.

Record EcrImage := {
  repositoryName : string;
  imageDigest : string;
  imageTags : list string;
  imageSizeInBytes : Z;
  imagePushedAt : option Z;
  imageManifestMediaType : option string;
  lastRecordedPullTime : option Z;
  artifactMediaType : option string }.

Definition mapImage (repositoryName : string) (image : Ecr.ImageDetail) : EcrImage :=
  {| repositoryName := repositoryName;
     imageDigest := Ecr.imageDigest image ?? "";
     imageTags := Ecr.imageTags image ?? [];
     imageSizeInBytes := Ecr.imageSizeInBytes image ?? 0;
     imagePushedAt := Ecr.imagePushedAt image;
     imageManifestMediaType := Ecr.imageManifestMediaType image;
     lastRecordedPullTime := Ecr.lastRecordedPullTime image;
     artifactMediaType := Ecr.artifactMediaType image |}.

Definition getClient (accountName : string) : M Client :=
  account ← AwsCredentialsProvider.getAccount accountName;
  match account with
  | None => throw (UnknownAccount accountName)
  | Some account =>
      credentials ← AwsCredentialsProvider.getCredentialsProvider accountName;
      mret {| client_service := ECR;
              client_region := region account;
              client_credentials := Some credentials |}
  end.

(** The comparator of [images.sort]: push date, newest first. *)
Definition newestFirst (a b : EcrImage) : Z :=
  let dateA := imagePushedAt a ?? 0 in
  let dateB := imagePushedAt b ?? 0 in
  dateB - dateA.

Definition describeImages (repositoryName : string) (nextToken : option string)
    (maxResults : option JsNumber) : Command Ecr.DescribeImagesResponse :=
  DescribeImagesCommand
    {| Ecr.repositoryName := repositoryName;
       Ecr.nextToken := nextToken;
       Ecr.maxResults := maxResults ?? Num 100 |}.

(** One round of the loop of [listImages], with its early [break]. *)
Definition listImages_round (client : Client) (repositoryName : string)
    (maxResults : option JsNumber) (s : list EcrImage * option string)
    : M (Completion (list EcrImage * option string)) :=
  let '(images, nextToken) := s in
  response ← send client (describeImages repositoryName nextToken maxResults);
  let images := images ++ map (mapImage repositoryName) (Ecr.imageDetails response ?? []) in
  let nextToken := Ecr.r_nextToken response in
  (* Stop if we have enough *)
  if truthy_num maxResults && length_ge (length images) (maxResults ?? NaN)
  then mret (Break (images, nextToken))
  else mret (Normal (images, nextToken)).

Definition listImages (fuel : nat) (accountName repositoryName : string)
    (maxResults : option JsNumber) : M (list EcrImage) :=
  client ← getClient accountName;
  s ← doWhile fuel (listImages_round client repositoryName maxResults)
        (fun s => truthy (snd s)) ([], None);
  (* Sort by push date, newest first *)
  let images := sort newestFirst (fst s) in
  mret (if truthy_num maxResults then slice_to (maxResults ?? NaN) images else images).

Record EcrRepository := {
  r_repositoryName : string;
  repositoryArn : string;
  repositoryUri : string;
  registryId : string;
  createdAt : option Z;
  imageTagMutability : string;
  scanOnPush : bool;
  encryptionType : option string;
  kmsKey : option string;
  tags : option (gmap string string) }.

Record EcrScanFinding := {
  name : string;
  description : option string;
  severity : string;
  uri : option string }.

Record EcrScanSummary := {
  s_imageDigest : string;
  s_imageTags : list string;
  scanCompletedAt : option Z;
  vulnerabilitySourceUpdatedAt : option Z;
  findingSeverityCounts : gmap string Z;
  findings : list EcrScanFinding }.

Record EcrLifecyclePolicy := {
  l_repositoryName : string;
  l_registryId : string;
  policyText : string;
  lastEvaluatedAt : option Z }.

(** The literal of [mapRepository] has no [tags] property. *)
Definition mapRepository (repo : Ecr.Repository) : EcrRepository :=
  {| r_repositoryName := Ecr.r_repositoryName repo ?? "";
     repositoryArn := Ecr.repositoryArn repo ?? "";
     repositoryUri := Ecr.repositoryUri repo ?? "";
     registryId := Ecr.registryId repo ?? "";
     createdAt := Ecr.createdAt repo;
     imageTagMutability := Ecr.imageTagMutability repo ?? "MUTABLE";
     scanOnPush := (Ecr.imageScanningConfiguration repo ≫= Ecr.scanOnPush) ?? false;
     encryptionType := Ecr.encryptionConfiguration repo ≫= Ecr.encryptionType;
     kmsKey := Ecr.encryptionConfiguration repo ≫= Ecr.kmsKey;
     tags := None |}.

(** [mapped.tags = value] *)
Definition set_tags (mapped : EcrRepository) (value : gmap string string) : EcrRepository :=
  {| r_repositoryName := r_repositoryName mapped;
     repositoryArn := repositoryArn mapped;
     repositoryUri := repositoryUri mapped;
     registryId := registryId mapped;
     createdAt := createdAt mapped;
     imageTagMutability := imageTagMutability mapped;
     scanOnPush := scanOnPush mapped;
     encryptionType := encryptionType mapped;
     kmsKey := kmsKey mapped;
     tags := Some value |}.

(** The block "Fetch tags" of [listRepositories] and [getRepository]:
    the tags are set when the answer lists any, every error is
    swallowed. *)
Definition fetchTags (client : Client) (repo : Ecr.Repository) (mapped : EcrRepository)
    : M EcrRepository :=
  tryCatch
    (tagsResponse ← send client (ListTagsForResourceCommand (Ecr.repositoryArn repo));
     mret (match tags_if_any (Ecr.tags tagsResponse) with
           | Some tags => set_tags mapped tags
           | None => mapped
           end))
    (fun _ => mret mapped).

(** [for (const repo of ...) { ...; repositories.push(mapped) }] *)
Fixpoint pushRepositories (client : Client) (rest : list Ecr.Repository)
    (repositories : list EcrRepository) : M (list EcrRepository) :=
  match rest with
  | [] => mret repositories
  | repo :: rest =>
      mapped ← fetchTags client repo (mapRepository repo);
      pushRepositories client rest (repositories ++ [mapped])
  end.

Definition listRepositories_round (client : Client) (s : list EcrRepository * option string)
    : M (Completion (list EcrRepository * option string)) :=
  let '(repositories, nextToken) := s in
  response ← send client (DescribeRepositoriesCommand None nextToken);
  repositories ← pushRepositories client (Ecr.repositories response ?? []) repositories;
  mret (Normal (repositories, Ecr.d_nextToken response)).

Definition listRepositories (fuel : nat) (accountName : string) : M (list EcrRepository) :=
  client ← getClient accountName;
  s ← doWhile fuel (listRepositories_round client) (fun s => truthy (snd s)) ([], None);
  mret (fst s).

Definition getRepository (accountName repositoryName : string) : M (option EcrRepository) :=
  client ← getClient accountName;
  tryCatch
    (response ← send client (DescribeRepositoriesCommand (Some [repositoryName]) None);
     match Ecr.repositories response with
     | Some (repo :: _) =>
         mapped ← fetchTags client repo (mapRepository repo);
         mret (Some mapped)
     | _ => mret None
     end)
    (fun error =>
       if String.eqb (err_name error) "RepositoryNotFoundException"
       then mret None
       else throw error).

(** [severityCounts[severity] = count]: as for strings, the key
    ["__proto__"] creates no own property. *)
Definition count_set (severity : string) (count : Z) (o : gmap string Z) : gmap string Z :=
  if String.eqb severity "__proto__" then o else <[severity := count]> o.

Definition mapScanFindings (imageDigest : string) (imageTags : list string)
    (findings : Ecr.ImageScanFindings) : EcrScanSummary :=
  let severityCounts :=
    match Ecr.findingSeverityCounts findings with
    | Some entries => foldl (fun o entry => count_set (fst entry) (snd entry) o) ∅ entries
    | None => ∅
    end in
  {| s_imageDigest := imageDigest;
     s_imageTags := imageTags;
     scanCompletedAt := Ecr.imageScanCompletedAt findings;
     vulnerabilitySourceUpdatedAt := Ecr.vulnerabilitySourceUpdatedAt findings;
     findingSeverityCounts := severityCounts;
     findings := map (fun f => {| name := Ecr.name f ?? "";
                                  description := Ecr.description f;
                                  severity := Ecr.severity f ?? "UNDEFINED";
                                  uri := Ecr.uri f |})
                     (Ecr.findings findings ?? []) |}.

Definition getImageScanFindings (accountName repositoryName imageDigest : string)
    (imageTag : option string) : M (option EcrScanSummary) :=
  client ← getClient accountName;
  tryCatch
    (response ← send client (DescribeImageScanFindingsCommand repositoryName imageDigest imageTag);
     match Ecr.imageScanFindings response with
     | None => mret None
     | Some findings =>
         let tag := Ecr.imageId response ≫= Ecr.imageTag in
         mret (Some (mapScanFindings imageDigest
                       (if truthy tag then [tag ?? ""] else [])
                       findings))
     end)
    (fun error =>
       if String.eqb (err_name error) "ScanNotFoundException"
          || String.eqb (err_name error) "ImageNotFoundException"
       then mret None
       else throw error).

Definition getLifecyclePolicy (accountName repositoryName : string)
    : M (option EcrLifecyclePolicy) :=
  client ← getClient accountName;
  tryCatch
    (response ← send client (GetLifecyclePolicyCommand repositoryName);
     mret (Some {| l_repositoryName := Ecr.l_repositoryName response ?? repositoryName;
                   l_registryId := Ecr.l_registryId response ?? "";
                   policyText := Ecr.lifecyclePolicyText response ?? "";
                   lastEvaluatedAt := Ecr.lastEvaluatedAt response |}))
    (fun error =>
       if String.eqb (err_name error) "LifecyclePolicyNotFoundException"
       then mret None
       else throw error).

Definition getRepositoryPolicy (accountName repositoryName : string) : M (option string) :=
  client ← getClient accountName;
  tryCatch
    (response ← send client (GetRepositoryPolicyCommand repositoryName);
     mret (Ecr.policyText response))
    (fun error =>
       if String.eqb (err_name error) "RepositoryPolicyNotFoundException"
       then mret None
       else throw error).

End EcrProvider.

(** ** SsmProvider *)

Module SsmProvider.

Record SsmParameter := {
  name : string;
  type : string;
  value : string;
  version : Z;
  lastModifiedDate : option Z;
  arn : option string;
  dataType : option string }.

Definition mapParameter (param : Ssm.VendorParameter) (withDecryption : bool) : SsmParameter :=
  let isSecureString := str_is (Ssm.Type_ param) "SecureString" in
  let value := Ssm.Value param ?? "" in
  let value := if isSecureString && negb withDecryption then "********" else value in
  {| name := Ssm.Name param ?? "";
     type := Ssm.Type_ param ?? "String";
     value := value;
     version := Ssm.Version param ?? 0;
     lastModifiedDate := Ssm.LastModifiedDate param;
     arn := Ssm.ARN param;
     dataType := Ssm.DataType param |}.

Definition getClient (accountName : string) : M Client :=
  account ← AwsCredentialsProvider.getAccount accountName;
  match account with
  | None => throw (UnknownAccount accountName)
  | Some account =>
      credentials ← AwsCredentialsProvider.getCredentialsProvider accountName;
      mret {| client_service := SSM;
              client_region := region account;
              client_credentials := Some credentials |}
  end.

Definition getParameter (accountName name : string) (withDecryption : bool)
    : M (option SsmParameter) :=
  client ← getClient accountName;
  tryCatch
    (response ← send client (GetParameterCommand
                               {| Ssm.r_Name := name; Ssm.WithDecryption := withDecryption |});
     match Ssm.Parameter_ response with
     | None => mret None
     | Some parameter => mret (Some (mapParameter parameter withDecryption))
     end)
    (fun error =>
       if String.eqb (err_name error) "ParameterNotFound"
       then mret None
       else throw error).

Definition getParametersByPath_round (client : Client) (path : string)
    (recursive withDecryption : bool) (s : list SsmParameter * option string)
    : M (Completion (list SsmParameter * option string)) :=
  let '(parameters, nextToken) := s in
  response ← send client (GetParametersByPathCommand
                             {| Ssm.Path := path;
                                Ssm.Recursive := recursive;
                                Ssm.p_WithDecryption := withDecryption;
                                Ssm.NextToken := nextToken |});
  mret (Normal (parameters ++ map (fun param => mapParameter param withDecryption)
                                  (Ssm.Parameters_ response ?? []),
                Ssm.r_NextToken response)).

Definition getParametersByPath (fuel : nat) (accountName path : string)
    (recursive withDecryption : bool) : M (list SsmParameter) :=
  client ← getClient accountName;
  s ← doWhile fuel (getParametersByPath_round client path recursive withDecryption)
        (fun s => truthy (snd s)) ([], None);
  mret (fst s).

End SsmProvider.

(** ** SecretsManagerProvider *)

Module SecretsManagerProvider.

Record SecretMetadata := {
  name : string;
  arn : string;
  description : option string;
  kmsKeyId : option string;
  rotationEnabled : bool;
  lastChangedDate : option Z;
  lastAccessedDate : option Z;
  tags : option (gmap string string) }.

Definition mapSecret (secret : SecretsManager.SecretListEntry) : SecretMetadata :=
  {| name := SecretsManager.Name secret ?? "";
     arn := SecretsManager.ARN secret ?? "";
     description := SecretsManager.Description secret;
     kmsKeyId := SecretsManager.KmsKeyId secret;
     rotationEnabled := SecretsManager.RotationEnabled secret ?? false;
     lastChangedDate := SecretsManager.LastChangedDate secret;
     lastAccessedDate := SecretsManager.LastAccessedDate secret;
     tags := tags_or_undefined (SecretsManager.Tags secret) |}.

Definition getClient (accountName : string) : M Client :=
  account ← AwsCredentialsProvider.getAccount accountName;
  match account with
  | None => throw (UnknownAccount accountName)
  | Some account =>
      credentials ← AwsCredentialsProvider.getCredentialsProvider accountName;
      mret {| client_service := SecretsManagerService;
              client_region := region account;
              client_credentials := Some credentials |}
  end.

Definition listSecrets_round (client : Client) (s : list SecretMetadata * option string)
    : M (Completion (list SecretMetadata * option string)) :=
  let '(secrets, nextToken) := s in
  response ← send client (ListSecretsCommand nextToken);
  mret (Normal (secrets ++ map mapSecret (SecretsManager.SecretList response ?? []),
                SecretsManager.NextToken response)).

Definition listSecrets (fuel : nat) (accountName : string) : M (list SecretMetadata) :=
  client ← getClient accountName;
  s ← doWhile fuel (listSecrets_round client) (fun s => truthy (snd s)) ([], None);
  mret (fst s).

Record SecretStructure := {
  s_name : string;
  s_arn : string;
  keys : list string;
  hasValue : bool }.

Definition mapDescribeSecret (response : SecretsManager.DescribeSecretResponse) : SecretMetadata :=
  {| name := SecretsManager.d_Name response ?? "";
     arn := SecretsManager.d_ARN response ?? "";
     description := SecretsManager.d_Description response;
     kmsKeyId := SecretsManager.d_KmsKeyId response;
     rotationEnabled := SecretsManager.d_RotationEnabled response ?? false;
     lastChangedDate := SecretsManager.d_LastChangedDate response;
     lastAccessedDate := SecretsManager.d_LastAccessedDate response;
     tags := tags_or_undefined (SecretsManager.d_Tags response) |}.

Definition getSecret (accountName secretName : string) : M (option SecretMetadata) :=
  client ← getClient accountName;
  tryCatch
    (response ← send client (DescribeSecretCommand secretName);
     mret (Some (mapDescribeSecret response)))
    (fun error =>
       if String.eqb (err_name error) "ResourceNotFoundException"
       then mret None
       else throw error).

Definition getSecretStructure (accountName secretName : string) : M (option SecretStructure) :=
  secret ← getSecret accountName secretName;
  match secret with
  | None => mret None
  | Some secret =>
      mret (Some {| s_name := name secret;
                    s_arn := arn secret;
                    keys := [];
                    hasValue := true |})
  end.

End SecretsManagerProvider.

(** ** EfsProvider *)

Module EfsProvider.

Record EfsFileSystem := {
  fileSystemId : string;
  fileSystemArn : string;
  name : option string;
  creationTime : Z;
  lifeCycleState : string;
  numberOfMountTargets : Z;
  sizeInBytes : Z;
  performanceMode : string;
  throughputMode : string;
  provisionedThroughputInMibps : option Z;
  encrypted : bool;
  kmsKeyId : option string;
  tags : option (gmap string string) }.

(** [fs.CreationTime ?? new Date()] reads the clock when the vendor
    gave no creation time, so the mapper is a computation. *)
Definition mapFileSystem (fs : Efs.FileSystemDescription) : M EfsFileSystem :=
  creationTime ← match Efs.CreationTime fs with
                 | Some t => mret t
                 | None => Date_now
                 end;
  mret {| fileSystemId := Efs.FileSystemId fs ?? "";
          fileSystemArn := Efs.FileSystemArn fs ?? "";
          name := Efs.Name fs;
          creationTime := creationTime;
          lifeCycleState := Efs.LifeCycleState fs ?? "unknown";
          numberOfMountTargets := Efs.NumberOfMountTargets fs ?? 0;
          sizeInBytes := (Efs.SizeInBytes fs ≫= Efs.Value) ?? 0;
          performanceMode := Efs.PerformanceMode fs ?? "generalPurpose";
          throughputMode := Efs.ThroughputMode fs ?? "bursting";
          provisionedThroughputInMibps := Efs.ProvisionedThroughputInMibps fs;
          encrypted := Efs.Encrypted fs ?? false;
          kmsKeyId := Efs.KmsKeyId fs;
          tags := tags_or_undefined (Efs.Tags fs) |}.

Definition getClient (accountName : string) : M Client :=
  account ← AwsCredentialsProvider.getAccount accountName;
  match account with
  | None => throw (UnknownAccount accountName)
  | Some account =>
      credentials ← AwsCredentialsProvider.getCredentialsProvider accountName;
      mret {| client_service := EFS;
              client_region := region account;
              client_credentials := Some credentials |}
  end.

Definition getFileSystem (accountName fileSystemId : string) : M (option EfsFileSystem) :=
  client ← getClient accountName;
  tryCatch
    (response ← send client (DescribeFileSystemsCommand
                               {| Efs.r_FileSystemId := Some fileSystemId; Efs.Marker := None |});
     match Efs.FileSystems response with
     | Some (fs :: _) => mapped ← mapFileSystem fs; mret (Some mapped)
     | _ => mret None
     end)
    (fun error =>
       if String.eqb (err_name error) "FileSystemNotFound"
       then mret None
       else throw error).

Record EfsMountTarget := {
  mountTargetId : string;
  m_fileSystemId : string;
  subnetId : string;
  m_lifeCycleState : string;
  ipAddress : option string;
  networkInterfaceId : option string;
  availabilityZoneId : option string;
  availabilityZoneName : option string;
  vpcId : option string }.

Record EfsLifecyclePolicy := {
  transitionToIA : option string;
  transitionToPrimaryStorageClass : option string;
  transitionToArchive : option string }.

Record CreationInfoEntry := {
  ownerUid : Z;
  ownerGid : Z;
  permissions : string }.

Record RootDirectoryEntry := {
  path : option string;
  creationInfo : option CreationInfoEntry }.

Record PosixUserEntry := {
  uid : Z;
  gid : Z;
  secondaryGids : option (list Z) }.

Record EfsAccessPoint := {
  accessPointId : string;
  accessPointArn : string;
  a_fileSystemId : string;
  a_name : option string;
  a_lifeCycleState : string;
  rootDirectory : option RootDirectoryEntry;
  posixUser : option PosixUserEntry;
  a_tags : option (gmap string string) }.

Definition mapMountTarget (mt : Efs.MountTargetDescription) : EfsMountTarget :=
  {| mountTargetId := Efs.MountTargetId mt ?? "";
     m_fileSystemId := Efs.m_FileSystemId mt ?? "";
     subnetId := Efs.SubnetId mt ?? "";
     m_lifeCycleState := Efs.m_LifeCycleState mt ?? "unknown";
     ipAddress := Efs.IpAddress mt;
     networkInterfaceId := Efs.NetworkInterfaceId mt;
     availabilityZoneId := Efs.AvailabilityZoneId mt;
     availabilityZoneName := Efs.AvailabilityZoneName mt;
     vpcId := Efs.VpcId mt |}.

Definition mapLifecyclePolicy (lp : Efs.LifecyclePolicy) : EfsLifecyclePolicy :=
  {| transitionToIA := Efs.TransitionToIA lp;
     transitionToPrimaryStorageClass := Efs.TransitionToPrimaryStorageClass lp;
     transitionToArchive := Efs.TransitionToArchive lp |}.

Definition mapAccessPoint (ap : Efs.AccessPointDescription) : EfsAccessPoint :=
  {| accessPointId := Efs.AccessPointId ap ?? "";
     accessPointArn := Efs.AccessPointArn ap ?? "";
     a_fileSystemId := Efs.a_FileSystemId ap ?? "";
     a_name := Efs.a_Name ap;
     a_lifeCycleState := Efs.a_LifeCycleState ap ?? "unknown";
     rootDirectory :=
       (fun root =>
          {| path := Efs.Path root;
             creationInfo :=
               (fun info => {| ownerUid := Efs.OwnerUid info ?? 0;
                               ownerGid := Efs.OwnerGid info ?? 0;
                               permissions := Efs.Permissions info ?? "0755" |})
                 <$> Efs.CreationInfo_ root |})
         <$> Efs.RootDirectory_ ap;
     posixUser :=
       (fun user => {| uid := Efs.Uid user ?? 0;
                       gid := Efs.Gid user ?? 0;
                       secondaryGids := Efs.SecondaryGids user |})
         <$> Efs.PosixUser_ ap;
     a_tags := tags_or_undefined (Efs.a_Tags ap) |}.

Definition listMountTargets_round (client : Client) (fileSystemId : string)
    (s : list EfsMountTarget * option string)
    : M (Completion (list EfsMountTarget * option string)) :=
  let '(mountTargets, marker) := s in
  response ← send client (DescribeMountTargetsCommand fileSystemId marker);
  mret (Normal (mountTargets ++ map mapMountTarget (Efs.MountTargets response ?? []),
                Efs.m_NextMarker response)).

Definition listMountTargets (fuel : nat) (accountName fileSystemId : string)
    : M (list EfsMountTarget) :=
  client ← getClient accountName;
  s ← doWhile fuel (listMountTargets_round client fileSystemId) (fun s => truthy (snd s))
        ([], None);
  mret (fst s).

Definition getLifecycleConfiguration (accountName fileSystemId : string)
    : M (list EfsLifecyclePolicy) :=
  client ← getClient accountName;
  tryCatch
    (response ← send client (DescribeLifecycleConfigurationCommand fileSystemId);
     mret (map mapLifecyclePolicy (Efs.LifecyclePolicies response ?? [])))
    (fun error =>
       if String.eqb (err_name error) "FileSystemNotFound"
       then mret []
       else throw error).

Definition listAccessPoints_round (client : Client) (fileSystemId : option string)
    (s : list EfsAccessPoint * option string)
    : M (Completion (list EfsAccessPoint * option string)) :=
  let '(accessPoints, nextToken) := s in
  response ← send client (DescribeAccessPointsCommand fileSystemId nextToken);
  mret (Normal (accessPoints ++ map mapAccessPoint (Efs.AccessPoints response ?? []),
                Efs.NextToken response)).

Definition listAccessPoints (fuel : nat) (accountName : string) (fileSystemId : option string)
    : M (list EfsAccessPoint) :=
  client ← getClient accountName;
  s ← doWhile fuel (listAccessPoints_round client fileSystemId) (fun s => truthy (snd s))
        ([], None);
  mret (fst s).

End EfsProvider.

(** ** EcsProvider *)

Module EcsProvider.

Record EcsCluster := { clusterArn : string; clusterName : string }.

Record EcsDeployment := {
  id : string;
  d_status : string;
  d_taskDefinition : string;
  d_desiredCount : Z;
  d_runningCount : Z;
  d_pendingCount : Z;
  createdAt : option Z;
  updatedAt : option Z;
  rolloutState : option string }.

Record EcsService := {
  serviceName : string;
  serviceArn : string;
  s_clusterArn : string;
  status : string;
  desiredCount : Z;
  runningCount : Z;
  pendingCount : Z;
  taskDefinition : string;
  launchType : option string;
  platformVersion : option string;
  deployments : option (list EcsDeployment) }.

Record EcsPortMapping := {
  containerPort : Z;
  hostPort : option Z;
  protocol : string }.

Record EcsContainer := {
  name : string;
  image : string;
  cpu : option Z;
  memory : option Z;
  memoryReservation : option Z;
  essential : bool;
  portMappings : option (list EcsPortMapping);
  environment : option (gmap string string) }.

Record EcsTaskDefinition := {
  taskDefinitionArn : string;
  family : string;
  revision : Z;
  t_status : string;
  t_cpu : option string;
  t_memory : option string;
  networkMode : option string;
  containers : list EcsContainer }.

Definition mapService (service : Ecs.Service) : EcsService :=
  {| serviceName := Ecs.serviceName service ?? "";
     serviceArn := Ecs.serviceArn service ?? "";
     s_clusterArn := Ecs.clusterArn service ?? "";
     status := Ecs.status service ?? "UNKNOWN";
     desiredCount := Ecs.desiredCount service ?? 0;
     runningCount := Ecs.runningCount service ?? 0;
     pendingCount := Ecs.pendingCount service ?? 0;
     taskDefinition := Ecs.taskDefinition service ?? "";
     launchType := Ecs.launchType service;
     platformVersion := Ecs.platformVersion service;
     deployments :=
       map (fun d => {| id := Ecs.d_id d ?? "";
                        d_status := Ecs.d_status d ?? "UNKNOWN";
                        d_taskDefinition := Ecs.d_taskDefinition d ?? "";
                        d_desiredCount := Ecs.d_desiredCount d ?? 0;
                        d_runningCount := Ecs.d_runningCount d ?? 0;
                        d_pendingCount := Ecs.d_pendingCount d ?? 0;
                        createdAt := Ecs.d_createdAt d;
                        updatedAt := Ecs.d_updatedAt d;
                        rolloutState := Ecs.d_rolloutState d |})
         <$> Ecs.deployments service |}.

Definition mapContainer (c : Ecs.ContainerDefinition) : EcsContainer :=
  let env := foldl (fun env e =>
                      if truthy (Ecs.kv_name e) && truthy (Ecs.kv_value e)
                      then obj_set (Ecs.kv_name e ?? "") (Ecs.kv_value e ?? "") env
                      else env) ∅ (Ecs.environment c ?? []) in
  {| name := Ecs.name c ?? "";
     image := Ecs.image c ?? "";
     cpu := Ecs.cpu c;
     memory := Ecs.memory c;
     memoryReservation := Ecs.memoryReservation c;
     essential := Ecs.essential c ?? true;
     portMappings :=
       map (fun p => {| containerPort := Ecs.containerPort p ?? 0;
                        hostPort := Ecs.hostPort p;
                        protocol := Ecs.protocol p ?? "tcp" |})
         <$> Ecs.portMappings c;
     environment := if has_keys env then Some env else None |}.

Definition mapTaskDefinition (td : Ecs.TaskDefinition) : EcsTaskDefinition :=
  {| taskDefinitionArn := Ecs.taskDefinitionArn td ?? "";
     family := Ecs.family td ?? "";
     revision := Ecs.revision td ?? 0;
     t_status := Ecs.td_status td ?? "UNKNOWN";
     t_cpu := Ecs.td_cpu td;
     t_memory := Ecs.td_memory td;
     networkMode := Ecs.networkMode td;
     containers := map mapContainer (Ecs.containerDefinitions td ?? []) |}.

Definition getClient (accountName : string) : M Client :=
  account ← AwsCredentialsProvider.getAccount accountName;
  match account with
  | None => throw (UnknownAccount accountName)
  | Some account =>
      credentials ← AwsCredentialsProvider.getCredentialsProvider accountName;
      mret {| client_service := ECS;
              client_region := region account;
              client_credentials := Some credentials |}
  end.

Definition listClusters_round (client : Client) (s : list EcsCluster * option string)
    : M (Completion (list EcsCluster * option string)) :=
  let '(clusters, nextToken) := s in
  response ← send client (ListClustersCommand nextToken);
  mret (Normal (clusters ++ map (fun arn => {| clusterArn := arn; clusterName := lastSegment arn |})
                                (Ecs.clusterArns response ?? []),
                Ecs.nextToken response)).

Definition listClusters (fuel : nat) (accountName : string) : M (list EcsCluster) :=
  client ← getClient accountName;
  s ← doWhile fuel (listClusters_round client) (fun s => truthy (snd s)) ([], None);
  mret (fst s).

Definition listServices_round (client : Client) (clusterName : string)
    (s : list string * option string) : M (Completion (list string * option string)) :=
  let '(services, nextToken) := s in
  response ← send client (ListServicesCommand clusterName nextToken);
  mret (Normal (services ++ map lastSegment (Ecs.serviceArns response ?? []),
                Ecs.s_nextToken response)).

Definition listServices (fuel : nat) (accountName clusterName : string) : M (list string) :=
  client ← getClient accountName;
  s ← doWhile fuel (listServices_round client clusterName) (fun s => truthy (snd s)) ([], None);
  mret (fst s).

Definition getService (accountName clusterName serviceName : string) : M (option EcsService) :=
  client ← getClient accountName;
  response ← send client (DescribeServicesCommand clusterName [serviceName]);
  match Ecs.services response with
  | Some (service :: _) => mret (Some (mapService service))
  | _ => mret None
  end.

Definition getTaskDefinition (accountName taskDefinitionArn : string)
    : M (option EcsTaskDefinition) :=
  client ← getClient accountName;
  tryCatch
    (response ← send client (DescribeTaskDefinitionCommand taskDefinitionArn);
     match Ecs.r_taskDefinition response with
     | None => mret None
     | Some td => mret (Some (mapTaskDefinition td))
     end)
    (fun error =>
       if String.eqb (err_name error) "ClientException"
       then mret None
       else throw error).

End EcsProvider.

(** ** DocumentDbProvider *)

Module DocumentDbProvider.

Record ClusterMember := { m_dbInstanceIdentifier : string; isClusterWriter : bool }.

Record DocumentDbCluster := {
  dbClusterIdentifier : string;
  dbClusterArn : string;
  engine : string;
  engineVersion : string;
  status : string;
  masterUsername : option string;
  endpoint : option string;
  readerEndpoint : option string;
  port : option Z;
  multiAZ : bool;
  storageEncrypted : bool;
  kmsKeyId : option string;
  dbSubnetGroup : option string;
  vpcSecurityGroups : list string;
  backupRetentionPeriod : Z;
  preferredBackupWindow : option string;
  preferredMaintenanceWindow : option string;
  latestRestorableTime : option Z;
  clusterCreateTime : option Z;
  deletionProtection : bool;
  members : list ClusterMember;
  tags : option (gmap string string) }.

Record EndpointEntry := {
  address : string;
  e_port : Z;
  hostedZoneId : option string }.

Record DocumentDbInstance := {
  dbInstanceIdentifier : string;
  dbInstanceArn : string;
  dbInstanceClass : string;
  i_engine : string;
  i_engineVersion : string;
  dbInstanceStatus : string;
  i_dbClusterIdentifier : option string;
  availabilityZone : option string;
  i_endpoint : option EndpointEntry;
  promotionTier : option Z;
  publiclyAccessible : bool;
  autoMinorVersionUpgrade : bool;
  instanceCreateTime : option Z;
  i_tags : option (gmap string string) }.

Record DocumentDbParameterGroup := {
  name : string;
  arn : string;
  family : string;
  description : option string }.

Record DocumentDbSnapshot := {
  snapshotIdentifier : string;
  snapshotArn : string;
  s_dbClusterIdentifier : string;
  snapshotType : string;
  s_status : string;
  snapshotCreateTime : option Z;
  s_engine : string;
  s_engineVersion : string;
  s_storageEncrypted : bool }.

Definition mapCluster (cluster : DocDb.DBCluster) : DocumentDbCluster :=
  {| dbClusterIdentifier := DocDb.DBClusterIdentifier cluster ?? "";
     dbClusterArn := DocDb.DBClusterArn cluster ?? "";
     engine := DocDb.Engine cluster ?? "docdb";
     engineVersion := DocDb.EngineVersion cluster ?? "";
     status := DocDb.Status cluster ?? "";
     masterUsername := DocDb.MasterUsername cluster;
     endpoint := DocDb.Endpoint cluster;
     readerEndpoint := DocDb.ReaderEndpoint cluster;
     port := DocDb.Port cluster;
     multiAZ := DocDb.MultiAZ cluster ?? false;
     storageEncrypted := DocDb.StorageEncrypted cluster ?? false;
     kmsKeyId := DocDb.KmsKeyId cluster;
     dbSubnetGroup := DocDb.DBSubnetGroup cluster;
     vpcSecurityGroups :=
       truthy_strings DocDb.VpcSecurityGroupId (DocDb.VpcSecurityGroups cluster ?? []);
     backupRetentionPeriod := DocDb.BackupRetentionPeriod cluster ?? 0;
     preferredBackupWindow := DocDb.PreferredBackupWindow cluster;
     preferredMaintenanceWindow := DocDb.PreferredMaintenanceWindow cluster;
     latestRestorableTime := DocDb.LatestRestorableTime cluster;
     clusterCreateTime := DocDb.ClusterCreateTime cluster;
     deletionProtection := DocDb.DeletionProtection cluster ?? false;
     members :=
       map (fun m => {| m_dbInstanceIdentifier := DocDb.m_DBInstanceIdentifier m ?? "";
                        isClusterWriter := DocDb.IsClusterWriter m ?? false |})
           (DocDb.DBClusterMembers cluster ?? []);
     tags := tags_or_undefined (DocDb.Tags cluster) |}.

Definition mapInstance (instance : DocDb.DBInstance) : DocumentDbInstance :=
  {| dbInstanceIdentifier := DocDb.DBInstanceIdentifier instance ?? "";
     dbInstanceArn := DocDb.DBInstanceArn instance ?? "";
     dbInstanceClass := DocDb.DBInstanceClass instance ?? "";
     i_engine := DocDb.i_Engine instance ?? "docdb";
     i_engineVersion := DocDb.i_EngineVersion instance ?? "";
     dbInstanceStatus := DocDb.DBInstanceStatus instance ?? "";
     i_dbClusterIdentifier := DocDb.i_DBClusterIdentifier instance;
     availabilityZone := DocDb.AvailabilityZone instance;
     i_endpoint :=
       (fun e => {| address := DocDb.Address e ?? "";
                    e_port := DocDb.e_Port e ?? 0;
                    hostedZoneId := DocDb.HostedZoneId e |})
         <$> DocDb.i_Endpoint instance;
     promotionTier := DocDb.PromotionTier instance;
     publiclyAccessible := DocDb.PubliclyAccessible instance ?? false;
     autoMinorVersionUpgrade := DocDb.AutoMinorVersionUpgrade instance ?? false;
     instanceCreateTime := DocDb.InstanceCreateTime instance;
     i_tags := tags_or_undefined (DocDb.i_Tags instance) |}.

Definition mapParameterGroup (group : DocDb.DBClusterParameterGroup) : DocumentDbParameterGroup :=
  {| name := DocDb.DBClusterParameterGroupName group ?? "";
     arn := DocDb.DBClusterParameterGroupArn group ?? "";
     family := DocDb.DBParameterGroupFamily group ?? "";
     description := DocDb.Description group |}.

Definition mapSnapshot (snapshot : DocDb.DBClusterSnapshot) : DocumentDbSnapshot :=
  {| snapshotIdentifier := DocDb.DBClusterSnapshotIdentifier snapshot ?? "";
     snapshotArn := DocDb.DBClusterSnapshotArn snapshot ?? "";
     s_dbClusterIdentifier := DocDb.s_DBClusterIdentifier snapshot ?? "";
     snapshotType := DocDb.SnapshotType snapshot ?? "";
     s_status := DocDb.s_Status snapshot ?? "";
     snapshotCreateTime := DocDb.SnapshotCreateTime snapshot;
     s_engine := DocDb.s_Engine snapshot ?? "docdb";
     s_engineVersion := DocDb.s_EngineVersion snapshot ?? "";
     s_storageEncrypted := DocDb.s_StorageEncrypted snapshot ?? false |}.

Definition getClient (accountName : string) : M Client :=
  account ← AwsCredentialsProvider.getAccount accountName;
  match account with
  | None => throw (UnknownAccount accountName)
  | Some account =>
      credentials ← AwsCredentialsProvider.getCredentialsProvider accountName;
      mret {| client_service := DocDB;
              client_region := region account;
              client_credentials := Some credentials |}
  end.

Definition listClusters_round (client : Client) (s : list DocumentDbCluster * option string)
    : M (Completion (list DocumentDbCluster * option string)) :=
  let '(clusters, marker) := s in
  response ← send client (DocDbDescribeDBClustersCommand None marker);
  mret (Normal (clusters ++ map mapCluster (DocDb.DBClusters response ?? []),
                DocDb.Marker response)).

Definition listClusters (fuel : nat) (accountName : string) : M (list DocumentDbCluster) :=
  client ← getClient accountName;
  s ← doWhile fuel (listClusters_round client) (fun s => truthy (snd s)) ([], None);
  mret (fst s).

Definition getCluster (accountName dbClusterIdentifier : string) : M (option DocumentDbCluster) :=
  client ← getClient accountName;
  tryCatch
    (response ← send client (DocDbDescribeDBClustersCommand (Some dbClusterIdentifier) None);
     match DocDb.DBClusters response with
     | Some (cluster :: _) => mret (Some (mapCluster cluster))
     | _ => mret None
     end)
    (fun error =>
       if String.eqb (err_name error) "DBClusterNotFoundFault"
       then mret None
       else throw error).

Definition listInstances_round (client : Client) (s : list DocumentDbInstance * option string)
    : M (Completion (list DocumentDbInstance * option string)) :=
  let '(instances, marker) := s in
  response ← send client (DocDbDescribeDBInstancesCommand None marker);
  mret (Normal (instances ++ map mapInstance (DocDb.DBInstances response ?? []),
                DocDb.i_Marker response)).

Definition listInstances (fuel : nat) (accountName : string) : M (list DocumentDbInstance) :=
  client ← getClient accountName;
  s ← doWhile fuel (listInstances_round client) (fun s => truthy (snd s)) ([], None);
  mret (fst s).

Definition getInstance (accountName dbInstanceIdentifier : string)
    : M (option DocumentDbInstance) :=
  client ← getClient accountName;
  tryCatch
    (response ← send client (DocDbDescribeDBInstancesCommand (Some dbInstanceIdentifier) None);
     match DocDb.DBInstances response with
     | Some (instance :: _) => mret (Some (mapInstance instance))
     | _ => mret None
     end)
    (fun error =>
       if String.eqb (err_name error) "DBInstanceNotFoundFault"
       then mret None
       else throw error).

Definition listParameterGroups_round (client : Client)
    (s : list DocumentDbParameterGroup * option string)
    : M (Completion (list DocumentDbParameterGroup * option string)) :=
  let '(groups, marker) := s in
  response ← send client (DocDbDescribeDBClusterParameterGroupsCommand marker);
  mret (Normal (groups ++ map mapParameterGroup (DocDb.DBClusterParameterGroups response ?? []),
                DocDb.g_Marker response)).

Definition listParameterGroups (fuel : nat) (accountName : string)
    : M (list DocumentDbParameterGroup) :=
  client ← getClient accountName;
  s ← doWhile fuel (listParameterGroups_round client) (fun s => truthy (snd s)) ([], None);
  mret (fst s).

Definition listSnapshots_round (client : Client) (dbClusterIdentifier : option string)
    (s : list DocumentDbSnapshot * option string)
    : M (Completion (list DocumentDbSnapshot * option string)) :=
  let '(snapshots, marker) := s in
  response ← send client (DocDbDescribeDBClusterSnapshotsCommand dbClusterIdentifier marker);
  mret (Normal (snapshots ++ map mapSnapshot (DocDb.DBClusterSnapshots response ?? []),
                DocDb.s_Marker response)).

Definition listSnapshots (fuel : nat) (accountName : string) (dbClusterIdentifier : option string)
    : M (list DocumentDbSnapshot) :=
  client ← getClient accountName;
  s ← doWhile fuel (listSnapshots_round client dbClusterIdentifier) (fun s => truthy (snd s))
        ([], None);
  mret (fst s).

End DocumentDbProvider.

(** ** RdsProvider *)

Module RdsProvider.

Record ClusterMember := { m_dbInstanceIdentifier : string; isClusterWriter : bool }.

Record EndpointEntry := {
  address : string;
  e_port : Z;
  hostedZoneId : option string }.

Record RdsInstance := {
  dbInstanceIdentifier : string;
  dbInstanceArn : string;
  dbInstanceClass : string;
  i_engine : string;
  i_engineVersion : string;
  dbInstanceStatus : string;
  i_masterUsername : option string;
  i_allocatedStorage : Z;
  availabilityZone : option string;
  i_multiAZ : bool;
  i_endpoint : option EndpointEntry;
  storageType : string;
  i_storageEncrypted : bool;
  i_kmsKeyId : option string;
  publiclyAccessible : bool;
  autoMinorVersionUpgrade : bool;
  dbParameterGroupName : option string;
  i_vpcSecurityGroups : list string;
  dbSubnetGroupName : option string;
  i_backupRetentionPeriod : Z;
  i_preferredBackupWindow : option string;
  i_preferredMaintenanceWindow : option string;
  i_latestRestorableTime : option Z;
  instanceCreateTime : option Z;
  i_tags : option (gmap string string) }.

Record ScalingEntry := { minCapacity : option Z; maxCapacity : option Z }.

Record RdsCluster := {
  dbClusterIdentifier : string;
  dbClusterArn : string;
  engine : string;
  engineVersion : string;
  engineMode : option string;
  status : string;
  masterUsername : option string;
  allocatedStorage : option Z;
  endpoint : option string;
  readerEndpoint : option string;
  port : option Z;
  multiAZ : bool;
  storageEncrypted : bool;
  kmsKeyId : option string;
  dbSubnetGroup : option string;
  vpcSecurityGroups : list string;
  backupRetentionPeriod : Z;
  preferredBackupWindow : option string;
  preferredMaintenanceWindow : option string;
  latestRestorableTime : option Z;
  clusterCreateTime : option Z;
  deletionProtection : bool;
  serverlessV2ScalingConfiguration : option ScalingEntry;
  members : list ClusterMember;
  tags : option (gmap string string) }.

Record RdsParameterGroup := {
  name : string;
  arn : string;
  family : string;
  description : option string }.

Record RdsSnapshot := {
  snapshotIdentifier : string;
  snapshotArn : string;
  dbIdentifier : string;
  snapshotType : string;
  s_status : string;
  snapshotCreateTime : option Z;
  s_allocatedStorage : Z;
  s_engine : string;
  s_engineVersion : string;
  encrypted : bool }.

Definition mapInstance (instance : Rds.DBInstance) : RdsInstance :=
  {| dbInstanceIdentifier := Rds.DBInstanceIdentifier instance ?? "";
     dbInstanceArn := Rds.DBInstanceArn instance ?? "";
     dbInstanceClass := Rds.DBInstanceClass instance ?? "";
     i_engine := Rds.i_Engine instance ?? "";
     i_engineVersion := Rds.i_EngineVersion instance ?? "";
     dbInstanceStatus := Rds.DBInstanceStatus instance ?? "";
     i_masterUsername := Rds.i_MasterUsername instance;
     i_allocatedStorage := Rds.i_AllocatedStorage instance ?? 0;
     availabilityZone := Rds.AvailabilityZone instance;
     i_multiAZ := Rds.i_MultiAZ instance ?? false;
     i_endpoint :=
       (fun e => {| address := Rds.Address e ?? "";
                    e_port := Rds.e_Port e ?? 0;
                    hostedZoneId := Rds.HostedZoneId e |})
         <$> Rds.i_Endpoint instance;
     storageType := Rds.StorageType instance ?? "gp2";
     i_storageEncrypted := Rds.i_StorageEncrypted instance ?? false;
     i_kmsKeyId := Rds.i_KmsKeyId instance;
     publiclyAccessible := Rds.PubliclyAccessible instance ?? false;
     autoMinorVersionUpgrade := Rds.AutoMinorVersionUpgrade instance ?? false;
     dbParameterGroupName :=
       (Rds.DBParameterGroups instance ≫= head) ≫= Rds.pg_DBParameterGroupName;
     i_vpcSecurityGroups :=
       truthy_strings Rds.VpcSecurityGroupId (Rds.i_VpcSecurityGroups instance ?? []);
     dbSubnetGroupName := Rds.i_DBSubnetGroup instance ≫= Rds.DBSubnetGroupName;
     i_backupRetentionPeriod := Rds.i_BackupRetentionPeriod instance ?? 0;
     i_preferredBackupWindow := Rds.i_PreferredBackupWindow instance;
     i_preferredMaintenanceWindow := Rds.i_PreferredMaintenanceWindow instance;
     i_latestRestorableTime := Rds.i_LatestRestorableTime instance;
     instanceCreateTime := Rds.InstanceCreateTime instance;
     i_tags := tags_or_undefined (Rds.i_TagList instance) |}.

Definition mapCluster (cluster : Rds.DBCluster) : RdsCluster :=
  {| dbClusterIdentifier := Rds.DBClusterIdentifier cluster ?? "";
     dbClusterArn := Rds.DBClusterArn cluster ?? "";
     engine := Rds.Engine cluster ?? "";
     engineVersion := Rds.EngineVersion cluster ?? "";
     engineMode := Rds.EngineMode cluster;
     status := Rds.Status cluster ?? "";
     masterUsername := Rds.MasterUsername cluster;
     allocatedStorage := Rds.AllocatedStorage cluster;
     endpoint := Rds.Endpoint cluster;
     readerEndpoint := Rds.ReaderEndpoint cluster;
     port := Rds.Port cluster;
     multiAZ := Rds.MultiAZ cluster ?? false;
     storageEncrypted := Rds.StorageEncrypted cluster ?? false;
     kmsKeyId := Rds.KmsKeyId cluster;
     dbSubnetGroup := Rds.DBSubnetGroup cluster;
     vpcSecurityGroups :=
       truthy_strings Rds.VpcSecurityGroupId (Rds.VpcSecurityGroups cluster ?? []);
     backupRetentionPeriod := Rds.BackupRetentionPeriod cluster ?? 0;
     preferredBackupWindow := Rds.PreferredBackupWindow cluster;
     preferredMaintenanceWindow := Rds.PreferredMaintenanceWindow cluster;
     latestRestorableTime := Rds.LatestRestorableTime cluster;
     clusterCreateTime := Rds.ClusterCreateTime cluster;
     deletionProtection := Rds.DeletionProtection cluster ?? false;
     serverlessV2ScalingConfiguration :=
       (fun c => {| minCapacity := Rds.MinCapacity c; maxCapacity := Rds.MaxCapacity c |})
         <$> Rds.ServerlessV2ScalingConfiguration cluster;
     members :=
       map (fun m => {| m_dbInstanceIdentifier := Rds.m_DBInstanceIdentifier m ?? "";
                        isClusterWriter := Rds.IsClusterWriter m ?? false |})
           (Rds.DBClusterMembers cluster ?? []);
     tags := tags_or_undefined (Rds.TagList cluster) |}.

Definition mapParameterGroup (group : Rds.DBParameterGroup) : RdsParameterGroup :=
  {| name := Rds.DBParameterGroupName group ?? "";
     arn := Rds.DBParameterGroupArn group ?? "";
     family := Rds.DBParameterGroupFamily group ?? "";
     description := Rds.Description group |}.

Definition mapClusterParameterGroup (group : Rds.DBClusterParameterGroup) : RdsParameterGroup :=
  {| name := Rds.DBClusterParameterGroupName group ?? "";
     arn := Rds.DBClusterParameterGroupArn group ?? "";
     family := Rds.c_DBParameterGroupFamily group ?? "";
     description := Rds.c_Description group |}.

Definition mapSnapshot (snapshot : Rds.DBSnapshot) : RdsSnapshot :=
  {| snapshotIdentifier := Rds.DBSnapshotIdentifier snapshot ?? "";
     snapshotArn := Rds.DBSnapshotArn snapshot ?? "";
     dbIdentifier := Rds.s_DBInstanceIdentifier snapshot ?? "";
     snapshotType := Rds.SnapshotType snapshot ?? "";
     s_status := Rds.s_Status snapshot ?? "";
     snapshotCreateTime := Rds.SnapshotCreateTime snapshot;
     s_allocatedStorage := Rds.s_AllocatedStorage snapshot ?? 0;
     s_engine := Rds.s_Engine snapshot ?? "";
     s_engineVersion := Rds.s_EngineVersion snapshot ?? "";
     encrypted := Rds.Encrypted snapshot ?? false |}.

Definition mapClusterSnapshot (snapshot : Rds.DBClusterSnapshot) : RdsSnapshot :=
  {| snapshotIdentifier := Rds.DBClusterSnapshotIdentifier snapshot ?? "";
     snapshotArn := Rds.DBClusterSnapshotArn snapshot ?? "";
     dbIdentifier := Rds.cs_DBClusterIdentifier snapshot ?? "";
     snapshotType := Rds.cs_SnapshotType snapshot ?? "";
     s_status := Rds.cs_Status snapshot ?? "";
     snapshotCreateTime := Rds.cs_SnapshotCreateTime snapshot;
     s_allocatedStorage := Rds.cs_AllocatedStorage snapshot ?? 0;
     s_engine := Rds.cs_Engine snapshot ?? "";
     s_engineVersion := Rds.cs_EngineVersion snapshot ?? "";
     encrypted := Rds.cs_StorageEncrypted snapshot ?? false |}.

Definition getClient (accountName : string) : M Client :=
  account ← AwsCredentialsProvider.getAccount accountName;
  match account with
  | None => throw (UnknownAccount accountName)
  | Some account =>
      credentials ← AwsCredentialsProvider.getCredentialsProvider accountName;
      mret {| client_service := RDS;
              client_region := region account;
              client_credentials := Some credentials |}
  end.

Definition listInstances_round (client : Client) (s : list RdsInstance * option string)
    : M (Completion (list RdsInstance * option string)) :=
  let '(instances, marker) := s in
  response ← send client (RdsDescribeDBInstancesCommand None marker);
  mret (Normal (instances ++ map mapInstance (Rds.DBInstances response ?? []),
                Rds.i_Marker response)).

Definition listInstances (fuel : nat) (accountName : string) : M (list RdsInstance) :=
  client ← getClient accountName;
  s ← doWhile fuel (listInstances_round client) (fun s => truthy (snd s)) ([], None);
  mret (fst s).

Definition getInstance (accountName dbInstanceIdentifier : string) : M (option RdsInstance) :=
  client ← getClient accountName;
  tryCatch
    (response ← send client (RdsDescribeDBInstancesCommand (Some dbInstanceIdentifier) None);
     match Rds.DBInstances response with
     | Some (instance :: _) => mret (Some (mapInstance instance))
     | _ => mret None
     end)
    (fun error =>
       if String.eqb (err_name error) "DBInstanceNotFoundFault"
       then mret None
       else throw error).

Definition listClusters_round (client : Client) (s : list RdsCluster * option string)
    : M (Completion (list RdsCluster * option string)) :=
  let '(clusters, marker) := s in
  response ← send client (RdsDescribeDBClustersCommand None marker);
  mret (Normal (clusters ++ map mapCluster (Rds.DBClusters response ?? []),
                Rds.Marker response)).

Definition listClusters (fuel : nat) (accountName : string) : M (list RdsCluster) :=
  client ← getClient accountName;
  s ← doWhile fuel (listClusters_round client) (fun s => truthy (snd s)) ([], None);
  mret (fst s).

Definition getCluster (accountName dbClusterIdentifier : string) : M (option RdsCluster) :=
  client ← getClient accountName;
  tryCatch
    (response ← send client (RdsDescribeDBClustersCommand (Some dbClusterIdentifier) None);
     match Rds.DBClusters response with
     | Some (cluster :: _) => mret (Some (mapCluster cluster))
     | _ => mret None
     end)
    (fun error =>
       if String.eqb (err_name error) "DBClusterNotFoundFault"
       then mret None
       else throw error).

Definition listParameterGroups_round (client : Client) (s : list RdsParameterGroup * option string)
    : M (Completion (list RdsParameterGroup * option string)) :=
  let '(groups, marker) := s in
  response ← send client (RdsDescribeDBParameterGroupsCommand marker);
  mret (Normal (groups ++ map mapParameterGroup (Rds.DBParameterGroups_ response ?? []),
                Rds.g_Marker response)).

Definition listParameterGroups (fuel : nat) (accountName : string) : M (list RdsParameterGroup) :=
  client ← getClient accountName;
  s ← doWhile fuel (listParameterGroups_round client) (fun s => truthy (snd s)) ([], None);
  mret (fst s).

Definition listClusterParameterGroups_round (client : Client)
    (s : list RdsParameterGroup * option string)
    : M (Completion (list RdsParameterGroup * option string)) :=
  let '(groups, marker) := s in
  response ← send client (RdsDescribeDBClusterParameterGroupsCommand marker);
  mret (Normal (groups ++ map mapClusterParameterGroup
                              (Rds.DBClusterParameterGroups response ?? []),
                Rds.c_Marker response)).

Definition listClusterParameterGroups (fuel : nat) (accountName : string)
    : M (list RdsParameterGroup) :=
  client ← getClient accountName;
  s ← doWhile fuel (listClusterParameterGroups_round client) (fun s => truthy (snd s)) ([], None);
  mret (fst s).

Definition listSnapshots_round (client : Client) (dbInstanceIdentifier : option string)
    (s : list RdsSnapshot * option string)
    : M (Completion (list RdsSnapshot * option string)) :=
  let '(snapshots, marker) := s in
  response ← send client (RdsDescribeDBSnapshotsCommand dbInstanceIdentifier marker);
  mret (Normal (snapshots ++ map mapSnapshot (Rds.DBSnapshots response ?? []),
                Rds.s_Marker response)).

Definition listSnapshots (fuel : nat) (accountName : string) (dbInstanceIdentifier : option string)
    : M (list RdsSnapshot) :=
  client ← getClient accountName;
  s ← doWhile fuel (listSnapshots_round client dbInstanceIdentifier) (fun s => truthy (snd s))
        ([], None);
  mret (fst s).

Definition listClusterSnapshots_round (client : Client) (dbClusterIdentifier : option string)
    (s : list RdsSnapshot * option string)
    : M (Completion (list RdsSnapshot * option string)) :=
  let '(snapshots, marker) := s in
  response ← send client (RdsDescribeDBClusterSnapshotsCommand dbClusterIdentifier marker);
  mret (Normal (snapshots ++ map mapClusterSnapshot (Rds.DBClusterSnapshots response ?? []),
                Rds.cs_Marker response)).

Definition listClusterSnapshots (fuel : nat) (accountName : string)
    (dbClusterIdentifier : option string) : M (list RdsSnapshot) :=
  client ← getClient accountName;
  s ← doWhile fuel (listClusterSnapshots_round client dbClusterIdentifier)
        (fun s => truthy (snd s)) ([], None);
  mret (fst s).

End RdsProvider.

(** ** ApiGatewayProvider *)

Module ApiGatewayProvider.

Record EndpointConfigurationEntry := {
  types : list string;
  vpcEndpointIds : option (list string) }.

Record ApiGatewayRestApi := {
  id : string;
  name : string;
  description : option string;
  createdDate : option Z;
  version : option string;
  endpointConfiguration : option EndpointConfigurationEntry;
  policy : option string;
  tags : option (gmap string string) }.

Record ApiGatewayStage := {
  stageName : string;
  deploymentId : option string;
  s_description : option string;
  s_createdDate : option Z;
  lastUpdatedDate : option Z;
  cacheClusterEnabled : bool;
  cacheClusterSize : option string;
  cacheClusterStatus : option string;
  tracingEnabled : bool;
  s_tags : option (gmap string string) }.

Record ApiGatewayDeployment := {
  d_id : string;
  d_description : option string;
  d_createdDate : option Z }.

Record ApiGatewayResource := {
  r_id : string;
  parentId : option string;
  path : string;
  methods : list string }.

Record CorsEntry := {
  allowOrigins : option (list string);
  allowMethods : option (list string);
  allowHeaders : option (list string);
  maxAge : option Z }.

Record ApiGatewayHttpApi := {
  apiId : string;
  h_name : string;
  h_description : option string;
  protocolType : string;
  apiEndpoint : option string;
  h_createdDate : option Z;
  h_version : option string;
  corsConfiguration : option CorsEntry;
  h_tags : option (gmap string string) }.

Record ApiGatewayHttpStage := {
  hs_stageName : string;
  hs_deploymentId : option string;
  hs_description : option string;
  hs_createdDate : option Z;
  hs_lastUpdatedDate : option Z;
  autoDeploy : bool;
  hs_tags : option (gmap string string) }.

Record ApiGatewayHttpRoute := {
  routeId : string;
  routeKey : string;
  target : option string;
  authorizationType : option string;
  authorizerId : option string }.

Definition mapRestApi (api : ApiGateway.RestApi) : ApiGatewayRestApi :=
  {| id := ApiGateway.id api ?? "";
     name := ApiGateway.name api ?? "";
     description := ApiGateway.description api;
     createdDate := ApiGateway.createdDate api;
     version := ApiGateway.version api;
     endpointConfiguration :=
       (fun c => {| types := ApiGateway.types c ?? [];
                    vpcEndpointIds := ApiGateway.vpcEndpointIds c |})
         <$> ApiGateway.endpointConfiguration api;
     policy := ApiGateway.policy api;
     tags := ApiGateway.tags api |}.

Definition mapStage (stage : ApiGateway.Stage) : ApiGatewayStage :=
  {| stageName := ApiGateway.stageName stage ?? "";
     deploymentId := ApiGateway.deploymentId stage;
     s_description := ApiGateway.s_description stage;
     s_createdDate := ApiGateway.s_createdDate stage;
     lastUpdatedDate := ApiGateway.lastUpdatedDate stage;
     cacheClusterEnabled := ApiGateway.cacheClusterEnabled stage ?? false;
     cacheClusterSize := ApiGateway.cacheClusterSize stage;
     cacheClusterStatus := ApiGateway.cacheClusterStatus stage;
     tracingEnabled := ApiGateway.tracingEnabled stage ?? false;
     s_tags := ApiGateway.s_tags stage |}.

Definition mapDeployment (deployment : ApiGateway.Deployment) : ApiGatewayDeployment :=
  {| d_id := ApiGateway.d_id deployment ?? "";
     d_description := ApiGateway.d_description deployment;
     d_createdDate := ApiGateway.d_createdDate deployment |}.

Definition mapResource (resource : ApiGateway.Resource) : ApiGatewayResource :=
  {| r_id := ApiGateway.r_id resource ?? "";
     parentId := ApiGateway.parentId resource;
     path := ApiGateway.path resource ?? "";
     methods := ApiGateway.resourceMethods resource ?? [] |}.

Definition mapHttpApi (api : ApiGatewayV2.Api) : ApiGatewayHttpApi :=
  {| apiId := ApiGatewayV2.ApiId api ?? "";
     h_name := ApiGatewayV2.Name api ?? "";
     h_description := ApiGatewayV2.Description api;
     protocolType := ApiGatewayV2.ProtocolType api ?? "";
     apiEndpoint := ApiGatewayV2.ApiEndpoint api;
     h_createdDate := ApiGatewayV2.CreatedDate api;
     h_version := ApiGatewayV2.Version api;
     corsConfiguration :=
       (fun c => {| allowOrigins := ApiGatewayV2.AllowOrigins c;
                    allowMethods := ApiGatewayV2.AllowMethods c;
                    allowHeaders := ApiGatewayV2.AllowHeaders c;
                    maxAge := ApiGatewayV2.MaxAge c |})
         <$> ApiGatewayV2.CorsConfiguration api;
     h_tags := ApiGatewayV2.Tags api |}.

Definition mapHttpStage (stage : ApiGatewayV2.Stage) : ApiGatewayHttpStage :=
  {| hs_stageName := ApiGatewayV2.StageName stage ?? "";
     hs_deploymentId := ApiGatewayV2.DeploymentId stage;
     hs_description := ApiGatewayV2.s_Description stage;
     hs_createdDate := ApiGatewayV2.s_CreatedDate stage;
     hs_lastUpdatedDate := ApiGatewayV2.LastUpdatedDate stage;
     autoDeploy := ApiGatewayV2.AutoDeploy stage ?? false;
     hs_tags := ApiGatewayV2.s_Tags stage |}.

Definition mapHttpRoute (route : ApiGatewayV2.Route) : ApiGatewayHttpRoute :=
  {| routeId := ApiGatewayV2.RouteId route ?? "";
     routeKey := ApiGatewayV2.RouteKey route ?? "";
     target := ApiGatewayV2.Target route;
     authorizationType := ApiGatewayV2.AuthorizationType route;
     authorizerId := ApiGatewayV2.AuthorizerId route |}.

Definition getV1Client (accountName : string) : M Client :=
  account ← AwsCredentialsProvider.getAccount accountName;
  match account with
  | None => throw (UnknownAccount accountName)
  | Some account =>
      credentials ← AwsCredentialsProvider.getCredentialsProvider accountName;
      mret {| client_service := APIGateway;
              client_region := region account;
              client_credentials := Some credentials |}
  end.

Definition getV2Client (accountName : string) : M Client :=
  account ← AwsCredentialsProvider.getAccount accountName;
  match account with
  | None => throw (UnknownAccount accountName)
  | Some account =>
      credentials ← AwsCredentialsProvider.getCredentialsProvider accountName;
      mret {| client_service := APIGatewayV2;
              client_region := region account;
              client_credentials := Some credentials |}
  end.

(* REST API (v1) *)

Definition listRestApis_round (client : Client) (s : list ApiGatewayRestApi * option string)
    : M (Completion (list ApiGatewayRestApi * option string)) :=
  let '(apis, position) := s in
  response ← send client (GetRestApisCommand position);
  mret (Normal (apis ++ map mapRestApi (ApiGateway.items response ?? []),
                ApiGateway.position response)).

Definition listRestApis (fuel : nat) (accountName : string) : M (list ApiGatewayRestApi) :=
  client ← getV1Client accountName;
  s ← doWhile fuel (listRestApis_round client) (fun s => truthy (snd s)) ([], None);
  mret (fst s).

Definition getRestApi (accountName restApiId : string) : M (option ApiGatewayRestApi) :=
  client ← getV1Client accountName;
  tryCatch
    (response ← send client (GetRestApiCommand restApiId);
     mret (Some (mapRestApi response)))
    (fun error =>
       if String.eqb (err_name error) "NotFoundException"
       then mret None
       else throw error).

Definition getRestApiStages (accountName restApiId : string) : M (list ApiGatewayStage) :=
  client ← getV1Client accountName;
  response ← send client (GetStagesCommand restApiId);
  mret (map mapStage (ApiGateway.item response ?? [])).

Definition getRestApiDeployments_round (client : Client) (restApiId : string)
    (s : list ApiGatewayDeployment * option string)
    : M (Completion (list ApiGatewayDeployment * option string)) :=
  let '(deployments, position) := s in
  response ← send client (GetDeploymentsCommand restApiId position);
  mret (Normal (deployments ++ map mapDeployment (ApiGateway.d_items response ?? []),
                ApiGateway.d_position response)).

Definition getRestApiDeployments (fuel : nat) (accountName restApiId : string)
    : M (list ApiGatewayDeployment) :=
  client ← getV1Client accountName;
  s ← doWhile fuel (getRestApiDeployments_round client restApiId) (fun s => truthy (snd s))
        ([], None);
  mret (fst s).

Definition getRestApiResources_round (client : Client) (restApiId : string)
    (s : list ApiGatewayResource * option string)
    : M (Completion (list ApiGatewayResource * option string)) :=
  let '(resources, position) := s in
  response ← send client (GetResourcesCommand restApiId position);
  mret (Normal (resources ++ map mapResource (ApiGateway.r_items response ?? []),
                ApiGateway.r_position response)).

Definition getRestApiResources (fuel : nat) (accountName restApiId : string)
    : M (list ApiGatewayResource) :=
  client ← getV1Client accountName;
  s ← doWhile fuel (getRestApiResources_round client restApiId) (fun s => truthy (snd s))
        ([], None);
  mret (fst s).

(* HTTP API (v2) *)

Definition listHttpApis_round (client : Client) (s : list ApiGatewayHttpApi * option string)
    : M (Completion (list ApiGatewayHttpApi * option string)) :=
  let '(apis, nextToken) := s in
  response ← send client (GetApisCommand nextToken);
  mret (Normal (apis ++ map mapHttpApi (ApiGatewayV2.Items response ?? []),
                ApiGatewayV2.NextToken response)).

Definition listHttpApis (fuel : nat) (accountName : string) : M (list ApiGatewayHttpApi) :=
  client ← getV2Client accountName;
  s ← doWhile fuel (listHttpApis_round client) (fun s => truthy (snd s)) ([], None);
  mret (fst s).

Definition getHttpApi (accountName apiId : string) : M (option ApiGatewayHttpApi) :=
  client ← getV2Client accountName;
  tryCatch
    (response ← send client (GetApiCommand apiId);
     mret (Some (mapHttpApi response)))
    (fun error =>
       if String.eqb (err_name error) "NotFoundException"
       then mret None
       else throw error).

Definition getHttpApiStages_round (client : Client) (apiId : string)
    (s : list ApiGatewayHttpStage * option string)
    : M (Completion (list ApiGatewayHttpStage * option string)) :=
  let '(stages, nextToken) := s in
  response ← send client (GetStagesV2Command apiId nextToken);
  mret (Normal (stages ++ map mapHttpStage (ApiGatewayV2.s_Items response ?? []),
                ApiGatewayV2.s_NextToken response)).

Definition getHttpApiStages (fuel : nat) (accountName apiId : string)
    : M (list ApiGatewayHttpStage) :=
  client ← getV2Client accountName;
  s ← doWhile fuel (getHttpApiStages_round client apiId) (fun s => truthy (snd s)) ([], None);
  mret (fst s).

Definition getHttpApiRoutes_round (client : Client) (apiId : string)
    (s : list ApiGatewayHttpRoute * option string)
    : M (Completion (list ApiGatewayHttpRoute * option string)) :=
  let '(routes, nextToken) := s in
  response ← send client (GetRoutesCommand apiId nextToken);
  mret (Normal (routes ++ map mapHttpRoute (ApiGatewayV2.r_Items response ?? []),
                ApiGatewayV2.r_NextToken response)).

Definition getHttpApiRoutes (fuel : nat) (accountName apiId : string)
    : M (list ApiGatewayHttpRoute) :=
  client ← getV2Client accountName;
  s ← doWhile fuel (getHttpApiRoutes_round client apiId) (fun s => truthy (snd s)) ([], None);
  mret (fst s).

End ApiGatewayProvider.

(** ** Vocabulary of the statements *)

(** The client every [getClient] builds for a registered account when
    the clock reads [now]. *)
Definition clientFor (service : Service) (account : AwsAccount) (now : Z) : Client :=
  {| client_service := service;
     client_region := region account;
     client_credentials :=
       Some (TemporaryCredentialsProvider
               {| params := AwsCredentialsProvider.assumeRoleParams account now;
                  clientConfig_region := region account |}) |}.

(** *** Paginated listings *)

Section Pages.
Context {R Item : Type}.
Variables (w : World) (client : Client).
Variable command : option string -> Command R.
Variable items : R -> list Item.
Variable next : R -> option string.

(** The shape every plain listing round has: fetch with the cursor,
    append the page's items, keep the page's cursor. *)
Definition pageRound (s : list Item * option string) : M (Completion (list Item * option string)) :=
  let '(acc, cursor) := s in
  response ← send client (command cursor);
  mret (Normal (acc ++ items response, next response)).

(** The vendor answers the request for [cursor] with the first of
    [pages], whose cursor leads to the rest; the last page, and only
    the last, carries no cursor (absent or empty). *)
Inductive serves : option string -> list R -> Prop :=
| serves_last cursor page :
    vendor w client R (command cursor) = inr page ->
    truthy (next page) = false ->
    serves cursor [page]
| serves_more cursor page pages :
    vendor w client R (command cursor) = inr page ->
    truthy (next page) = true ->
    serves (next page) pages ->
    serves cursor (page :: pages).

(** The cursors a collector has to send to read [pages]: the start
    cursor, then the cursor of each page but the last. *)
Fixpoint requested (cursor : option string) (pages : list R) : list (option string) :=
  match pages with
  | [] => []
  | page :: pages' => cursor :: requested (next page) pages'
  end.

Definition fetches (cursor : option string) (pages : list R) : list Call :=
  map (fun c => mkCall client (command c)) (requested cursor pages).

Definition allItems (pages : list R) : list Item := concat (map items pages).
End Pages.

(** [listing] collects the pages of [command]: for a registered
    account and any pages the vendor serves up to a page without
    cursor, it returns the items of all pages concatenated in the
    vendor's order and sends one request per page, the first without
    cursor, each further one with the cursor of the page before. *)
Definition collects {R Item} (service : Service) (command : option string -> Command R)
    (items : R -> list Item) (next : R -> option string)
    (listing : nat -> string -> M (list Item)) : Prop :=
  forall w st accountName account fuel pages,
    accounts w !! accountName = Some account ->
    let client := clientFor service account (clock w (ticks st)) in
    serves w client command next None pages ->
    (length pages <= fuel)%nat ->
    listing fuel accountName w st
    = (Ok (allItems items pages),
       add_requests (fetches client command next None pages) (tick 1 st)).

(** What [listRepositories] makes of a repository: the mapped
    repository, with the tags of the tags request when that answers
    with any. *)
Definition repositoryWithTags (w : World) (client : Client) (repo : Ecr.Repository)
    : EcrProvider.EcrRepository :=
  match vendor w client _ (ListTagsForResourceCommand (Ecr.repositoryArn repo)) with
  | inr response =>
      match tags_if_any (Ecr.tags response) with
      | Some tags => EcrProvider.set_tags (EcrProvider.mapRepository repo) tags
      | None => EcrProvider.mapRepository repo
      end
  | inl _ => EcrProvider.mapRepository repo
  end.

(** The requests of [listRepositories] for [pages]: each page request
    is followed by one tags request per repository of the page. *)
Fixpoint repositoryFetches (client : Client) (cursor : option string)
    (pages : list Ecr.DescribeRepositoriesResponse) : list Call :=
  match pages with
  | [] => []
  | page :: pages' =>
      mkCall client (DescribeRepositoriesCommand None cursor)
      :: map (fun repo => mkCall client (ListTagsForResourceCommand (Ecr.repositoryArn repo)))
             (Ecr.repositories page ?? [])
      ++ repositoryFetches client (Ecr.d_nextToken page) pages'
  end.

(** *** Credentials suppliers *)

(** Modelled from the documentation of the AWS SDK, not translated from
    this repository: [fromTemporaryCredentials] belongs to the package
    [@aws-sdk/credential-providers], of which the repository holds no
    source.  What the SDK does when a client asks the provider made by
    [fromTemporaryCredentials(options)] for credentials: one
    [AssumeRole] exchange through an STS client of
    [options.clientConfig], with [options.params]; an answer without
    credentials, without access key or without secret key is a
    [CredentialsProviderError] that names the role.  A client keeps the
    credentials it was given until they are about to expire; that memory
    is the client's own and is left out.  The SDK holds no reference to
    [AwsCredentialsProvider] or its cache.  No statement about the code
    of the repository rests on this definition: it only serves to show
    what the specification's supplier is not. *)
Definition invokeTemporaryCredentials (o : FromTemporaryCredentialsOptions) : M AwsCredentialIdentity :=
  response ← send {| client_service := STS;
                     client_region := clientConfig_region o;
                     client_credentials := None |}
                  (AssumeRoleCommand (params o));
  let invalid :=
    {| err_name := "CredentialsProviderError";
       err_message := "Invalid response from STS.assumeRole call with role "
                        +:+ Sts.RoleArn (params o) |} in
  match Sts.Credentials response with
  | None => throw invalid
  | Some c =>
      if truthy (Sts.AccessKeyId c) && truthy (Sts.SecretAccessKey c)
      then mret {| accessKeyId := Sts.AccessKeyId c;
                   secretAccessKey := Sts.SecretAccessKey c;
                   sessionToken := Sts.SessionToken c;
                   expiration := Sts.Expiration c |}
      else throw invalid
  end.

(** Credentials as a client obtains them from its [credentials] entry. *)
Definition supply (setting : CredentialsSetting) : M AwsCredentialIdentity :=
  match setting with
  | StaticIdentity c => mret c
  | TemporaryCredentialsProvider o => invokeTemporaryCredentials o
  end.

(** Reading the credentials object behind a reference. *)
Definition deref (l : loc) : M AwsCredentialIdentity := fun _ st =>
  match heap st !! l with
  | Some c => (Ok c, st)
  | None => (Throw (mkError "dangling reference"), st)
  end.

(** The supplier the specification describes: one that obtains
    credentials by calling [getCredentials] (resolve) of the broker. *)
Definition brokerSupplier (accountName : string) : M AwsCredentialIdentity :=
  l ← AwsCredentialsProvider.getCredentials accountName;
  deref l.

(** *** Tasks *)

(** What a task comes to, and the requests it sends from where it
    stands: the world fixes both, since an answer depends on the request
    only. *)
Fixpoint outcome {A} (w : World) (t : Task A) : Result A :=
  match t with
  | Fulfilled a => Ok a
  | Rejected e => Throw e
  | Awaiting client cmd resume => outcome w (resume (vendor w client _ cmd))
  end.

Fixpoint itinerary {A} (w : World) (t : Task A) : list Call :=
  match t with
  | Awaiting client cmd resume => mkCall client cmd :: itinerary w (resume (vendor w client _ cmd))
  | _ => []
  end.

(** No task of the pool is rejected. *)
Definition noneRejected {A} (pool : list (Task A)) : Prop :=
  Forall (fun t => forall e, t <> Rejected e) pool.

(** The pools a [Promise.all] goes through while [n] answers arrive:
    the pool it starts from and the pool after each answer. *)
Fixpoint snapshots {A} (n : nat) (w : World) (pool : list (Task A)) (st : St)
    : list (list (Task A)) :=
  match n with
  | O => [pool]
  | S n' =>
      let waiting := outstanding pool in
      let i := (arrival w (requests st) waiting `mod` length waiting)%nat in
      let '(pool', resumed) := answer w i pool in
      pool :: snapshots n' w pool' (noteRequest resumed st)
  end.

(** The pools that [Promise.all(calls)] goes through when it is reached
    in [st], from the moment all calls are made until the last answer
    is in. *)
Definition poolsOf {A} (calls : list (M (Task A))) (w : World) (st : St)
    : list (list (Task A)) :=
  match startAll calls w st with
  | (Ok pool, st1) =>
      snapshots (sum_list (awaits w <$> pool)) w pool (add_requests (outstanding pool) st1)
  | _ => []
  end.

(** *** Batches *)

(** The specification's batching: consecutive groups of [n], in order. *)
Fixpoint chunks_from {A} (fuel n : nat) (l : list A) : list (list A) :=
  match fuel with
  | O => []
  | S fuel' =>
      match l with
      | [] => []
      | _ => take n l :: chunks_from fuel' n (drop n l)
      end
  end.

Definition chunks {A} (n : nat) (l : list A) : list (list A) :=
  chunks_from (length l) n l.

(** Groups processed one after the other: a group's detail fetches are
    all awaited before the next group starts; what a group yields is
    appended in the group's order. *)
Fixpoint processBatches {A} (detail : string -> M (Task (option A)))
    (batches : list (list string)) (acc : list A) : M (list A) :=
  match batches with
  | [] => mret acc
  | batch :: rest =>
      results ← promiseAll (map detail batch);
      processBatches detail rest (acc ++ defined results)
  end.

(** *** Tags *)

(** A vendor tag that ends up as a property of the tag object. *)
Definition usable (tag : Tag) : bool :=
  truthy (Key tag) && truthy (Value tag) && negb (String.eqb (Key tag ?? "") "__proto__").

(** The rule of the mappers that build the tag map: [tags] is undefined
    exactly when no tag of the vendor's list is usable; otherwise it is
    a non-empty map, whose keys are the keys of the usable tags and
    whose every entry is a usable tag of the list. *)
Definition normalized (vendorTags : option (list Tag)) (tags : option (gmap string string))
    : Prop :=
  (tags = None <-> Forall (fun tag => usable tag = false) (vendorTags ?? [])) /\
  (forall o, tags = Some o ->
     o <> ∅ /\
     (forall k, is_Some (o !! k)
                <-> exists tag, tag ∈ vendorTags ?? [] /\ usable tag = true /\ Key tag = Some k) /\
     (forall k v, o !! k = Some v ->
                  exists tag, tag ∈ vendorTags ?? [] /\ usable tag = true /\
                              Key tag = Some k /\ Value tag = Some v)).

(** *** Secret parameter values *)

(** A vendor parameter with the value of a [SecureString] blanked. *)
Definition redact (p : Ssm.VendorParameter) : Ssm.VendorParameter :=
  if str_is (Ssm.Type_ p) "SecureString"
  then {| Ssm.Name := Ssm.Name p; Ssm.Type_ := Ssm.Type_ p; Ssm.Value := None;
          Ssm.Version := Ssm.Version p; Ssm.LastModifiedDate := Ssm.LastModifiedDate p;
          Ssm.ARN := Ssm.ARN p; Ssm.DataType := Ssm.DataType p |}
  else p.

Definition redactAnswer {R} (cmd : Command R) : R -> R :=
  match cmd in Command R return R -> R with
  | GetParameterCommand _ => fun r => {| Ssm.Parameter_ := redact <$> Ssm.Parameter_ r |}
  | GetParametersByPathCommand _ => fun r =>
      {| Ssm.Parameters_ := map redact <$> Ssm.Parameters_ r;
         Ssm.r_NextToken := Ssm.r_NextToken r |}
  | _ => fun r => r
  end.

(** Two worlds that differ at most in the stored values of
    [SecureString] parameters. *)
Definition sameButSecrets (w1 w2 : World) : Prop :=
  accounts w1 = accounts w2 /\
  (forall n, clock w1 n = clock w2 n) /\
  (forall client R (cmd : Command R),
      sum_map id (redactAnswer cmd) (vendor w1 client R cmd) =
      sum_map id (redactAnswer cmd) (vendor w2 client R cmd)).

(** *** Leases *)

(** The credentials object built from an STS answer. *)
Definition identityOf (c : Sts.StsCredentials) : AwsCredentialIdentity :=
  {| accessKeyId := Sts.AccessKeyId c;
     secretAccessKey := Sts.SecretAccessKey c;
     sessionToken := Sts.SessionToken c;
     expiration := Sts.Expiration c |}.

(** The exchange [getCredentials] sends when the clock reads [now]. *)
Definition exchange (account : AwsAccount) (now : Z) : Call :=
  mkCall (AwsCredentialsProvider.stsClient account)
         (AssumeRoleCommand (AwsCredentialsProvider.assumeRoleParams account now)).

(** The cached lease of [accountName] is [entry] and it outlives the
    safety margin of 60 s when the clock reads [now]. *)
Definition leaseValid (st : St) (accountName : string) (now : Z) (entry : CacheEntry) : Prop :=
  credentialsCache st !! accountName = Some entry /\ expiresAt entry > now + 60000.



(** *** Image listings *)

(** The images of [pages], mapped, in the vendor's order. *)
Definition imagesOf (repositoryName : string) (pages : list Ecr.DescribeImagesResponse)
    : list EcrProvider.EcrImage :=
  allItems (fun page => map (EcrProvider.mapImage repositoryName) (Ecr.imageDetails page ?? []))
           pages.

(** [a] is not older than [b]. *)
Definition notOlder (a b : EcrProvider.EcrImage) : Prop :=
  EcrProvider.imagePushedAt b ?? 0 <= EcrProvider.imagePushedAt a ?? 0.

(** The test behind "Stop if we have enough". *)
Definition enough (maxResults : option JsNumber) (images : list EcrProvider.EcrImage) : bool :=
  truthy_num maxResults && length_ge (length images) (maxResults ?? NaN).

(** *** Enrichment *)

(** The only error the request [cmd] raises, if any, is the one named
    [literal]. *)
Definition raisesOnly {R} (w : World) (client : Client) (cmd : Command R) (literal : string) : Prop :=
  forall e, vendor w client R cmd = inl e -> err_name e = literal.

(** ** Fixtures

    Concrete worlds on which the statements below are exercised. *)

Module Fixture.

Definition prod : AwsAccount :=
  {| name := "prod";
     accountId := "111122223333";
     region := "eu-west-1";
     roleArn := "arn:aws:iam::111122223333:role/backstage";
     externalId := Some "backstage" |}.

Definition registry : gmap string AwsAccount := loadAccounts [prod].

(** The clock starts at 1 000 000 ms and advances 1 ms per reading. *)
Definition wallClock (n : nat) : Z := 1000000 + Z.of_nat n.

Definition unsupported {R} : JsError + R :=
  inl {| err_name := "UnsupportedOperation"; err_message := "not in this fixture" |}.

Definition denied {R} : JsError + R :=
  inl {| err_name := "AccessDeniedException"; err_message := "not authorized" |}.

(** An STS that answers every exchange with the same credentials. *)
Definition stsAnswer (expiry : option Z) : Sts.AssumeRoleResponse :=
  {| Sts.Credentials :=
       Some {| Sts.AccessKeyId := Some "ASIAEXAMPLE";
               Sts.SecretAccessKey := Some "secret";
               Sts.SessionToken := Some "token";
               Sts.Expiration := expiry |} |}.

Definition stsOnly (answer : Sts.AssumeRoleResponse)
    : Client -> forall R, Command R -> JsError + R :=
  fun _ R cmd =>
    match cmd in Command R return JsError + R with
    | AssumeRoleCommand _ => inr answer
    | _ => unsupported
    end.

(** Of the requests in flight, the one of the earliest call is answered
    first. *)
Definition inOrder (sent outstanding : list Call) : nat := 0.

Definition world (v : Client -> forall R, Command R -> JsError + R) : World :=
  {| accountsConfig := [prod];
     accounts := registry;
     clock := wallClock;
     vendor := v;
     arrival := inOrder |}.

(** *** A scripted AWS

    Pages are numbered from 1; the first is served to a request without
    cursor and page [i] carries the cursor ["p<i+1>"] when a page
    follows it. *)

Definition cursorOf (i : nat) : string := "p" +:+ pretty i.

Fixpoint pageAfter {A} (pages : list (list A)) (i : nat) (cursor : string)
    : option (list A * option string) :=
  match pages with
  | [] => None
  | page :: rest =>
      if String.eqb (cursorOf i) cursor
      then Some (page, match rest with [] => None | _ => Some (cursorOf (S i)) end)
      else pageAfter rest (S i) cursor
  end.

Definition pageFor {A} (pages : list (list A)) (cursor : option string)
    : option (list A * option string) :=
  pageAfter pages 1 (cursor ?? cursorOf 1).

Definition badCursor {R} : JsError + R :=
  inl {| err_name := "InvalidNextTokenException"; err_message := "unknown cursor" |}.

Definition notFound {R} (errorName : string) : JsError + R :=
  inl {| err_name := errorName; err_message := "not found" |}.

Definition paged {A R} (pages : list (list A)) (cursor : option string)
    (answer : list A -> option string -> R) : JsError + R :=
  match pageFor pages cursor with
  | Some (page, next) => inr (answer page next)
  | None => badCursor
  end.

(** The [n] names [prefix<from>], [prefix<from + 1>], ... *)
Definition names (prefix : string) (from n : nat) : list string :=
  map (fun i => prefix +:+ pretty i) (seq from n).

Definition table (tableName : string) : DynamoDB.TableDescription :=
  {| DynamoDB.TableName := Some tableName;
     DynamoDB.TableArn := Some ("arn:aws:dynamodb:eu-west-1:111122223333:table/" +:+ tableName);
     DynamoDB.TableStatus := Some "ACTIVE";
     DynamoDB.CreationDateTime := Some 900000;
     DynamoDB.ItemCount := Some 42;
     DynamoDB.TableSizeBytes := Some 4096;
     DynamoDB.BillingModeSummary_ := None;
     DynamoDB.ProvisionedThroughput := None;
     DynamoDB.KeySchema :=
       Some [ {| DynamoDB.AttributeName := Some "pk"; DynamoDB.KeyType := Some "HASH" |} ];
     DynamoDB.AttributeDefinitions := None;
     DynamoDB.GlobalSecondaryIndexes := None;
     DynamoDB.LocalSecondaryIndexes := None;
     DynamoDB.StreamSpecification_ := None;
     DynamoDB.DeletionProtectionEnabled := Some true;
     DynamoDB.TableClassSummary_ := None |}.

Definition lambdaFunction (functionName : string) : Lambda.FunctionConfiguration :=
  {| Lambda.FunctionName := Some functionName;
     Lambda.FunctionArn := Some ("arn:aws:lambda:eu-west-1:111122223333:function:" +:+ functionName);
     Lambda.Runtime := Some "nodejs20.x";
     Lambda.Handler := Some "index.handler";
     Lambda.CodeSize := Some 1024;
     Lambda.Description := None;
     Lambda.Timeout := Some 30;
     Lambda.MemorySize := Some 128;
     Lambda.LastModified := None;
     Lambda.Version := None;
     Lambda.Environment := None |}.

Definition image (digest : string) (pushedAt : option Z) : Ecr.ImageDetail :=
  {| Ecr.imageDigest := Some digest;
     Ecr.imageTags := None;
     Ecr.imageSizeInBytes := Some 2048;
     Ecr.imagePushedAt := pushedAt;
     Ecr.imageManifestMediaType := None;
     Ecr.lastRecordedPullTime := None;
     Ecr.artifactMediaType := None |}.

(** The images [from .. from + n - 1]; image [i] was pushed at time [i]. *)
Definition images (from n : nat) : list Ecr.ImageDetail :=
  map (fun i => image ("sha256:" +:+ pretty i) (Some (Z.of_nat i))) (seq from n).

Definition parameter (name type value : string) : Ssm.VendorParameter :=
  {| Ssm.Name := Some name; Ssm.Type_ := Some type; Ssm.Value := Some value;
     Ssm.Version := Some 1; Ssm.LastModifiedDate := None; Ssm.ARN := None;
     Ssm.DataType := Some "text" |}.

Record Plan := {
  tablePages : list (list string);
  functionPages : list (list Lambda.FunctionConfiguration);
  imagePages : list (list Ecr.ImageDetail);
  parameterPages : list (list Ssm.VendorParameter);
  bucketList : list string;
  timeToLive : JsError + DynamoDB.DescribeTimeToLiveOutput;
  functionTags : option (gmap string string) }.

Definition aws (plan : Plan) : Client -> forall R, Command R -> JsError + R :=
  fun _ R cmd =>
    match cmd in Command R return JsError + R with
    | AssumeRoleCommand _ => inr (stsAnswer (Some 4600000))
    | ListTablesCommand cursor =>
        paged (tablePages plan) cursor
          (fun page next => {| DynamoDB.TableNames := Some page;
                               DynamoDB.LastEvaluatedTableName := next |})
    | DescribeTableCommand tableName =>
        if bool_decide (tableName ∈ concat (tablePages plan))
        then inr {| DynamoDB.Table := Some (table tableName) |}
        else notFound "ResourceNotFoundException"
    | DescribeTimeToLiveCommand _ => timeToLive plan
    | DescribeContinuousBackupsCommand _ =>
        inr {| DynamoDB.ContinuousBackupsDescription_ :=
                 Some {| DynamoDB.PointInTimeRecoveryDescription_ :=
                           Some {| DynamoDB.PointInTimeRecoveryStatus := Some "ENABLED";
                                   DynamoDB.LatestRestorableDateTime := Some 990000 |} |} |}
    | ListTagsOfResourceCommand _ =>
        inr {| DynamoDB.Tags := Some [ {| Key := Some "team"; Value := Some "platform" |} ] |}
    | ListBucketsCommand =>
        inr {| S3.Buckets :=
                 Some (map (fun n => {| S3.Name := Some n; S3.CreationDate := None |})
                           (bucketList plan)) |}
    | GetBucketLocationCommand _ => inr {| S3.LocationConstraint := None |}
    | GetBucketVersioningCommand _ => denied
    | GetBucketEncryptionCommand _ => notFound "ServerSideEncryptionConfigurationNotFoundError"
    | GetBucketLifecycleConfigurationCommand _ => notFound "NoSuchLifecycleConfiguration"
    | GetPublicAccessBlockCommand _ =>
        inr {| S3.PublicAccessBlockConfiguration_ :=
                 Some {| S3.BlockPublicAcls := Some true; S3.BlockPublicPolicy := Some true;
                         S3.IgnorePublicAcls := Some true;
                         S3.RestrictPublicBuckets := Some true |} |}
    | GetBucketPolicyStatusCommand _ => notFound "NoSuchBucketPolicy"
    | GetBucketTaggingCommand _ => notFound "NoSuchTagSet"
    | ListFunctionsCommand cursor =>
        paged (functionPages plan) cursor
          (fun page next => {| Lambda.Functions := Some page; Lambda.NextMarker := next |})
    | GetFunctionCommand functionName =>
        inr {| Lambda.Configuration := Some (lambdaFunction functionName);
               Lambda.Tags := functionTags plan |}
    | DescribeImagesCommand input =>
        paged (imagePages plan) (Ecr.nextToken input)
          (fun page next => {| Ecr.imageDetails := Some page; Ecr.r_nextToken := next |})
    | GetParameterCommand input =>
        match List.find (fun p => str_is (Ssm.Name p) (Ssm.r_Name input))
                        (concat (parameterPages plan)) with
        | Some p => inr {| Ssm.Parameter_ := Some p |}
        | None => notFound "ParameterNotFound"
        end
    | GetParametersByPathCommand input =>
        paged (parameterPages plan) (Ssm.NextToken input)
          (fun page next => {| Ssm.Parameters_ := Some page; Ssm.r_NextToken := next |})
    | _ => unsupported
    end.

(** The three pages of sizes 10, 10 and 4. *)
Definition threePages {A} (item : nat -> nat -> list A) : list (list A) :=
  [item 0 10; item 10 10; item 20 4]%nat.

Definition plan (dbPassword : string) : Plan :=
  {| tablePages := threePages (names "table-");
     functionPages := threePages (fun from n => map lambdaFunction (names "fn-" from n));
     imagePages := threePages images;
     parameterPages :=
       [ [ parameter "/app/url" "String" "https://example.org";
           parameter "/app/db-password" "SecureString" dbPassword ];
         [ parameter "/app/hosts" "StringList" "a,b" ] ];
     bucketList := names "bucket-" 0 12;
     timeToLive := denied;
     functionTags := Some ∅ |}.

(** The same account with twelve tables on two pages. *)
Definition twelveTables : Plan :=
  {| tablePages := [names "table-" 0 10; names "table-" 10 2];
     functionPages := [];
     imagePages := [];
     parameterPages := [];
     bucketList := [];
     timeToLive := denied;
     functionTags := None |}.

End Fixture.

(** ** Further operations of the same sources

    The methods of [AwsCredentialsProvider], [S3Provider] and
    [EfsProvider] that need no request beyond those above, and the HTTP
    router ([src/service/router.ts]) in front of the providers. *)

(** *** The registry in insertion order *)

(** A JavaScript [Map] keeps its entries in insertion order; [set] on a
    key that is present replaces the value where it stands. *)
Fixpoint map_set {V} (k : string) (v : V) (entries : list (string * V)) : list (string * V) :=
  match entries with
  | [] => [(k, v)]
  | (k', v') :: rest =>
      if String.eqb k' k then (k, v) :: rest else (k', v') :: map_set k v rest
  end.

(** The loop of [loadAccounts] on the [Map] itself. *)
Definition accountEntries (accountsConfig : list AwsAccount) : list (string * AwsAccount) :=
  foldl (fun m account => map_set (name account) account m) [] accountsConfig.

(** [getAccounts]: [Array.from(this.accounts.values())], for the
    registry the constructor loaded from [accountsConfig]. *)
Definition getAccounts (accountsConfig : list AwsAccount) : list AwsAccount :=
  map snd (accountEntries accountsConfig).

(** The [Map] and its contents as a finite map go together: the same
    keys, each once, with the same values. *)
Definition agrees (entries : list (string * AwsAccount)) (m : gmap string AwsAccount) : Prop :=
  NoDup (map fst entries) /\
  forall k v, (k, v) ∈ entries <-> m !! k = Some v.

(** *** S3Provider: the plain listing *)

Module S3Buckets.

Definition getBucketBasicInfo (_accountName : string) (bucket : S3.Bucket)
    : M S3Provider.S3Bucket :=
  mret {| S3Provider.name := S3.Name bucket ?? "";
          S3Provider.creationDate := S3.CreationDate bucket;
          S3Provider.region := None;
          S3Provider.versioningEnabled := false;
          S3Provider.mfaDeleteEnabled := false;
          S3Provider.encryptionEnabled := false;
          S3Provider.encryptionType := None;
          S3Provider.kmsKeyId := None;
          S3Provider.lifecycleRules := [];
          S3Provider.publicAccessBlocked := false;
          S3Provider.policyIsPublic := false;
          S3Provider.tags := None |}.

(** [for (const bucket of ...) if (bucket.Name) buckets.push(await this.getBucketBasicInfo(...))] *)
Fixpoint pushBasicInfo (accountName : string) (rest : list S3.Bucket)
    (buckets : list S3Provider.S3Bucket) : M (list S3Provider.S3Bucket) :=
  match rest with
  | [] => mret buckets
  | bucket :: rest =>
      if truthy (S3.Name bucket)
      then info ← getBucketBasicInfo accountName bucket;
           pushBasicInfo accountName rest (buckets ++ [info])
      else pushBasicInfo accountName rest buckets
  end.

Definition listBuckets (accountName : string) : M (list S3Provider.S3Bucket) :=
  client ← S3Provider.getClient accountName;
  response ← send client ListBucketsCommand;
  pushBasicInfo accountName (S3.Buckets response ?? []) [].

End S3Buckets.

(** *** EfsProvider: the listing *)

Module EfsFileSystems.

(** [for (const fs of ...) fileSystems.push(this.mapFileSystem(fs))] *)
Fixpoint pushFileSystems (rest : list Efs.FileSystemDescription)
    (fileSystems : list EfsProvider.EfsFileSystem) : M (list EfsProvider.EfsFileSystem) :=
  match rest with
  | [] => mret fileSystems
  | fs :: rest =>
      mapped ← EfsProvider.mapFileSystem fs;
      pushFileSystems rest (fileSystems ++ [mapped])
  end.

Definition describeFileSystems (marker : option string) : Command Efs.DescribeFileSystemsResponse :=
  DescribeFileSystemsCommand {| Efs.r_FileSystemId := None; Efs.Marker := marker |}.

Definition listFileSystems_round (client : Client)
    (s : list EfsProvider.EfsFileSystem * option string)
    : M (Completion (list EfsProvider.EfsFileSystem * option string)) :=
  let '(fileSystems, marker) := s in
  response ← send client (describeFileSystems marker);
  fileSystems ← pushFileSystems (Efs.FileSystems response ?? []) fileSystems;
  mret (Normal (fileSystems, Efs.NextMarker response)).

Definition listFileSystems (fuel : nat) (accountName : string)
    : M (list EfsProvider.EfsFileSystem) :=
  client ← EfsProvider.getClient accountName;
  s ← doWhile fuel (listFileSystems_round client) (fun s => truthy (snd s)) ([], None);
  mret (fst s).

End EfsFileSystems.

(** *** The router *)

Module Router.

(** A value of [req.query]: a string, or an array or nested object when
    the key is repeated or bracketed.  Of an array or object the code
    only ever takes the conversion to a string, [text]: the elements
    joined by commas, ["[object Object]"] for an object. *)
Inductive QueryValue :=
| QueryString (s : string)
| QueryOther (text : string).

Definition Query := gmap string QueryValue.

(** The guard [if (!v || typeof v !== 'string') { 400 }]: the string a
    required query parameter holds when the guard lets it pass. *)
Definition required (v : option QueryValue) : option string :=
  match v with
  | Some (QueryString s) => if String.eqb s "" then None else Some s
  | _ => None
  end.

(** [v === 'literal'] *)
Definition query_is (v : option QueryValue) (literal : string) : bool :=
  match v with
  | Some (QueryString s) => String.eqb s literal
  | _ => false
  end.

(** [typeof v === 'string' ? v : undefined] *)
Definition query_string (v : option QueryValue) : option string :=
  match v with
  | Some (QueryString s) => Some s
  | _ => None
  end.

(** **** parseInt

    [parseInt(text, 10)] as the runtime computes it: white space in
    front is skipped, then a sign, then the decimal digits up to the
    first other character are read; without a digit the result is
    [NaN], otherwise the number nearest to the integer read.  Text is
    in UTF-8 here. *)

Definition bytes (codes : list nat) : string :=
  String.string_of_list_ascii (map Ascii.ascii_of_nat codes).

(** White space and line terminators: TAB, LF, VT, FF, CR, SP, NBSP,
    U+1680, U+2000 to U+200A, U+2028, U+2029, U+202F, U+205F, U+3000
    and U+FEFF. *)
Definition whiteSpace : list string :=
  map bytes
      ([[9]; [10]; [11]; [12]; [13]; [32]; [194; 160]; [225; 154; 128]]
         ++ map (fun n => [226; 128; n]) (seq 128 11)
         ++ [[226; 128; 168]; [226; 128; 169]; [226; 128; 175]; [226; 129; 159];
             [227; 128; 128]; [239; 187; 191]])%nat.

Fixpoint strip (prefix s : string) : option string :=
  match prefix, s with
  | EmptyString, _ => Some s
  | String c prefix, String d s => if Ascii.eqb c d then strip prefix s else None
  | _, EmptyString => None
  end.

Fixpoint trimStart (fuel : nat) (s : string) : string :=
  match fuel with
  | O => s
  | S fuel =>
      match list_find (fun space => bool_decide (is_Some (strip space s))) whiteSpace with
      | Some (_, space) => trimStart fuel (strip space s ?? s)
      | None => s
      end
  end.

(** The integer the leading decimal digits of [s] denote, if there is
    a digit. *)
Fixpoint leadingDigits (s : string) (read : option Z) : option Z :=
  match s with
  | String c rest =>
      let n := Ascii.nat_of_ascii c in
      if ((48 <=? n) && (n <=? 57))%nat
      then leadingDigits rest (Some (10 * (read ?? 0) + Z.of_nat (n - 48)))
      else read
  | EmptyString => read
  end.

(** The number nearest to a non-negative integer: the integer itself up
    to 53 bits, beyond that the nearest multiple of the power of two
    that leaves 53 bits (halfway cases go to the even one), and
    infinity from [2 ^ 1024] on. *)
Definition nearestNumber (m : Z) : option Z :=
  let e := Z.log2 m - 52 in
  if e <=? 0 then Some m
  else
    let q := Z.shiftr m e in
    let r := Z.land m (Z.ones e) in
    let half := Z.shiftl 1 (e - 1) in
    let q := if (half <? r) || ((half =? r) && Z.odd q) then q + 1 else q in
    let v := Z.shiftl q e in
    if Z.shiftl 1 1024 <=? v then None else Some v.

Definition parseInt (text : string) : JsNumber :=
  let s := trimStart (String.length text) text in
  let negative := bool_decide (is_Some (strip "-" s)) in
  let s := strip "-" s ?? (strip "+" s ?? s) in
  match leadingDigits s None with
  | None => NaN
  | Some m =>
      match nearestNumber m with
      | Some v => Num (if negative then - v else v)
      | None => if negative then NegInfinity else Infinity
      end
  end.

(** [v ? parseInt(v as string, 10) : undefined] *)
Definition query_int (v : option QueryValue) : option JsNumber :=
  match v with
  | Some (QueryString s) => if String.eqb s "" then None else Some (parseInt s)
  | Some (QueryOther text) => Some (parseInt text)
  | None => None
  end.

(** An entry of the answer to [/accounts]. *)
Record AccountSummary := {
  a_name : string;
  a_accountId : string;
  a_region : string }.

(** What a handler passes to [res.json]. *)
Inductive Body :=
| ErrorJson (error : string)
| FunctionsJson (functions : list LambdaProvider.LambdaFunction)
| FunctionJson (fn : LambdaProvider.LambdaFunction)
| ParameterJson (param : SsmProvider.SsmParameter)
| ParametersJson (params : list SsmProvider.SsmParameter)
| SecretsJson (secrets : list SecretsManagerProvider.SecretMetadata)
| FileSystemsJson (fileSystems : list EfsProvider.EfsFileSystem)
| FileSystemJson (fs : EfsProvider.EfsFileSystem)
| TableNamesJson (tableNames : list string)
| TablesJson (tables : list DynamoDbProvider.DynamoDbTable)
| TableJson (table : DynamoDbProvider.DynamoDbTable)
| BucketsJson (buckets : list S3Provider.S3Bucket)
| BucketJson (bucket : S3Provider.S3Bucket)
| StatusJson (status : string)
| AccountsJson (accounts : list AccountSummary)
| VersionsJson (versions : list LambdaProvider.LambdaVersion)
| EcsClustersJson (clusters : list EcsProvider.EcsCluster)
| EcsServicesJson (services : list string)
| EcsServiceJson (svc : EcsProvider.EcsService)
| TaskDefinitionJson (taskDef : EcsProvider.EcsTaskDefinition)
| SecretJson (secret : SecretsManagerProvider.SecretMetadata)
| SecretStructureJson (structure : SecretsManagerProvider.SecretStructure)
| MountTargetsJson (mounts : list EfsProvider.EfsMountTarget)
| LifecycleJson (lifecycle : list EfsProvider.EfsLifecyclePolicy)
| AccessPointsJson (accessPoints : list EfsProvider.EfsAccessPoint)
| RdsInstancesJson (instances : list RdsProvider.RdsInstance)
| RdsInstanceJson (instance : RdsProvider.RdsInstance)
| RdsClustersJson (clusters : list RdsProvider.RdsCluster)
| RdsClusterJson (cluster : RdsProvider.RdsCluster)
| RdsParameterGroupsJson (groups : list RdsProvider.RdsParameterGroup)
| RdsSnapshotsJson (snapshots : list RdsProvider.RdsSnapshot)
| DocdbClustersJson (clusters : list DocumentDbProvider.DocumentDbCluster)
| DocdbClusterJson (cluster : DocumentDbProvider.DocumentDbCluster)
| DocdbInstancesJson (instances : list DocumentDbProvider.DocumentDbInstance)
| DocdbParameterGroupsJson (groups : list DocumentDbProvider.DocumentDbParameterGroup)
| RestApisJson (apis : list ApiGatewayProvider.ApiGatewayRestApi)
| RestApiJson (api : ApiGatewayProvider.ApiGatewayRestApi)
| RestApiStagesJson (stages : list ApiGatewayProvider.ApiGatewayStage)
| RestApiResourcesJson (resources : list ApiGatewayProvider.ApiGatewayResource)
| HttpApisJson (apis : list ApiGatewayProvider.ApiGatewayHttpApi)
| HttpApiJson (api : ApiGatewayProvider.ApiGatewayHttpApi)
| HttpApiStagesJson (stages : list ApiGatewayProvider.ApiGatewayHttpStage)
| HttpApiRoutesJson (routes : list ApiGatewayProvider.ApiGatewayHttpRoute)
| RepositoriesJson (repositories : list EcrProvider.EcrRepository)
| RepositoryJson (repo : EcrProvider.EcrRepository)
| ImagesJson (images : list EcrProvider.EcrImage)
| ScanFindingsJson (findings : EcrProvider.EcrScanSummary)
| LifecyclePolicyJson (policy : EcrProvider.EcrLifecyclePolicy).

Record Response := { status : Z; body : Body }.

(** [res.json(b)] and [res.status(code).json({ error })] *)
Definition json (b : Body) : Response := {| status := 200; body := b |}.

Definition error_json (code : Z) (error : string) : Response :=
  {| status := code; body := ErrorJson error |}.

(** [catch (error) { logger.error(...); throw error; }] *)
Definition rethrow {A} (error : JsError) : M A := throw error.

Definition lambdaFunctions (fuel : nat) (account : string) : M Response :=
  tryCatch
    (functions ← LambdaProvider.listFunctions fuel account;
     mret (json (FunctionsJson functions)))
    rethrow.

Definition lambdaFunction (account functionName : string) : M Response :=
  tryCatch
    (fn ← LambdaProvider.getFunction account functionName;
     match fn with
     | None => mret (error_json 404 "Function not found")
     | Some fn => mret (json (FunctionJson fn))
     end)
    rethrow.

Definition ssmParameter (account : string) (query : Query) : M Response :=
  match required (query !! "name") with
  | None => mret (error_json 400 "Missing required query parameter: name")
  | Some name =>
      tryCatch
        (param ← SsmProvider.getParameter account name (query_is (query !! "decrypt") "true");
         match param with
         | None => mret (error_json 404 "Parameter not found")
         | Some param => mret (json (ParameterJson param))
         end)
        rethrow
  end.

Definition ssmParameters (fuel : nat) (account : string) (query : Query) : M Response :=
  match required (query !! "path") with
  | None => mret (error_json 400 "Missing required query parameter: path")
  | Some path =>
      tryCatch
        (params ← SsmProvider.getParametersByPath fuel account path
                    (negb (query_is (query !! "recursive") "false"))
                    (query_is (query !! "decrypt") "true");
         mret (json (ParametersJson params)))
        rethrow
  end.

Definition secrets (fuel : nat) (account : string) : M Response :=
  tryCatch
    (secrets ← SecretsManagerProvider.listSecrets fuel account;
     mret (json (SecretsJson secrets)))
    rethrow.

Definition efsList (fuel : nat) (account : string) : M Response :=
  tryCatch
    (fileSystems ← EfsFileSystems.listFileSystems fuel account;
     mret (json (FileSystemsJson fileSystems)))
    rethrow.

Definition efsFileSystem (account fileSystemId : string) : M Response :=
  tryCatch
    (fs ← EfsProvider.getFileSystem account fileSystemId;
     match fs with
     | None => mret (error_json 404 "File system not found")
     | Some fs => mret (json (FileSystemJson fs))
     end)
    rethrow.

Definition dynamodbTables (fuel : nat) (account : string) (query : Query) : M Response :=
  tryCatch
    (if query_is (query !! "details") "true"
     then tables ← DynamoDbProvider.listTablesWithDetails fuel account;
          mret (json (TablesJson tables))
     else tableNames ← DynamoDbProvider.listTables fuel account;
          mret (json (TableNamesJson tableNames)))
    rethrow.

Definition dynamodbTable (account tableName : string) : M Response :=
  tryCatch
    (table ← DynamoDbProvider.getTable account tableName;
     match table with
     | None => mret (error_json 404 "Table not found")
     | Some table => mret (json (TableJson table))
     end)
    rethrow.

Definition s3List (account : string) (query : Query) : M Response :=
  tryCatch
    (if query_is (query !! "details") "true"
     then buckets ← S3Provider.listBucketsWithDetails account;
          mret (json (BucketsJson buckets))
     else buckets ← S3Buckets.listBuckets account;
          mret (json (BucketsJson buckets)))
    rethrow.

Definition s3Bucket (account bucketName : string) : M Response :=
  tryCatch
    (bucket ← S3Provider.getBucket account bucketName;
     match bucket with
     | None => mret (error_json 404 "Bucket not found")
     | Some bucket => mret (json (BucketJson bucket))
     end)
    rethrow.

(** The shape of the handlers of a list route and of a lookup route. *)
Definition listRoute {A} (wrap : A -> Body) (op : M A) : M Response :=
  tryCatch (items ← op; mret (json (wrap items))) rethrow.

Definition itemRoute {A} (wrap : A -> Body) (message : string) (op : M (option A)) : M Response :=
  tryCatch
    (item ← op;
     match item with
     | None => mret (error_json 404 message)
     | Some item => mret (json (wrap item))
     end)
    rethrow.

Definition health : M Response :=
  mret (json (StatusJson "ok")).

Definition accountsList : M Response := fun w st =>
  (Ok (json (AccountsJson
               (map (fun a => {| a_name := name a;
                                 a_accountId := accountId a;
                                 a_region := region a |})
                    (getAccounts (accountsConfig w))))), st).

Definition lambdaVersions (fuel : nat) (account functionName : string) : M Response :=
  listRoute VersionsJson (LambdaProvider.listVersions fuel account functionName).

Definition ecsClusters (fuel : nat) (account : string) : M Response :=
  listRoute EcsClustersJson (EcsProvider.listClusters fuel account).

Definition ecsServices (fuel : nat) (account cluster : string) : M Response :=
  listRoute EcsServicesJson (EcsProvider.listServices fuel account cluster).

Definition ecsService (account cluster service : string) : M Response :=
  itemRoute EcsServiceJson "Service not found" (EcsProvider.getService account cluster service).

Definition ecsTaskDefinition (account cluster service : string) : M Response :=
  tryCatch
    (svc ← EcsProvider.getService account cluster service;
     match svc with
     | None => mret (error_json 404 "Service not found")
     | Some svc =>
         taskDef ← EcsProvider.getTaskDefinition account (EcsProvider.taskDefinition svc);
         match taskDef with
         | None => mret (error_json 404 "Task definition not found")
         | Some taskDef => mret (json (TaskDefinitionJson taskDef))
         end
     end)
    rethrow.

Definition secret (account secretName : string) : M Response :=
  itemRoute SecretJson "Secret not found" (SecretsManagerProvider.getSecret account secretName).

Definition secretStructure (account secretName : string) : M Response :=
  itemRoute SecretStructureJson "Secret not found"
         (SecretsManagerProvider.getSecretStructure account secretName).

Definition efsMounts (fuel : nat) (account fileSystemId : string) : M Response :=
  listRoute MountTargetsJson (EfsProvider.listMountTargets fuel account fileSystemId).

Definition efsLifecycle (account fileSystemId : string) : M Response :=
  listRoute LifecycleJson (EfsProvider.getLifecycleConfiguration account fileSystemId).

Definition efsAccessPoints (fuel : nat) (account : string) (query : Query) : M Response :=
  listRoute AccessPointsJson
          (EfsProvider.listAccessPoints fuel account (query_string (query !! "fileSystemId"))).

Definition rdsInstances (fuel : nat) (account : string) : M Response :=
  listRoute RdsInstancesJson (RdsProvider.listInstances fuel account).

Definition rdsInstance (account identifier : string) : M Response :=
  itemRoute RdsInstanceJson "Instance not found" (RdsProvider.getInstance account identifier).

Definition rdsClusters (fuel : nat) (account : string) : M Response :=
  listRoute RdsClustersJson (RdsProvider.listClusters fuel account).

Definition rdsCluster (account identifier : string) : M Response :=
  itemRoute RdsClusterJson "Cluster not found" (RdsProvider.getCluster account identifier).

Definition rdsParameterGroups (fuel : nat) (account : string) : M Response :=
  listRoute RdsParameterGroupsJson (RdsProvider.listParameterGroups fuel account).

Definition rdsSnapshots (fuel : nat) (account : string) (query : Query) : M Response :=
  listRoute RdsSnapshotsJson
          (RdsProvider.listSnapshots fuel account (query_string (query !! "dbInstanceIdentifier"))).

Definition docdbClusters (fuel : nat) (account : string) : M Response :=
  listRoute DocdbClustersJson (DocumentDbProvider.listClusters fuel account).

Definition docdbCluster (account identifier : string) : M Response :=
  itemRoute DocdbClusterJson "Cluster not found" (DocumentDbProvider.getCluster account identifier).

Definition docdbInstances (fuel : nat) (account : string) : M Response :=
  listRoute DocdbInstancesJson (DocumentDbProvider.listInstances fuel account).

Definition docdbParameterGroups (fuel : nat) (account : string) : M Response :=
  listRoute DocdbParameterGroupsJson (DocumentDbProvider.listParameterGroups fuel account).

Definition restApis (fuel : nat) (account : string) : M Response :=
  listRoute RestApisJson (ApiGatewayProvider.listRestApis fuel account).

Definition restApi (account apiId : string) : M Response :=
  itemRoute RestApiJson "REST API not found" (ApiGatewayProvider.getRestApi account apiId).

Definition restApiStages (account apiId : string) : M Response :=
  listRoute RestApiStagesJson (ApiGatewayProvider.getRestApiStages account apiId).

Definition restApiResources (fuel : nat) (account apiId : string) : M Response :=
  listRoute RestApiResourcesJson (ApiGatewayProvider.getRestApiResources fuel account apiId).

Definition httpApis (fuel : nat) (account : string) : M Response :=
  listRoute HttpApisJson (ApiGatewayProvider.listHttpApis fuel account).

Definition httpApi (account apiId : string) : M Response :=
  itemRoute HttpApiJson "HTTP API not found" (ApiGatewayProvider.getHttpApi account apiId).

Definition httpApiStages (fuel : nat) (account apiId : string) : M Response :=
  listRoute HttpApiStagesJson (ApiGatewayProvider.getHttpApiStages fuel account apiId).

Definition httpApiRoutes (fuel : nat) (account apiId : string) : M Response :=
  listRoute HttpApiRoutesJson (ApiGatewayProvider.getHttpApiRoutes fuel account apiId).

Definition ecrList (fuel : nat) (account : string) : M Response :=
  listRoute RepositoriesJson (EcrProvider.listRepositories fuel account).

Definition ecrRepository (account repositoryName : string) : M Response :=
  itemRoute RepositoryJson "Repository not found" (EcrProvider.getRepository account repositoryName).

Definition ecrImages (fuel : nat) (account repositoryName : string) (query : Query) : M Response :=
  listRoute ImagesJson
          (EcrProvider.listImages fuel account repositoryName (query_int (query !! "maxResults"))).

Definition ecrScan (account repositoryName imageDigest : string) (query : Query) : M Response :=
  itemRoute ScanFindingsJson "Scan findings not found"
         (EcrProvider.getImageScanFindings account repositoryName imageDigest
                                           (query_string (query !! "imageTag"))).

Definition ecrLifecyclePolicy (account repositoryName : string) : M Response :=
  itemRoute LifecyclePolicyJson "Lifecycle policy not found"
         (EcrProvider.getLifecyclePolicy account repositoryName).

(** **** The route table

    The paths registered with [router.get], in the order of
    registration; a path is given by its segments, a segment that
    starts with a colon is a parameter.  Express tries the routes in
    this order and runs the first one whose path matches; none of the
    handlers calls [next], so the first match answers.  A parameter
    matches one non-empty segment, a literal matches without regard to
    case (neither [caseSensitive] nor [strict] is set). *)

Inductive Route :=
| Health | Accounts
| LambdaFunctions | LambdaFunction | LambdaVersions
| EcsClusters | EcsServices | EcsService | EcsTaskDefinition
| SsmParameter | SsmParameters
| Secrets | Secret | SecretStructure
| EfsList | EfsFileSystem | EfsMounts | EfsLifecycle | EfsAccessPoints
| RdsInstances | RdsInstance | RdsClusters | RdsCluster | RdsParameterGroups | RdsSnapshots
| DocdbClusters | DocdbCluster | DocdbInstances | DocdbParameterGroups
| DynamodbTables | DynamodbTable
| S3List | S3Bucket
| RestApis | RestApi | RestApiStages | RestApiResources
| HttpApis | HttpApi | HttpApiStages | HttpApiRoutes
| EcrList | EcrRepository | EcrImages | EcrScan | EcrLifecyclePolicy.

#[global] Instance Route_eq_dec : EqDecision Route.
Proof. solve_decision. Defined.

Definition routes : list (list string * Route) :=
  [ (["health"], Health);
    (["accounts"], Accounts);
    (["lambda"; ":account"], LambdaFunctions);
    (["lambda"; ":account"; ":functionName"], LambdaFunction);
    (["lambda"; ":account"; ":functionName"; "versions"], LambdaVersions);
    (["ecs"; ":account"; "clusters"], EcsClusters);
    (["ecs"; ":account"; ":cluster"; "services"], EcsServices);
    (["ecs"; ":account"; ":cluster"; ":service"], EcsService);
    (["ecs"; ":account"; ":cluster"; ":service"; "task-definition"], EcsTaskDefinition);
    (["ssm"; ":account"; "parameter"], SsmParameter);
    (["ssm"; ":account"; "parameters"], SsmParameters);
    (["secrets"; ":account"], Secrets);
    (["secrets"; ":account"; ":secretName"], Secret);
    (["secrets"; ":account"; ":secretName"; "structure"], SecretStructure);
    (["efs"; ":account"], EfsList);
    (["efs"; ":account"; ":fileSystemId"], EfsFileSystem);
    (["efs"; ":account"; ":fileSystemId"; "mounts"], EfsMounts);
    (["efs"; ":account"; ":fileSystemId"; "lifecycle"], EfsLifecycle);
    (["efs"; ":account"; "access-points"], EfsAccessPoints);
    (["rds"; ":account"; "instances"], RdsInstances);
    (["rds"; ":account"; "instances"; ":identifier"], RdsInstance);
    (["rds"; ":account"; "clusters"], RdsClusters);
    (["rds"; ":account"; "clusters"; ":identifier"], RdsCluster);
    (["rds"; ":account"; "parameter-groups"], RdsParameterGroups);
    (["rds"; ":account"; "snapshots"], RdsSnapshots);
    (["docdb"; ":account"; "clusters"], DocdbClusters);
    (["docdb"; ":account"; "clusters"; ":identifier"], DocdbCluster);
    (["docdb"; ":account"; "instances"], DocdbInstances);
    (["docdb"; ":account"; "parameter-groups"], DocdbParameterGroups);
    (["dynamodb"; ":account"; "tables"], DynamodbTables);
    (["dynamodb"; ":account"; "tables"; ":tableName"], DynamodbTable);
    (["s3"; ":account"], S3List);
    (["s3"; ":account"; ":bucketName"], S3Bucket);
    (["apigateway"; ":account"; "rest-apis"], RestApis);
    (["apigateway"; ":account"; "rest-apis"; ":apiId"], RestApi);
    (["apigateway"; ":account"; "rest-apis"; ":apiId"; "stages"], RestApiStages);
    (["apigateway"; ":account"; "rest-apis"; ":apiId"; "resources"], RestApiResources);
    (["apigateway"; ":account"; "http-apis"], HttpApis);
    (["apigateway"; ":account"; "http-apis"; ":apiId"], HttpApi);
    (["apigateway"; ":account"; "http-apis"; ":apiId"; "stages"], HttpApiStages);
    (["apigateway"; ":account"; "http-apis"; ":apiId"; "routes"], HttpApiRoutes);
    (["ecr"; ":account"], EcrList);
    (["ecr"; ":account"; ":repositoryName"], EcrRepository);
    (["ecr"; ":account"; ":repositoryName"; "images"], EcrImages);
    (["ecr"; ":account"; ":repositoryName"; "scan"; ":imageDigest"], EcrScan);
    (["ecr"; ":account"; ":repositoryName"; "lifecycle-policy"], EcrLifecyclePolicy) ].

(** The name of a parameter segment. *)
Definition is_param (segment : string) : option string :=
  match segment with
  | String c name => if String.eqb (String c EmptyString) ":" then Some name else None
  | EmptyString => None
  end.

Definition lower (c : Ascii.ascii) : Ascii.ascii :=
  let n := Ascii.nat_of_ascii c in
  if ((65 <=? n)%nat && (n <=? 90)%nat) then Ascii.ascii_of_nat (n + 32)%nat else c.

Fixpoint lowercase (s : string) : string :=
  match s with
  | EmptyString => EmptyString
  | String c s => String (lower c) (lowercase s)
  end.

(** The parameters a request path binds when it matches a route path. *)
Fixpoint matchPath (pattern path : list string) : option (list (string * string)) :=
  match pattern, path with
  | [], [] => Some []
  | p :: pattern, segment :: path =>
      match is_param p with
      | Some name =>
          if String.eqb segment "" then None
          else params ← matchPath pattern path; Some ((name, segment) :: params)
      | None =>
          if String.eqb (lowercase p) (lowercase segment)
          then matchPath pattern path
          else None
      end
  | _, _ => None
  end.

Fixpoint dispatch_in (table : list (list string * Route)) (path : list string)
    : option (Route * list (string * string)) :=
  match table with
  | [] => None
  | (pattern, route) :: table =>
      match matchPath pattern path with
      | Some params => Some (route, params)
      | None => dispatch_in table path
      end
  end.

(** The route that answers a GET request for [path], with [req.params]. *)
Definition dispatch (path : list string) : option (Route * list (string * string)) :=
  dispatch_in routes path.

(** [req.params.key] *)
Definition param (params : list (string * string)) (key : string) : string :=
  match List.find (fun p => String.eqb (fst p) key) params with
  | Some p => snd p
  | None => ""
  end.

(** The handlers above, by route. *)
Definition handler (fuel : nat) (route : Route) (params : list (string * string))
    (query : Query) : M Response :=
  let account := param params "account" in
  match route with
  | Health => health
  | Accounts => accountsList
  | LambdaFunctions => lambdaFunctions fuel account
  | LambdaFunction => lambdaFunction account (param params "functionName")
  | LambdaVersions => lambdaVersions fuel account (param params "functionName")
  | EcsClusters => ecsClusters fuel account
  | EcsServices => ecsServices fuel account (param params "cluster")
  | EcsService => ecsService account (param params "cluster") (param params "service")
  | EcsTaskDefinition =>
      ecsTaskDefinition account (param params "cluster") (param params "service")
  | SsmParameter => ssmParameter account query
  | SsmParameters => ssmParameters fuel account query
  | Secrets => secrets fuel account
  | Secret => secret account (param params "secretName")
  | SecretStructure => secretStructure account (param params "secretName")
  | EfsList => efsList fuel account
  | EfsFileSystem => efsFileSystem account (param params "fileSystemId")
  | EfsMounts => efsMounts fuel account (param params "fileSystemId")
  | EfsLifecycle => efsLifecycle account (param params "fileSystemId")
  | EfsAccessPoints => efsAccessPoints fuel account query
  | RdsInstances => rdsInstances fuel account
  | RdsInstance => rdsInstance account (param params "identifier")
  | RdsClusters => rdsClusters fuel account
  | RdsCluster => rdsCluster account (param params "identifier")
  | RdsParameterGroups => rdsParameterGroups fuel account
  | RdsSnapshots => rdsSnapshots fuel account query
  | DocdbClusters => docdbClusters fuel account
  | DocdbCluster => docdbCluster account (param params "identifier")
  | DocdbInstances => docdbInstances fuel account
  | DocdbParameterGroups => docdbParameterGroups fuel account
  | DynamodbTables => dynamodbTables fuel account query
  | DynamodbTable => dynamodbTable account (param params "tableName")
  | S3List => s3List account query
  | S3Bucket => s3Bucket account (param params "bucketName")
  | RestApis => restApis fuel account
  | RestApi => restApi account (param params "apiId")
  | RestApiStages => restApiStages account (param params "apiId")
  | RestApiResources => restApiResources fuel account (param params "apiId")
  | HttpApis => httpApis fuel account
  | HttpApi => httpApi account (param params "apiId")
  | HttpApiStages => httpApiStages fuel account (param params "apiId")
  | HttpApiRoutes => httpApiRoutes fuel account (param params "apiId")
  | EcrList => ecrList fuel account
  | EcrRepository => ecrRepository account (param params "repositoryName")
  | EcrImages => ecrImages fuel account (param params "repositoryName") query
  | EcrScan =>
      ecrScan account (param params "repositoryName") (param params "imageDigest") query
  | EcrLifecyclePolicy => ecrLifecyclePolicy account (param params "repositoryName")
  end.

Inductive Served :=
| Handled (m : M Response)
| NoRoute.

(** A GET request as the router treats it. *)
Definition serve (fuel : nat) (path : list string) (query : Query) : Served :=
  match dispatch path with
  | Some (route, params) => Handled (handler fuel route params query)
  | None => NoRoute
  end.

(** A request path that a route path matches with every parameter set
    to ["x"]. *)
Definition samplePath (pattern : list string) : list string :=
  map (fun segment => match is_param segment with Some _ => "x" | None => segment end) pattern.

Definition pathOf (route : Route) : list string :=
  match List.find (fun entry => bool_decide (snd entry = route)) routes with
  | Some entry => samplePath (fst entry)
  | None => []
  end.

End Router.

(** ** Further vocabulary *)

(** *** Renewals *)

(** What [getCredentials] comes to once it has decided to renew, in the
    state [st] it has reached by then. *)
Definition renewal (w : World) (account : AwsAccount) (accountName : string) (st : St)
    : Result loc * St :=
  let now := clock w (ticks st) in
  let sent := add_requests [exchange account now] (tick 1 st) in
  match vendor w (AwsCredentialsProvider.stsClient account) _
               (AssumeRoleCommand (AwsCredentialsProvider.assumeRoleParams account now)) with
  | inl e => (Throw e, sent)
  | inr {| Sts.Credentials := None |} => (Throw (AssumeRoleFailed accountName), sent)
  | inr {| Sts.Credentials := Some c |} =>
      (Ok (length (heap st)),
       {| ticks := match Sts.Expiration c with Some _ => 1 | None => 2 end + ticks st;
          credentialsCache :=
            <[accountName :=
                {| credentials := length (heap st);
                   expiresAt := match Sts.Expiration c with
                                | Some t => t
                                | None => clock w (S (ticks st)) + 3600000
                                end |}]> (credentialsCache st);
          heap := heap st ++ [identityOf c];
          requests := requests st ++ [exchange account now] |})
  end.

(** Every cache entry refers to a credentials object on the heap, and
    records the expiry that object carries when it carries one. *)
Definition cacheSound (st : St) : Prop :=
  forall accountName entry,
    credentialsCache st !! accountName = Some entry ->
    exists c, heap st !! credentials entry = Some c /\
              forall t, expiration c = Some t -> expiresAt entry = t.

(** The state with another credentials cache and other credential
    objects. *)
Definition withCache (cache : gmap string CacheEntry) (objects : list AwsCredentialIdentity)
    (st : St) : St :=
  {| ticks := ticks st; credentialsCache := cache; heap := objects; requests := requests st |}.

(** A computation that neither reads nor writes the credentials cache
    and the credential objects: whatever they hold, it returns the
    same, does the same to the rest of the state and leaves them as
    they are. *)
Definition cacheBlind {A} (m : M A) : Prop :=
  forall w st cache objects,
    m w (withCache cache objects st)
    = (fst (m w st), withCache cache objects (snd (m w st))).

(** One GET request after the other, each served to its end. *)
Definition traffic (fuel : nat) (w : World)
    (gets : list (list string * Router.Query)) (st : St) : St :=
  foldl (fun st get =>
           match Router.serve fuel (fst get) (snd get) with
           | Router.Handled m => snd (m w st)
           | _ => st
           end) st gets.

(** *** Listings that fail or do not end *)

Section PagesFailing.
Context {R : Type}.
Variables (w : World) (client : Client).
Variable command : option string -> Command R.
Variable next : R -> option string.

(** The vendor serves [pages] from [cursor], every one with a cursor to
    the next request, and answers the request after them with [e]. *)
Inductive servesUntil : option string -> list R -> JsError -> Prop :=
| fails_at cursor e :
    vendor w client R (command cursor) = inl e ->
    servesUntil cursor [] e
| fails_after cursor page pages e :
    vendor w client R (command cursor) = inr page ->
    truthy (next page) = true ->
    servesUntil (next page) pages e ->
    servesUntil cursor (page :: pages) e.

(** The cursors sent by then: the start cursor and that of every page. *)
Definition attempted (cursor : option string) (pages : list R) : list (option string) :=
  cursor :: map next pages.

(** The vendor answers every request with a page that has a cursor. *)
Definition endless : Prop :=
  forall cursor, exists page,
    vendor w client R (command cursor) = inr page /\ truthy (next page) = true.
End PagesFailing.

(** *** Detail fetches *)

(** The error names on which a lookup answers "not there". *)
Definition named (literal : string) (e : JsError) : bool :=
  String.eqb (err_name e) literal.

(** The name under which [getTable] returns what [DescribeTable]
    answered, if it returns a table at all. *)
Definition describedName (answer : JsError + DynamoDB.DescribeTableOutput) : option string :=
  match answer with
  | inr {| DynamoDB.Table := Some table |} => Some (DynamoDB.TableName table ?? "")
  | _ => None
  end.

(** The answers on which [getTable] does not fail. *)
Definition tableOrGone (answer : JsError + DynamoDB.DescribeTableOutput) : Prop :=
  forall e, answer = inl e -> err_name e = "ResourceNotFoundException".

(** A bucket as the plain listing gives it: nothing but the name and
    the creation date is filled in. *)
Definition undetailed (bucket : S3Provider.S3Bucket) : Prop :=
  S3Provider.region bucket = None /\
  S3Provider.versioningEnabled bucket = false /\
  S3Provider.mfaDeleteEnabled bucket = false /\
  S3Provider.encryptionEnabled bucket = false /\
  S3Provider.encryptionType bucket = None /\
  S3Provider.kmsKeyId bucket = None /\
  S3Provider.lifecycleRules bucket = [] /\
  S3Provider.publicAccessBlocked bucket = false /\
  S3Provider.policyIsPublic bucket = false /\
  S3Provider.tags bucket = None.

(** The seven requests of [getBucket], in the order of the code. *)
Definition bucketFetches (client : Client) (bucketName : string) : list Call :=
  [ mkCall client (GetBucketLocationCommand bucketName);
    mkCall client (GetBucketVersioningCommand bucketName);
    mkCall client (GetBucketEncryptionCommand bucketName);
    mkCall client (GetBucketLifecycleConfigurationCommand bucketName);
    mkCall client (GetPublicAccessBlockCommand bucketName);
    mkCall client (GetBucketPolicyStatusCommand bucketName);
    mkCall client (GetBucketTaggingCommand bucketName) ].

(** *** Scenarios *)

Module Scenario.

(** An AWS whose listings never end: every page carries the cursor ["again"]. *)
Definition looping : Client -> forall R, Command R -> JsError + R :=
  fun _ R cmd =>
    match cmd in Command R return JsError + R with
    | ListTablesCommand _ =>
        inr {| DynamoDB.TableNames := Some ["t"];
               DynamoDB.LastEvaluatedTableName := Some "again" |}
    | DescribeImagesCommand _ =>
        inr {| Ecr.imageDetails := Some [Fixture.image "sha256:0" (Some 5)];
               Ecr.r_nextToken := Some "again" |}
    | _ => Fixture.unsupported
    end.

(** An AWS that throttles the second page of every listing. *)
Definition throttled {R} : JsError + R :=
  inl {| err_name := "ThrottlingException"; err_message := "Rate exceeded" |}.

Definition throttling : Client -> forall R, Command R -> JsError + R :=
  fun _ R cmd =>
    match cmd in Command R return JsError + R with
    | ListTablesCommand None =>
        inr {| DynamoDB.TableNames := Some ["a"; "b"];
               DynamoDB.LastEvaluatedTableName := Some "b" |}
    | ListFunctionsCommand None =>
        inr {| Lambda.Functions := Some [Fixture.lambdaFunction "f"];
               Lambda.NextMarker := Some "m" |}
    | ListSecretsCommand None =>
        inr {| SecretsManager.SecretList := None; SecretsManager.NextToken := Some "n" |}
    | GetParametersByPathCommand {| Ssm.NextToken := None |} =>
        inr {| Ssm.Parameters_ := None; Ssm.r_NextToken := Some "n" |}
    | AssumeRoleCommand _ => throttled
    | DescribeTableCommand _ => throttled
    | GetFunctionCommand _ => throttled
    | GetParameterCommand _ => throttled
    | DescribeFileSystemsCommand _ => throttled
    | ListTablesCommand _ => throttled
    | ListFunctionsCommand _ => throttled
    | ListSecretsCommand _ => throttled
    | GetParametersByPathCommand _ => throttled
    | _ => Fixture.unsupported
    end.

(** An account with three listed tables of which ["b"] has been deleted
    since, buckets of which none exists any more, images pushed at the
    same times, and file systems on two pages. *)
Definition fileSystem (id : string) : Efs.FileSystemDescription :=
  {| Efs.FileSystemId := Some id;
     Efs.FileSystemArn := None;
     Efs.Name := Some "shared";
     Efs.CreationTime := Some 800000;
     Efs.LifeCycleState := Some "available";
     Efs.NumberOfMountTargets := Some 2;
     Efs.SizeInBytes := None;
     Efs.PerformanceMode := None;
     Efs.ThroughputMode := None;
     Efs.ProvisionedThroughputInMibps := None;
     Efs.Encrypted := Some true;
     Efs.KmsKeyId := None;
     Efs.Tags := None |}.

Definition churn : Client -> forall R, Command R -> JsError + R :=
  fun _ R cmd =>
    match cmd in Command R return JsError + R with
    | ListTablesCommand _ =>
        inr {| DynamoDB.TableNames := Some ["a"; "b"; "c"];
               DynamoDB.LastEvaluatedTableName := None |}
    | DescribeTableCommand tableName =>
        if String.eqb tableName "b"
        then Fixture.notFound "ResourceNotFoundException"
        else inr {| DynamoDB.Table := Some (Fixture.table tableName) |}
    | DescribeTimeToLiveCommand _ => Fixture.denied
    | DescribeContinuousBackupsCommand _ => Fixture.denied
    | ListTagsOfResourceCommand _ =>
        inr {| DynamoDB.Tags := Some [ {| Key := Some "team"; Value := Some "" |} ] |}
    | ListBucketsCommand =>
        inr {| S3.Buckets :=
                 Some [ {| S3.Name := Some "logs"; S3.CreationDate := Some 700000 |};
                        {| S3.Name := Some ""; S3.CreationDate := None |};
                        {| S3.Name := Some "assets"; S3.CreationDate := None |} ] |}
    | GetBucketLocationCommand _ => Fixture.notFound "NoSuchBucket"
    | GetBucketVersioningCommand _ => Fixture.notFound "NoSuchBucket"
    | GetBucketEncryptionCommand _ => Fixture.notFound "NoSuchBucket"
    | GetBucketLifecycleConfigurationCommand _ => Fixture.notFound "NoSuchBucket"
    | GetPublicAccessBlockCommand _ => Fixture.notFound "NoSuchBucket"
    | GetBucketPolicyStatusCommand _ => Fixture.notFound "NoSuchBucket"
    | GetBucketTaggingCommand _ => Fixture.notFound "NoSuchBucket"
    | GetFunctionCommand _ => Fixture.notFound "ResourceNotFoundException"
    | DescribeImagesCommand _ =>
        inr {| Ecr.imageDetails :=
                 Some [ Fixture.image "sha256:a" (Some 5); Fixture.image "sha256:b" (Some 7);
                        Fixture.image "sha256:c" None; Fixture.image "sha256:d" (Some 7);
                        Fixture.image "sha256:e" (Some 5) ];
               Ecr.r_nextToken := None |}
    | GetParameterCommand _ => Fixture.notFound "ParameterNotFound"
    | DescribeFileSystemsCommand {| Efs.r_FileSystemId := Some _ |} =>
        Fixture.notFound "FileSystemNotFound"
    | DescribeFileSystemsCommand {| Efs.Marker := None |} =>
        inr {| Efs.FileSystems := Some [fileSystem "fs-1"; fileSystem "fs-2"];
               Efs.NextMarker := Some "more" |}
    | DescribeFileSystemsCommand _ =>
        inr {| Efs.FileSystems := Some [fileSystem "fs-3"]; Efs.NextMarker := None |}
    | _ => Fixture.unsupported
    end.

(** Two listed tables of which the second cannot be described for the
    time being. *)
Definition flaky : Client -> forall R, Command R -> JsError + R :=
  fun client R cmd =>
    match cmd in Command R return JsError + R with
    | ListTablesCommand _ =>
        inr {| DynamoDB.TableNames := Some ["a"; "b"];
               DynamoDB.LastEvaluatedTableName := None |}
    | DescribeTableCommand tableName =>
        if String.eqb tableName "b"
        then throttled
        else inr {| DynamoDB.Table := Some (Fixture.table tableName) |}
    | cmd => churn client _ cmd
    end.

End Scenario.

(** * Proofs *)

(** ** JavaScript values, on examples *)

Example slice_middle : slice 5 10 [0; 1; 2; 3; 4; 5; 6; 7; 8; 9; 10; 11] = [5; 6; 7; 8; 9].
Proof. reflexivity. Qed.

Example slice_past_the_end : slice 10 15 [0; 1; 2; 3; 4; 5; 6; 7; 8; 9; 10; 11] = [10; 11].
Proof. reflexivity. Qed.

Example slice_negative_end : slice 0 (-1) [1; 2; 3] = [1; 2].
Proof. reflexivity. Qed.

Example sort_is_stable :
  sort (fun a b : string * Z => snd b - snd a) [("a", 1); ("b", 2); ("c", 1); ("d", 2)]
  = [("b", 2); ("d", 2); ("a", 1); ("c", 1)].
Proof. reflexivity. Qed.

Example truthy_empty_string : truthy (Some "") = false.
Proof. reflexivity. Qed.

Example tags_collected :
  tags_or_undefined (Some [ {| Key := Some "team"; Value := Some "platform" |};
                            {| Key := Some "env"; Value := Some "" |};
                            {| Key := Some "team"; Value := Some "core" |} ])
  = Some {[ "team" := "core" ]}.
Proof. vm_compute. reflexivity. Qed.

Example tags_proto_key :
  tags_or_undefined (Some [ {| Key := Some "__proto__"; Value := Some "x" |} ]) = None.
Proof. vm_compute. reflexivity. Qed.

(** The tag block of the detail fetches tests the length of the vendor's
    list before filtering: a list whose tags are all dropped leaves an
    empty object. *)
Example tags_if_any_all_dropped :
  tags_if_any (Some [ {| Key := Some "env"; Value := Some "" |} ]) = Some ∅.
Proof. reflexivity. Qed.

(** ** Running computations *)

Lemma bind_run {A B} (m : M A) (f : A -> M B) w st :
  (m ≫= f) w st =
  match m w st with
  | (Ok a, st') => f a w st'
  | (Throw e, st') => (Throw e, st')
  | (OutOfFuel, st') => (OutOfFuel, st')
  end.
Proof. reflexivity. Qed.

Lemma bind_Ok {A B} (m : M A) (f : A -> M B) w st a st' :
  m w st = (Ok a, st') -> (m ≫= f) w st = f a w st'.
Proof. intros H. rewrite bind_run, H. reflexivity. Qed.

Lemma bind_Throw {A B} (m : M A) (f : A -> M B) w st e st' :
  m w st = (Throw e, st') -> (m ≫= f) w st = (Throw e, st').
Proof. intros H. rewrite bind_run, H. reflexivity. Qed.

Lemma add_requests_app l1 l2 st :
  add_requests l2 (add_requests l1 st) = add_requests (l1 ++ l2) st.
Proof. unfold add_requests; simpl. rewrite app_assoc. reflexivity. Qed.

Lemma send_run {R} client (cmd : Command R) w st :
  send client cmd w st =
  (match vendor w client R cmd with inl e => Throw e | inr r => Ok r end,
   add_requests [mkCall client cmd] st).
Proof. reflexivity. Qed.

(** ** Clients *)

Lemma getCredentialsProvider_unknown w st accountName :
  accounts w !! accountName = None ->
  AwsCredentialsProvider.getCredentialsProvider accountName w st
  = (Throw (UnknownAccount accountName), st).
Proof.
  intros H. unfold AwsCredentialsProvider.getCredentialsProvider.
  rewrite bind_run. unfold accounts_get. rewrite H. reflexivity.
Qed.

Lemma getCredentialsProvider_known w st accountName account :
  accounts w !! accountName = Some account ->
  AwsCredentialsProvider.getCredentialsProvider accountName w st
  = (Ok (TemporaryCredentialsProvider
           {| params := AwsCredentialsProvider.assumeRoleParams account (clock w (ticks st));
              clientConfig_region := region account |}),
     tick 1 st).
Proof.
  intros H. unfold AwsCredentialsProvider.getCredentialsProvider.
  rewrite bind_run. unfold accounts_get. rewrite H. reflexivity.
Qed.

(** Every provider's [getClient] is the same text up to the client class. *)
Ltac getClient_unknown H :=
  intros H;
  match goal with |- ?f _ _ _ = _ => unfold f end;
  rewrite bind_run; unfold AwsCredentialsProvider.getAccount, accounts_get;
  rewrite H; reflexivity.

Ltac getClient_known H :=
  intros H;
  match goal with |- ?f _ _ _ = _ => unfold f end;
  rewrite bind_run; unfold AwsCredentialsProvider.getAccount, accounts_get;
  rewrite H;
  rewrite (bind_Ok _ _ _ _ _ _ (getCredentialsProvider_known _ _ _ _ H));
  reflexivity.

Section GetClient.
Variables (w : World) (st : St) (accountName : string).

Lemma dynamodb_getClient_unknown :
  accounts w !! accountName = None ->
  DynamoDbProvider.getClient accountName w st = (Throw (UnknownAccount accountName), st).
Proof. getClient_unknown H. Qed.

Lemma s3_getClient_unknown :
  accounts w !! accountName = None ->
  S3Provider.getClient accountName w st = (Throw (UnknownAccount accountName), st).
Proof. getClient_unknown H. Qed.

Lemma lambda_getClient_unknown :
  accounts w !! accountName = None ->
  LambdaProvider.getClient accountName w st = (Throw (UnknownAccount accountName), st).
Proof. getClient_unknown H. Qed.

Lemma ecr_getClient_unknown :
  accounts w !! accountName = None ->
  EcrProvider.getClient accountName w st = (Throw (UnknownAccount accountName), st).
Proof. getClient_unknown H. Qed.

Lemma ssm_getClient_unknown :
  accounts w !! accountName = None ->
  SsmProvider.getClient accountName w st = (Throw (UnknownAccount accountName), st).
Proof. getClient_unknown H. Qed.

Lemma secrets_getClient_unknown :
  accounts w !! accountName = None ->
  SecretsManagerProvider.getClient accountName w st = (Throw (UnknownAccount accountName), st).
Proof. getClient_unknown H. Qed.

Lemma efs_getClient_unknown :
  accounts w !! accountName = None ->
  EfsProvider.getClient accountName w st = (Throw (UnknownAccount accountName), st).
Proof. getClient_unknown H. Qed.

Variable account : AwsAccount.

Lemma dynamodb_getClient_known :
  accounts w !! accountName = Some account ->
  DynamoDbProvider.getClient accountName w st
  = (Ok (clientFor DynamoDBService account (clock w (ticks st))), tick 1 st).
Proof. getClient_known H. Qed.

Lemma s3_getClient_known :
  accounts w !! accountName = Some account ->
  S3Provider.getClient accountName w st
  = (Ok (clientFor S3Service account (clock w (ticks st))), tick 1 st).
Proof. getClient_known H. Qed.

Lemma lambda_getClient_known :
  accounts w !! accountName = Some account ->
  LambdaProvider.getClient accountName w st
  = (Ok (clientFor LambdaService account (clock w (ticks st))), tick 1 st).
Proof. getClient_known H. Qed.

Lemma ecr_getClient_known :
  accounts w !! accountName = Some account ->
  EcrProvider.getClient accountName w st
  = (Ok (clientFor ECR account (clock w (ticks st))), tick 1 st).
Proof. getClient_known H. Qed.

Lemma ssm_getClient_known :
  accounts w !! accountName = Some account ->
  SsmProvider.getClient accountName w st
  = (Ok (clientFor SSM account (clock w (ticks st))), tick 1 st).
Proof. getClient_known H. Qed.

Lemma secrets_getClient_known :
  accounts w !! accountName = Some account ->
  SecretsManagerProvider.getClient accountName w st
  = (Ok (clientFor SecretsManagerService account (clock w (ticks st))), tick 1 st).
Proof. getClient_known H. Qed.

Lemma efs_getClient_known :
  accounts w !! accountName = Some account ->
  EfsProvider.getClient accountName w st
  = (Ok (clientFor EFS account (clock w (ticks st))), tick 1 st).
Proof. getClient_known H. Qed.
End GetClient.

(** ** The credentials broker *)




(** ** Paginated listings *)

Section PagesFacts.
Context {R Item : Type}.
Variables (w : World) (client : Client).
Variable command : option string -> Command R.
Variable items : R -> list Item.
Variable next : R -> option string.

Lemma requested_length cursor (pages : list R) :
  length (requested next cursor pages) = length pages.
Proof.
  revert cursor. induction pages as [|p ps IH]; intros cursor; simpl; [reflexivity|].
  rewrite IH. reflexivity.
Qed.

Lemma pageRound_run acc cursor st page :
  vendor w client R (command cursor) = inr page ->
  pageRound client command items next (acc, cursor) w st
  = (Ok (Normal (acc ++ items page, next page)),
     add_requests [mkCall client (command cursor)] st).
Proof.
  intros Hv. unfold pageRound. rewrite bind_run, send_run, Hv. reflexivity.
Qed.

(** The loop reads every page, in order, asking once per page. *)
Lemma doWhile_pageRound cursor pages :
  serves w client command next cursor pages ->
  forall fuel acc st,
    (length pages <= fuel)%nat ->
    exists final,
      truthy final = false /\
      doWhile fuel (pageRound client command items next)
              (fun s => truthy (snd s)) (acc, cursor) w st
      = (Ok (acc ++ allItems items pages, final),
         add_requests (fetches client command next cursor pages) st).
Proof.
  induction 1 as [cursor page Hv Hlast | cursor page pages Hv Hmore Hrest IH];
    intros fuel acc st Hfuel.
  - destruct fuel as [|fuel]; [simpl in Hfuel; lia|].
    exists (next page). split; [exact Hlast|].
    cbn [doWhile]. rewrite bind_run, (pageRound_run _ _ _ _ Hv).
    cbn [snd]. rewrite Hlast.
    unfold allItems, fetches. cbn. rewrite app_nil_r. reflexivity.
  - destruct fuel as [|fuel]; [simpl in Hfuel; lia|].
    cbn [doWhile]. rewrite bind_run, (pageRound_run _ _ _ _ Hv).
    cbn [snd]. rewrite Hmore.
    destruct (IH fuel (acc ++ items page)
                 (add_requests [mkCall client (command cursor)] st))
      as (final & Hfinal & Hrun); [simpl in Hfuel; lia|].
    exists final. split; [exact Hfinal|].
    rewrite Hrun, add_requests_app.
    unfold allItems, fetches. cbn. rewrite app_assoc. reflexivity.
Qed.
End PagesFacts.

Ltac run_listing Hclient Ha items Hserves Hfuel :=
  rewrite (bind_Ok _ _ _ _ _ _ (Hclient _ _ _ _ Ha));
  rewrite bind_run;
  match goal with
  | |- context [doWhile ?fuel ?round ?cond ([], None) ?w ?s] =>
      let final := fresh "final" in
      let Hrun := fresh "Hrun" in
      destruct (doWhile_pageRound _ _ _ items _ _ _ Hserves fuel [] s Hfuel)
        as (final & _ & Hrun);
      match type of Hrun with
      | doWhile _ ?r _ _ _ _ = _ => change round with r
      end;
      rewrite Hrun
  end;
  reflexivity.

Lemma listTables_pages w st accountName account fuel pages :
  accounts w !! accountName = Some account ->
  let client := clientFor DynamoDBService account (clock w (ticks st)) in
  serves w client ListTablesCommand DynamoDB.LastEvaluatedTableName None pages ->
  (length pages <= fuel)%nat ->
  DynamoDbProvider.listTables fuel accountName w st
  = (Ok (allItems (fun page => DynamoDB.TableNames page ?? []) pages),
     add_requests (fetches client ListTablesCommand DynamoDB.LastEvaluatedTableName None pages)
                  (tick 1 st)).
Proof.
  intros Ha client Hserves Hfuel. unfold DynamoDbProvider.listTables.
  run_listing dynamodb_getClient_known Ha
    (fun page => DynamoDB.TableNames page ?? []) Hserves Hfuel.
Qed.

Lemma listFunctions_pages w st accountName account fuel pages :
  accounts w !! accountName = Some account ->
  let client := clientFor LambdaService account (clock w (ticks st)) in
  serves w client ListFunctionsCommand Lambda.NextMarker None pages ->
  (length pages <= fuel)%nat ->
  LambdaProvider.listFunctions fuel accountName w st
  = (Ok (allItems (fun page => map LambdaProvider.mapFunction (Lambda.Functions page ?? [])) pages),
     add_requests (fetches client ListFunctionsCommand Lambda.NextMarker None pages)
                  (tick 1 st)).
Proof.
  intros Ha client Hserves Hfuel. unfold LambdaProvider.listFunctions.
  run_listing lambda_getClient_known Ha
    (fun page => map LambdaProvider.mapFunction (Lambda.Functions page ?? [])) Hserves Hfuel.
Qed.

Lemma listSecrets_pages w st accountName account fuel pages :
  accounts w !! accountName = Some account ->
  let client := clientFor SecretsManagerService account (clock w (ticks st)) in
  serves w client ListSecretsCommand SecretsManager.NextToken None pages ->
  (length pages <= fuel)%nat ->
  SecretsManagerProvider.listSecrets fuel accountName w st
  = (Ok (allItems (fun page => map SecretsManagerProvider.mapSecret
                                   (SecretsManager.SecretList page ?? [])) pages),
     add_requests (fetches client ListSecretsCommand SecretsManager.NextToken None pages)
                  (tick 1 st)).
Proof.
  intros Ha client Hserves Hfuel. unfold SecretsManagerProvider.listSecrets.
  run_listing secrets_getClient_known Ha
    (fun page => map SecretsManagerProvider.mapSecret (SecretsManager.SecretList page ?? []))
    Hserves Hfuel.
Qed.

(** The request of [getParametersByPath] for a cursor. *)
Lemma getParametersByPath_pages w st accountName account fuel path recursive withDecryption pages :
  accounts w !! accountName = Some account ->
  let client := clientFor SSM account (clock w (ticks st)) in
  let command cursor :=
    GetParametersByPathCommand
      {| Ssm.Path := path; Ssm.Recursive := recursive;
         Ssm.p_WithDecryption := withDecryption; Ssm.NextToken := cursor |} in
  serves w client command Ssm.r_NextToken None pages ->
  (length pages <= fuel)%nat ->
  SsmProvider.getParametersByPath fuel accountName path recursive withDecryption w st
  = (Ok (allItems (fun page => map (fun param => SsmProvider.mapParameter param withDecryption)
                                   (Ssm.Parameters_ page ?? [])) pages),
     add_requests (fetches client command Ssm.r_NextToken None pages) (tick 1 st)).
Proof.
  intros Ha client command Hserves Hfuel. unfold SsmProvider.getParametersByPath.
  run_listing ssm_getClient_known Ha
    (fun page => map (fun param => SsmProvider.mapParameter param withDecryption)
                     (Ssm.Parameters_ page ?? [])) Hserves Hfuel.
Qed.

(** Discharging [serves] on a scripted vendor. *)
Ltac serve :=
  repeat first
    [ eapply serves_last; [vm_compute; reflexivity | reflexivity]
    | eapply serves_more; [vm_compute; reflexivity | reflexivity | ] ].

(** ** Slices and sorting *)

Lemma slice_0_pos {A} (m : Z) (l : list A) :
  0 < m -> slice 0 m l = take (Z.to_nat m) l.
Proof.
  intros Hm. unfold slice, slice_index.
  destruct (0 <? 0) eqn:H0; [apply Z.ltb_lt in H0; lia|].
  destruct (m <? 0) eqn:Hneg; [apply Z.ltb_lt in Hneg; lia|].
  replace (0 `min` Z.of_nat (length l)) with 0 by lia.
  change (Z.to_nat 0) with 0%nat. rewrite drop_0, Z.sub_0_r.
  destruct (Z.le_ge_cases m (Z.of_nat (length l))) as [Hle|Hge].
  - rewrite Z.min_l by lia. reflexivity.
  - rewrite Z.min_r by lia. rewrite Nat2Z.id.
    rewrite firstn_all. symmetry. apply take_ge. lia.
Qed.

Lemma sort_insert_perm {A} (cmp : A -> A -> Z) x l :
  Permutation (x :: l) (sort_insert cmp x l).
Proof.
  induction l as [|y l IH]; simpl; [reflexivity|].
  destruct (cmp x y <=? 0); [reflexivity|].
  rewrite perm_swap. apply perm_skip, IH.
Qed.

Lemma sort_perm {A} (cmp : A -> A -> Z) l : Permutation l (sort cmp l).
Proof.
  induction l as [|x l IH]; simpl; [reflexivity|].
  unfold sort in *. simpl. rewrite <- sort_insert_perm. apply perm_skip, IH.
Qed.

Lemma sort_length {A} (cmp : A -> A -> Z) l : length (sort cmp l) = length l.
Proof. symmetry. apply Permutation_length, sort_perm. Qed.

Section SortSorted.
Context {A : Type} (cmp : A -> A -> Z).
Hypothesis cmp_total : forall a b, 0 < cmp a b -> cmp b a <= 0.
Hypothesis cmp_trans : forall a b c, cmp a b <= 0 -> cmp b c <= 0 -> cmp a c <= 0.

Lemma sort_insert_sorted x l :
  StronglySorted (fun a b => cmp a b <= 0) l ->
  StronglySorted (fun a b => cmp a b <= 0) (sort_insert cmp x l).
Proof.
  induction 1 as [|y l Hsorted IH Hall]; simpl.
  - constructor; constructor.
  - destruct (cmp x y <=? 0) eqn:Hxy.
    + apply Z.leb_le in Hxy. constructor.
      * constructor; assumption.
      * constructor; [exact Hxy|].
        eapply Forall_impl; [exact Hall|]. intros z Hz. simpl in Hz.
        eapply cmp_trans; eassumption.
    + apply Z.leb_gt in Hxy. constructor; [exact IH|].
      rewrite <- (sort_insert_perm cmp x l). constructor; [|exact Hall].
      apply cmp_total, Hxy.
Qed.

Lemma sort_sorted l : StronglySorted (fun a b => cmp a b <= 0) (sort cmp l).
Proof.
  induction l as [|x l IH]; [constructor|].
  unfold sort in *. simpl. apply sort_insert_sorted, IH.
Qed.
End SortSorted.

Lemma StronglySorted_weaken {A} (P Q : A -> A -> Prop) l :
  (forall a b, P a b -> Q a b) -> StronglySorted P l -> StronglySorted Q l.
Proof.
  intros HPQ. induction 1 as [|x l Hs IH Hall]; constructor; [exact IH|].
  eapply Forall_impl; [exact Hall|]. intros b. apply HPQ.
Qed.

Lemma sort_newestFirst_sorted l :
  StronglySorted notOlder (sort EcrProvider.newestFirst l).
Proof.
  apply (StronglySorted_weaken (fun a b => EcrProvider.newestFirst a b <= 0)).
  - unfold notOlder, EcrProvider.newestFirst. intros a b. cbv zeta. lia.
  - apply sort_sorted; unfold EcrProvider.newestFirst; intros; lia.
Qed.

(** ** Image listings *)

Section ListImages.
Variables (w : World) (client : Client) (repositoryName : string).
Variable maxResults : option JsNumber.

Let command (cursor : option string) : Command Ecr.DescribeImagesResponse :=
  EcrProvider.describeImages repositoryName cursor maxResults.

Lemma imagesOf_cons page pages :
  imagesOf repositoryName (page :: pages)
  = map (EcrProvider.mapImage repositoryName) (Ecr.imageDetails page ?? [])
    ++ imagesOf repositoryName pages.
Proof. reflexivity. Qed.

Lemma listImages_round_run acc cursor st page :
  vendor w client _ (command cursor) = inr page ->
  EcrProvider.listImages_round client repositoryName maxResults (acc, cursor) w st
  = (Ok (let images := acc ++ imagesOf repositoryName [page] in
         if enough maxResults images
         then Break (images, Ecr.r_nextToken page)
         else Normal (images, Ecr.r_nextToken page)),
     add_requests [mkCall client (command cursor)] st).
Proof.
  intros Hv. unfold EcrProvider.listImages_round. rewrite bind_run, send_run.
  fold (command cursor). rewrite Hv. cbv zeta.
  unfold imagesOf, allItems, enough. cbn [map concat]. rewrite app_nil_r.
  destruct (truthy_num maxResults && _); reflexivity.
Qed.

(** The loop reads the pages in order and stops after the first page
    with which it has enough, or after the last page. *)
Lemma listImages_loop cursor pages :
  serves w client command Ecr.r_nextToken cursor pages ->
  forall fuel acc st,
    (length pages <= fuel)%nat ->
    exists k final,
      (1 <= k <= length pages)%nat /\
      doWhile fuel (EcrProvider.listImages_round client repositoryName maxResults)
              (fun s => truthy (snd s)) (acc, cursor) w st
      = (Ok (acc ++ imagesOf repositoryName (take k pages), final),
         add_requests (fetches client command Ecr.r_nextToken cursor (take k pages)) st) /\
      (k = length pages \/ enough maxResults (acc ++ imagesOf repositoryName (take k pages)) = true) /\
      (forall j, (1 <= j < k)%nat ->
                 enough maxResults (acc ++ imagesOf repositoryName (take j pages)) = false).
Proof.
  induction 1 as [cursor page Hv Hlast | cursor page pages Hv Hmore Hrest IH];
    intros fuel acc st Hfuel.
  - destruct fuel as [|fuel]; [simpl in Hfuel; lia|].
    exists 1%nat, (Ecr.r_nextToken page). split; [simpl; lia|].
    split; [|split; [left; reflexivity|intros j Hj; lia]].
    cbn [doWhile]. rewrite bind_run, (listImages_round_run _ _ _ _ Hv). cbv zeta.
    destruct (enough maxResults _); cbn [snd]; [|rewrite Hlast]; reflexivity.
  - destruct fuel as [|fuel]; [simpl in Hfuel; lia|].
    cbn [doWhile]. rewrite bind_run, (listImages_round_run _ _ _ _ Hv). cbv zeta.
    destruct (enough maxResults (acc ++ imagesOf repositoryName [page])) eqn:Henough.
    + exists 1%nat, (Ecr.r_nextToken page). split; [simpl; lia|].
      split; [reflexivity|]. split; [right; exact Henough|intros j Hj; lia].
    + cbn [snd]. rewrite Hmore.
      destruct (IH fuel (acc ++ imagesOf repositoryName [page])
                   (add_requests [mkCall client (command cursor)] st))
        as (k & final & Hk & Hrun & Hstop & Hbefore); [simpl in Hfuel; lia|].
      assert (Hshift : forall n,
                 (acc ++ imagesOf repositoryName [page]) ++ imagesOf repositoryName (take n pages)
                 = acc ++ imagesOf repositoryName (take (S n) (page :: pages))).
      { intros n. cbn [take]. rewrite (imagesOf_cons page (take n pages)).
        unfold imagesOf at 1, allItems. cbn [map concat].
        rewrite app_nil_r, app_assoc. reflexivity. }
      exists (S k), final. split; [simpl; lia|].
      split; [|split].
      * rewrite Hrun, add_requests_app, Hshift. reflexivity.
      * destruct Hstop as [->|Hstop]; [left; reflexivity|right].
        rewrite <- Hshift. exact Hstop.
      * intros j Hj. destruct j as [|j]; [lia|].
        destruct j as [|j].
        -- cbn [take]. exact Henough.
        -- rewrite <- Hshift. apply Hbefore. lia.
Qed.
End ListImages.

Lemma listImages_run w st accountName account fuel repositoryName maxResults pages :
  accounts w !! accountName = Some account ->
  let client := clientFor ECR account (clock w (ticks st)) in
  let command cursor := EcrProvider.describeImages repositoryName cursor maxResults in
  serves w client command Ecr.r_nextToken None pages ->
  (length pages <= fuel)%nat ->
  exists k,
    (1 <= k <= length pages)%nat /\
    let read := imagesOf repositoryName (take k pages) in
    EcrProvider.listImages fuel accountName repositoryName maxResults w st
    = (Ok (let images := sort EcrProvider.newestFirst read in
           if truthy_num maxResults then slice_to (maxResults ?? NaN) images else images),
       add_requests (fetches client command Ecr.r_nextToken None (take k pages)) (tick 1 st)) /\
    (k = length pages \/ enough maxResults read = true) /\
    (forall j, (1 <= j < k)%nat ->
               enough maxResults (imagesOf repositoryName (take j pages)) = false).
Proof.
  intros Ha client command Hserves Hfuel.
  destruct (listImages_loop w client repositoryName maxResults None pages Hserves
              fuel [] (tick 1 st) Hfuel)
    as (k & final & Hk & Hrun & Hstop & Hbefore).
  exists k. split; [exact Hk|]. cbv zeta. split; [|split; assumption].
  unfold EcrProvider.listImages.
  rewrite (bind_Ok _ _ _ _ _ _ (ecr_getClient_known _ _ _ _ Ha)).
  rewrite bind_run. fold client. rewrite Hrun. reflexivity.
Qed.

(** ** Batches *)

Section Chunks.
Context {A : Type}.
Variable n : nat.
Hypothesis n_pos : (0 < n)%nat.

Lemma chunks_from_enough fuel1 : forall fuel2 (l : list A),
  (length l <= fuel1)%nat -> (length l <= fuel2)%nat ->
  chunks_from fuel1 n l = chunks_from fuel2 n l.
Proof.
  induction fuel1 as [|fuel1 IH]; intros fuel2 l H1 H2.
  - destruct l; [|simpl in H1; lia]. destruct fuel2; reflexivity.
  - destruct l as [|x l]; [destruct fuel2; reflexivity|].
    destruct fuel2 as [|fuel2]; [simpl in H2; lia|].
    cbn [chunks_from]. f_equal.
    apply IH; rewrite length_drop; simpl in *; lia.
Qed.

Lemma chunks_nil : chunks n (@nil A) = [].
Proof. reflexivity. Qed.

Lemma chunks_unfold (l : list A) :
  l <> [] -> chunks n l = take n l :: chunks n (drop n l).
Proof.
  intros Hl. unfold chunks. destruct l as [|x l]; [contradiction|].
  cbn [length chunks_from]. f_equal.
  apply chunks_from_enough; rewrite length_drop; simpl; lia.
Qed.

(** Facts are proved along the length of the list. *)
Lemma chunks_ind (P : list A -> Prop) :
  P [] ->
  (forall l, l <> [] -> P (drop n l) -> P l) ->
  forall l, P l.
Proof.
  intros Hnil Hstep l.
  remember (length l) as k eqn:Hk. revert l Hk.
  induction k as [k IH] using lt_wf_ind. intros l Hk.
  destruct l as [|x l]; [exact Hnil|].
  apply Hstep; [discriminate|].
  apply (IH (length (drop n (x :: l)))); [|reflexivity].
  rewrite length_drop. subst k. simpl. lia.
Qed.

Lemma chunks_concat (l : list A) : concat (chunks n l) = l.
Proof.
  induction l as [|l Hl IH] using chunks_ind; [reflexivity|].
  rewrite chunks_unfold by exact Hl. cbn [concat]. rewrite IH. apply take_drop.
Qed.

Lemma chunks_sizes (l : list A) :
  Forall (fun group => (1 <= length group <= n)%nat) (chunks n l).
Proof.
  induction l as [|l Hl IH] using chunks_ind; [constructor|].
  rewrite chunks_unfold by exact Hl. constructor; [|exact IH].
  rewrite length_take. destruct l; [contradiction|]. simpl. lia.
Qed.

Lemma chunks_length (l : list A) :
  length (chunks n l) = ((length l + n - 1) / n)%nat.
Proof.
  induction l as [|l Hl IH] using chunks_ind.
  - rewrite chunks_nil. simpl. symmetry. apply Nat.div_small. lia.
  - rewrite chunks_unfold by exact Hl. cbn [length]. rewrite IH, length_drop.
    assert (1 <= length l)%nat by (destruct l; [contradiction|simpl; lia]).
    destruct (le_lt_dec n (length l)) as [Hge|Hlt].
    + replace (length l + n - 1)%nat with ((length l - n + n - 1) + 1 * n)%nat by lia.
      rewrite Nat.div_add by lia. lia.
    + replace (length l - n + n - 1)%nat with (n - 1)%nat by lia.
      rewrite (Nat.div_small (n - 1) n) by lia.
      apply (Nat.div_unique _ _ _ (length l - 1)); lia.
Qed.

Lemma chunks_lookup (l : list A) i :
  (i * n < length l)%nat -> chunks n l !! i = Some (take n (drop (i * n) l)).
Proof.
  revert l. induction i as [|i IH]; intros l Hi.
  - rewrite chunks_unfold by (destruct l; [simpl in Hi; lia|discriminate]).
    reflexivity.
  - rewrite chunks_unfold by (destruct l; [simpl in Hi; lia|discriminate]).
    cbn [lookup list_lookup]. rewrite IH by (rewrite length_drop; simpl in Hi; lia).
    rewrite drop_drop. reflexivity.
Qed.
End Chunks.

Lemma slice_batch {A} (l : list A) i k :
  (i < length l)%nat ->
  slice (Z.of_nat i) (Z.of_nat (i + k)) l = take k (drop i l).
Proof.
  intros Hi. unfold slice, slice_index.
  destruct (Z.of_nat i <? 0) eqn:H1; [apply Z.ltb_lt in H1; lia|].
  destruct (Z.of_nat (i + k) <? 0) eqn:H2; [apply Z.ltb_lt in H2; lia|].
  rewrite (Z.min_l (Z.of_nat i)) by lia. rewrite Nat2Z.id.
  destruct (le_lt_dec (i + k) (length l)) as [Hle|Hgt].
  - rewrite Z.min_l by lia. f_equal. lia.
  - rewrite Z.min_r by lia.
    rewrite (take_ge (drop i l) k) by (rewrite length_drop; lia).
    apply take_ge. rewrite length_drop. lia.
Qed.

Lemma defined_app {A} (l1 l2 : list (option A)) :
  defined (l1 ++ l2) = defined l1 ++ defined l2.
Proof. unfold defined. apply omap_app. Qed.


(** ** Tasks *)

Lemma run_await {R} client (cmd : Command R) : run (await client cmd) = send client cmd.
Proof.
  extensionality w. extensionality st. cbn [run await]. rewrite send_run.
  destruct (vendor w client R cmd); reflexivity.
Qed.

Lemma run_bind {A B} (t : Task A) (f : A -> Task B) :
  run (t ≫= f) = run t ≫= (fun a => run (f a)).
Proof.
  extensionality w. induction t as [a|e|R client cmd resume IH]; extensionality st.
  - reflexivity.
  - reflexivity.
  - cbn [mbind Task_bind task_bind run]. rewrite bind_run.
    specialize (IH (vendor w client R cmd)).
    apply (f_equal (fun m => m (add_requests [mkCall client cmd] st))) in IH.
    rewrite bind_run in IH. exact IH.
Qed.

Lemma run_attempt {A} (body : Task A) (handler : JsError -> Task A) :
  run (attempt body handler) = tryCatch (run body) (fun e => run (handler e)).
Proof.
  extensionality w. induction body as [a|e|R client cmd resume IH]; extensionality st.
  - reflexivity.
  - reflexivity.
  - cbn [attempt run]. unfold tryCatch.
    specialize (IH (vendor w client R cmd)).
    apply (f_equal (fun m => m (add_requests [mkCall client cmd] st))) in IH.
    exact IH.
Qed.

(** A task awaited on its own comes to its outcome and sends its
    itinerary; it never runs out of fuel. *)
Lemma run_outcome {A} (t : Task A) w : forall st,
  run t w st = (outcome w t, add_requests (itinerary w t) st).
Proof.
  induction t as [a|e|R client cmd resume IH]; intros st.
  - cbn. unfold add_requests. rewrite app_nil_r. destruct st; reflexivity.
  - cbn. unfold add_requests. rewrite app_nil_r. destruct st; reflexivity.
  - cbn [run outcome itinerary]. rewrite IH, add_requests_app. reflexivity.
Qed.

Lemma awaited_run {A} (call : M (Task A)) w st :
  awaited call w st =
  match call w st with
  | (Ok t, st') => (outcome w t, add_requests (itinerary w t) st')
  | (Throw e, st') => (Throw e, st')
  | (OutOfFuel, st') => (OutOfFuel, st')
  end.
Proof.
  unfold awaited. rewrite bind_run.
  destruct (call w st) as [[t|e|] st']; try reflexivity. apply run_outcome.
Qed.

(** ** Promise.all *)

Lemma noteRequest_adds {A} (resumed : option (Task A)) st :
  exists calls, noteRequest resumed st = add_requests calls st.
Proof.
  destruct resumed as [[a|e|R client cmd resume]|]; cbn [noteRequest];
    try (exists []; unfold add_requests; rewrite app_nil_r; destruct st; reflexivity).
  eexists. reflexivity.
Qed.

Lemma awaits_outstanding {A} w (pool : list (Task A)) :
  (length (outstanding pool) <= sum_list (awaits w <$> pool))%nat /\
  (outstanding pool = [] -> sum_list (awaits w <$> pool) = 0%nat).
Proof.
  induction pool as [|t pool [IH1 IH2]]; [split; reflexivity|].
  destruct t as [a|e|R client cmd resume]; cbn [outstanding omap fmap list_fmap sum_list awaits].
  - split; [exact IH1|]. intros H. rewrite IH2 by exact H. reflexivity.
  - split; [exact IH1|]. intros H. rewrite IH2 by exact H. reflexivity.
  - split; [cbn; unfold outstanding in IH1; lia|]. discriminate.
Qed.

(** One answer: the task that waited for it is resumed; nothing else
    in the pool changes, and what the tasks come to stays the same. *)
Lemma answer_spec {A} (w : World) (pool : list (Task A)) : forall i,
  length (fst (answer w i pool)) = length pool /\
  map (outcome w) (fst (answer w i pool)) = map (outcome w) pool /\
  match snd (answer w i pool) with
  | Some t =>
      (i < length (outstanding pool))%nat /\
      t ∈ fst (answer w i pool) /\
      S (sum_list (awaits w <$> fst (answer w i pool))) = sum_list (awaits w <$> pool) /\
      (noneRejected pool -> (forall e, t <> Rejected e) -> noneRejected (fst (answer w i pool)))
  | None => fst (answer w i pool) = pool /\ (length (outstanding pool) <= i)%nat
  end.
Proof.
  induction pool as [|t pool IH]; intros i.
  - cbn. repeat split. lia.
  - destruct t as [a|e|R client cmd resume].
    + cbn [answer]. specialize (IH i).
      destruct (answer w i pool) as [pool' resumed]. cbn [fst snd] in *.
      destruct IH as (Hlen & Hout & Hres).
      split; [cbn; lia|]. split; [cbn; congruence|].
      destruct resumed as [t|].
      * destruct Hres as (Hi & Hin & Hsum & Hrej).
        split; [exact Hi|]. split; [right; exact Hin|]. split; [exact Hsum|].
        intros Hnone Ht. apply Forall_cons in Hnone as [Ha Hnone].
        apply Forall_cons. split; [exact Ha|]. apply Hrej; assumption.
      * destruct Hres as [-> Hi]. split; [reflexivity|exact Hi].
    + cbn [answer]. specialize (IH i).
      destruct (answer w i pool) as [pool' resumed]. cbn [fst snd] in *.
      destruct IH as (Hlen & Hout & Hres).
      split; [cbn; lia|]. split; [cbn; congruence|].
      destruct resumed as [t|].
      * destruct Hres as (Hi & Hin & Hsum & Hrej).
        split; [exact Hi|]. split; [right; exact Hin|]. split; [exact Hsum|].
        intros Hnone Ht. apply Forall_cons in Hnone as [Ha Hnone].
        apply Forall_cons. split; [exact Ha|]. apply Hrej; assumption.
      * destruct Hres as [-> Hi]. split; [reflexivity|exact Hi].
    + destruct i as [|i]; cbn [answer].
      * cbn [fst snd]. split; [reflexivity|]. split; [reflexivity|].
        split; [cbn; lia|]. split; [left|]. split; [reflexivity|].
        intros Hnone Ht. apply Forall_cons in Hnone as [_ Hnone].
        apply Forall_cons. split; assumption.
      * specialize (IH i).
        destruct (answer w i pool) as [pool' resumed]. cbn [fst snd] in *.
        destruct IH as (Hlen & Hout & Hres).
        split; [cbn; lia|]. split; [cbn; congruence|].
        destruct resumed as [t|].
        -- destruct Hres as (Hi & Hin & Hsum & Hrej).
           split; [cbn; unfold outstanding in Hi; lia|]. split; [right; exact Hin|].
           split; [cbn; cbn in Hsum; lia|].
           intros Hnone Ht. apply Forall_cons in Hnone as [Ha Hnone].
           apply Forall_cons. split; [exact Ha|]. apply Hrej; assumption.
        -- destruct Hres as [-> Hi]. split; [reflexivity|].
           cbn. unfold outstanding in Hi. lia.
Qed.

Lemma firstRejection_from {A} (pool : list (Task A)) : forall rejection,
  foldl noteRejection rejection (Some <$> pool)
  = match rejection with
    | Some e => Some e
    | None => firstRejection pool
    end.
Proof.
  unfold firstRejection.
  induction pool as [|t pool IH]; intros rejection; [destruct rejection; reflexivity|].
  cbn [fmap list_fmap foldl].
  rewrite (IH (noteRejection rejection (Some t))), (IH (noteRejection None (Some t))).
  destruct rejection as [e|]; [reflexivity|].
  destruct (noteRejection None (Some t)); reflexivity.
Qed.

Lemma firstRejection_spec {A} w (pool : list (Task A)) :
  (firstRejection pool = None -> noneRejected pool) /\
  (forall e, firstRejection pool = Some e -> Throw e ∈ map (outcome w) pool).
Proof.
  induction pool as [|t pool [IH1 IH2]]; [split; [constructor|discriminate]|].
  unfold firstRejection. cbn [fmap list_fmap foldl]. rewrite firstRejection_from.
  destruct t as [a|e|R client cmd resume]; cbn [noteRejection].
  - split.
    + intros H. apply Forall_cons. split; [discriminate|apply IH1, H].
    + intros e H. right. apply IH2, H.
  - split; [discriminate|]. intros e' [= <-]. left.
  - split.
    + intros H. apply Forall_cons. split; [discriminate|apply IH1, H].
    + intros e H. right. apply IH2, H.
Qed.

(** The run of a pool to its end. *)
Lemma settleAll_spec {A} w : forall n (pool : list (Task A)) rejection st,
  sum_list (awaits w <$> pool) = n ->
  (rejection = None -> noneRejected pool) ->
  (forall e, rejection = Some e -> Throw e ∈ map (outcome w) pool) ->
  outstanding (settleAll n w pool rejection st).1.1 = [] /\
  map (outcome w) (settleAll n w pool rejection st).1.1 = map (outcome w) pool /\
  ((settleAll n w pool rejection st).1.2 = None ->
   noneRejected (settleAll n w pool rejection st).1.1) /\
  (forall e, (settleAll n w pool rejection st).1.2 = Some e ->
             Throw e ∈ map (outcome w) pool) /\
  exists calls, (settleAll n w pool rejection st).2 = add_requests calls st.
Proof.
  induction n as [|n IH]; intros pool rejection st Hn Hnone Hsome.
  - cbn [settleAll fst snd]. split.
    { pose proof (awaits_outstanding w pool) as [Hle _].
      destruct (outstanding pool); [reflexivity|cbn in Hle; lia]. }
    split; [reflexivity|]. split; [exact Hnone|]. split; [exact Hsome|].
    exists []. unfold add_requests. rewrite app_nil_r. destruct st; reflexivity.
  - cbn [settleAll].
    set (i := (arrival w (requests st) (outstanding pool) `mod` length (outstanding pool))%nat).
    assert (Hwaiting : (0 < length (outstanding pool))%nat).
    { pose proof (awaits_outstanding w pool) as [_ Hzero].
      destruct (outstanding pool); [rewrite Hzero in Hn by reflexivity; discriminate|cbn; lia]. }
    assert (Hi : (i < length (outstanding pool))%nat) by (apply Nat.mod_upper_bound; lia).
    destruct (answer_spec w pool i) as (Hlen & Hout & Hres).
    destruct (answer w i pool) as [pool' resumed]. cbn [fst snd] in *.
    destruct resumed as [t|]; [|lia].
    destruct Hres as (_ & Hin & Hsum & Hrej).
    specialize (IH pool' (noteRejection rejection (Some t)) (noteRequest (Some t) st)).
    destruct IH as (H1 & H2 & H3 & H4 & calls & H5).
    + lia.
    + intros Hr. destruct rejection as [e|]; [discriminate Hr|].
      apply Hrej; [apply Hnone; reflexivity|].
      intros e ->. discriminate Hr.
    + intros e Hr. rewrite Hout. destruct rejection as [e'|].
      * apply Hsome. exact Hr.
      * destruct t as [a|e'|R client cmd resume]; try discriminate Hr.
        injection Hr as ->. rewrite <- Hout.
        apply (list_elem_of_fmap_2 (outcome w)) in Hin. exact Hin.
    + split; [exact H1|]. split; [congruence|]. split; [exact H3|].
      split; [intros e He; rewrite <- Hout; apply H4, He|].
      destruct (noteRequest_adds (Some t) st) as (calls0 & Hnote).
      exists (calls0 ++ calls). rewrite H5, Hnote, add_requests_app. reflexivity.
Qed.

Lemma values_spec {A} w (pool : list (Task A)) :
  outstanding pool = [] -> noneRejected pool ->
  exists results, values pool = Some results /\ map (outcome w) pool = map Ok results.
Proof.
  induction pool as [|t pool IH]; intros Hout Hnone; [exists []; split; reflexivity|].
  apply Forall_cons in Hnone as [Ht Hnone].
  destruct t as [a|e|R client cmd resume]; [|exfalso; eapply Ht; reflexivity|discriminate Hout].
  destruct (IH Hout Hnone) as (results & Hv & Hmap).
  exists (a :: results). cbn [values]. rewrite Hv. split; [reflexivity|].
  cbn. rewrite Hmap. reflexivity.
Qed.

(** What [Promise.all] makes of a pool: the values in the order of the
    calls when every task is fulfilled, the error of a rejected task
    otherwise; only requests are added to the state. *)
Lemma settled_spec {A} (pool : list (Task A)) w st :
  (exists calls, snd (settled pool w st) = add_requests (outstanding pool ++ calls) st) /\
  match fst (settled pool w st) with
  | Ok results => map (outcome w) pool = map Ok results
  | Throw e => Throw e ∈ map (outcome w) pool
  | OutOfFuel => False
  end.
Proof.
  unfold settled.
  destruct (firstRejection_spec w pool) as [Hnone Hsome].
  destruct (settleAll_spec w _ pool (firstRejection pool)
              (add_requests (outstanding pool) st) eq_refl Hnone Hsome)
    as (H1 & H2 & H3 & H4 & calls & H5).
  destruct (settleAll _ w pool _ _) as [[pool' rejection] st']. cbn [fst snd] in *.
  split; [exists calls; rewrite H5, add_requests_app; reflexivity|].
  destruct rejection as [e|].
  - apply H4. reflexivity.
  - destruct (values_spec w pool' H1 (H3 eq_refl)) as (results & -> & Hmap).
    congruence.
Qed.

(** The calls of a [Promise.all] up to their first [await]. *)
Lemma startAll_spec {A} (calls : list (M (Task A))) w : forall st,
  match startAll calls w st with
  | (Ok pool, _) =>
      Forall2 (fun call t => exists s, fst (awaited call w s) = outcome w t) calls pool
  | (Throw _, _) => False
  | (OutOfFuel, _) => exists call s, call ∈ calls /\ fst (awaited call w s) = OutOfFuel
  end.
Proof.
  induction calls as [|call calls IH]; intros st; [constructor|].
  cbn [startAll]. rewrite bind_run. unfold started at 1, tryCatch.
  pose proof (awaited_run call w st) as Hcall.
  destruct (call w st) as [[t|e|] st1].
  - rewrite bind_run. specialize (IH st1).
    destruct (startAll calls w st1) as [[pool|e|] st2].
    + constructor; [|exact IH]. exists st. rewrite Hcall. reflexivity.
    + exact IH.
    + destruct IH as (c & s & Hin & Hs). exists c, s. split; [right; exact Hin|exact Hs].
  - cbn [mret M_ret]. rewrite bind_run. specialize (IH st1).
    destruct (startAll calls w st1) as [[pool|e'|] st2].
    + constructor; [|exact IH]. exists st. rewrite Hcall. reflexivity.
    + exact IH.
    + destruct IH as (c & s & Hin & Hs). exists c, s. split; [right; exact Hin|exact Hs].
  - exists call, st. split; [left|]. rewrite Hcall. reflexivity.
Qed.

(** What [Promise.all] resolves to: one result per call, in the order
    of the calls, each the result the call gives when awaited on its
    own. *)
Lemma promiseAll_Ok_inv {A} (calls : list (M (Task A))) w st results st' :
  promiseAll calls w st = (Ok results, st') ->
  Forall2 (fun call result => exists s s', awaited call w s = (Ok result, s')) calls results.
Proof.
  unfold promiseAll. rewrite bind_run. pose proof (startAll_spec calls w st) as Hstart.
  destruct (startAll calls w st) as [[pool| |] st1]; try discriminate.
  destruct (settled_spec pool w st1) as [_ Hpool].
  destruct (settled pool w st1) as [r st2]. cbn [fst] in Hpool.
  intros [= -> ->].
  revert results Hpool. induction Hstart as [|call t calls pool (s & Hs) _ IH];
    intros [|result results] Hmap; try discriminate; constructor.
  - injection Hmap as Ht _. exists s. rewrite Ht in Hs.
    destruct (awaited call w s) as [r s'] eqn:Hrun. cbn [fst] in Hs. subst r. eauto.
  - injection Hmap as _ Hmap. apply IH, Hmap.
Qed.

Lemma promiseAll_Throw_inv {A} (calls : list (M (Task A))) w st e st' :
  promiseAll calls w st = (Throw e, st') ->
  exists call s, call ∈ calls /\ fst (awaited call w s) = Throw e.
Proof.
  unfold promiseAll. rewrite bind_run. pose proof (startAll_spec calls w st) as Hstart.
  destruct (startAll calls w st) as [[pool|e'|] st1]; [|contradiction|discriminate].
  destruct (settled_spec pool w st1) as [_ Hpool].
  destruct (settled pool w st1) as [r st2]. cbn [fst] in Hpool.
  intros [= -> ->].
  apply list_elem_of_fmap in Hpool as (t & Ht & Hin).
  apply list_elem_of_lookup in Hin as [i Hi].
  destruct (Forall2_lookup_r _ _ _ _ _ Hstart Hi) as (call & Hcall & s & Hs).
  exists call, s. split; [eapply list_elem_of_lookup_2; exact Hcall|congruence].
Qed.

Lemma promiseAll_settles {A} (calls : list (M (Task A))) w :
  Forall (fun call => forall s, fst (awaited call w s) <> OutOfFuel) calls ->
  forall st, fst (promiseAll calls w st) <> OutOfFuel.
Proof.
  intros Hall st. unfold promiseAll. rewrite bind_run.
  pose proof (startAll_spec calls w st) as Hstart.
  destruct (startAll calls w st) as [[pool|e'|] st1]; [|contradiction|].
  - destruct (settled_spec pool w st1) as [_ Hpool].
    destruct (settled pool w st1) as [[results|e|] st2]; [discriminate|discriminate|contradiction].
  - destruct Hstart as (call & s & Hin & Hs).
    rewrite Forall_forall in Hall. exfalso. exact (Hall call Hin s Hs).
Qed.

Lemma promiseAll_total {A} (calls : list (M (Task A))) w :
  Forall (fun call => forall s, exists r s', awaited call w s = (Ok r, s')) calls ->
  forall st, exists results st', promiseAll calls w st = (Ok results, st').
Proof.
  intros Hall st.
  destruct (promiseAll calls w st) as [[results|e|] st'] eqn:Hrun.
  - eauto.
  - exfalso. destruct (promiseAll_Throw_inv _ _ _ _ _ Hrun) as (call & s & Hin & Hs).
    rewrite Forall_forall in Hall. destruct (Hall call Hin s) as (r & s' & Hok).
    rewrite Hok in Hs. discriminate Hs.
  - exfalso. apply (promiseAll_settles calls w) with (st := st).
    + eapply Forall_impl; [exact Hall|]. intros call Hcall s.
      destruct (Hcall s) as (r & s' & ->). discriminate.
    + rewrite Hrun. reflexivity.
Qed.

(** ** The detail fetches awaited on their own *)

Ltac run_steps :=
  repeat first
    [ rewrite run_attempt
    | rewrite run_bind
    | rewrite run_await
    | reflexivity
    | match goal with
      | |- (fun _ => _) = _ => let x := fresh "x" in extensionality x
      | |- run (match ?x with _ => _ end) = _ => destruct x
      | |- run (if ?b then _ else _) = _ => destruct b
      end
    | progress f_equal ].

Lemma awaited_call {A} (getClient : M Client) (steps : Client -> Task A) :
  awaited (client ← getClient; mret (steps client)) = (client ← getClient; run (steps client)).
Proof.
  extensionality w. extensionality st. unfold awaited. rewrite !bind_run.
  destruct (getClient w st) as [[client| |] st1]; reflexivity.
Qed.

Section TableDetail.
Import DynamoDbProvider.

(** [getTable] awaited on its own: its requests go out one after the
    other and each answer is there before the next statement runs. *)
Lemma getTable_unfold accountName tableName :
  getTable accountName tableName =
  (
  client ← getClient accountName;
  tryCatch
    (response ← send client (DescribeTableCommand tableName);
     match DynamoDB.Table response with
     | None => mret None
     | Some table =>
         ttl ← tryCatch
                 (ttlResponse ← send client (DescribeTimeToLiveCommand tableName);
                  let d := DynamoDB.TimeToLiveDescription_ ttlResponse in
                  mret (str_is (d ≫= DynamoDB.TimeToLiveStatus) "ENABLED",
                        d ≫= DynamoDB.ttl_AttributeName))
                 (fun _ => mret (false, None));
         pitr ← tryCatch
                  (pitrResponse ← send client (DescribeContinuousBackupsCommand tableName);
                   let d := DynamoDB.ContinuousBackupsDescription_ pitrResponse
                              ≫= DynamoDB.PointInTimeRecoveryDescription_ in
                   mret (str_is (d ≫= DynamoDB.PointInTimeRecoveryStatus) "ENABLED",
                         d ≫= DynamoDB.LatestRestorableDateTime))
                  (fun _ => mret (false, None));
         tags ← tryCatch
                  (tagsResponse ← send client (ListTagsOfResourceCommand (DynamoDB.TableArn table));
                   mret (tags_if_any (DynamoDB.Tags tagsResponse)))
                  (fun _ => mret None);
         mret (Some (mapTable table (fst ttl) (snd ttl) (fst pitr) (snd pitr) tags))
     end)
    (fun error =>
       if String.eqb (err_name error) "ResourceNotFoundException"
       then mret None
       else throw error)).
Proof.
  unfold getTable, getTable_call. rewrite awaited_call. f_equal.
  extensionality client. unfold getTable_steps. run_steps.
Qed.
End TableDetail.

Section BucketDetail.
Import S3Provider.

Lemma getBucket_unfold accountName bucketName :
  getBucket accountName bucketName =
  (
  client ← getClient accountName;
  tryCatch
    (region ← tryCatch
                (locationResponse ← send client (GetBucketLocationCommand bucketName);
                 mret (Some (or_else (S3.LocationConstraint locationResponse) "us-east-1")))
                (fun _ => mret None);
     versioning ← tryCatch
                    (versioningResponse ← send client (GetBucketVersioningCommand bucketName);
                     mret (str_is (S3.Status versioningResponse) "Enabled",
                           str_is (S3.MFADelete versioningResponse) "Enabled"))
                    (fun _ => mret (false, false));
     encryption ← tryCatch
                    (encryptionResponse ← send client (GetBucketEncryptionCommand bucketName);
                     let rules := (S3.ServerSideEncryptionConfiguration_ encryptionResponse
                                     ≫= S3.sse_Rules) ?? [] in
                     mret (match rules with
                           | rule :: _ =>
                               let encryption := mapEncryptionRule rule in
                               (true, Some (fst encryption), snd encryption)
                           | [] => (false, None, None)
                           end))
                    (fun _ => mret (false, None, None));
     lifecycleRules ← tryCatch
                        (lifecycleResponse ← send client (GetBucketLifecycleConfigurationCommand bucketName);
                         mret (map mapLifecycleRule (S3.Rules lifecycleResponse ?? [])))
                        (fun _ => mret []);
     publicAccessBlocked ← tryCatch
                             (publicAccessResponse ← send client (GetPublicAccessBlockCommand bucketName);
                              let config := S3.PublicAccessBlockConfiguration_ publicAccessResponse in
                              mret (is_true (config ≫= S3.BlockPublicAcls) &&
                                    is_true (config ≫= S3.BlockPublicPolicy) &&
                                    is_true (config ≫= S3.IgnorePublicAcls) &&
                                    is_true (config ≫= S3.RestrictPublicBuckets)))
                             (fun _ => mret false);
     policyIsPublic ← tryCatch
                        (policyStatusResponse ← send client (GetBucketPolicyStatusCommand bucketName);
                         mret ((S3.PolicyStatus_ policyStatusResponse ≫= S3.IsPublic) ?? false))
                        (fun _ => mret false);
     tags ← tryCatch
              (tagsResponse ← send client (GetBucketTaggingCommand bucketName);
               mret (tags_if_any (S3.TagSet tagsResponse)))
              (fun _ => mret None);
     mret (Some {| name := bucketName;
                   creationDate := None;
                   region := region;
                   versioningEnabled := fst versioning;
                   mfaDeleteEnabled := snd versioning;
                   encryptionEnabled := fst (fst encryption);
                   encryptionType := snd (fst encryption);
                   kmsKeyId := snd encryption;
                   lifecycleRules := lifecycleRules;
                   publicAccessBlocked := publicAccessBlocked;
                   policyIsPublic := policyIsPublic;
                   tags := tags |}))
    (fun error =>
       if String.eqb (err_name error) "NoSuchBucket"
       then mret None
       else throw error)).
Proof.
  unfold getBucket, getBucket_call. rewrite awaited_call. f_equal.
  extensionality client. unfold getBucket_steps, emptyHandler. run_steps.
Qed.
End BucketDetail.

(** ** Requests in flight *)

Lemma outstanding_length {A} (pool : list (Task A)) :
  (length (outstanding pool) <= length pool)%nat.
Proof.
  unfold outstanding. induction pool as [|t pool IH]; [reflexivity|].
  destruct t; simpl; unfold omap in IH; lia.
Qed.

Lemma startAll_length {A} (calls : list (M (Task A))) w st pool st1 :
  startAll calls w st = (Ok pool, st1) -> length pool = length calls.
Proof.
  intros Hstart. pose proof (startAll_spec calls w st) as Hspec.
  rewrite Hstart in Hspec. symmetry. eapply Forall2_length, Hspec.
Qed.

Lemma snapshots_length {A} w : forall n (pool : list (Task A)) st snapshot,
  snapshot ∈ snapshots n w pool st -> length snapshot = length pool.
Proof.
  induction n as [|n IH]; intros pool st snapshot; cbn [snapshots].
  - intros Hin. apply list_elem_of_singleton in Hin. subst. reflexivity.
  - pose proof (answer_spec w pool
                  (arrival w (requests st) (outstanding pool) `mod` length (outstanding pool))%nat)
      as (Hlen & _).
    destruct (answer w _ pool) as [pool' resumed]. cbn [fst] in Hlen.
    intros Hin. apply elem_of_cons in Hin as [->|Hin]; [reflexivity|].
    rewrite <- Hlen. eapply IH, Hin.
Qed.

Lemma snapshots_last {A} w : forall n (pool : list (Task A)) rejection st,
  last (snapshots n w pool st) = Some (settleAll n w pool rejection st).1.1.
Proof.
  induction n as [|n IH]; intros pool rejection st; [reflexivity|].
  cbn [snapshots settleAll].
  destruct (answer w _ pool) as [pool' resumed].
  specialize (IH pool' (noteRejection rejection resumed) (noteRequest resumed st)).
  rewrite <- IH. destruct n; cbn [snapshots]; [reflexivity|].
  destruct (answer w _ pool'). reflexivity.
Qed.

(** While the answers to a [Promise.all] arrive, in whatever order, no
    more requests are in flight than calls were made; when the last
    answer is in, none is, and the values it resolves to are those of
    the tasks then. *)
Lemma poolsOf_in_flight {A} (calls : list (M (Task A))) w st pool :
  pool ∈ poolsOf calls w st -> (length (outstanding pool) <= length calls)%nat.
Proof.
  unfold poolsOf. destruct (startAll calls w st) as [[pool0| |] st1] eqn:Hstart;
    [|intros Hin; inversion Hin|intros Hin; inversion Hin].
  intros Hin. apply snapshots_length in Hin.
  rewrite <- (startAll_length _ _ _ _ _ Hstart), <- Hin. apply outstanding_length.
Qed.

Lemma poolsOf_last {A} (calls : list (M (Task A))) w st r st' :
  promiseAll calls w st = (r, st') ->
  r <> OutOfFuel ->
  exists pool,
    last (poolsOf calls w st) = Some pool /\
    outstanding pool = [] /\
    forall results, r = Ok results -> values pool = Some results.
Proof.
  unfold promiseAll, poolsOf. rewrite bind_run.
  pose proof (startAll_spec calls w st) as Hspec.
  destruct (startAll calls w st) as [[pool| |] st1]; [|contradiction|intros [= <- _] H; congruence].
  clear Hspec. unfold settled.
  rewrite (snapshots_last w _ pool (firstRejection pool)).
  destruct (firstRejection_spec w pool) as [Hnone Hsome].
  destruct (settleAll_spec w _ pool (firstRejection pool)
              (add_requests (outstanding pool) st1) eq_refl Hnone Hsome)
    as (H1 & H2 & H3 & H4 & H5).
  destruct (settleAll _ w pool _ _) as [[pool' rejection] st2]. cbn [fst snd] in *.
  intros Hrun _. exists pool'. split; [reflexivity|]. split; [exact H1|].
  intros results ->. destruct rejection as [e|]; [discriminate Hrun|].
  destruct (values pool') as [results'|]; [|discriminate Hrun].
  injection Hrun as -> _. reflexivity.
Qed.

Section BatchLoop.
Context {A : Type}.
Variable detail : string -> M (Task (option A)).
Variable loop : list string -> nat -> list A -> M (list A).
Hypothesis loop_unfold : forall names i acc w st,
  loop names i acc w st =
  if lt_dec i (length names)
  then (results ← promiseAll (map detail (slice (Z.of_nat i) (Z.of_nat (i + batchSize)) names));
        loop names (i + batchSize)%nat (acc ++ defined results)) w st
  else (Ok acc, st).

(** The index loop goes through the groups of five one after the other. *)
Lemma loop_batches names w : forall k i acc st,
  (length names - i <= k)%nat ->
  loop names i acc w st
  = processBatches detail (chunks batchSize (drop i names)) acc w st.
Proof.
  induction k as [|k IH]; intros i acc st Hk; rewrite loop_unfold;
    destruct (lt_dec i (length names)) as [Hi|Hi]; try lia.
  - rewrite drop_ge by lia. reflexivity.
  - rewrite chunks_unfold; [|unfold batchSize; lia|].
    2:{ intros Hnil. apply (f_equal length) in Hnil.
        rewrite length_drop in Hnil. simpl in Hnil. lia. }
    cbn [processBatches]. rewrite slice_batch by exact Hi.
    rewrite !bind_run.
    destruct (promiseAll _ w st) as [[results| |] st1]; try reflexivity.
    rewrite IH by (unfold batchSize; lia).
    rewrite drop_drop. reflexivity.
  - rewrite drop_ge by lia. reflexivity.
Qed.

(** When all groups succeed, the outcome is the defined results in the
    order of the names. *)
Lemma processBatches_Ok_inv w : forall batches acc st out st',
  processBatches detail batches acc w st = (Ok out, st') ->
  exists results,
    Forall2 (fun name result => exists s s', awaited (detail name) w s = (Ok result, s'))
            (concat batches) results /\
    out = acc ++ defined results.
Proof.
  induction batches as [|batch rest IH]; intros acc st out st'.
  - cbn. intros [= <- <-]. exists []. split; [constructor|].
    unfold defined. cbn. rewrite app_nil_r. reflexivity.
  - cbn [processBatches]. rewrite bind_run.
    destruct (promiseAll _ w st) as [[results| |] st1] eqn:Hall; try discriminate.
    intros Hrest. destruct (IH _ _ _ _ Hrest) as (results' & Hall' & ->).
    exists (results ++ results'). split.
    + cbn [concat]. apply Forall2_app; [|exact Hall'].
      apply promiseAll_Ok_inv in Hall.
      apply Forall2_fmap_l in Hall. exact Hall.
    + rewrite defined_app, app_assoc. reflexivity.
Qed.

(** When every detail fetch succeeds, so does the whole. *)
Lemma processBatches_total w : forall batches,
  Forall (fun name => forall s, exists r s', awaited (detail name) w s = (Ok r, s'))
         (concat batches) ->
  forall acc st, exists out st', processBatches detail batches acc w st = (Ok out, st').
Proof.
  induction batches as [|batch rest IH]; intros Hall acc st.
  - exists acc, st. reflexivity.
  - cbn [concat] in Hall. apply Forall_app in Hall as [Hbatch Hrest].
    cbn [processBatches]. rewrite bind_run.
    destruct (promiseAll_total (map detail batch) w) with (st := st)
      as (results & st1 & ->).
    { apply Forall_fmap. exact Hbatch. }
    apply IH, Hrest.
Qed.
End BatchLoop.

Lemma dynamodb_detailsLoop_unfold accountName names i acc w st :
  DynamoDbProvider.tableDetailsLoop accountName names i acc w st =
  if lt_dec i (length names)
  then (results ← promiseAll (map (DynamoDbProvider.getTable_call accountName)
                                  (slice (Z.of_nat i) (Z.of_nat (i + batchSize)) names));
        DynamoDbProvider.tableDetailsLoop accountName names (i + batchSize)%nat
                                     (acc ++ defined results)) w st
  else (Ok acc, st).
Proof.
  rewrite DynamoDbProvider.tableDetailsLoop_equation_1.
  destruct (lt_dec i (length names)); reflexivity.
Qed.

Lemma s3_detailsLoop_unfold accountName names i acc w st :
  S3Provider.bucketDetailsLoop accountName names i acc w st =
  if lt_dec i (length names)
  then (results ← promiseAll (map (S3Provider.getBucket_call accountName)
                                  (slice (Z.of_nat i) (Z.of_nat (i + batchSize)) names));
        S3Provider.bucketDetailsLoop accountName names (i + batchSize)%nat
                               (acc ++ defined results)) w st
  else (Ok acc, st).
Proof.
  rewrite S3Provider.bucketDetailsLoop_equation_1.
  destruct (lt_dec i (length names)); reflexivity.
Qed.

(** ** Detail fetches *)

(** A sub-fetch whose catch block returns normally never fails: it
    yields what the response gives, or what the handler leaves. *)
Lemma tryCatch_send {R B} client (cmd : Command R) (f : R -> B)
    (handler : JsError -> M B) (h : JsError -> B) w st :
  (forall e, handler e = mret (h e)) ->
  tryCatch (r ← send client cmd; mret (f r)) handler w st
  = (Ok (match vendor w client R cmd with inr r => f r | inl e => h e end),
     add_requests [mkCall client cmd] st).
Proof.
  intros Hh. unfold tryCatch. rewrite bind_run, send_run.
  destruct (vendor w client R cmd) as [e|r]; [rewrite Hh|]; reflexivity.
Qed.

Lemma getTable_found w st accountName account tableName table :
  accounts w !! accountName = Some account ->
  let client := clientFor DynamoDBService account (clock w (ticks st)) in
  vendor w client _ (DescribeTableCommand tableName) = inr {| DynamoDB.Table := Some table |} ->
  fst (DynamoDbProvider.getTable accountName tableName w st)
  = Ok (Some (DynamoDbProvider.mapTable table
                (match vendor w client _ (DescribeTimeToLiveCommand tableName) with
                 | inr r => str_is (DynamoDB.TimeToLiveDescription_ r ≫= DynamoDB.TimeToLiveStatus)
                                   "ENABLED"
                 | inl _ => false
                 end)
                (match vendor w client _ (DescribeTimeToLiveCommand tableName) with
                 | inr r => DynamoDB.TimeToLiveDescription_ r ≫= DynamoDB.ttl_AttributeName
                 | inl _ => None
                 end)
                (match vendor w client _ (DescribeContinuousBackupsCommand tableName) with
                 | inr r => str_is ((DynamoDB.ContinuousBackupsDescription_ r
                                       ≫= DynamoDB.PointInTimeRecoveryDescription_)
                                      ≫= DynamoDB.PointInTimeRecoveryStatus) "ENABLED"
                 | inl _ => false
                 end)
                (match vendor w client _ (DescribeContinuousBackupsCommand tableName) with
                 | inr r => (DynamoDB.ContinuousBackupsDescription_ r
                               ≫= DynamoDB.PointInTimeRecoveryDescription_)
                              ≫= DynamoDB.LatestRestorableDateTime
                 | inl _ => None
                 end)
                (match vendor w client _ (ListTagsOfResourceCommand (DynamoDB.TableArn table)) with
                 | inr r => tags_if_any (DynamoDB.Tags r)
                 | inl _ => None
                 end))).
Proof.
  intros Ha client Hv. rewrite getTable_unfold.
  rewrite (bind_Ok _ _ _ _ _ _ (dynamodb_getClient_known _ _ _ _ Ha)).
  fold client. unfold tryCatch at 1. rewrite bind_run, send_run, Hv.
  cbn [DynamoDB.Table].
  rewrite bind_run.
  rewrite (tryCatch_send client (DescribeTimeToLiveCommand tableName) _ _
             (fun _ => (false, None))) by reflexivity.
  rewrite bind_run.
  rewrite (tryCatch_send client (DescribeContinuousBackupsCommand tableName) _ _
             (fun _ => (false, None))) by reflexivity.
  rewrite bind_run.
  rewrite (tryCatch_send client (ListTagsOfResourceCommand _) _ _
             (fun _ => None)) by reflexivity.
  cbn [fst mret M_ret].
  destruct (vendor w client _ (DescribeTimeToLiveCommand tableName));
    destruct (vendor w client _ (DescribeContinuousBackupsCommand tableName));
    reflexivity.
Qed.

Lemma getBucket_run w st accountName account bucketName :
  accounts w !! accountName = Some account ->
  let client := clientFor S3Service account (clock w (ticks st)) in
  let answer {R} (cmd : Command R) := vendor w client R cmd in
  fst (S3Provider.getBucket accountName bucketName w st)
  = Ok (Some
          {| S3Provider.name := bucketName;
             S3Provider.creationDate := None;
             S3Provider.region :=
               match answer (GetBucketLocationCommand bucketName) with
               | inr r => Some (or_else (S3.LocationConstraint r) "us-east-1")
               | inl _ => None
               end;
             S3Provider.versioningEnabled :=
               match answer (GetBucketVersioningCommand bucketName) with
               | inr r => str_is (S3.Status r) "Enabled"
               | inl _ => false
               end;
             S3Provider.mfaDeleteEnabled :=
               match answer (GetBucketVersioningCommand bucketName) with
               | inr r => str_is (S3.MFADelete r) "Enabled"
               | inl _ => false
               end;
             S3Provider.encryptionEnabled :=
               match answer (GetBucketEncryptionCommand bucketName) with
               | inr r =>
                   match (S3.ServerSideEncryptionConfiguration_ r ≫= S3.sse_Rules) ?? [] with
                   | _ :: _ => true
                   | [] => false
                   end
               | inl _ => false
               end;
             S3Provider.encryptionType :=
               match answer (GetBucketEncryptionCommand bucketName) with
               | inr r =>
                   match (S3.ServerSideEncryptionConfiguration_ r ≫= S3.sse_Rules) ?? [] with
                   | rule :: _ => Some (fst (S3Provider.mapEncryptionRule rule))
                   | [] => None
                   end
               | inl _ => None
               end;
             S3Provider.kmsKeyId :=
               match answer (GetBucketEncryptionCommand bucketName) with
               | inr r =>
                   match (S3.ServerSideEncryptionConfiguration_ r ≫= S3.sse_Rules) ?? [] with
                   | rule :: _ => snd (S3Provider.mapEncryptionRule rule)
                   | [] => None
                   end
               | inl _ => None
               end;
             S3Provider.lifecycleRules :=
               match answer (GetBucketLifecycleConfigurationCommand bucketName) with
               | inr r => map S3Provider.mapLifecycleRule (S3.Rules r ?? [])
               | inl _ => []
               end;
             S3Provider.publicAccessBlocked :=
               match answer (GetPublicAccessBlockCommand bucketName) with
               | inr r =>
                   let config := S3.PublicAccessBlockConfiguration_ r in
                   is_true (config ≫= S3.BlockPublicAcls) &&
                   is_true (config ≫= S3.BlockPublicPolicy) &&
                   is_true (config ≫= S3.IgnorePublicAcls) &&
                   is_true (config ≫= S3.RestrictPublicBuckets)
               | inl _ => false
               end;
             S3Provider.policyIsPublic :=
               match answer (GetBucketPolicyStatusCommand bucketName) with
               | inr r => (S3.PolicyStatus_ r ≫= S3.IsPublic) ?? false
               | inl _ => false
               end;
             S3Provider.tags :=
               match answer (GetBucketTaggingCommand bucketName) with
               | inr r => tags_if_any (S3.TagSet r)
               | inl _ => None
               end |}).
Proof.
  intros Ha client answer. subst answer. cbv beta. rewrite getBucket_unfold.
  rewrite (bind_Ok _ _ _ _ _ _ (s3_getClient_known _ _ _ _ Ha)).
  fold client. unfold tryCatch at 1. rewrite bind_run.
  rewrite (tryCatch_send client (GetBucketLocationCommand bucketName) _ _
             (fun _ => None)) by reflexivity.
  rewrite bind_run.
  rewrite (tryCatch_send client (GetBucketVersioningCommand bucketName) _ _
             (fun _ => (false, false))) by reflexivity.
  rewrite bind_run.
  rewrite (tryCatch_send client (GetBucketEncryptionCommand bucketName) _ _
             (fun _ => (false, None, None))) by reflexivity.
  rewrite bind_run.
  rewrite (tryCatch_send client (GetBucketLifecycleConfigurationCommand bucketName) _ _
             (fun _ => [])) by reflexivity.
  rewrite bind_run.
  rewrite (tryCatch_send client (GetPublicAccessBlockCommand bucketName) _ _
             (fun _ => false)) by reflexivity.
  rewrite bind_run.
  rewrite (tryCatch_send client (GetBucketPolicyStatusCommand bucketName) _ _
             (fun _ => false)) by reflexivity.
  rewrite bind_run.
  rewrite (tryCatch_send client (GetBucketTaggingCommand bucketName) _ _
             (fun _ => None)) by reflexivity.
  cbn [fst mret M_ret]. do 2 f_equal.
  destruct (vendor w client _ (GetBucketVersioningCommand bucketName));
    destruct (vendor w client _ (GetBucketEncryptionCommand bucketName)) as [e|r];
    try reflexivity.
  all: destruct ((S3.ServerSideEncryptionConfiguration_ r ≫= S3.sse_Rules) ?? []);
    reflexivity.
Qed.

(** ** Tags *)

Lemma obj_set_empty k v (o : gmap string string) :
  obj_set k v o = ∅ <-> o = ∅ /\ String.eqb k "__proto__" = true.
Proof.
  unfold obj_set. destruct (String.eqb k "__proto__"); split.
  - intros ->. split; reflexivity.
  - intros [-> _]. reflexivity.
  - intros H. exfalso. exact (insert_non_empty o k v H).
  - intros [_ H]. discriminate H.
Qed.

Lemma collect_tags_empty tags : forall o,
  collect_tags tags o = ∅ <-> o = ∅ /\ Forall (fun tag => usable tag = false) tags.
Proof.
  induction tags as [|tag tags IH]; intros o.
  - cbn. split; [intros ->; split; [reflexivity|constructor]|intros [-> _]; reflexivity].
  - unfold collect_tags in *. cbn [foldl]. rewrite IH.
    destruct (truthy (Key tag) && truthy (Value tag)) eqn:Hkv.
    + rewrite obj_set_empty. split.
      * intros [[-> Hproto] Hrest]. split; [reflexivity|].
        constructor; [unfold usable; rewrite Hkv, Hproto; reflexivity|exact Hrest].
      * intros [-> Hall]. inversion Hall as [|? ? Hhead Hrest]; subst.
        unfold usable in Hhead. rewrite Hkv in Hhead. cbn in Hhead.
        apply negb_false_iff in Hhead. auto.
    + split.
      * intros [-> Hrest]. split; [reflexivity|].
        constructor; [unfold usable; rewrite Hkv; reflexivity|exact Hrest].
      * intros [-> Hall]. inversion Hall; subst. auto.
Qed.

Lemma tags_or_undefined_spec tags :
  (tags_or_undefined tags = None <-> Forall (fun tag => usable tag = false) (tags ?? [])) /\
  (forall o, tags_or_undefined tags = Some o -> o <> ∅ /\ o = collect_tags (tags ?? []) ∅).
Proof.
  unfold tags_or_undefined, has_keys. cbv zeta.
  pose proof (collect_tags_empty (tags ?? []) ∅) as Hempty.
  destruct (bool_decide (collect_tags (tags ?? []) ∅ = ∅)) eqn:Hd; cbn [negb].
  - apply bool_decide_eq_true_1 in Hd. split.
    + split; [intros _; apply Hempty; exact Hd|reflexivity].
    + intros o H. discriminate H.
  - apply bool_decide_eq_false_1 in Hd. split.
    + split; [intros H; discriminate H|].
      intros Hall. exfalso. apply Hd, Hempty. split; [reflexivity|exact Hall].
    + intros o [= <-]. split; [exact Hd|reflexivity].
Qed.

(** ** Secret parameters *)

Lemma mapParameter_redact p :
  SsmProvider.mapParameter (redact p) false = SsmProvider.mapParameter p false.
Proof.
  unfold redact.
  destruct (str_is (Ssm.Type_ p) "SecureString") eqn:Hs; [|reflexivity].
  unfold SsmProvider.mapParameter. cbn. rewrite Hs. reflexivity.
Qed.

Lemma mapParameter_same_redacted p1 p2 :
  redact p1 = redact p2 ->
  SsmProvider.mapParameter p1 false = SsmProvider.mapParameter p2 false.
Proof.
  intros H. rewrite <- (mapParameter_redact p1), <- (mapParameter_redact p2), H. reflexivity.
Qed.

Lemma doWhile_ext {S} (round : S -> M (Completion S)) cond w1 w2 :
  (forall s st, round s w1 st = round s w2 st) ->
  forall fuel s st, doWhile fuel round cond s w1 st = doWhile fuel round cond s w2 st.
Proof.
  intros Hround. induction fuel as [|fuel IH]; intros s st; [reflexivity|].
  cbn [doWhile]. rewrite !bind_run, Hround.
  destruct (round s w2 st) as [[[s'|s']| |] st1]; try reflexivity.
  destruct (cond s'); [apply IH|reflexivity].
Qed.

Lemma ssm_getClient_same w1 w2 st accountName :
  accounts w1 = accounts w2 ->
  (forall n, clock w1 n = clock w2 n) ->
  SsmProvider.getClient accountName w1 st = SsmProvider.getClient accountName w2 st.
Proof.
  intros Haccounts Hclock.
  destruct (accounts w1 !! accountName) as [account|] eqn:Ha.
  - rewrite (ssm_getClient_known w1 st accountName account Ha).
    rewrite Haccounts in Ha.
    rewrite (ssm_getClient_known w2 st accountName account Ha), Hclock. reflexivity.
  - rewrite (ssm_getClient_unknown w1 st accountName Ha).
    rewrite Haccounts in Ha.
    rewrite (ssm_getClient_unknown w2 st accountName Ha). reflexivity.
Qed.

Lemma getParameter_same w1 w2 st accountName name :
  sameButSecrets w1 w2 ->
  SsmProvider.getParameter accountName name false w1 st
  = SsmProvider.getParameter accountName name false w2 st.
Proof.
  intros (Haccounts & Hclock & Hvendor). unfold SsmProvider.getParameter.
  rewrite !bind_run, (ssm_getClient_same w1 w2 st accountName Haccounts Hclock).
  destruct (SsmProvider.getClient accountName w2 st) as [[client| |] st1]; try reflexivity.
  unfold tryCatch. rewrite !bind_run, !send_run.
  specialize (Hvendor client _ (GetParameterCommand
                                  {| Ssm.r_Name := name; Ssm.WithDecryption := false |})).
  destruct (vendor w1 client _ _) as [e1|[p1]], (vendor w2 client _ _) as [e2|[p2]];
    cbn in Hvendor; try discriminate Hvendor.
  - injection Hvendor as ->. destruct (String.eqb _ _); reflexivity.
  - injection Hvendor as Hp. cbn [Ssm.Parameter_].
    destruct p1 as [p1|], p2 as [p2|]; try discriminate Hp; [|reflexivity].
    injection Hp as Hp. cbn [mret M_ret].
    rewrite (mapParameter_same_redacted p1 p2 Hp). reflexivity.
Qed.

Lemma getParametersByPath_same w1 w2 st fuel accountName path recursive :
  sameButSecrets w1 w2 ->
  SsmProvider.getParametersByPath fuel accountName path recursive false w1 st
  = SsmProvider.getParametersByPath fuel accountName path recursive false w2 st.
Proof.
  intros (Haccounts & Hclock & Hvendor). unfold SsmProvider.getParametersByPath.
  rewrite !bind_run, (ssm_getClient_same w1 w2 st accountName Haccounts Hclock).
  destruct (SsmProvider.getClient accountName w2 st) as [[client| |] st1]; try reflexivity.
  rewrite !bind_run.
  rewrite (doWhile_ext _ _ w1 w2); [reflexivity|].
  intros [parameters nextToken] st2. unfold SsmProvider.getParametersByPath_round.
  rewrite !bind_run, !send_run.
  specialize (Hvendor client _ (GetParametersByPathCommand
                                  {| Ssm.Path := path; Ssm.Recursive := recursive;
                                     Ssm.p_WithDecryption := false;
                                     Ssm.NextToken := nextToken |})).
  destruct (vendor w1 client _ _) as [e1|[ps1 n1]], (vendor w2 client _ _) as [e2|[ps2 n2]];
    cbn in Hvendor; try discriminate Hvendor.
  - injection Hvendor as ->. reflexivity.
  - injection Hvendor as Hps ->. cbn [Ssm.Parameters_ Ssm.r_NextToken mret M_ret].
    assert (Hmap : map (fun param => SsmProvider.mapParameter param false) (ps1 ?? [])
                   = map (fun param => SsmProvider.mapParameter param false) (ps2 ?? [])).
    { destruct ps1 as [ps1|], ps2 as [ps2|]; try discriminate Hps; [|reflexivity].
      injection Hps as Hps. cbn [nullish].
      rewrite <- (map_ext _ _ mapParameter_redact ps1),
              <- (map_ext _ _ mapParameter_redact ps2).
      rewrite <- !(map_map redact (fun p => SsmProvider.mapParameter p false)).
      rewrite Hps. reflexivity. }
    rewrite Hmap. reflexivity.
Qed.

(** [getBucket] finds a bucket for every name. *)
Lemma getBucket_named w st accountName account bucketName :
  accounts w !! accountName = Some account ->
  exists b st',
    S3Provider.getBucket accountName bucketName w st = (Ok (Some b), st') /\
    S3Provider.name b = bucketName.
Proof.
  intros Ha. pose proof (getBucket_run w st accountName account bucketName Ha) as Hrun.
  cbv zeta in Hrun.
  destruct (S3Provider.getBucket accountName bucketName w st) as [r st'].
  cbn [fst] in Hrun. subst r. eexists _, st'. split; reflexivity.
Qed.

Lemma defined_names names results :
  Forall2 (fun name result => exists b, result = Some b /\ S3Provider.name b = name)
          names results ->
  map S3Provider.name (defined results) = names.
Proof.
  induction 1 as [|name result names results (b & -> & Hname) Hrest IH]; [reflexivity|].
  unfold defined in *. cbn. rewrite Hname, IH. reflexivity.
Qed.

(** Two scripted worlds that differ in the database password only. *)
Lemma fixture_sameButSecrets a b :
  sameButSecrets (Fixture.world (Fixture.aws (Fixture.plan a)))
                 (Fixture.world (Fixture.aws (Fixture.plan b))).
Proof.
  split; [reflexivity|]. split; [reflexivity|].
  intros client R cmd. destruct cmd; try reflexivity.
  - cbn [vendor Fixture.world Fixture.aws]. destruct input as [name decryption].
    cbn [Ssm.r_Name Fixture.plan Fixture.parameterPages concat app List.find
         Fixture.parameter Ssm.Name str_is].
    repeat match goal with
           | |- context [String.eqb ?x name] => destruct (String.eqb x name)
           end; reflexivity.
  - cbn [vendor Fixture.world Fixture.aws]. destruct input as [path recursive decryption cursor].
    unfold Fixture.paged, Fixture.pageFor.
    cbn [Ssm.NextToken Fixture.plan Fixture.parameterPages Fixture.pageAfter].
    repeat match goal with
           | |- context [String.eqb ?x ?y] => destruct (String.eqb x y)
           end; reflexivity.
Qed.

(** ** A detail fetch that fails *)

Lemma getTable_absent w st accountName account tableName :
  accounts w !! accountName = Some account ->
  let client := clientFor DynamoDBService account (clock w (ticks st)) in
  let sent := add_requests [mkCall client (DescribeTableCommand tableName)] (tick 1 st) in
  (forall e, vendor w client _ (DescribeTableCommand tableName) = inl e ->
             DynamoDbProvider.getTable accountName tableName w st
             = (if named "ResourceNotFoundException" e then Ok None else Throw e, sent)) /\
  (vendor w client _ (DescribeTableCommand tableName) = inr {| DynamoDB.Table := None |} ->
   DynamoDbProvider.getTable accountName tableName w st = (Ok None, sent)).
Proof.
  intros Ha client sent. subst sent.
  split; [intros e Hv|intros Hv]; rewrite getTable_unfold;
    rewrite (bind_Ok _ _ _ _ _ _ (dynamodb_getClient_known _ _ _ _ Ha));
    fold client; unfold tryCatch at 1; rewrite bind_run, send_run, Hv.
  - unfold named. destruct (String.eqb _ _); reflexivity.
  - reflexivity.
Qed.

Section BatchFailure.
Context {A : Type}.
Variables (detail : string -> M (Task (option A))) (w : World).
Hypothesis settles : forall name s, fst (awaited (detail name) w s) <> OutOfFuel.

(** The groups either all succeed or the whole fails with the error of
    one of the detail fetches. *)
Lemma processBatches_outcome : forall batches acc st,
  (exists out, fst (processBatches detail batches acc w st) = Ok out) \/
  exists e name s,
    fst (processBatches detail batches acc w st) = Throw e /\
    name ∈ concat batches /\ fst (awaited (detail name) w s) = Throw e.
Proof.
  induction batches as [|batch rest IH]; intros acc st; [left; eexists; reflexivity|].
  cbn [processBatches]. rewrite bind_run.
  destruct (promiseAll (map detail batch) w st) as [[results|e|] st1] eqn:Hall.
  - destruct (IH (acc ++ defined results) st1) as [Hok|(e & name & s & Hrun & Hin & Hfail)];
      [left; exact Hok|].
    right. exists e, name, s. split; [exact Hrun|]. split; [|exact Hfail].
    cbn [concat]. apply elem_of_app. right. exact Hin.
  - right. destruct (promiseAll_Throw_inv _ _ _ _ _ Hall) as (task & s & Hin & Hfail).
    apply list_elem_of_fmap in Hin as (name & -> & Hin).
    exists e, name, s. split; [reflexivity|]. split; [|exact Hfail].
    cbn [concat]. apply elem_of_app. left. exact Hin.
  - exfalso. apply (promiseAll_settles (map detail batch) w) with (st := st).
    + apply Forall_fmap, Forall_forall. intros name _ s. apply settles.
    + rewrite Hall. reflexivity.
Qed.
End BatchFailure.

Lemma usable_inv tag :
  usable tag = true ->
  exists k v, Key tag = Some k /\ Value tag = Some v /\ k <> "" /\ v <> "" /\ k <> "__proto__".
Proof.
  unfold usable, truthy. destruct tag as [[k|] [v|]]; cbn [Key Value nullish];
    try (rewrite ?andb_false_r; discriminate).
  intros H. apply andb_prop in H as [H Hproto]. apply andb_prop in H as [Hk Hv].
  exists k, v. split; [reflexivity|]. split; [reflexivity|].
  apply negb_true_iff in Hk, Hv, Hproto.
  apply String.eqb_neq in Hk, Hv, Hproto. auto.
Qed.

Lemma collect_tags_cons tag tags o :
  collect_tags (tag :: tags) o
  = collect_tags tags (if usable tag then <[(Key tag ?? "") := (Value tag ?? "")]> o else o).
Proof.
  unfold collect_tags at 1. cbn [foldl]. fold (collect_tags tags). f_equal.
  unfold usable, obj_set.
  destruct (truthy (Key tag) && truthy (Value tag)); [|reflexivity].
  destruct (String.eqb (Key tag ?? "") "__proto__"); reflexivity.
Qed.

(** Every entry of the tag map comes from a usable tag of the list. *)
Lemma collect_tags_lookup tags : forall o k v,
  collect_tags tags o !! k = Some v ->
  o !! k = Some v \/
  exists tag, tag ∈ tags /\ usable tag = true /\ Key tag = Some k /\ Value tag = Some v.
Proof.
  induction tags as [|tag tags IH]; intros o k v; [left; assumption|].
  rewrite collect_tags_cons. intros H.
  destruct (IH _ _ _ H) as [Hstep|(tag' & Hin & Hu & Hk & Hv)].
  - destruct (usable tag) eqn:Hu; [|left; exact Hstep].
    destruct (usable_inv tag Hu) as (k' & v' & Hk & Hv & _).
    rewrite Hk, Hv in Hstep. cbn [nullish] in Hstep.
    destruct (decide (k' = k)) as [->|Hne].
    + rewrite lookup_insert_eq in Hstep. injection Hstep as <-.
      right. exists tag. split; [left|]. auto.
    + rewrite lookup_insert_ne in Hstep by exact Hne. left. exact Hstep.
  - right. exists tag'. split; [right; exact Hin|]. auto.
Qed.

Lemma collect_tags_grows tags : forall o k,
  is_Some (o !! k) -> is_Some (collect_tags tags o !! k).
Proof.
  induction tags as [|tag tags IH]; intros o k Hk; [exact Hk|].
  rewrite collect_tags_cons. apply IH.
  destruct (usable tag); [|exact Hk].
  destruct (decide (Key tag ?? "" = k)) as [<-|Hne].
  - rewrite lookup_insert_eq. eauto.
  - rewrite lookup_insert_ne by exact Hne. exact Hk.
Qed.

(** Every usable tag of the list has its key in the tag map. *)
Lemma collect_tags_keys tags : forall o k,
  (exists tag, tag ∈ tags /\ usable tag = true /\ Key tag = Some k) ->
  is_Some (collect_tags tags o !! k).
Proof.
  induction tags as [|tag tags IH]; intros o k (tag' & Hin & Hu & Hk).
  - inversion Hin.
  - rewrite collect_tags_cons. apply elem_of_cons in Hin as [->|Hin].
    + apply collect_tags_grows. rewrite Hu, Hk. cbn [nullish].
      rewrite lookup_insert_eq. eauto.
    + apply IH. exists tag'. auto.
Qed.

(** What the mappers that build the tag map make of the vendor's tags. *)
Lemma tags_or_undefined_normalized vendorTags :
  normalized vendorTags (tags_or_undefined vendorTags).
Proof.
  destruct (tags_or_undefined_spec vendorTags) as [Hnone Hsome].
  split; [exact Hnone|].
  intros o Ho. destruct (Hsome o Ho) as [Hne ->].
  split; [exact Hne|]. split.
  - intros k. split.
    + intros [v Hv]. destruct (collect_tags_lookup _ _ _ _ Hv) as [Hempty|(tag & Hin & Hu & Hk & _)].
      * rewrite lookup_empty in Hempty. discriminate Hempty.
      * exists tag. auto.
    + apply collect_tags_keys.
  - intros k v Hv. destruct (collect_tags_lookup _ _ _ _ Hv) as [Hempty|Htag].
    + rewrite lookup_empty in Hempty. discriminate Hempty.
    + exact Htag.
Qed.

(** ** The clients of the other providers *)

Section GetClientMore.
Variables (w : World) (st : St) (accountName : string).

Lemma ecs_getClient_unknown :
  accounts w !! accountName = None ->
  EcsProvider.getClient accountName w st = (Throw (UnknownAccount accountName), st).
Proof. getClient_unknown H. Qed.

Lemma docdb_getClient_unknown :
  accounts w !! accountName = None ->
  DocumentDbProvider.getClient accountName w st = (Throw (UnknownAccount accountName), st).
Proof. getClient_unknown H. Qed.

Lemma rds_getClient_unknown :
  accounts w !! accountName = None ->
  RdsProvider.getClient accountName w st = (Throw (UnknownAccount accountName), st).
Proof. getClient_unknown H. Qed.

Lemma apigateway_getV1Client_unknown :
  accounts w !! accountName = None ->
  ApiGatewayProvider.getV1Client accountName w st = (Throw (UnknownAccount accountName), st).
Proof. getClient_unknown H. Qed.

Lemma apigateway_getV2Client_unknown :
  accounts w !! accountName = None ->
  ApiGatewayProvider.getV2Client accountName w st = (Throw (UnknownAccount accountName), st).
Proof. getClient_unknown H. Qed.

Variable account : AwsAccount.

Lemma ecs_getClient_known :
  accounts w !! accountName = Some account ->
  EcsProvider.getClient accountName w st
  = (Ok (clientFor ECS account (clock w (ticks st))), tick 1 st).
Proof. getClient_known H. Qed.

Lemma docdb_getClient_known :
  accounts w !! accountName = Some account ->
  DocumentDbProvider.getClient accountName w st
  = (Ok (clientFor DocDB account (clock w (ticks st))), tick 1 st).
Proof. getClient_known H. Qed.

Lemma rds_getClient_known :
  accounts w !! accountName = Some account ->
  RdsProvider.getClient accountName w st
  = (Ok (clientFor RDS account (clock w (ticks st))), tick 1 st).
Proof. getClient_known H. Qed.

Lemma apigateway_getV1Client_known :
  accounts w !! accountName = Some account ->
  ApiGatewayProvider.getV1Client accountName w st
  = (Ok (clientFor APIGateway account (clock w (ticks st))), tick 1 st).
Proof. getClient_known H. Qed.

Lemma apigateway_getV2Client_known :
  accounts w !! accountName = Some account ->
  ApiGatewayProvider.getV2Client accountName w st
  = (Ok (clientFor APIGatewayV2 account (clock w (ticks st))), tick 1 st).
Proof. getClient_known H. Qed.

End GetClientMore.

(** ** Unknown accounts *)

Ltac head_of t := lazymatch t with ?f _ => head_of f | _ => t end.

Section UnknownAccount.
Variables (w : World) (st : St) (accountName : string).
Hypothesis unknown : accounts w !! accountName = None.

Lemma getCredentials_unknown :
  AwsCredentialsProvider.getCredentials accountName w st
  = (Throw (UnknownAccount accountName), st).
Proof.
  unfold AwsCredentialsProvider.getCredentials.
  rewrite bind_run. unfold accounts_get. rewrite unknown. reflexivity.
Qed.

(** An operation fails where its [getClient] fails. *)
Ltac reject_unknown :=
  first [ rewrite getTable_unfold | rewrite getBucket_unfold | idtac ];
  first [ first [ apply dynamodb_getClient_unknown
                | apply s3_getClient_unknown
                | apply lambda_getClient_unknown
                | apply ecr_getClient_unknown
                | apply ssm_getClient_unknown
                | apply secrets_getClient_unknown
                | apply efs_getClient_unknown
                | apply ecs_getClient_unknown
                | apply docdb_getClient_unknown
                | apply rds_getClient_unknown
                | apply apigateway_getV1Client_unknown
                | apply apigateway_getV2Client_unknown ];
          exact unknown
        | lazymatch goal with |- ?m _ _ = _ => let h := head_of m in unfold h end;
          apply bind_Throw; reject_unknown ].

Lemma dynamodb_listTables_unknown fuel :
  DynamoDbProvider.listTables fuel accountName w st
  = (Throw (UnknownAccount accountName), st).
Proof. reject_unknown. Qed.

Lemma dynamodb_getTable_unknown tableName :
  DynamoDbProvider.getTable accountName tableName w st
  = (Throw (UnknownAccount accountName), st).
Proof. reject_unknown. Qed.

Lemma dynamodb_listTablesWithDetails_unknown fuel :
  DynamoDbProvider.listTablesWithDetails fuel accountName w st
  = (Throw (UnknownAccount accountName), st).
Proof. reject_unknown. Qed.

Lemma s3_listBuckets_unknown :
  S3Buckets.listBuckets accountName w st
  = (Throw (UnknownAccount accountName), st).
Proof. reject_unknown. Qed.

Lemma s3_getBucket_unknown bucketName :
  S3Provider.getBucket accountName bucketName w st
  = (Throw (UnknownAccount accountName), st).
Proof. reject_unknown. Qed.

Lemma s3_listBucketsWithDetails_unknown :
  S3Provider.listBucketsWithDetails accountName w st
  = (Throw (UnknownAccount accountName), st).
Proof. reject_unknown. Qed.

Lemma lambda_listFunctions_unknown fuel :
  LambdaProvider.listFunctions fuel accountName w st
  = (Throw (UnknownAccount accountName), st).
Proof. reject_unknown. Qed.

Lemma lambda_getFunction_unknown functionName :
  LambdaProvider.getFunction accountName functionName w st
  = (Throw (UnknownAccount accountName), st).
Proof. reject_unknown. Qed.

Lemma lambda_listVersions_unknown fuel functionName :
  LambdaProvider.listVersions fuel accountName functionName w st
  = (Throw (UnknownAccount accountName), st).
Proof. reject_unknown. Qed.

Lemma lambda_getFunctionConfiguration_unknown functionName :
  LambdaProvider.getFunctionConfiguration accountName functionName w st
  = (Throw (UnknownAccount accountName), st).
Proof. reject_unknown. Qed.

Lemma ecr_listRepositories_unknown fuel :
  EcrProvider.listRepositories fuel accountName w st
  = (Throw (UnknownAccount accountName), st).
Proof. reject_unknown. Qed.

Lemma ecr_getRepository_unknown repositoryName :
  EcrProvider.getRepository accountName repositoryName w st
  = (Throw (UnknownAccount accountName), st).
Proof. reject_unknown. Qed.

Lemma ecr_listImages_unknown fuel repositoryName maxResults :
  EcrProvider.listImages fuel accountName repositoryName maxResults w st
  = (Throw (UnknownAccount accountName), st).
Proof. reject_unknown. Qed.

Lemma ecr_getImageScanFindings_unknown repositoryName imageDigest imageTag :
  EcrProvider.getImageScanFindings accountName repositoryName imageDigest imageTag w st
  = (Throw (UnknownAccount accountName), st).
Proof. reject_unknown. Qed.

Lemma ecr_getLifecyclePolicy_unknown repositoryName :
  EcrProvider.getLifecyclePolicy accountName repositoryName w st
  = (Throw (UnknownAccount accountName), st).
Proof. reject_unknown. Qed.

Lemma ecr_getRepositoryPolicy_unknown repositoryName :
  EcrProvider.getRepositoryPolicy accountName repositoryName w st
  = (Throw (UnknownAccount accountName), st).
Proof. reject_unknown. Qed.

Lemma ssm_getParameter_unknown name withDecryption :
  SsmProvider.getParameter accountName name withDecryption w st
  = (Throw (UnknownAccount accountName), st).
Proof. reject_unknown. Qed.

Lemma ssm_getParametersByPath_unknown fuel path recursive withDecryption :
  SsmProvider.getParametersByPath fuel accountName path recursive withDecryption w st
  = (Throw (UnknownAccount accountName), st).
Proof. reject_unknown. Qed.

Lemma secrets_listSecrets_unknown fuel :
  SecretsManagerProvider.listSecrets fuel accountName w st
  = (Throw (UnknownAccount accountName), st).
Proof. reject_unknown. Qed.

Lemma secrets_getSecret_unknown secretName :
  SecretsManagerProvider.getSecret accountName secretName w st
  = (Throw (UnknownAccount accountName), st).
Proof. reject_unknown. Qed.

Lemma secrets_getSecretStructure_unknown secretName :
  SecretsManagerProvider.getSecretStructure accountName secretName w st
  = (Throw (UnknownAccount accountName), st).
Proof. reject_unknown. Qed.

Lemma efs_listFileSystems_unknown fuel :
  EfsFileSystems.listFileSystems fuel accountName w st
  = (Throw (UnknownAccount accountName), st).
Proof. reject_unknown. Qed.

Lemma efs_getFileSystem_unknown fileSystemId :
  EfsProvider.getFileSystem accountName fileSystemId w st
  = (Throw (UnknownAccount accountName), st).
Proof. reject_unknown. Qed.

Lemma efs_listMountTargets_unknown fuel fileSystemId :
  EfsProvider.listMountTargets fuel accountName fileSystemId w st
  = (Throw (UnknownAccount accountName), st).
Proof. reject_unknown. Qed.

Lemma efs_getLifecycleConfiguration_unknown fileSystemId :
  EfsProvider.getLifecycleConfiguration accountName fileSystemId w st
  = (Throw (UnknownAccount accountName), st).
Proof. reject_unknown. Qed.

Lemma efs_listAccessPoints_unknown fuel fileSystemId :
  EfsProvider.listAccessPoints fuel accountName fileSystemId w st
  = (Throw (UnknownAccount accountName), st).
Proof. reject_unknown. Qed.

Lemma ecs_listClusters_unknown fuel :
  EcsProvider.listClusters fuel accountName w st
  = (Throw (UnknownAccount accountName), st).
Proof. reject_unknown. Qed.

Lemma ecs_listServices_unknown fuel clusterName :
  EcsProvider.listServices fuel accountName clusterName w st
  = (Throw (UnknownAccount accountName), st).
Proof. reject_unknown. Qed.

Lemma ecs_getService_unknown clusterName serviceName :
  EcsProvider.getService accountName clusterName serviceName w st
  = (Throw (UnknownAccount accountName), st).
Proof. reject_unknown. Qed.

Lemma ecs_getTaskDefinition_unknown taskDefinitionArn :
  EcsProvider.getTaskDefinition accountName taskDefinitionArn w st
  = (Throw (UnknownAccount accountName), st).
Proof. reject_unknown. Qed.

Lemma docdb_listClusters_unknown fuel :
  DocumentDbProvider.listClusters fuel accountName w st
  = (Throw (UnknownAccount accountName), st).
Proof. reject_unknown. Qed.

Lemma docdb_getCluster_unknown dbClusterIdentifier :
  DocumentDbProvider.getCluster accountName dbClusterIdentifier w st
  = (Throw (UnknownAccount accountName), st).
Proof. reject_unknown. Qed.

Lemma docdb_listInstances_unknown fuel :
  DocumentDbProvider.listInstances fuel accountName w st
  = (Throw (UnknownAccount accountName), st).
Proof. reject_unknown. Qed.

Lemma docdb_getInstance_unknown dbInstanceIdentifier :
  DocumentDbProvider.getInstance accountName dbInstanceIdentifier w st
  = (Throw (UnknownAccount accountName), st).
Proof. reject_unknown. Qed.

Lemma docdb_listParameterGroups_unknown fuel :
  DocumentDbProvider.listParameterGroups fuel accountName w st
  = (Throw (UnknownAccount accountName), st).
Proof. reject_unknown. Qed.

Lemma docdb_listSnapshots_unknown fuel dbClusterIdentifier :
  DocumentDbProvider.listSnapshots fuel accountName dbClusterIdentifier w st
  = (Throw (UnknownAccount accountName), st).
Proof. reject_unknown. Qed.

Lemma rds_listInstances_unknown fuel :
  RdsProvider.listInstances fuel accountName w st
  = (Throw (UnknownAccount accountName), st).
Proof. reject_unknown. Qed.

Lemma rds_getInstance_unknown dbInstanceIdentifier :
  RdsProvider.getInstance accountName dbInstanceIdentifier w st
  = (Throw (UnknownAccount accountName), st).
Proof. reject_unknown. Qed.

Lemma rds_listClusters_unknown fuel :
  RdsProvider.listClusters fuel accountName w st
  = (Throw (UnknownAccount accountName), st).
Proof. reject_unknown. Qed.

Lemma rds_getCluster_unknown dbClusterIdentifier :
  RdsProvider.getCluster accountName dbClusterIdentifier w st
  = (Throw (UnknownAccount accountName), st).
Proof. reject_unknown. Qed.

Lemma rds_listParameterGroups_unknown fuel :
  RdsProvider.listParameterGroups fuel accountName w st
  = (Throw (UnknownAccount accountName), st).
Proof. reject_unknown. Qed.

Lemma rds_listClusterParameterGroups_unknown fuel :
  RdsProvider.listClusterParameterGroups fuel accountName w st
  = (Throw (UnknownAccount accountName), st).
Proof. reject_unknown. Qed.

Lemma rds_listSnapshots_unknown fuel dbInstanceIdentifier :
  RdsProvider.listSnapshots fuel accountName dbInstanceIdentifier w st
  = (Throw (UnknownAccount accountName), st).
Proof. reject_unknown. Qed.

Lemma rds_listClusterSnapshots_unknown fuel dbClusterIdentifier :
  RdsProvider.listClusterSnapshots fuel accountName dbClusterIdentifier w st
  = (Throw (UnknownAccount accountName), st).
Proof. reject_unknown. Qed.

Lemma apigateway_listRestApis_unknown fuel :
  ApiGatewayProvider.listRestApis fuel accountName w st
  = (Throw (UnknownAccount accountName), st).
Proof. reject_unknown. Qed.

Lemma apigateway_getRestApi_unknown restApiId :
  ApiGatewayProvider.getRestApi accountName restApiId w st
  = (Throw (UnknownAccount accountName), st).
Proof. reject_unknown. Qed.

Lemma apigateway_getRestApiStages_unknown restApiId :
  ApiGatewayProvider.getRestApiStages accountName restApiId w st
  = (Throw (UnknownAccount accountName), st).
Proof. reject_unknown. Qed.

Lemma apigateway_getRestApiDeployments_unknown fuel restApiId :
  ApiGatewayProvider.getRestApiDeployments fuel accountName restApiId w st
  = (Throw (UnknownAccount accountName), st).
Proof. reject_unknown. Qed.

Lemma apigateway_getRestApiResources_unknown fuel restApiId :
  ApiGatewayProvider.getRestApiResources fuel accountName restApiId w st
  = (Throw (UnknownAccount accountName), st).
Proof. reject_unknown. Qed.

Lemma apigateway_listHttpApis_unknown fuel :
  ApiGatewayProvider.listHttpApis fuel accountName w st
  = (Throw (UnknownAccount accountName), st).
Proof. reject_unknown. Qed.

Lemma apigateway_getHttpApi_unknown apiId :
  ApiGatewayProvider.getHttpApi accountName apiId w st
  = (Throw (UnknownAccount accountName), st).
Proof. reject_unknown. Qed.

Lemma apigateway_getHttpApiStages_unknown fuel apiId :
  ApiGatewayProvider.getHttpApiStages fuel accountName apiId w st
  = (Throw (UnknownAccount accountName), st).
Proof. reject_unknown. Qed.

Lemma apigateway_getHttpApiRoutes_unknown fuel apiId :
  ApiGatewayProvider.getHttpApiRoutes fuel accountName apiId w st
  = (Throw (UnknownAccount accountName), st).
Proof. reject_unknown. Qed.

(** A handler passes the rejection on. *)
Lemma handler_rethrows {A B} (op : M A) (k : A -> M B) :
  op w st = (Throw (UnknownAccount accountName), st) ->
  tryCatch (a ← op; k a) Router.rethrow w st = (Throw (UnknownAccount accountName), st).
Proof.
  intros Hop. unfold tryCatch.
  rewrite (bind_Throw _ _ _ _ _ _ Hop). reflexivity.
Qed.
End UnknownAccount.

Lemma rethrow_rejected {A} (m : M A) w st e st' :
  m w st = (Throw e, st') -> tryCatch m Router.rethrow w st = (Throw e, st').
Proof. intros Hm. unfold tryCatch. rewrite Hm. reflexivity. Qed.

Create HintDb unknown.

#[global] Hint Resolve
  dynamodb_listTables_unknown
  dynamodb_getTable_unknown
  dynamodb_listTablesWithDetails_unknown
  s3_listBuckets_unknown
  s3_getBucket_unknown
  s3_listBucketsWithDetails_unknown
  lambda_listFunctions_unknown
  lambda_getFunction_unknown
  lambda_listVersions_unknown
  lambda_getFunctionConfiguration_unknown
  ecr_listRepositories_unknown
  ecr_getRepository_unknown
  ecr_listImages_unknown
  ecr_getImageScanFindings_unknown
  ecr_getLifecyclePolicy_unknown
  ecr_getRepositoryPolicy_unknown
  ssm_getParameter_unknown
  ssm_getParametersByPath_unknown
  secrets_listSecrets_unknown
  secrets_getSecret_unknown
  secrets_getSecretStructure_unknown
  efs_listFileSystems_unknown
  efs_getFileSystem_unknown
  efs_listMountTargets_unknown
  efs_getLifecycleConfiguration_unknown
  efs_listAccessPoints_unknown
  ecs_listClusters_unknown
  ecs_listServices_unknown
  ecs_getService_unknown
  ecs_getTaskDefinition_unknown
  docdb_listClusters_unknown
  docdb_getCluster_unknown
  docdb_listInstances_unknown
  docdb_getInstance_unknown
  docdb_listParameterGroups_unknown
  docdb_listSnapshots_unknown
  rds_listInstances_unknown
  rds_getInstance_unknown
  rds_listClusters_unknown
  rds_getCluster_unknown
  rds_listParameterGroups_unknown
  rds_listClusterParameterGroups_unknown
  rds_listSnapshots_unknown
  rds_listClusterSnapshots_unknown
  apigateway_listRestApis_unknown
  apigateway_getRestApi_unknown
  apigateway_getRestApiStages_unknown
  apigateway_getRestApiDeployments_unknown
  apigateway_getRestApiResources_unknown
  apigateway_listHttpApis_unknown
  apigateway_getHttpApi_unknown
  apigateway_getHttpApiStages_unknown
  apigateway_getHttpApiRoutes_unknown : unknown.

(** ** The credentials cache *)

Lemma withCache_add calls cache objects st :
  add_requests calls (withCache cache objects st)
  = withCache cache objects (add_requests calls st).
Proof. reflexivity. Qed.

Lemma withCache_same st : withCache (credentialsCache st) (heap st) st = st.
Proof. destruct st; reflexivity. Qed.

Lemma blind_ret {A} (a : A) : cacheBlind (mret a).
Proof. intros w st cache objects. reflexivity. Qed.

Lemma blind_throw {A} e : cacheBlind (@throw A e).
Proof. intros w st cache objects. reflexivity. Qed.

Lemma blind_send {R} client (cmd : Command R) : cacheBlind (send client cmd).
Proof. intros w st cache objects. reflexivity. Qed.

Lemma blind_now : cacheBlind Date_now.
Proof. intros w st cache objects. reflexivity. Qed.

Lemma blind_accounts_get accountName : cacheBlind (accounts_get accountName).
Proof. intros w st cache objects. reflexivity. Qed.

Lemma blind_bind {A B} (m : M A) (f : A -> M B) :
  cacheBlind m -> (forall a, cacheBlind (f a)) -> cacheBlind (m ≫= f).
Proof.
  intros Hm Hf w st cache objects. rewrite !bind_run, Hm.
  destruct (m w st) as [[a| |] st1]; cbn [fst snd]; [apply Hf|reflexivity|reflexivity].
Qed.

Lemma blind_tryCatch {A} (body : M A) handler :
  cacheBlind body -> (forall e, cacheBlind (handler e)) -> cacheBlind (tryCatch body handler).
Proof.
  intros Hm Hf w st cache objects. unfold tryCatch. rewrite Hm.
  destruct (body w st) as [[a|e|] st1]; cbn [fst snd]; [reflexivity|apply Hf|reflexivity].
Qed.

Lemma blind_doWhile {S} (body : S -> M (Completion S)) cond :
  (forall s, cacheBlind (body s)) ->
  forall fuel s, cacheBlind (doWhile fuel body cond s).
Proof.
  intros Hbody. induction fuel as [|fuel IH]; intros s.
  - intros w st cache objects. reflexivity.
  - cbn [doWhile]. apply blind_bind; [apply Hbody|].
    intros [s'|s']; [|apply blind_ret].
    destruct (cond s'); [apply IH|apply blind_ret].
Qed.

Lemma blind_ext {A} (m1 m2 : M A) :
  (forall w st, m1 w st = m2 w st) -> cacheBlind m2 -> cacheBlind m1.
Proof. intros Heq H w st cache objects. rewrite !Heq. apply H. Qed.

Lemma blind_startAll {A} (calls : list (M (Task A))) :
  Forall cacheBlind calls -> cacheBlind (startAll calls).
Proof.
  induction 1 as [|call calls Hcall _ IH]; [apply blind_ret|].
  cbn [startAll]. apply blind_bind.
  - apply blind_tryCatch; [exact Hcall|intros e; apply blind_ret].
  - intros t. apply blind_bind; [exact IH|intros ts; apply blind_ret].
Qed.

Lemma blind_settleAll {A} w cache objects : forall n (pool : list (Task A)) rejection st,
  settleAll n w pool rejection (withCache cache objects st)
  = ((settleAll n w pool rejection st).1,
     withCache cache objects (settleAll n w pool rejection st).2).
Proof.
  induction n as [|n IH]; intros pool rejection st; [reflexivity|].
  cbn [settleAll requests withCache].
  destruct (answer w _ pool) as [pool' resumed].
  assert (Hnote : noteRequest resumed (withCache cache objects st)
                  = withCache cache objects (noteRequest resumed st)).
  { destruct resumed as [[a|e|R client cmd resume]|]; reflexivity. }
  rewrite Hnote. apply IH.
Qed.

Lemma blind_settled {A} (pool : list (Task A)) : cacheBlind (settled pool).
Proof.
  intros w st cache objects. unfold settled.
  rewrite withCache_add, blind_settleAll.
  destruct (settleAll _ w pool _ _) as [[pool' rejection] st']. reflexivity.
Qed.

Lemma blind_promiseAll {A} (calls : list (M (Task A))) :
  Forall cacheBlind calls -> cacheBlind (promiseAll calls).
Proof.
  intros Hcalls. unfold promiseAll.
  apply blind_bind; [apply blind_startAll, Hcalls|intros pool; apply blind_settled].
Qed.

Lemma blind_processBatches {A} (detail : string -> M (Task (option A))) :
  (forall name, cacheBlind (detail name)) ->
  forall batches acc, cacheBlind (processBatches detail batches acc).
Proof.
  intros Hdetail. induction batches as [|batch rest IH]; intros acc; [apply blind_ret|].
  cbn [processBatches]. apply blind_bind; [|intros results; apply IH].
  apply blind_promiseAll, Forall_fmap, Forall_forall. intros name _. apply Hdetail.
Qed.

Create HintDb blind.

(** Going through a computation built from the pieces above; an
    operation is unfolded where no piece applies. *)
Ltac blind :=
  repeat first
    [ apply blind_ret
    | apply blind_throw
    | apply blind_send
    | apply blind_now
    | apply blind_accounts_get
    | solve [auto 1 with blind nocore]
    | apply blind_bind; [|intros ?]
    | apply blind_tryCatch; [|intros ?]
    | apply blind_doWhile; intros [? ?]
    | match goal with
      | |- cacheBlind (match ?x with _ => _ end) => destruct x
      | |- cacheBlind (if ?x then _ else _) => destruct x
      | |- cacheBlind (let _ := _ in _) => cbv zeta
      | |- cacheBlind ?m => let h := head_of m in progress unfold h
      end ].

Lemma blind_getCredentialsProvider accountName :
  cacheBlind (AwsCredentialsProvider.getCredentialsProvider accountName).
Proof. blind. Qed.
#[global] Hint Resolve blind_getCredentialsProvider : blind.

Lemma blind_dynamodb_getClient accountName : cacheBlind (DynamoDbProvider.getClient accountName).
Proof. unfold DynamoDbProvider.getClient, AwsCredentialsProvider.getAccount. blind. Qed.
#[global] Hint Resolve blind_dynamodb_getClient : blind.

Lemma blind_s3_getClient accountName : cacheBlind (S3Provider.getClient accountName).
Proof. unfold S3Provider.getClient, AwsCredentialsProvider.getAccount. blind. Qed.
#[global] Hint Resolve blind_s3_getClient : blind.

Lemma blind_lambda_getClient accountName : cacheBlind (LambdaProvider.getClient accountName).
Proof. unfold LambdaProvider.getClient, AwsCredentialsProvider.getAccount. blind. Qed.
#[global] Hint Resolve blind_lambda_getClient : blind.

Lemma blind_ecr_getClient accountName : cacheBlind (EcrProvider.getClient accountName).
Proof. unfold EcrProvider.getClient, AwsCredentialsProvider.getAccount. blind. Qed.
#[global] Hint Resolve blind_ecr_getClient : blind.

Lemma blind_ssm_getClient accountName : cacheBlind (SsmProvider.getClient accountName).
Proof. unfold SsmProvider.getClient, AwsCredentialsProvider.getAccount. blind. Qed.
#[global] Hint Resolve blind_ssm_getClient : blind.

Lemma blind_secrets_getClient accountName : cacheBlind (SecretsManagerProvider.getClient accountName).
Proof. unfold SecretsManagerProvider.getClient, AwsCredentialsProvider.getAccount. blind. Qed.
#[global] Hint Resolve blind_secrets_getClient : blind.

Lemma blind_efs_getClient accountName : cacheBlind (EfsProvider.getClient accountName).
Proof. unfold EfsProvider.getClient, AwsCredentialsProvider.getAccount. blind. Qed.
#[global] Hint Resolve blind_efs_getClient : blind.

Lemma blind_ecs_getClient accountName : cacheBlind (EcsProvider.getClient accountName).
Proof. unfold EcsProvider.getClient, AwsCredentialsProvider.getAccount. blind. Qed.
#[global] Hint Resolve blind_ecs_getClient : blind.

Lemma blind_docdb_getClient accountName : cacheBlind (DocumentDbProvider.getClient accountName).
Proof. unfold DocumentDbProvider.getClient, AwsCredentialsProvider.getAccount. blind. Qed.
#[global] Hint Resolve blind_docdb_getClient : blind.

Lemma blind_rds_getClient accountName : cacheBlind (RdsProvider.getClient accountName).
Proof. unfold RdsProvider.getClient, AwsCredentialsProvider.getAccount. blind. Qed.
#[global] Hint Resolve blind_rds_getClient : blind.

Lemma blind_apigateway_getV1Client accountName : cacheBlind (ApiGatewayProvider.getV1Client accountName).
Proof. unfold ApiGatewayProvider.getV1Client, AwsCredentialsProvider.getAccount. blind. Qed.
#[global] Hint Resolve blind_apigateway_getV1Client : blind.

Lemma blind_apigateway_getV2Client accountName : cacheBlind (ApiGatewayProvider.getV2Client accountName).
Proof. unfold ApiGatewayProvider.getV2Client, AwsCredentialsProvider.getAccount. blind. Qed.
#[global] Hint Resolve blind_apigateway_getV2Client : blind.

Lemma blind_mapFileSystem fs : cacheBlind (EfsProvider.mapFileSystem fs).
Proof. blind. Qed.
#[global] Hint Resolve blind_mapFileSystem : blind.

Lemma blind_pushFileSystems rest : forall fileSystems,
  cacheBlind (EfsFileSystems.pushFileSystems rest fileSystems).
Proof.
  induction rest as [|fs rest IH]; intros fileSystems;
    cbn [EfsFileSystems.pushFileSystems]; blind.
Qed.
#[global] Hint Resolve blind_pushFileSystems : blind.

Lemma blind_fetchTags client repo mapped : cacheBlind (EcrProvider.fetchTags client repo mapped).
Proof. blind. Qed.
#[global] Hint Resolve blind_fetchTags : blind.

Lemma blind_pushRepositories client rest : forall repositories,
  cacheBlind (EcrProvider.pushRepositories client rest repositories).
Proof.
  induction rest as [|repo rest IH]; intros repositories;
    cbn [EcrProvider.pushRepositories]; blind.
Qed.
#[global] Hint Resolve blind_pushRepositories : blind.

Lemma blind_pushBasicInfo accountName rest : forall buckets,
  cacheBlind (S3Buckets.pushBasicInfo accountName rest buckets).
Proof.
  induction rest as [|bucket rest IH]; intros buckets;
    cbn [S3Buckets.pushBasicInfo]; blind.
Qed.
#[global] Hint Resolve blind_pushBasicInfo : blind.

Lemma blind_getTable_call accountName tableName :
  cacheBlind (DynamoDbProvider.getTable_call accountName tableName).
Proof. blind. Qed.

Lemma blind_getBucket_call accountName bucketName :
  cacheBlind (S3Provider.getBucket_call accountName bucketName).
Proof. blind. Qed.

Lemma blind_tableDetailsLoop accountName names :
  cacheBlind (DynamoDbProvider.tableDetailsLoop accountName names 0 []).
Proof.
  apply (blind_ext _ (processBatches (DynamoDbProvider.getTable_call accountName)
                                     (chunks batchSize names) [])).
  - intros w st.
    rewrite (loop_batches _ _ (dynamodb_detailsLoop_unfold accountName)
                          names w (length names) 0 [] st) by lia.
    rewrite drop_0. reflexivity.
  - apply blind_processBatches. intros name. apply blind_getTable_call.
Qed.
#[global] Hint Resolve blind_tableDetailsLoop : blind.

Lemma blind_bucketDetailsLoop accountName names :
  cacheBlind (S3Provider.bucketDetailsLoop accountName names 0 []).
Proof.
  apply (blind_ext _ (processBatches (S3Provider.getBucket_call accountName)
                                     (chunks batchSize names) [])).
  - intros w st.
    rewrite (loop_batches _ _ (s3_detailsLoop_unfold accountName)
                          names w (length names) 0 [] st) by lia.
    rewrite drop_0. reflexivity.
  - apply blind_processBatches. intros name. apply blind_getBucket_call.
Qed.
#[global] Hint Resolve blind_bucketDetailsLoop : blind.

Ltac blind_op :=
  first [ rewrite getTable_unfold | rewrite getBucket_unfold | idtac ];
  blind.

Lemma blind_dynamodb_listTables fuel accountName :
  cacheBlind (DynamoDbProvider.listTables fuel accountName).
Proof. blind_op. Qed.
#[global] Hint Resolve blind_dynamodb_listTables : blind.

Lemma blind_dynamodb_getTable accountName tableName :
  cacheBlind (DynamoDbProvider.getTable accountName tableName).
Proof. blind_op. Qed.
#[global] Hint Resolve blind_dynamodb_getTable : blind.

Lemma blind_dynamodb_listTablesWithDetails fuel accountName :
  cacheBlind (DynamoDbProvider.listTablesWithDetails fuel accountName).
Proof. blind_op. Qed.
#[global] Hint Resolve blind_dynamodb_listTablesWithDetails : blind.

Lemma blind_s3_listBuckets accountName :
  cacheBlind (S3Buckets.listBuckets accountName).
Proof. blind_op. Qed.
#[global] Hint Resolve blind_s3_listBuckets : blind.

Lemma blind_s3_getBucket accountName bucketName :
  cacheBlind (S3Provider.getBucket accountName bucketName).
Proof. blind_op. Qed.
#[global] Hint Resolve blind_s3_getBucket : blind.

Lemma blind_s3_listBucketsWithDetails accountName :
  cacheBlind (S3Provider.listBucketsWithDetails accountName).
Proof. blind_op. Qed.
#[global] Hint Resolve blind_s3_listBucketsWithDetails : blind.

Lemma blind_lambda_listFunctions fuel accountName :
  cacheBlind (LambdaProvider.listFunctions fuel accountName).
Proof. blind_op. Qed.
#[global] Hint Resolve blind_lambda_listFunctions : blind.

Lemma blind_lambda_getFunction accountName functionName :
  cacheBlind (LambdaProvider.getFunction accountName functionName).
Proof. blind_op. Qed.
#[global] Hint Resolve blind_lambda_getFunction : blind.

Lemma blind_lambda_listVersions fuel accountName functionName :
  cacheBlind (LambdaProvider.listVersions fuel accountName functionName).
Proof. blind_op. Qed.
#[global] Hint Resolve blind_lambda_listVersions : blind.

Lemma blind_lambda_getFunctionConfiguration accountName functionName :
  cacheBlind (LambdaProvider.getFunctionConfiguration accountName functionName).
Proof. blind_op. Qed.
#[global] Hint Resolve blind_lambda_getFunctionConfiguration : blind.

Lemma blind_ecr_listRepositories fuel accountName :
  cacheBlind (EcrProvider.listRepositories fuel accountName).
Proof. blind_op. Qed.
#[global] Hint Resolve blind_ecr_listRepositories : blind.

Lemma blind_ecr_getRepository accountName repositoryName :
  cacheBlind (EcrProvider.getRepository accountName repositoryName).
Proof. blind_op. Qed.
#[global] Hint Resolve blind_ecr_getRepository : blind.

Lemma blind_ecr_listImages fuel accountName repositoryName maxResults :
  cacheBlind (EcrProvider.listImages fuel accountName repositoryName maxResults).
Proof. blind_op. Qed.
#[global] Hint Resolve blind_ecr_listImages : blind.

Lemma blind_ecr_getImageScanFindings accountName repositoryName imageDigest imageTag :
  cacheBlind (EcrProvider.getImageScanFindings accountName repositoryName imageDigest imageTag).
Proof. blind_op. Qed.
#[global] Hint Resolve blind_ecr_getImageScanFindings : blind.

Lemma blind_ecr_getLifecyclePolicy accountName repositoryName :
  cacheBlind (EcrProvider.getLifecyclePolicy accountName repositoryName).
Proof. blind_op. Qed.
#[global] Hint Resolve blind_ecr_getLifecyclePolicy : blind.

Lemma blind_ecr_getRepositoryPolicy accountName repositoryName :
  cacheBlind (EcrProvider.getRepositoryPolicy accountName repositoryName).
Proof. blind_op. Qed.
#[global] Hint Resolve blind_ecr_getRepositoryPolicy : blind.

Lemma blind_ssm_getParameter accountName name withDecryption :
  cacheBlind (SsmProvider.getParameter accountName name withDecryption).
Proof. blind_op. Qed.
#[global] Hint Resolve blind_ssm_getParameter : blind.

Lemma blind_ssm_getParametersByPath fuel accountName path recursive withDecryption :
  cacheBlind (SsmProvider.getParametersByPath fuel accountName path recursive withDecryption).
Proof. blind_op. Qed.
#[global] Hint Resolve blind_ssm_getParametersByPath : blind.

Lemma blind_secrets_listSecrets fuel accountName :
  cacheBlind (SecretsManagerProvider.listSecrets fuel accountName).
Proof. blind_op. Qed.
#[global] Hint Resolve blind_secrets_listSecrets : blind.

Lemma blind_secrets_getSecret accountName secretName :
  cacheBlind (SecretsManagerProvider.getSecret accountName secretName).
Proof. blind_op. Qed.
#[global] Hint Resolve blind_secrets_getSecret : blind.

Lemma blind_secrets_getSecretStructure accountName secretName :
  cacheBlind (SecretsManagerProvider.getSecretStructure accountName secretName).
Proof. blind_op. Qed.
#[global] Hint Resolve blind_secrets_getSecretStructure : blind.

Lemma blind_efs_listFileSystems fuel accountName :
  cacheBlind (EfsFileSystems.listFileSystems fuel accountName).
Proof. blind_op. Qed.
#[global] Hint Resolve blind_efs_listFileSystems : blind.

Lemma blind_efs_getFileSystem accountName fileSystemId :
  cacheBlind (EfsProvider.getFileSystem accountName fileSystemId).
Proof. blind_op. Qed.
#[global] Hint Resolve blind_efs_getFileSystem : blind.

Lemma blind_efs_listMountTargets fuel accountName fileSystemId :
  cacheBlind (EfsProvider.listMountTargets fuel accountName fileSystemId).
Proof. blind_op. Qed.
#[global] Hint Resolve blind_efs_listMountTargets : blind.

Lemma blind_efs_getLifecycleConfiguration accountName fileSystemId :
  cacheBlind (EfsProvider.getLifecycleConfiguration accountName fileSystemId).
Proof. blind_op. Qed.
#[global] Hint Resolve blind_efs_getLifecycleConfiguration : blind.

Lemma blind_efs_listAccessPoints fuel accountName fileSystemId :
  cacheBlind (EfsProvider.listAccessPoints fuel accountName fileSystemId).
Proof. blind_op. Qed.
#[global] Hint Resolve blind_efs_listAccessPoints : blind.

Lemma blind_ecs_listClusters fuel accountName :
  cacheBlind (EcsProvider.listClusters fuel accountName).
Proof. blind_op. Qed.
#[global] Hint Resolve blind_ecs_listClusters : blind.

Lemma blind_ecs_listServices fuel accountName clusterName :
  cacheBlind (EcsProvider.listServices fuel accountName clusterName).
Proof. blind_op. Qed.
#[global] Hint Resolve blind_ecs_listServices : blind.

Lemma blind_ecs_getService accountName clusterName serviceName :
  cacheBlind (EcsProvider.getService accountName clusterName serviceName).
Proof. blind_op. Qed.
#[global] Hint Resolve blind_ecs_getService : blind.

Lemma blind_ecs_getTaskDefinition accountName taskDefinitionArn :
  cacheBlind (EcsProvider.getTaskDefinition accountName taskDefinitionArn).
Proof. blind_op. Qed.
#[global] Hint Resolve blind_ecs_getTaskDefinition : blind.

Lemma blind_docdb_listClusters fuel accountName :
  cacheBlind (DocumentDbProvider.listClusters fuel accountName).
Proof. blind_op. Qed.
#[global] Hint Resolve blind_docdb_listClusters : blind.

Lemma blind_docdb_getCluster accountName dbClusterIdentifier :
  cacheBlind (DocumentDbProvider.getCluster accountName dbClusterIdentifier).
Proof. blind_op. Qed.
#[global] Hint Resolve blind_docdb_getCluster : blind.

Lemma blind_docdb_listInstances fuel accountName :
  cacheBlind (DocumentDbProvider.listInstances fuel accountName).
Proof. blind_op. Qed.
#[global] Hint Resolve blind_docdb_listInstances : blind.

Lemma blind_docdb_getInstance accountName dbInstanceIdentifier :
  cacheBlind (DocumentDbProvider.getInstance accountName dbInstanceIdentifier).
Proof. blind_op. Qed.
#[global] Hint Resolve blind_docdb_getInstance : blind.

Lemma blind_docdb_listParameterGroups fuel accountName :
  cacheBlind (DocumentDbProvider.listParameterGroups fuel accountName).
Proof. blind_op. Qed.
#[global] Hint Resolve blind_docdb_listParameterGroups : blind.

Lemma blind_docdb_listSnapshots fuel accountName dbClusterIdentifier :
  cacheBlind (DocumentDbProvider.listSnapshots fuel accountName dbClusterIdentifier).
Proof. blind_op. Qed.
#[global] Hint Resolve blind_docdb_listSnapshots : blind.

Lemma blind_rds_listInstances fuel accountName :
  cacheBlind (RdsProvider.listInstances fuel accountName).
Proof. blind_op. Qed.
#[global] Hint Resolve blind_rds_listInstances : blind.

Lemma blind_rds_getInstance accountName dbInstanceIdentifier :
  cacheBlind (RdsProvider.getInstance accountName dbInstanceIdentifier).
Proof. blind_op. Qed.
#[global] Hint Resolve blind_rds_getInstance : blind.

Lemma blind_rds_listClusters fuel accountName :
  cacheBlind (RdsProvider.listClusters fuel accountName).
Proof. blind_op. Qed.
#[global] Hint Resolve blind_rds_listClusters : blind.

Lemma blind_rds_getCluster accountName dbClusterIdentifier :
  cacheBlind (RdsProvider.getCluster accountName dbClusterIdentifier).
Proof. blind_op. Qed.
#[global] Hint Resolve blind_rds_getCluster : blind.

Lemma blind_rds_listParameterGroups fuel accountName :
  cacheBlind (RdsProvider.listParameterGroups fuel accountName).
Proof. blind_op. Qed.
#[global] Hint Resolve blind_rds_listParameterGroups : blind.

Lemma blind_rds_listClusterParameterGroups fuel accountName :
  cacheBlind (RdsProvider.listClusterParameterGroups fuel accountName).
Proof. blind_op. Qed.
#[global] Hint Resolve blind_rds_listClusterParameterGroups : blind.

Lemma blind_rds_listSnapshots fuel accountName dbInstanceIdentifier :
  cacheBlind (RdsProvider.listSnapshots fuel accountName dbInstanceIdentifier).
Proof. blind_op. Qed.
#[global] Hint Resolve blind_rds_listSnapshots : blind.

Lemma blind_rds_listClusterSnapshots fuel accountName dbClusterIdentifier :
  cacheBlind (RdsProvider.listClusterSnapshots fuel accountName dbClusterIdentifier).
Proof. blind_op. Qed.
#[global] Hint Resolve blind_rds_listClusterSnapshots : blind.

Lemma blind_apigateway_listRestApis fuel accountName :
  cacheBlind (ApiGatewayProvider.listRestApis fuel accountName).
Proof. blind_op. Qed.
#[global] Hint Resolve blind_apigateway_listRestApis : blind.

Lemma blind_apigateway_getRestApi accountName restApiId :
  cacheBlind (ApiGatewayProvider.getRestApi accountName restApiId).
Proof. blind_op. Qed.
#[global] Hint Resolve blind_apigateway_getRestApi : blind.

Lemma blind_apigateway_getRestApiStages accountName restApiId :
  cacheBlind (ApiGatewayProvider.getRestApiStages accountName restApiId).
Proof. blind_op. Qed.
#[global] Hint Resolve blind_apigateway_getRestApiStages : blind.

Lemma blind_apigateway_getRestApiDeployments fuel accountName restApiId :
  cacheBlind (ApiGatewayProvider.getRestApiDeployments fuel accountName restApiId).
Proof. blind_op. Qed.
#[global] Hint Resolve blind_apigateway_getRestApiDeployments : blind.

Lemma blind_apigateway_getRestApiResources fuel accountName restApiId :
  cacheBlind (ApiGatewayProvider.getRestApiResources fuel accountName restApiId).
Proof. blind_op. Qed.
#[global] Hint Resolve blind_apigateway_getRestApiResources : blind.

Lemma blind_apigateway_listHttpApis fuel accountName :
  cacheBlind (ApiGatewayProvider.listHttpApis fuel accountName).
Proof. blind_op. Qed.
#[global] Hint Resolve blind_apigateway_listHttpApis : blind.

Lemma blind_apigateway_getHttpApi accountName apiId :
  cacheBlind (ApiGatewayProvider.getHttpApi accountName apiId).
Proof. blind_op. Qed.
#[global] Hint Resolve blind_apigateway_getHttpApi : blind.

Lemma blind_apigateway_getHttpApiStages fuel accountName apiId :
  cacheBlind (ApiGatewayProvider.getHttpApiStages fuel accountName apiId).
Proof. blind_op. Qed.
#[global] Hint Resolve blind_apigateway_getHttpApiStages : blind.

Lemma blind_apigateway_getHttpApiRoutes fuel accountName apiId :
  cacheBlind (ApiGatewayProvider.getHttpApiRoutes fuel accountName apiId).
Proof. blind_op. Qed.
#[global] Hint Resolve blind_apigateway_getHttpApiRoutes : blind.

(** ** Listings with work per item *)

Lemma mapFileSystem_run fs w st :
  exists entity,
    EfsProvider.mapFileSystem fs w st
    = (Ok entity, match Efs.CreationTime fs with Some _ => st | None => tick 1 st end) /\
    EfsProvider.fileSystemId entity = Efs.FileSystemId fs ?? "" /\
    EfsProvider.creationTime entity = Efs.CreationTime fs ?? clock w (ticks st).
Proof.
  unfold EfsProvider.mapFileSystem. rewrite bind_run.
  destruct (Efs.CreationTime fs) as [t|]; cbn [mret M_ret Date_now];
    (eexists; split; [reflexivity|]; split; reflexivity).
Qed.

Lemma pushFileSystems_run w : forall rest fileSystems st,
  exists out st',
    EfsFileSystems.pushFileSystems rest fileSystems w st = (Ok (fileSystems ++ out), st') /\
    requests st' = requests st /\
    Forall2 (fun fs entity => exists s, fst (EfsProvider.mapFileSystem fs w s) = Ok entity)
            rest out /\
    map EfsProvider.fileSystemId out = map (fun fs => Efs.FileSystemId fs ?? "") rest.
Proof.
  induction rest as [|fs rest IH]; intros fileSystems st.
  - exists [], st. rewrite app_nil_r. split; [reflexivity|]. split; [reflexivity|].
    split; [constructor|reflexivity].
  - cbn [EfsFileSystems.pushFileSystems]. rewrite bind_run.
    destruct (mapFileSystem_run fs w st) as (entity & Hmap & Hid & _). rewrite Hmap.
    destruct (IH (fileSystems ++ [entity])
                 (match Efs.CreationTime fs with Some _ => st | None => tick 1 st end))
      as (out & st' & Hrun & Hrequests & Hall & Hids).
    exists (entity :: out), st'. rewrite Hrun, <- app_assoc.
    split; [reflexivity|]. split; [|split].
    + rewrite Hrequests. destruct (Efs.CreationTime fs); reflexivity.
    + constructor; [|exact Hall]. exists st. rewrite Hmap. reflexivity.
    + cbn [map]. rewrite Hid, Hids. reflexivity.
Qed.

Lemma listFileSystems_loop w client cursor pages :
  serves w client EfsFileSystems.describeFileSystems Efs.NextMarker cursor pages ->
  forall fuel fileSystems st,
    (length pages <= fuel)%nat ->
    exists out final st',
      doWhile fuel (EfsFileSystems.listFileSystems_round client)
              (fun s => truthy (snd s)) (fileSystems, cursor) w st
      = (Ok (fileSystems ++ out, final), st') /\
      requests st'
      = requests st ++ fetches client EfsFileSystems.describeFileSystems Efs.NextMarker
                               cursor pages /\
      Forall2 (fun fs entity => exists s, fst (EfsProvider.mapFileSystem fs w s) = Ok entity)
              (allItems (fun page => Efs.FileSystems page ?? []) pages) out /\
      map EfsProvider.fileSystemId out
      = map (fun fs => Efs.FileSystemId fs ?? "")
            (allItems (fun page => Efs.FileSystems page ?? []) pages).
Proof.
  induction 1 as [cursor page Hv Hlast | cursor page pages Hv Hmore Hrest IH];
    intros fuel fileSystems st Hfuel;
    (destruct fuel as [|fuel]; [simpl in Hfuel; lia|]);
    cbn [doWhile]; rewrite bind_run;
    unfold EfsFileSystems.listFileSystems_round at 1;
    rewrite bind_run, send_run, Hv, bind_run;
    destruct (pushFileSystems_run w (Efs.FileSystems page ?? []) fileSystems
                (add_requests [mkCall client (EfsFileSystems.describeFileSystems cursor)] st))
      as (out & st1 & Hpush & Hrequests & Hall & Hids);
    rewrite Hpush; cbn [mret M_ret snd].
  - rewrite Hlast. exists out, (Efs.NextMarker page), st1.
    split; [reflexivity|]. unfold allItems, fetches. cbn [map concat requested].
    rewrite !app_nil_r. split; [exact Hrequests|]. split; assumption.
  - rewrite Hmore.
    destruct (IH fuel (fileSystems ++ out) st1) as (out' & final & st' & Hrun & Hrequests' & Hall' & Hids');
      [simpl in Hfuel; lia|].
    exists (out ++ out'), final, st'. rewrite Hrun, <- app_assoc.
    split; [reflexivity|]. unfold allItems, fetches in *. cbn [map concat requested].
    split; [|split].
    + rewrite Hrequests', Hrequests. cbn. rewrite <- app_assoc. reflexivity.
    + apply Forall2_app; assumption.
    + rewrite !map_app, Hids, Hids'. reflexivity.
Qed.

(** *** Repositories *)

Lemma fetchTags_run w client repo st :
  EcrProvider.fetchTags client repo (EcrProvider.mapRepository repo) w st
  = (Ok (repositoryWithTags w client repo),
     add_requests [mkCall client (ListTagsForResourceCommand (Ecr.repositoryArn repo))] st).
Proof.
  unfold EcrProvider.fetchTags, repositoryWithTags, tryCatch. rewrite bind_run, send_run.
  destruct (vendor w client _ _) as [e|response]; [reflexivity|].
  cbn [mret M_ret]. destruct (tags_if_any _); reflexivity.
Qed.

Lemma pushRepositories_run w client : forall rest repositories st,
  EcrProvider.pushRepositories client rest repositories w st
  = (Ok (repositories ++ map (repositoryWithTags w client) rest),
     add_requests
       (map (fun repo => mkCall client (ListTagsForResourceCommand (Ecr.repositoryArn repo))) rest)
       st).
Proof.
  induction rest as [|repo rest IH]; intros repositories st.
  - cbn. rewrite app_nil_r. unfold add_requests. rewrite app_nil_r. destruct st; reflexivity.
  - cbn [EcrProvider.pushRepositories]. rewrite bind_run, fetchTags_run, IH.
    rewrite add_requests_app, <- app_assoc. reflexivity.
Qed.

(** The loop of [listRepositories] reads every page, in order, asking
    once per page, and asks for the tags of each repository of a page
    before it goes on to the next page. *)
Lemma listRepositories_loop w client cursor pages :
  serves w client (DescribeRepositoriesCommand None) Ecr.d_nextToken cursor pages ->
  forall fuel acc st,
    (length pages <= fuel)%nat ->
    exists final,
      doWhile fuel (EcrProvider.listRepositories_round client)
              (fun s => truthy (snd s)) (acc, cursor) w st
      = (Ok (acc ++ allItems (fun page => map (repositoryWithTags w client)
                                              (Ecr.repositories page ?? [])) pages,
             final),
         add_requests (repositoryFetches client cursor pages) st).
Proof.
  induction 1 as [cursor page Hv Hlast | cursor page pages Hv Hmore Hrest IH];
    intros fuel acc st Hfuel;
    (destruct fuel as [|fuel]; [simpl in Hfuel; lia|]);
    cbn [doWhile]; rewrite bind_run;
    unfold EcrProvider.listRepositories_round at 1;
    rewrite bind_run, send_run, Hv, bind_run, pushRepositories_run;
    cbn [mret M_ret snd].
  - rewrite Hlast. exists (Ecr.d_nextToken page).
    unfold allItems. cbn [map concat repositoryFetches].
    rewrite !app_nil_r, add_requests_app. reflexivity.
  - rewrite Hmore.
    destruct (IH fuel (acc ++ map (repositoryWithTags w client) (Ecr.repositories page ?? []))
                 (add_requests
                    (map (fun repo => mkCall client
                                        (ListTagsForResourceCommand (Ecr.repositoryArn repo)))
                         (Ecr.repositories page ?? []))
                    (add_requests [mkCall client (DescribeRepositoriesCommand None cursor)] st)))
      as (final & Hrun); [simpl in Hfuel; lia|].
    exists final. rewrite Hrun. unfold allItems. cbn [map concat repositoryFetches].
    rewrite <- app_assoc, !add_requests_app. reflexivity.
Qed.

Lemma listRepositories_pages w st accountName account fuel pages :
  accounts w !! accountName = Some account ->
  let client := clientFor ECR account (clock w (ticks st)) in
  serves w client (DescribeRepositoriesCommand None) Ecr.d_nextToken None pages ->
  (length pages <= fuel)%nat ->
  EcrProvider.listRepositories fuel accountName w st
  = (Ok (allItems (fun page => map (repositoryWithTags w client)
                                   (Ecr.repositories page ?? [])) pages),
     add_requests (repositoryFetches client None pages) (tick 1 st)).
Proof.
  intros Ha client Hserves Hfuel. unfold EcrProvider.listRepositories.
  rewrite (bind_Ok _ _ _ _ _ _ (ecr_getClient_known _ _ _ _ Ha)). fold client.
  rewrite bind_run.
  destruct (listRepositories_loop w client None pages Hserves fuel [] (tick 1 st) Hfuel)
    as (final & Hrun).
  rewrite Hrun. reflexivity.
Qed.

(** Proving [collects] for a listing of the plain shape. *)
Ltac collect Hclient :=
  intros w st accountName account fuel pages Ha client Hserves Hfuel;
  cbv beta;
  lazymatch goal with
  | |- ?op _ _ = (Ok (allItems ?items _), _) =>
      let h := head_of op in unfold h;
      run_listing Hclient Ha items Hserves Hfuel
  end.

Lemma getTable_settles w accountName tableName s :
  fst (DynamoDbProvider.getTable accountName tableName w s) <> OutOfFuel.
Proof.
  destruct (accounts w !! accountName) as [account|] eqn:Ha.
  - destruct (getTable_absent w s accountName account tableName Ha) as [Herror Hnone].
    pose proof (getTable_found w s accountName account tableName) as Hfound.
    cbv zeta in Herror, Hnone, Hfound.
    destruct (vendor w (clientFor DynamoDBService account (clock w (ticks s))) _
                     (DescribeTableCommand tableName)) as [e|[[table|]]] eqn:Hv.
    + rewrite (Herror e eq_refl). cbn [fst]. destruct (named _ e); discriminate.
    + rewrite (Hfound table Ha eq_refl). discriminate.
    + rewrite (Hnone eq_refl). discriminate.
  - rewrite (dynamodb_getTable_unknown w s accountName Ha tableName). discriminate.
Qed.

(** * The claims *)

(** ** Unknown accounts *)

(** C8. For an account name that is not in the registry, credential
    resolution, the construction of the credentials provider, the
    client constructor of every provider (twelve in all; the API
    Gateway provider has two) and every list and get operation of every
    provider fail with the error "Unknown AWS account: <name>"; no
    request is sent and the state (cache, credential objects, clock
    readings, requests) is left as it was. *)
Theorem unknown_account_rejected_everywhere w st accountName :
  accounts w !! accountName = None ->
  let rejected {A} (m : M A) := m w st = (Throw (UnknownAccount accountName), st) in
  rejected (AwsCredentialsProvider.getCredentials accountName) /\
  rejected (AwsCredentialsProvider.getCredentialsProvider accountName) /\
  rejected (DynamoDbProvider.getClient accountName) /\
  rejected (S3Provider.getClient accountName) /\
  rejected (LambdaProvider.getClient accountName) /\
  rejected (EcrProvider.getClient accountName) /\
  rejected (SsmProvider.getClient accountName) /\
  rejected (SecretsManagerProvider.getClient accountName) /\
  rejected (EfsProvider.getClient accountName) /\
  rejected (EcsProvider.getClient accountName) /\
  rejected (DocumentDbProvider.getClient accountName) /\
  rejected (RdsProvider.getClient accountName) /\
  rejected (ApiGatewayProvider.getV1Client accountName) /\
  rejected (ApiGatewayProvider.getV2Client accountName) /\
  (forall fuel, rejected (DynamoDbProvider.listTables fuel accountName)) /\
  (forall tableName, rejected (DynamoDbProvider.getTable accountName tableName)) /\
  (forall fuel, rejected (DynamoDbProvider.listTablesWithDetails fuel accountName)) /\
  rejected (S3Buckets.listBuckets accountName) /\
  (forall bucketName, rejected (S3Provider.getBucket accountName bucketName)) /\
  rejected (S3Provider.listBucketsWithDetails accountName) /\
  (forall fuel, rejected (LambdaProvider.listFunctions fuel accountName)) /\
  (forall functionName, rejected (LambdaProvider.getFunction accountName functionName)) /\
  (forall fuel functionName, rejected (LambdaProvider.listVersions fuel accountName functionName)) /\
  (forall functionName, rejected (LambdaProvider.getFunctionConfiguration accountName functionName)) /\
  (forall fuel, rejected (EcrProvider.listRepositories fuel accountName)) /\
  (forall repositoryName, rejected (EcrProvider.getRepository accountName repositoryName)) /\
  (forall fuel repositoryName maxResults,
      rejected (EcrProvider.listImages fuel accountName repositoryName maxResults)) /\
  (forall repositoryName imageDigest imageTag,
      rejected (EcrProvider.getImageScanFindings accountName repositoryName imageDigest imageTag)) /\
  (forall repositoryName, rejected (EcrProvider.getLifecyclePolicy accountName repositoryName)) /\
  (forall repositoryName, rejected (EcrProvider.getRepositoryPolicy accountName repositoryName)) /\
  (forall name withDecryption, rejected (SsmProvider.getParameter accountName name withDecryption)) /\
  (forall fuel path recursive withDecryption,
      rejected (SsmProvider.getParametersByPath fuel accountName path recursive withDecryption)) /\
  (forall fuel, rejected (SecretsManagerProvider.listSecrets fuel accountName)) /\
  (forall secretName, rejected (SecretsManagerProvider.getSecret accountName secretName)) /\
  (forall secretName, rejected (SecretsManagerProvider.getSecretStructure accountName secretName)) /\
  (forall fuel, rejected (EfsFileSystems.listFileSystems fuel accountName)) /\
  (forall fileSystemId, rejected (EfsProvider.getFileSystem accountName fileSystemId)) /\
  (forall fuel fileSystemId, rejected (EfsProvider.listMountTargets fuel accountName fileSystemId)) /\
  (forall fileSystemId, rejected (EfsProvider.getLifecycleConfiguration accountName fileSystemId)) /\
  (forall fuel fileSystemId, rejected (EfsProvider.listAccessPoints fuel accountName fileSystemId)) /\
  (forall fuel, rejected (EcsProvider.listClusters fuel accountName)) /\
  (forall fuel clusterName, rejected (EcsProvider.listServices fuel accountName clusterName)) /\
  (forall clusterName serviceName,
      rejected (EcsProvider.getService accountName clusterName serviceName)) /\
  (forall taskDefinitionArn, rejected (EcsProvider.getTaskDefinition accountName taskDefinitionArn)) /\
  (forall fuel, rejected (DocumentDbProvider.listClusters fuel accountName)) /\
  (forall dbClusterIdentifier,
      rejected (DocumentDbProvider.getCluster accountName dbClusterIdentifier)) /\
  (forall fuel, rejected (DocumentDbProvider.listInstances fuel accountName)) /\
  (forall dbInstanceIdentifier,
      rejected (DocumentDbProvider.getInstance accountName dbInstanceIdentifier)) /\
  (forall fuel, rejected (DocumentDbProvider.listParameterGroups fuel accountName)) /\
  (forall fuel dbClusterIdentifier,
      rejected (DocumentDbProvider.listSnapshots fuel accountName dbClusterIdentifier)) /\
  (forall fuel, rejected (RdsProvider.listInstances fuel accountName)) /\
  (forall dbInstanceIdentifier, rejected (RdsProvider.getInstance accountName dbInstanceIdentifier)) /\
  (forall fuel, rejected (RdsProvider.listClusters fuel accountName)) /\
  (forall dbClusterIdentifier, rejected (RdsProvider.getCluster accountName dbClusterIdentifier)) /\
  (forall fuel, rejected (RdsProvider.listParameterGroups fuel accountName)) /\
  (forall fuel, rejected (RdsProvider.listClusterParameterGroups fuel accountName)) /\
  (forall fuel dbInstanceIdentifier,
      rejected (RdsProvider.listSnapshots fuel accountName dbInstanceIdentifier)) /\
  (forall fuel dbClusterIdentifier,
      rejected (RdsProvider.listClusterSnapshots fuel accountName dbClusterIdentifier)) /\
  (forall fuel, rejected (ApiGatewayProvider.listRestApis fuel accountName)) /\
  (forall restApiId, rejected (ApiGatewayProvider.getRestApi accountName restApiId)) /\
  (forall restApiId, rejected (ApiGatewayProvider.getRestApiStages accountName restApiId)) /\
  (forall fuel restApiId,
      rejected (ApiGatewayProvider.getRestApiDeployments fuel accountName restApiId)) /\
  (forall fuel restApiId,
      rejected (ApiGatewayProvider.getRestApiResources fuel accountName restApiId)) /\
  (forall fuel, rejected (ApiGatewayProvider.listHttpApis fuel accountName)) /\
  (forall apiId, rejected (ApiGatewayProvider.getHttpApi accountName apiId)) /\
  (forall fuel apiId, rejected (ApiGatewayProvider.getHttpApiStages fuel accountName apiId)) /\
  (forall fuel apiId, rejected (ApiGatewayProvider.getHttpApiRoutes fuel accountName apiId)).
Proof.
  intros H rejected. subst rejected. cbv beta.
  split; [exact (getCredentials_unknown w st accountName H)|].
  split; [exact (getCredentialsProvider_unknown w st accountName H)|].
  split; [exact (dynamodb_getClient_unknown w st accountName H)|].
  split; [exact (s3_getClient_unknown w st accountName H)|].
  split; [exact (lambda_getClient_unknown w st accountName H)|].
  split; [exact (ecr_getClient_unknown w st accountName H)|].
  split; [exact (ssm_getClient_unknown w st accountName H)|].
  split; [exact (secrets_getClient_unknown w st accountName H)|].
  split; [exact (efs_getClient_unknown w st accountName H)|].
  split; [exact (ecs_getClient_unknown w st accountName H)|].
  split; [exact (docdb_getClient_unknown w st accountName H)|].
  split; [exact (rds_getClient_unknown w st accountName H)|].
  split; [exact (apigateway_getV1Client_unknown w st accountName H)|].
  split; [exact (apigateway_getV2Client_unknown w st accountName H)|].
  split; [exact (dynamodb_listTables_unknown w st accountName H)|].
  split; [exact (dynamodb_getTable_unknown w st accountName H)|].
  split; [exact (dynamodb_listTablesWithDetails_unknown w st accountName H)|].
  split; [exact (s3_listBuckets_unknown w st accountName H)|].
  split; [exact (s3_getBucket_unknown w st accountName H)|].
  split; [exact (s3_listBucketsWithDetails_unknown w st accountName H)|].
  split; [exact (lambda_listFunctions_unknown w st accountName H)|].
  split; [exact (lambda_getFunction_unknown w st accountName H)|].
  split; [exact (lambda_listVersions_unknown w st accountName H)|].
  split; [exact (lambda_getFunctionConfiguration_unknown w st accountName H)|].
  split; [exact (ecr_listRepositories_unknown w st accountName H)|].
  split; [exact (ecr_getRepository_unknown w st accountName H)|].
  split; [exact (ecr_listImages_unknown w st accountName H)|].
  split; [exact (ecr_getImageScanFindings_unknown w st accountName H)|].
  split; [exact (ecr_getLifecyclePolicy_unknown w st accountName H)|].
  split; [exact (ecr_getRepositoryPolicy_unknown w st accountName H)|].
  split; [exact (ssm_getParameter_unknown w st accountName H)|].
  split; [exact (ssm_getParametersByPath_unknown w st accountName H)|].
  split; [exact (secrets_listSecrets_unknown w st accountName H)|].
  split; [exact (secrets_getSecret_unknown w st accountName H)|].
  split; [exact (secrets_getSecretStructure_unknown w st accountName H)|].
  split; [exact (efs_listFileSystems_unknown w st accountName H)|].
  split; [exact (efs_getFileSystem_unknown w st accountName H)|].
  split; [exact (efs_listMountTargets_unknown w st accountName H)|].
  split; [exact (efs_getLifecycleConfiguration_unknown w st accountName H)|].
  split; [exact (efs_listAccessPoints_unknown w st accountName H)|].
  split; [exact (ecs_listClusters_unknown w st accountName H)|].
  split; [exact (ecs_listServices_unknown w st accountName H)|].
  split; [exact (ecs_getService_unknown w st accountName H)|].
  split; [exact (ecs_getTaskDefinition_unknown w st accountName H)|].
  split; [exact (docdb_listClusters_unknown w st accountName H)|].
  split; [exact (docdb_getCluster_unknown w st accountName H)|].
  split; [exact (docdb_listInstances_unknown w st accountName H)|].
  split; [exact (docdb_getInstance_unknown w st accountName H)|].
  split; [exact (docdb_listParameterGroups_unknown w st accountName H)|].
  split; [exact (docdb_listSnapshots_unknown w st accountName H)|].
  split; [exact (rds_listInstances_unknown w st accountName H)|].
  split; [exact (rds_getInstance_unknown w st accountName H)|].
  split; [exact (rds_listClusters_unknown w st accountName H)|].
  split; [exact (rds_getCluster_unknown w st accountName H)|].
  split; [exact (rds_listParameterGroups_unknown w st accountName H)|].
  split; [exact (rds_listClusterParameterGroups_unknown w st accountName H)|].
  split; [exact (rds_listSnapshots_unknown w st accountName H)|].
  split; [exact (rds_listClusterSnapshots_unknown w st accountName H)|].
  split; [exact (apigateway_listRestApis_unknown w st accountName H)|].
  split; [exact (apigateway_getRestApi_unknown w st accountName H)|].
  split; [exact (apigateway_getRestApiStages_unknown w st accountName H)|].
  split; [exact (apigateway_getRestApiDeployments_unknown w st accountName H)|].
  split; [exact (apigateway_getRestApiResources_unknown w st accountName H)|].
  split; [exact (apigateway_listHttpApis_unknown w st accountName H)|].
  split; [exact (apigateway_getHttpApi_unknown w st accountName H)|].
  split; [exact (apigateway_getHttpApiStages_unknown w st accountName H)|].
  exact (apigateway_getHttpApiRoutes_unknown w st accountName H).
Qed.

Lemma unknown_account_rejected_everywhere_witness :
  let w := Fixture.world (Fixture.stsOnly (Fixture.stsAnswer None)) in
  accounts w !! "staging" = None /\
  AwsCredentialsProvider.getCredentials "staging" w initial
  = (Throw (UnknownAccount "staging"), initial) /\
  DynamoDbProvider.listTables 10 "staging" w initial
  = (Throw (UnknownAccount "staging"), initial) /\
  ApiGatewayProvider.getHttpApiRoutes 10 "staging" "api" w initial
  = (Throw (UnknownAccount "staging"), initial).
Proof.
  intros w.
  assert (H : accounts w !! "staging" = None) by (vm_compute; reflexivity).
  pose proof (unknown_account_rejected_everywhere w initial "staging" H) as T.
  cbv zeta in T.
  split; [exact H|]. split; [apply T|]. split; [apply T|].
  repeat (destruct T as [_ T]). apply T.
Defined.

(** ** The credentials broker *)




(** ** Clients *)

(** C7, as stated, fails on the code: the supplier a client is given
    does not go through [getCredentials].  With a valid lease for
    ["prod"] in the cache, the broker's resolve answers from the cache
    and sends nothing, whereas the supplier of the client that
    [getClient] builds, the provider object of the SDK as
    [invokeTemporaryCredentials] describes it, performs a role
    assumption of its own. *)
Lemma client_supplier_bypasses_broker :
  let w := Fixture.world (Fixture.stsOnly (Fixture.stsAnswer (Some 4600000))) in
  let cached := snd (AwsCredentialsProvider.getCredentials "prod" w initial) in
  exists client st setting,
    LambdaProvider.getClient "prod" w cached = (Ok client, st) /\
    client_credentials client = Some setting /\
    (exists entry, leaseValid st "prod" (clock w (ticks st)) entry) /\
    requests (snd (brokerSupplier "prod" w st)) = requests st /\
    requests (snd (supply setting w st))
      = requests st ++ [exchange Fixture.prod (clock w (ticks cached))] /\
    supply setting w st <> brokerSupplier "prod" w st.
Proof.
  intros w cached.
  exists (clientFor LambdaService Fixture.prod (clock w (ticks cached))), (tick 1 cached).
  eexists.
  split; [apply lambda_getClient_known; vm_compute; reflexivity|].
  split; [reflexivity|].
  split.
  { exists {| credentials := 0%nat; expiresAt := 4600000 |}.
    split; vm_compute; reflexivity. }
  split; [vm_compute; reflexivity|].
  split; [vm_compute; reflexivity|].
  intros H. apply (f_equal (fun p => length (requests (snd p)))) in H.
  vm_compute in H. discriminate H.
Qed.

(** C7, amended.  For a registered account, the client constructor of
    every provider (twelve in all; the API Gateway provider has two)
    returns a client of its service, bound to the account's region and
    to the credentials provider that [getCredentialsProvider] makes
    with the SDK's [fromTemporaryCredentials] from the account's role,
    its external id when it has one, a session name taken from the
    clock and a duration of one hour.  Building the client reads the
    clock once, sends nothing and captures no credentials; it neither
    reads nor writes the cache of [getCredentials] or the credential
    objects, whatever they hold.  Where the credentials then come from
    is up to the provider object of the SDK. *)
Theorem getClient_binds_region_and_sdk_provider w st accountName account :
  accounts w !! accountName = Some account ->
  let options :=
    {| params :=
         {| Sts.RoleArn := roleArn account;
            Sts.RoleSessionName := "backstage-aws-plugin-" +:+ pretty (clock w (ticks st));
            Sts.DurationSeconds := 3600;
            Sts.ExternalId := if truthy (externalId account) then externalId account else None |};
       clientConfig_region := region account |} in
  let builds service (getClient : string -> M Client) :=
    getClient accountName w st
    = (Ok {| client_service := service;
             client_region := region account;
             client_credentials := Some (TemporaryCredentialsProvider options) |},
       tick 1 st) /\
    cacheBlind (getClient accountName) in
  builds DynamoDBService DynamoDbProvider.getClient /\
  builds S3Service S3Provider.getClient /\
  builds LambdaService LambdaProvider.getClient /\
  builds ECR EcrProvider.getClient /\
  builds SSM SsmProvider.getClient /\
  builds SecretsManagerService SecretsManagerProvider.getClient /\
  builds EFS EfsProvider.getClient /\
  builds ECS EcsProvider.getClient /\
  builds DocDB DocumentDbProvider.getClient /\
  builds RDS RdsProvider.getClient /\
  builds APIGateway ApiGatewayProvider.getV1Client /\
  builds APIGatewayV2 ApiGatewayProvider.getV2Client.
Proof.
  intros Ha options builds. subst builds. cbv beta.
  split; [split; [apply dynamodb_getClient_known, Ha|apply blind_dynamodb_getClient]|].
  split; [split; [apply s3_getClient_known, Ha|apply blind_s3_getClient]|].
  split; [split; [apply lambda_getClient_known, Ha|apply blind_lambda_getClient]|].
  split; [split; [apply ecr_getClient_known, Ha|apply blind_ecr_getClient]|].
  split; [split; [apply ssm_getClient_known, Ha|apply blind_ssm_getClient]|].
  split; [split; [apply secrets_getClient_known, Ha|apply blind_secrets_getClient]|].
  split; [split; [apply efs_getClient_known, Ha|apply blind_efs_getClient]|].
  split; [split; [apply ecs_getClient_known, Ha|apply blind_ecs_getClient]|].
  split; [split; [apply docdb_getClient_known, Ha|apply blind_docdb_getClient]|].
  split; [split; [apply rds_getClient_known, Ha|apply blind_rds_getClient]|].
  split; [split; [apply apigateway_getV1Client_known, Ha|apply blind_apigateway_getV1Client]|].
  split; [apply apigateway_getV2Client_known, Ha|apply blind_apigateway_getV2Client].
Qed.

Lemma getClient_binds_region_and_sdk_provider_witness :
  let w := Fixture.world (Fixture.stsOnly (Fixture.stsAnswer (Some 4600000))) in
  accounts w !! "prod" = Some Fixture.prod /\
  exists client,
    S3Provider.getClient "prod" w initial = (Ok client, tick 1 initial) /\
    client_region client = "eu-west-1" /\
    exists options,
      client_credentials client = Some (TemporaryCredentialsProvider options) /\
      Sts.RoleArn (params options) = "arn:aws:iam::111122223333:role/backstage" /\
      Sts.RoleSessionName (params options) = "backstage-aws-plugin-1000000" /\
      Sts.ExternalId (params options) = Some "backstage".
Proof.
  intros w.
  assert (Ha : accounts w !! "prod" = Some Fixture.prod) by (vm_compute; reflexivity).
  split; [exact Ha|].
  destruct (getClient_binds_region_and_sdk_provider w initial "prod" Fixture.prod Ha)
    as (_ & [T _] & _).
  eexists. split; [exact T|].
  split; [reflexivity|].
  eexists. split; [reflexivity|].
  repeat split; vm_compute; reflexivity.
Defined.

(** ** Paginated listings *)

(** C2, as stated, fails on the code: [listImages] is a paginated
    listing that neither reads every page nor returns the items of the
    pages concatenated.  The vendor serves three pages of 10, 10 and 4
    images, the last one without cursor.  Given a ceiling of 15,
    [listImages] sends two requests and returns 15 images; given none,
    it sends three requests and returns the 24 images, but not in the
    order in which the vendor returned them. *)
Lemma listImages_reads_and_keeps_less :
  let w := Fixture.world (Fixture.aws (Fixture.plan "hunter2")) in
  let client := clientFor ECR Fixture.prod (clock w (ticks initial)) in
  let pages :=
    [ {| Ecr.imageDetails := Some (Fixture.images 0 10); Ecr.r_nextToken := Some "p2" |};
      {| Ecr.imageDetails := Some (Fixture.images 10 10); Ecr.r_nextToken := Some "p3" |};
      {| Ecr.imageDetails := Some (Fixture.images 20 4); Ecr.r_nextToken := None |} ] in
  let capped := EcrProvider.listImages 3 "prod" "app" (Some (Num 15)) w initial in
  let plain := EcrProvider.listImages 3 "prod" "app" None w initial in
  accounts w !! "prod" = Some Fixture.prod /\
  serves w client (fun cursor => EcrProvider.describeImages "app" cursor (Some (Num 15)))
         Ecr.r_nextToken None pages /\
  serves w client (fun cursor => EcrProvider.describeImages "app" cursor None)
         Ecr.r_nextToken None pages /\
  length (imagesOf "app" pages) = 24%nat /\
  length (requests (snd capped)) = 2%nat /\
  (exists images, fst capped = Ok images /\ length images = 15%nat) /\
  length (requests (snd plain)) = 3%nat /\
  fst plain <> Ok (imagesOf "app" pages).
Proof.
  intros w client pages capped plain.
  split; [vm_compute; reflexivity|].
  split; [serve|]. split; [serve|].
  split; [vm_compute; reflexivity|].
  split; [vm_compute; reflexivity|].
  split.
  { exists (rev (take 15 (drop 5 (map (EcrProvider.mapImage "app") (Fixture.images 0 24))))).
    split; vm_compute; reflexivity. }
  split; [vm_compute; reflexivity|].
  vm_compute. intros H. discriminate H.
Qed.

(** C2, amended.  Every paginated listing but [listImages] reads all
    pages the vendor serves up to a page without cursor: it sends
    exactly one page request per page, the first without cursor and
    each further one with the cursor of the page before, and returns
    the items of all pages, mapped one by one, concatenated in the
    vendor's order ([collects]).  Two of them do more per item:
    [listRepositories] follows each page request by one tags request
    for each repository of the page, and [listFileSystems] reads the
    clock for a file system without creation time.  [listImages] reads
    the pages in the same way but stops after the first page with
    which it has enough for its ceiling, or after the last page, and
    returns what it read sorted by push date, newest first, cut to the
    ceiling. *)
Theorem listings_read_every_page_once :
  collects DynamoDBService ListTablesCommand
    (fun page => (DynamoDB.TableNames page ?? []))
    DynamoDB.LastEvaluatedTableName DynamoDbProvider.listTables /\
  collects LambdaService ListFunctionsCommand
    (fun page => map LambdaProvider.mapFunction (Lambda.Functions page ?? []))
    Lambda.NextMarker LambdaProvider.listFunctions /\
  (forall functionName,
      collects LambdaService (ListVersionsByFunctionCommand functionName)
        (fun page => map (fun v => {| LambdaProvider.v_version := Lambda.Version v ?? "$LATEST"; LambdaProvider.v_description := Lambda.Description v; LambdaProvider.v_lastModified := Lambda.LastModified v |}) (Lambda.Versions page ?? []))
        Lambda.v_NextMarker
        (fun fuel accountName => LambdaProvider.listVersions fuel accountName functionName)) /\
  (forall path recursive withDecryption,
      collects SSM (fun cursor => GetParametersByPathCommand {| Ssm.Path := path; Ssm.Recursive := recursive; Ssm.p_WithDecryption := withDecryption; Ssm.NextToken := cursor |})
        (fun page => map (fun param => SsmProvider.mapParameter param withDecryption) (Ssm.Parameters_ page ?? []))
        Ssm.r_NextToken
        (fun fuel accountName => SsmProvider.getParametersByPath fuel accountName path recursive withDecryption)) /\
  collects SecretsManagerService ListSecretsCommand
    (fun page => map SecretsManagerProvider.mapSecret (SecretsManager.SecretList page ?? []))
    SecretsManager.NextToken SecretsManagerProvider.listSecrets /\
  (forall fileSystemId,
      collects EFS (DescribeMountTargetsCommand fileSystemId)
        (fun page => map EfsProvider.mapMountTarget (Efs.MountTargets page ?? []))
        Efs.m_NextMarker
        (fun fuel accountName => EfsProvider.listMountTargets fuel accountName fileSystemId)) /\
  (forall fileSystemId,
      collects EFS (DescribeAccessPointsCommand fileSystemId)
        (fun page => map EfsProvider.mapAccessPoint (Efs.AccessPoints page ?? []))
        Efs.NextToken
        (fun fuel accountName => EfsProvider.listAccessPoints fuel accountName fileSystemId)) /\
  collects ECS ListClustersCommand
    (fun page => map (fun arn => {| EcsProvider.clusterArn := arn; EcsProvider.clusterName := lastSegment arn |}) (Ecs.clusterArns page ?? []))
    Ecs.nextToken EcsProvider.listClusters /\
  (forall clusterName,
      collects ECS (ListServicesCommand clusterName)
        (fun page => map lastSegment (Ecs.serviceArns page ?? []))
        Ecs.s_nextToken
        (fun fuel accountName => EcsProvider.listServices fuel accountName clusterName)) /\
  collects DocDB (DocDbDescribeDBClustersCommand None)
    (fun page => map DocumentDbProvider.mapCluster (DocDb.DBClusters page ?? []))
    DocDb.Marker DocumentDbProvider.listClusters /\
  collects DocDB (DocDbDescribeDBInstancesCommand None)
    (fun page => map DocumentDbProvider.mapInstance (DocDb.DBInstances page ?? []))
    DocDb.i_Marker DocumentDbProvider.listInstances /\
  collects DocDB DocDbDescribeDBClusterParameterGroupsCommand
    (fun page => map DocumentDbProvider.mapParameterGroup (DocDb.DBClusterParameterGroups page ?? []))
    DocDb.g_Marker DocumentDbProvider.listParameterGroups /\
  (forall dbClusterIdentifier,
      collects DocDB (DocDbDescribeDBClusterSnapshotsCommand dbClusterIdentifier)
        (fun page => map DocumentDbProvider.mapSnapshot (DocDb.DBClusterSnapshots page ?? []))
        DocDb.s_Marker
        (fun fuel accountName => DocumentDbProvider.listSnapshots fuel accountName dbClusterIdentifier)) /\
  collects RDS (RdsDescribeDBInstancesCommand None)
    (fun page => map RdsProvider.mapInstance (Rds.DBInstances page ?? []))
    Rds.i_Marker RdsProvider.listInstances /\
  collects RDS (RdsDescribeDBClustersCommand None)
    (fun page => map RdsProvider.mapCluster (Rds.DBClusters page ?? []))
    Rds.Marker RdsProvider.listClusters /\
  collects RDS RdsDescribeDBParameterGroupsCommand
    (fun page => map RdsProvider.mapParameterGroup (Rds.DBParameterGroups_ page ?? []))
    Rds.g_Marker RdsProvider.listParameterGroups /\
  collects RDS RdsDescribeDBClusterParameterGroupsCommand
    (fun page => map RdsProvider.mapClusterParameterGroup (Rds.DBClusterParameterGroups page ?? []))
    Rds.c_Marker RdsProvider.listClusterParameterGroups /\
  (forall dbInstanceIdentifier,
      collects RDS (RdsDescribeDBSnapshotsCommand dbInstanceIdentifier)
        (fun page => map RdsProvider.mapSnapshot (Rds.DBSnapshots page ?? []))
        Rds.s_Marker
        (fun fuel accountName => RdsProvider.listSnapshots fuel accountName dbInstanceIdentifier)) /\
  (forall dbClusterIdentifier,
      collects RDS (RdsDescribeDBClusterSnapshotsCommand dbClusterIdentifier)
        (fun page => map RdsProvider.mapClusterSnapshot (Rds.DBClusterSnapshots page ?? []))
        Rds.cs_Marker
        (fun fuel accountName => RdsProvider.listClusterSnapshots fuel accountName dbClusterIdentifier)) /\
  collects APIGateway GetRestApisCommand
    (fun page => map ApiGatewayProvider.mapRestApi (ApiGateway.items page ?? []))
    ApiGateway.position ApiGatewayProvider.listRestApis /\
  (forall restApiId,
      collects APIGateway (GetDeploymentsCommand restApiId)
        (fun page => map ApiGatewayProvider.mapDeployment (ApiGateway.d_items page ?? []))
        ApiGateway.d_position
        (fun fuel accountName => ApiGatewayProvider.getRestApiDeployments fuel accountName restApiId)) /\
  (forall restApiId,
      collects APIGateway (GetResourcesCommand restApiId)
        (fun page => map ApiGatewayProvider.mapResource (ApiGateway.r_items page ?? []))
        ApiGateway.r_position
        (fun fuel accountName => ApiGatewayProvider.getRestApiResources fuel accountName restApiId)) /\
  collects APIGatewayV2 GetApisCommand
    (fun page => map ApiGatewayProvider.mapHttpApi (ApiGatewayV2.Items page ?? []))
    ApiGatewayV2.NextToken ApiGatewayProvider.listHttpApis /\
  (forall apiId,
      collects APIGatewayV2 (GetStagesV2Command apiId)
        (fun page => map ApiGatewayProvider.mapHttpStage (ApiGatewayV2.s_Items page ?? []))
        ApiGatewayV2.s_NextToken
        (fun fuel accountName => ApiGatewayProvider.getHttpApiStages fuel accountName apiId)) /\
  (forall apiId,
      collects APIGatewayV2 (GetRoutesCommand apiId)
        (fun page => map ApiGatewayProvider.mapHttpRoute (ApiGatewayV2.r_Items page ?? []))
        ApiGatewayV2.r_NextToken
        (fun fuel accountName => ApiGatewayProvider.getHttpApiRoutes fuel accountName apiId)) /\
  (forall w st accountName account fuel pages,
      accounts w !! accountName = Some account ->
      let client := clientFor ECR account (clock w (ticks st)) in
      serves w client (DescribeRepositoriesCommand None) Ecr.d_nextToken None pages ->
      (length pages <= fuel)%nat ->
      EcrProvider.listRepositories fuel accountName w st
      = (Ok (allItems (fun page => map (repositoryWithTags w client)
                                       (Ecr.repositories page ?? [])) pages),
         add_requests (repositoryFetches client None pages) (tick 1 st))) /\
  (forall w st accountName account fuel pages,
      accounts w !! accountName = Some account ->
      let client := clientFor EFS account (clock w (ticks st)) in
      serves w client EfsFileSystems.describeFileSystems Efs.NextMarker None pages ->
      (length pages <= fuel)%nat ->
      exists fileSystems st',
        EfsFileSystems.listFileSystems fuel accountName w st = (Ok fileSystems, st') /\
        requests st'
        = requests st ++ fetches client EfsFileSystems.describeFileSystems Efs.NextMarker
                                 None pages /\
        Forall2 (fun fs entity => exists s, fst (EfsProvider.mapFileSystem fs w s) = Ok entity)
                (allItems (fun page => Efs.FileSystems page ?? []) pages) fileSystems) /\
  (forall w st accountName account fuel repositoryName maxResults pages,
      accounts w !! accountName = Some account ->
      let client := clientFor ECR account (clock w (ticks st)) in
      let command cursor := EcrProvider.describeImages repositoryName cursor maxResults in
      serves w client command Ecr.r_nextToken None pages ->
      (length pages <= fuel)%nat ->
      exists k,
        (1 <= k <= length pages)%nat /\
        let read := imagesOf repositoryName (take k pages) in
        EcrProvider.listImages fuel accountName repositoryName maxResults w st
        = (Ok (let images := sort EcrProvider.newestFirst read in
               if truthy_num maxResults then slice_to (maxResults ?? NaN) images else images),
           add_requests (fetches client command Ecr.r_nextToken None (take k pages))
                        (tick 1 st)) /\
        (k = length pages \/ enough maxResults read = true) /\
        (forall j, (1 <= j < k)%nat ->
                   enough maxResults (imagesOf repositoryName (take j pages)) = false)).
Proof.
  split; [collect dynamodb_getClient_known|].
  split; [collect lambda_getClient_known|].
  split; [intros; collect lambda_getClient_known|].
  split; [intros; collect ssm_getClient_known|].
  split; [collect secrets_getClient_known|].
  split; [intros; collect efs_getClient_known|].
  split; [intros; collect efs_getClient_known|].
  split; [collect ecs_getClient_known|].
  split; [intros; collect ecs_getClient_known|].
  split; [collect docdb_getClient_known|].
  split; [collect docdb_getClient_known|].
  split; [collect docdb_getClient_known|].
  split; [intros; collect docdb_getClient_known|].
  split; [collect rds_getClient_known|].
  split; [collect rds_getClient_known|].
  split; [collect rds_getClient_known|].
  split; [collect rds_getClient_known|].
  split; [intros; collect rds_getClient_known|].
  split; [intros; collect rds_getClient_known|].
  split; [collect apigateway_getV1Client_known|].
  split; [intros; collect apigateway_getV1Client_known|].
  split; [intros; collect apigateway_getV1Client_known|].
  split; [collect apigateway_getV2Client_known|].
  split; [intros; collect apigateway_getV2Client_known|].
  split; [intros; collect apigateway_getV2Client_known|].
  split; [exact listRepositories_pages|].
  split.
  { intros w st accountName account fuel pages Ha client Hserves Hfuel.
    unfold EfsFileSystems.listFileSystems.
    rewrite (bind_Ok _ _ _ _ _ _ (efs_getClient_known _ _ _ _ Ha)). fold client.
    rewrite bind_run.
    destruct (listFileSystems_loop w client None pages Hserves fuel [] (tick 1 st) Hfuel)
      as (out & final & st' & Hrun & Hrequests & Hall & _).
    rewrite Hrun. cbn [app fst mret M_ret].
    exists out, st'. split; [reflexivity|]. split; assumption. }
  exact listImages_run.
Qed.

Lemma listings_read_every_page_once_witness :
  let w := Fixture.world (Fixture.aws (Fixture.plan "hunter2")) in
  accounts w !! "prod" = Some Fixture.prod /\
  exists tableNames st',
    DynamoDbProvider.listTables 3 "prod" w initial = (Ok tableNames, st') /\
    tableNames = Fixture.names "table-" 0 24 /\
    length tableNames = 24%nat /\
    length (requests st') = 3%nat /\
    map (fun call => existT (call_output call) (call_command call)) (requests st')
    = [ existT _ (ListTablesCommand None);
        existT _ (ListTablesCommand (Some "p2"));
        existT _ (ListTablesCommand (Some "p3")) ].
Proof.
  intros w.
  assert (Ha : accounts w !! "prod" = Some Fixture.prod) by (vm_compute; reflexivity).
  split; [exact Ha|].
  destruct listings_read_every_page_once as [T _].
  pose (pages :=
          [ {| DynamoDB.TableNames := Some (Fixture.names "table-" 0 10);
               DynamoDB.LastEvaluatedTableName := Some "p2" |};
            {| DynamoDB.TableNames := Some (Fixture.names "table-" 10 10);
               DynamoDB.LastEvaluatedTableName := Some "p3" |};
            {| DynamoDB.TableNames := Some (Fixture.names "table-" 20 4);
               DynamoDB.LastEvaluatedTableName := None |} ]).
  specialize (T w initial "prod" Fixture.prod 3%nat pages Ha).
  cbv zeta in T.
  assert (Hrun : DynamoDbProvider.listTables 3 "prod" w initial
                 = (Ok (allItems (fun page => DynamoDB.TableNames page ?? []) pages),
                    add_requests
                      (fetches (clientFor DynamoDBService Fixture.prod (clock w (ticks initial)))
                               ListTablesCommand DynamoDB.LastEvaluatedTableName None pages)
                      (tick 1 initial))).
  { apply T; [subst pages; serve|subst pages; simpl; lia]. }
  eexists _, _. split; [exact Hrun|].
  split; [vm_compute; reflexivity|].
  split; [vm_compute; reflexivity|].
  split; vm_compute; reflexivity.
Defined.

(** C5, as stated, fails on the code: [listImages] sorts what it has
    accumulated by push date, newest first.  On three pages holding the
    images 0 .. 23, each pushed later than the one before, it returns
    them in the reverse of the vendor's order. *)
Lemma listImages_sorts_by_push_date :
  let w := Fixture.world (Fixture.aws (Fixture.plan "hunter2")) in
  let vendorOrder := map (EcrProvider.mapImage "app") (Fixture.images 0 24) in
  accounts w !! "prod" = Some Fixture.prod /\
  fst (EcrProvider.listImages 3 "prod" "app" None w initial) = Ok (rev vendorOrder) /\
  rev vendorOrder <> vendorOrder.
Proof.
  intros w vendorOrder.
  split; [vm_compute; reflexivity|].
  split; [vm_compute; reflexivity|].
  vm_compute. intros H. discriminate H.
Qed.

(** C5, amended.  The listings that only accumulate keep the vendor's
    order across pages: [getParametersByPath] returns the parameters of
    all pages, mapped one by one, in the order the vendor returned them
    (as [listTables] and [listFunctions] do).  [listImages] without a
    ceiling instead returns the images of all pages sorted by push date,
    newest first (an image without push date counts as pushed at 0): a
    rearrangement of the vendor's order in which no image comes before a
    newer one. *)
Theorem listings_keep_vendor_order_except_images w st accountName account fuel :
  accounts w !! accountName = Some account ->
  (forall path recursive withDecryption pages,
      let client := clientFor SSM account (clock w (ticks st)) in
      let command cursor :=
        GetParametersByPathCommand
          {| Ssm.Path := path; Ssm.Recursive := recursive;
             Ssm.p_WithDecryption := withDecryption; Ssm.NextToken := cursor |} in
      serves w client command Ssm.r_NextToken None pages ->
      (length pages <= fuel)%nat ->
      fst (SsmProvider.getParametersByPath fuel accountName path recursive withDecryption w st)
      = Ok (concat (map (fun page => map (fun param => SsmProvider.mapParameter param withDecryption)
                                         (Ssm.Parameters_ page ?? [])) pages))) /\
  (forall repositoryName maxResults pages,
      truthy_num maxResults = false ->
      let client := clientFor ECR account (clock w (ticks st)) in
      let command cursor := EcrProvider.describeImages repositoryName cursor maxResults in
      serves w client command Ecr.r_nextToken None pages ->
      (length pages <= fuel)%nat ->
      exists images,
        fst (EcrProvider.listImages fuel accountName repositoryName maxResults w st) = Ok images /\
        images = sort EcrProvider.newestFirst (imagesOf repositoryName pages) /\
        Permutation (imagesOf repositoryName pages) images /\
        StronglySorted notOlder images).
Proof.
  intros Ha. split.
  - intros path recursive withDecryption pages client command Hserves Hfuel.
    rewrite (getParametersByPath_pages _ _ _ _ _ _ _ _ _ Ha Hserves Hfuel). reflexivity.
  - intros repositoryName maxResults pages Hnone client command Hserves Hfuel.
    destruct (listImages_run _ _ _ _ _ _ _ _ Ha Hserves Hfuel)
      as (k & Hk & Hrun & Hstop & _).
    assert (k = length pages) as ->.
    { destruct Hstop as [?|Hstop]; [assumption|].
      unfold enough in Hstop. rewrite Hnone in Hstop. discriminate Hstop. }
    rewrite firstn_all in Hrun. cbv zeta in Hrun. rewrite Hnone in Hrun.
    eexists. rewrite Hrun. split; [reflexivity|]. split; [reflexivity|].
    split; [apply sort_perm|apply sort_newestFirst_sorted].
Qed.

Lemma listings_keep_vendor_order_except_images_witness :
  let w := Fixture.world (Fixture.aws (Fixture.plan "hunter2")) in
  accounts w !! "prod" = Some Fixture.prod /\
  fst (SsmProvider.getParametersByPath 2 "prod" "/app" true true w initial)
  = Ok (map (fun param => SsmProvider.mapParameter param true)
            [ Fixture.parameter "/app/url" "String" "https://example.org";
              Fixture.parameter "/app/db-password" "SecureString" "hunter2";
              Fixture.parameter "/app/hosts" "StringList" "a,b" ]).
Proof.
  intros w.
  assert (Ha : accounts w !! "prod" = Some Fixture.prod) by (vm_compute; reflexivity).
  split; [exact Ha|].
  destruct (listings_keep_vendor_order_except_images w initial "prod" Fixture.prod 2 Ha)
    as [T _].
  pose (pages :=
          [ {| Ssm.Parameters_ :=
                 Some [ Fixture.parameter "/app/url" "String" "https://example.org";
                        Fixture.parameter "/app/db-password" "SecureString" "hunter2" ];
               Ssm.r_NextToken := Some "p2" |};
            {| Ssm.Parameters_ := Some [ Fixture.parameter "/app/hosts" "StringList" "a,b" ];
               Ssm.r_NextToken := None |} ]).
  rewrite (T "/app" true true pages).
  - reflexivity.
  - subst pages. serve.
  - subst pages. simpl. lia.
Defined.

(** C6, as stated, fails on the code: the ceiling is applied after the
    sort.  On the three pages of 10, 10 and 4 images with a ceiling of
    15, the loop does stop after two requests and 15 images come back,
    but they are the 15 newest of the 20 images read (images 19 down to
    5), not the first 15 the vendor returned (images 0 to 14). *)
Lemma listImages_ceiling_keeps_newest :
  let w := Fixture.world (Fixture.aws (Fixture.plan "hunter2")) in
  let vendorOrder := map (EcrProvider.mapImage "app") (Fixture.images 0 24) in
  let run := EcrProvider.listImages 3 "prod" "app" (Some (Num 15)) w initial in
  accounts w !! "prod" = Some Fixture.prod /\
  length (requests (snd run)) = 2%nat /\
  fst run = Ok (rev (take 15 (drop 5 vendorOrder))) /\
  length (rev (take 15 (drop 5 vendorOrder))) = 15%nat /\
  rev (take 15 (drop 5 vendorOrder)) <> take 15 vendorOrder.
Proof.
  intros w vendorOrder run.
  split; [vm_compute; reflexivity|].
  split; [vm_compute; reflexivity|].
  split; [vm_compute; reflexivity|].
  split; [vm_compute; reflexivity|].
  vm_compute. intros H. discriminate H.
Qed.

(** C6, amended.  With a ceiling [m > 0], [listImages] reads the pages
    in order and stops after the first page with which at least [m]
    images are accumulated, or after the last page: it sends one request
    per page read and none for the pages behind.  It returns the first
    [m] of the images read once they are sorted by push date, newest
    first: exactly [m] images when that many were read, all of them
    otherwise.  The images of unread pages are never part of it. *)
Theorem listImages_ceiling w st accountName account fuel repositoryName m pages :
  accounts w !! accountName = Some account ->
  0 < m ->
  let client := clientFor ECR account (clock w (ticks st)) in
  let command cursor := EcrProvider.describeImages repositoryName cursor (Some (Num m)) in
  serves w client command Ecr.r_nextToken None pages ->
  (length pages <= fuel)%nat ->
  exists k st',
    (1 <= k <= length pages)%nat /\
    let read := imagesOf repositoryName (take k pages) in
    let result := take (Z.to_nat m) (sort EcrProvider.newestFirst read) in
    EcrProvider.listImages fuel accountName repositoryName (Some (Num m)) w st
    = (Ok result, st') /\
    requests st'
    = requests st ++ map (fun cursor => mkCall client (command cursor))
                         (requested Ecr.r_nextToken None (take k pages)) /\
    length (requested Ecr.r_nextToken None (take k pages)) = k /\
    (k = length pages \/ m <= Z.of_nat (length read)) /\
    (forall j, (1 <= j < k)%nat ->
               Z.of_nat (length (imagesOf repositoryName (take j pages))) < m) /\
    length result = Nat.min (Z.to_nat m) (length read).
Proof.
  intros Ha Hm client command Hserves Hfuel.
  destruct (listImages_run _ _ _ _ _ _ _ _ Ha Hserves Hfuel)
    as (k & Hk & Hrun & Hstop & Hbefore).
  assert (Henough : forall l, enough (Some (Num m)) l = (m <=? Z.of_nat (length l))).
  { intros l. unfold enough, truthy_num, length_ge. cbn [nullish].
    destruct (m =? 0) eqn:H0; [apply Z.eqb_eq in H0; lia|reflexivity]. }
  exists k, (add_requests (fetches client command Ecr.r_nextToken None (take k pages))
                          (tick 1 st)).
  split; [exact Hk|]. cbv zeta.
  split; [|split; [reflexivity|split; [|split; [|split]]]].
  - rewrite Hrun. cbv zeta. unfold truthy_num.
    destruct (m =? 0) eqn:H0; [apply Z.eqb_eq in H0; lia|].
    cbn [negb nullish slice_to]. rewrite slice_0_pos by exact Hm. reflexivity.
  - rewrite requested_length. rewrite length_take. lia.
  - destruct Hstop as [?|Hstop]; [left; assumption|right].
    rewrite Henough in Hstop. apply Z.leb_le in Hstop. exact Hstop.
  - intros j Hj. specialize (Hbefore j Hj). rewrite Henough in Hbefore.
    apply Z.leb_gt in Hbefore. exact Hbefore.
  - rewrite length_take, sort_length. reflexivity.
Qed.

Lemma listImages_ceiling_witness :
  let w := Fixture.world (Fixture.aws (Fixture.plan "hunter2")) in
  accounts w !! "prod" = Some Fixture.prod /\
  exists images st',
    EcrProvider.listImages 3 "prod" "app" (Some (Num 15)) w initial = (Ok images, st') /\
    length images = 15%nat /\
    (length (requests st') <= 2)%nat.
Proof.
  intros w.
  assert (Ha : accounts w !! "prod" = Some Fixture.prod) by (vm_compute; reflexivity).
  split; [exact Ha|].
  pose (pages :=
          [ {| Ecr.imageDetails := Some (Fixture.images 0 10); Ecr.r_nextToken := Some "p2" |};
            {| Ecr.imageDetails := Some (Fixture.images 10 10); Ecr.r_nextToken := Some "p3" |};
            {| Ecr.imageDetails := Some (Fixture.images 20 4); Ecr.r_nextToken := None |} ]).
  destruct (listImages_ceiling w initial "prod" Fixture.prod 3 "app" 15 pages Ha)
    as (k & st' & Hk & Hrun & Hreq & Hlen & Hstop & Hbefore & Hsize).
  - lia.
  - subst pages. serve.
  - subst pages. simpl. lia.
  - cbv zeta in Hrun, Hsize, Hstop.
    assert (k = 2%nat) as ->.
    { destruct k as [|[|[|[|k]]]]; [lia| |reflexivity| |simpl in Hk; lia].
      - destruct Hstop as [Hstop|Hstop]; [discriminate Hstop|].
        vm_compute in Hstop. exfalso. apply Hstop. reflexivity.
      - specialize (Hbefore 2%nat ltac:(lia)). vm_compute in Hbefore. discriminate Hbefore. }
    eexists _, st'. split; [exact Hrun|]. split.
    + rewrite Hsize. vm_compute. reflexivity.
    + rewrite Hreq, length_app, length_map, Hlen. simpl. lia.
Defined.

(** ** Batched detail fetches *)

(** C4, as stated, fails on the code: the tables that were detailed
    successfully are not returned when another detail fetch fails.  Two
    tables are listed; [getTable] succeeds for the first, while
    DescribeTable is throttled for the second.  [listTablesWithDetails]
    then returns no table at all: it fails with the throttling error. *)
Lemma one_failed_detail_discards_the_rest :
  let w := Fixture.world Scenario.flaky in
  accounts w !! "prod" = Some Fixture.prod /\
  fst (DynamoDbProvider.listTables 1 "prod" w initial) = Ok ["a"; "b"] /\
  (exists table, fst (DynamoDbProvider.getTable "prod" "a" w initial) = Ok (Some table)) /\
  fst (DynamoDbProvider.listTablesWithDetails 1 "prod" w initial)
  = Throw {| err_name := "ThrottlingException"; err_message := "Rate exceeded" |}.
Proof.
  intros w.
  split; [vm_compute; reflexivity|].
  split; [vm_compute; reflexivity|].
  split; [|vm_compute; reflexivity].
  destruct (fst (DynamoDbProvider.getTable "prod" "a" w initial)) as [[table|]| |] eqn:Hrun;
    [exists table; reflexivity| | |]; vm_compute in Hrun; discriminate Hrun.
Qed.

(** C4, amended.  [listTablesWithDetails] and [listBucketsWithDetails]
    cut the listed names into ceil(n/5) consecutive groups of at most
    five, in the original order (group [i] holds the names from index
    [5 i] on), and process the groups one after the other.  The detail
    fetches of a group are started together and their requests are
    answered in any order; from the start of a group until its last
    answer is in, at most five requests are in flight, and none is left
    when the next group starts.  When every detail fetch succeeds, the
    listing succeeds and returns the details found, in the order of the
    names, the undefined ones dropped.  When a detail fetch fails, the
    listing fails as a whole, with the error of one of the detail
    fetches of its names, and returns nothing.  For buckets of a
    registered account no detail fetch fails: the listing returns one
    bucket per listed name, in the listed order. *)
Theorem details_fetched_in_batches_of_five :
  (forall names : list string,
      let groups := chunks batchSize names in
      concat groups = names /\
      length groups = ((length names + 4) / 5)%nat /\
      Forall (fun group => (1 <= length group <= 5)%nat) groups /\
      forall i, (i * 5 < length names)%nat ->
                groups !! i = Some (take 5 (drop (i * 5) names))) /\
  (forall fuel accountName w st,
      DynamoDbProvider.listTablesWithDetails fuel accountName w st
      = (tableNames ← DynamoDbProvider.listTables fuel accountName;
         processBatches (DynamoDbProvider.getTable_call accountName)
                        (chunks batchSize tableNames) []) w st) /\
  (forall accountName w st,
      S3Provider.listBucketsWithDetails accountName w st
      = (client ← S3Provider.getClient accountName;
         response ← send client ListBucketsCommand;
         processBatches (S3Provider.getBucket_call accountName)
                        (chunks batchSize (S3Provider.bucketNames response)) []) w st) /\
  (let underWay {A} (detail : string -> M (Task (option A))) :=
     forall names group w st,
       group ∈ chunks batchSize names ->
       (forall pool, pool ∈ poolsOf (map detail group) w st ->
                     (length (outstanding pool) <= 5)%nat) /\
       (forall r st',
           promiseAll (map detail group) w st = (r, st') ->
           r <> OutOfFuel ->
           exists pool,
             last (poolsOf (map detail group) w st) = Some pool /\
             outstanding pool = [] /\
             forall results, r = Ok results -> values pool = Some results) in
   (forall accountName, underWay (DynamoDbProvider.getTable_call accountName)) /\
   (forall accountName, underWay (S3Provider.getBucket_call accountName))) /\
  (forall accountName names w st,
      (forall name, name ∈ names ->
                    forall s, exists result s',
                        DynamoDbProvider.getTable accountName name w s = (Ok result, s')) ->
      exists tables st',
        processBatches (DynamoDbProvider.getTable_call accountName) (chunks batchSize names) []
                       w st
        = (Ok tables, st')) /\
  (forall accountName names w st tables st',
      processBatches (DynamoDbProvider.getTable_call accountName) (chunks batchSize names) []
                     w st
      = (Ok tables, st') ->
      exists results,
        Forall2 (fun name result =>
                   exists s s', DynamoDbProvider.getTable accountName name w s = (Ok result, s'))
                names results /\
        tables = defined results) /\
  (forall accountName names w st r st',
      processBatches (DynamoDbProvider.getTable_call accountName) (chunks batchSize names) []
                     w st
      = (r, st') ->
      (exists tables, r = Ok tables) \/
      (exists e name s,
          r = Throw e /\ name ∈ names /\
          fst (DynamoDbProvider.getTable accountName name w s) = Throw e)) /\
  (forall accountName account w st response,
      accounts w !! accountName = Some account ->
      vendor w (clientFor S3Service account (clock w (ticks st))) _ ListBucketsCommand
        = inr response ->
      exists buckets st',
        S3Provider.listBucketsWithDetails accountName w st = (Ok buckets, st') /\
        map S3Provider.name buckets = S3Provider.bucketNames response).
Proof.
  assert (Hpos : (0 < batchSize)%nat) by (unfold batchSize; lia).
  assert (Hs3 : forall accountName w st,
             S3Provider.listBucketsWithDetails accountName w st
             = (client ← S3Provider.getClient accountName;
                response ← send client ListBucketsCommand;
                processBatches (S3Provider.getBucket_call accountName)
                               (chunks batchSize (S3Provider.bucketNames response)) []) w st).
  { intros accountName w st. unfold S3Provider.listBucketsWithDetails.
    rewrite !bind_run.
    destruct (S3Provider.getClient accountName w st) as [[client| |] st1]; try reflexivity.
    rewrite !bind_run.
    destruct (send client ListBucketsCommand w st1) as [[response| |] st2]; try reflexivity.
    rewrite (loop_batches _ _ (s3_detailsLoop_unfold accountName)
                          _ w (length (S3Provider.bucketNames response)) 0 [] st2) by lia.
    rewrite drop_0. reflexivity. }
  assert (Hunder : forall A (detail : string -> M (Task (option A))) names group w st,
             group ∈ chunks batchSize names ->
             (forall pool, pool ∈ poolsOf (map detail group) w st ->
                           (length (outstanding pool) <= 5)%nat) /\
             (forall r st',
                 promiseAll (map detail group) w st = (r, st') ->
                 r <> OutOfFuel ->
                 exists pool,
                   last (poolsOf (map detail group) w st) = Some pool /\
                   outstanding pool = [] /\
                   forall results, r = Ok results -> values pool = Some results)).
  { intros A detail names group w st Hgroup. split.
    - intros pool Hpool. apply poolsOf_in_flight in Hpool.
      rewrite length_map in Hpool.
      pose proof (chunks_sizes batchSize Hpos names) as Hsizes.
      rewrite Forall_forall in Hsizes. specialize (Hsizes group Hgroup).
      unfold batchSize in Hsizes. lia.
    - intros r st' Hrun Hr. eapply poolsOf_last; eassumption. }
  split; [|split; [|split; [exact Hs3|split; [|split; [|split; [|split]]]]]].
  - intros names groups. subst groups.
    split; [apply chunks_concat, Hpos|].
    split; [rewrite chunks_length by exact Hpos; unfold batchSize; f_equal; lia|].
    split; [apply (chunks_sizes batchSize Hpos)|].
    intros i Hi. apply (chunks_lookup batchSize Hpos). exact Hi.
  - intros fuel accountName w st. unfold DynamoDbProvider.listTablesWithDetails.
    rewrite !bind_run.
    destruct (DynamoDbProvider.listTables fuel accountName w st) as [[names| |] st1];
      try reflexivity.
    rewrite (loop_batches _ _ (dynamodb_detailsLoop_unfold accountName)
                          names w (length names) 0 [] st1) by lia.
    rewrite drop_0. reflexivity.
  - cbv zeta. split; intros accountName names group w st Hgroup; eapply Hunder, Hgroup.
  - intros accountName names w st Hall.
    apply processBatches_total. rewrite chunks_concat by exact Hpos.
    apply Forall_forall. exact Hall.
  - intros accountName names w st tables st' Hrun.
    destruct (processBatches_Ok_inv _ _ _ _ _ _ _ Hrun) as (results & Hall & ->).
    rewrite chunks_concat in Hall by exact Hpos.
    exists results. split; [exact Hall|reflexivity].
  - intros accountName names w st r st' Hrun.
    destruct (processBatches_outcome (DynamoDbProvider.getTable_call accountName) w
                (getTable_settles w accountName) (chunks batchSize names) [] st)
      as [[out Hok]|(e & name & s & Hthrow & Hin & Hfail)];
      rewrite Hrun in *; cbn [fst] in *.
    + left. exists out. exact Hok.
    + right. exists e, name, s. rewrite chunks_concat in Hin by exact Hpos.
      split; [exact Hthrow|]. split; [exact Hin|exact Hfail].
  - intros accountName account w st response Ha Hv.
    rewrite Hs3, bind_run, (s3_getClient_known _ _ _ _ Ha), bind_run, send_run, Hv.
    assert (Hall : Forall (fun name => forall s, exists r s',
                               S3Provider.getBucket accountName name w s = (Ok r, s'))
                          (concat (chunks batchSize (S3Provider.bucketNames response)))).
    { apply Forall_forall. intros name _ s.
      destruct (getBucket_named w s accountName account name Ha) as (b & s' & Hb & _).
      eauto. }
    match goal with
    | |- context [processBatches ?d ?b ?start ?w' ?s] =>
        destruct (processBatches_total d w' b Hall start s) as (buckets & st' & Hrun)
    end.
    clear Hall. exists buckets, st'. split; [exact Hrun|].
    destruct (processBatches_Ok_inv _ _ _ _ _ _ _ Hrun) as (results & Hall & ->).
    rewrite chunks_concat in Hall by exact Hpos.
    apply defined_names.
    eapply Forall2_impl; [exact Hall|].
    intros name result (s & s' & Hresult). cbv beta.
    destruct (getBucket_named w s accountName account name Ha) as (b & s'' & Hb & Hname).
    change (awaited (S3Provider.getBucket_call accountName name))
      with (S3Provider.getBucket accountName name) in Hresult.
    rewrite Hb in Hresult. injection Hresult as <- _. eauto.
Qed.

Lemma details_fetched_in_batches_of_five_witness :
  let w := Fixture.world (Fixture.aws Fixture.twelveTables) in
  let names := Fixture.names "table-" 0 12 in
  map length (chunks batchSize names) = [5; 5; 2]%nat /\
  (exists tables st',
      DynamoDbProvider.listTablesWithDetails 2 "prod" w initial = (Ok tables, st') /\
      map DynamoDbProvider.tableName tables = names /\
      exists results,
        Forall2 (fun name result =>
                   exists s s', DynamoDbProvider.getTable "prod" name w s = (Ok result, s'))
                names results /\
        tables = defined results) /\
  let pools := poolsOf (map (DynamoDbProvider.getTable_call "prod") (take 5 names)) w initial in
  length pools = 21%nat /\
  Forall (fun pool => (length (outstanding pool) <= 5)%nat) pools /\
  (length <$> (outstanding <$> pools)) !! 0%nat = Some 5%nat /\
  (length <$> (outstanding <$> pools)) !! 20%nat = Some 0%nat.
Proof.
  intros w names.
  destruct details_fetched_in_batches_of_five as (_ & Hdyn & _ & [Hunder _] & _ & Horder & _).
  split; [vm_compute; reflexivity|]. split.
  - pose (st1 := snd (DynamoDbProvider.listTables 2 "prod" w initial)).
    assert (Hlist : DynamoDbProvider.listTables 2 "prod" w initial = (Ok names, st1))
      by (vm_compute; reflexivity).
    pose (run := processBatches (DynamoDbProvider.getTable_call "prod")
                                (chunks batchSize names) [] w st1).
    assert (Hrun : DynamoDbProvider.listTablesWithDetails 2 "prod" w initial
                   = (fst run, snd run)).
    { rewrite Hdyn, bind_run, Hlist. subst run. apply surjective_pairing. }
    assert (Hok : exists tables, fst run = Ok tables /\
                                 map DynamoDbProvider.tableName tables = names).
    { eexists (defined (map (fun n => Some (DynamoDbProvider.mapTable (Fixture.table n)
                                              false None true (Some 990000)
                                              (Some {[ "team" := "platform" ]}))) names)).
      split; vm_compute; reflexivity. }
    destruct Hok as (tables & Hfst & Hnames).
    exists tables, (snd run). rewrite Hrun, Hfst.
    split; [reflexivity|]. split; [exact Hnames|].
    apply (Horder "prod" names w st1 tables (snd run)).
    fold run. rewrite <- Hfst. apply surjective_pairing.
  - intros pools.
    split; [vm_compute; reflexivity|]. split.
    + apply Forall_forall. intros pool Hpool.
      apply (Hunder "prod" names (take 5 names) w initial); [|exact Hpool].
      vm_compute. left.
    + split; vm_compute; reflexivity.
Defined.

(** ** Enrichment errors *)

(** C3, as stated, fails on the code: an error that no predicate
    classifies as "not configured" is swallowed all the same.  The TTL
    sub-fetch of table ["table-0"] and the versioning sub-fetch of bucket
    ["bucket-0"] raise [AccessDeniedException]; [getTable] and
    [getBucket] return the item with the field at its default and raise
    nothing. *)
Lemma detail_fetch_swallows_access_denied :
  let w := Fixture.world (Fixture.aws (Fixture.plan "hunter2")) in
  let dynamodb := clientFor DynamoDBService Fixture.prod 1000000 in
  let s3 := clientFor S3Service Fixture.prod 1000000 in
  let denied := {| err_name := "AccessDeniedException"; err_message := "not authorized" |} in
  accounts w !! "prod" = Some Fixture.prod /\
  vendor w dynamodb _ (DescribeTimeToLiveCommand "table-0") = inl denied /\
  (exists t,
      fst (DynamoDbProvider.getTable "prod" "table-0" w initial) = Ok (Some t) /\
      DynamoDbProvider.ttlEnabled t = false) /\
  vendor w s3 _ (GetBucketVersioningCommand "bucket-0") = inl denied /\
  (exists b,
      fst (S3Provider.getBucket "prod" "bucket-0" w initial) = Ok (Some b) /\
      S3Provider.versioningEnabled b = false).
Proof.
  intros w dynamodb s3 denied.
  split; [vm_compute; reflexivity|].
  split; [reflexivity|].
  split.
  { exists (DynamoDbProvider.mapTable (Fixture.table "table-0") false None true (Some 990000)
                                      (Some {[ "team" := "platform" ]})).
    split; vm_compute; reflexivity. }
  split; [reflexivity|].
  exists {| S3Provider.name := "bucket-0";
            S3Provider.creationDate := None;
            S3Provider.region := Some "us-east-1";
            S3Provider.versioningEnabled := false;
            S3Provider.mfaDeleteEnabled := false;
            S3Provider.encryptionEnabled := false;
            S3Provider.encryptionType := None;
            S3Provider.kmsKeyId := None;
            S3Provider.lifecycleRules := [];
            S3Provider.publicAccessBlocked := true;
            S3Provider.policyIsPublic := false;
            S3Provider.tags := None |}.
  split; vm_compute; reflexivity.
Qed.

(** C3, amended.  For a registered account:
    - [getTable], once the table is described, returns the table
      whatever its TTL, point-in-time-recovery and tags sub-fetches
      raise: any error of theirs is swallowed and the fields keep their
      defaults ([false], undefined);
    - [getBucket] swallows any error of its region and versioning
      sub-fetches in the same way, and swallows the "not configured"
      error of its encryption, lifecycle, public-access-block,
      policy-status and tags sub-fetches, each field keeping its
      default; the bucket is returned.
    No error of an enrichment sub-fetch reaches the caller in these
    cases. *)
Theorem enrichment_errors_swallowed w st accountName account :
  accounts w !! accountName = Some account ->
  (forall tableName table,
      let client := clientFor DynamoDBService account (clock w (ticks st)) in
      vendor w client _ (DescribeTableCommand tableName)
        = inr {| DynamoDB.Table := Some table |} ->
      exists t,
        fst (DynamoDbProvider.getTable accountName tableName w st) = Ok (Some t) /\
        (forall e, vendor w client _ (DescribeTimeToLiveCommand tableName) = inl e ->
                   DynamoDbProvider.ttlEnabled t = false /\
                   DynamoDbProvider.ttlAttributeName t = None) /\
        (forall e, vendor w client _ (DescribeContinuousBackupsCommand tableName) = inl e ->
                   DynamoDbProvider.pitrEnabled t = false /\
                   DynamoDbProvider.latestRestorableDateTime t = None) /\
        (forall e, vendor w client _ (ListTagsOfResourceCommand (DynamoDB.TableArn table)) = inl e ->
                   DynamoDbProvider.tags t = None)) /\
  (forall bucketName,
      let client := clientFor S3Service account (clock w (ticks st)) in
      raisesOnly w client (GetBucketEncryptionCommand bucketName)
                 "ServerSideEncryptionConfigurationNotFoundError" ->
      raisesOnly w client (GetBucketLifecycleConfigurationCommand bucketName)
                 "NoSuchLifecycleConfiguration" ->
      raisesOnly w client (GetPublicAccessBlockCommand bucketName)
                 "NoSuchPublicAccessBlockConfiguration" ->
      raisesOnly w client (GetBucketPolicyStatusCommand bucketName) "NoSuchBucketPolicy" ->
      raisesOnly w client (GetBucketTaggingCommand bucketName) "NoSuchTagSet" ->
      exists b,
        fst (S3Provider.getBucket accountName bucketName w st) = Ok (Some b) /\
        (forall e, vendor w client _ (GetBucketLocationCommand bucketName) = inl e ->
                   S3Provider.region b = None) /\
        (forall e, vendor w client _ (GetBucketVersioningCommand bucketName) = inl e ->
                   S3Provider.versioningEnabled b = false /\
                   S3Provider.mfaDeleteEnabled b = false) /\
        (forall e, vendor w client _ (GetBucketEncryptionCommand bucketName) = inl e ->
                   S3Provider.encryptionEnabled b = false /\
                   S3Provider.encryptionType b = None /\
                   S3Provider.kmsKeyId b = None) /\
        (forall e, vendor w client _ (GetBucketLifecycleConfigurationCommand bucketName) = inl e ->
                   S3Provider.lifecycleRules b = []) /\
        (forall e, vendor w client _ (GetPublicAccessBlockCommand bucketName) = inl e ->
                   S3Provider.publicAccessBlocked b = false) /\
        (forall e, vendor w client _ (GetBucketPolicyStatusCommand bucketName) = inl e ->
                   S3Provider.policyIsPublic b = false) /\
        (forall e, vendor w client _ (GetBucketTaggingCommand bucketName) = inl e ->
                   S3Provider.tags b = None)).
Proof.
  intros Ha. split.
  - intros tableName table client Hv.
    eexists. split; [apply (getTable_found _ _ _ _ _ _ Ha Hv)|].
    fold client. cbn [DynamoDbProvider.ttlEnabled DynamoDbProvider.ttlAttributeName
                        DynamoDbProvider.pitrEnabled DynamoDbProvider.latestRestorableDateTime
                        DynamoDbProvider.tags DynamoDbProvider.mapTable].
    repeat split; intros;
      match goal with He : vendor _ _ _ _ = inl _ |- _ => rewrite He end; reflexivity.
  - intros bucketName client _ _ _ _ _.
    eexists. split; [apply (getBucket_run _ _ _ _ bucketName Ha)|].
    fold client. cbv zeta. cbn [S3Provider.region S3Provider.versioningEnabled
                        S3Provider.mfaDeleteEnabled S3Provider.encryptionEnabled
                        S3Provider.encryptionType S3Provider.kmsKeyId
                        S3Provider.lifecycleRules S3Provider.publicAccessBlocked
                        S3Provider.policyIsPublic S3Provider.tags].
    repeat split; intros;
      match goal with He : vendor _ _ _ _ = inl _ |- _ => rewrite He end; reflexivity.
Qed.

Lemma enrichment_errors_swallowed_witness :
  let w := Fixture.world (Fixture.aws (Fixture.plan "hunter2")) in
  accounts w !! "prod" = Some Fixture.prod /\
  (exists t,
      fst (DynamoDbProvider.getTable "prod" "table-0" w initial) = Ok (Some t) /\
      DynamoDbProvider.ttlEnabled t = false /\
      DynamoDbProvider.ttlAttributeName t = None) /\
  (exists b,
      fst (S3Provider.getBucket "prod" "bucket-0" w initial) = Ok (Some b) /\
      S3Provider.versioningEnabled b = false /\
      S3Provider.encryptionEnabled b = false /\
      S3Provider.tags b = None).
Proof.
  intros w.
  assert (Ha : accounts w !! "prod" = Some Fixture.prod) by (vm_compute; reflexivity).
  split; [exact Ha|].
  destruct (enrichment_errors_swallowed w initial "prod" Fixture.prod Ha) as [Tdyn Ts3].
  split.
  - destruct (Tdyn "table-0" (Fixture.table "table-0")) as (t & Hrun & Httl & _).
    { vm_compute. reflexivity. }
    exists t. split; [exact Hrun|]. eapply Httl. reflexivity.
  - destruct (Ts3 "bucket-0") as (b & Hrun & _ & Hversioning & Hencryption & _ & _ & _ & Htags).
    1-5: intros e He; vm_compute in He; try discriminate He;
         injection He as <-; reflexivity.
    exists b. split; [exact Hrun|].
    split; [eapply Hversioning; reflexivity|].
    split; [eapply Hencryption; reflexivity|].
    eapply Htags; reflexivity.
Defined.

(** ** Tags *)

(** C9, as stated, fails on the code: [getFunction] passes the vendor's
    tag map through as it is.  When the vendor answers with an empty
    map, the entity carries an empty [tags] map, not an absent one. *)
Lemma getFunction_keeps_empty_tag_map :
  let w := Fixture.world (Fixture.aws (Fixture.plan "hunter2")) in
  let client := clientFor LambdaService Fixture.prod 1000000 in
  accounts w !! "prod" = Some Fixture.prod /\
  vendor w client _ (GetFunctionCommand "fn-0")
    = inr {| Lambda.Configuration := Some (Fixture.lambdaFunction "fn-0");
             Lambda.Tags := Some ∅ |} /\
  exists fn,
    fst (LambdaProvider.getFunction "prod" "fn-0" w initial) = Ok (Some fn) /\
    LambdaProvider.tags fn = Some ∅.
Proof.
  intros w client.
  split; [vm_compute; reflexivity|].
  split; [reflexivity|].
  exists (LambdaProvider.with_tags (LambdaProvider.mapFunction (Fixture.lambdaFunction "fn-0"))
                                   (Some ∅)).
  split; [vm_compute; reflexivity|reflexivity].
Qed.

(** C9, amended.  The mappers that build the tag map from the vendor's
    list of tags ([mapSecret], [mapDescribeSecret], [mapFileSystem],
    [mapAccessPoint] and the [mapCluster] and [mapInstance] of the
    DocumentDB and RDS providers) leave [tags] undefined exactly when no
    tag of the list is usable: a tag is usable when its key and its
    value are non-empty and its key is not ["__proto__"], which names no
    property.  When [tags] is present it is the non-empty map of the
    usable tags.  [getFunction] and the API Gateway mappers take [tags]
    from the vendor's answer unchanged: present when the vendor sent a
    map, even an empty one. *)
Theorem tags_of_entities :
  (forall secret,
      normalized (SecretsManager.Tags secret)
                 (SecretsManagerProvider.tags (SecretsManagerProvider.mapSecret secret))) /\
  (forall response,
      normalized (SecretsManager.d_Tags response)
                 (SecretsManagerProvider.tags
                    (SecretsManagerProvider.mapDescribeSecret response))) /\
  (forall fs w st,
      exists entity st',
        EfsProvider.mapFileSystem fs w st = (Ok entity, st') /\
        normalized (Efs.Tags fs) (EfsProvider.tags entity)) /\
  (forall ap,
      normalized (Efs.a_Tags ap) (EfsProvider.a_tags (EfsProvider.mapAccessPoint ap))) /\
  (forall cluster,
      normalized (DocDb.Tags cluster)
                 (DocumentDbProvider.tags (DocumentDbProvider.mapCluster cluster))) /\
  (forall instance,
      normalized (DocDb.i_Tags instance)
                 (DocumentDbProvider.i_tags (DocumentDbProvider.mapInstance instance))) /\
  (forall instance,
      normalized (Rds.i_TagList instance)
                 (RdsProvider.i_tags (RdsProvider.mapInstance instance))) /\
  (forall cluster,
      normalized (Rds.TagList cluster) (RdsProvider.tags (RdsProvider.mapCluster cluster))) /\
  (forall w st accountName account functionName configuration tags,
      accounts w !! accountName = Some account ->
      vendor w (clientFor LambdaService account (clock w (ticks st))) _
             (GetFunctionCommand functionName)
        = inr {| Lambda.Configuration := Some configuration; Lambda.Tags := tags |} ->
      exists fn,
        fst (LambdaProvider.getFunction accountName functionName w st) = Ok (Some fn) /\
        LambdaProvider.tags fn = tags) /\
  (forall api, ApiGatewayProvider.tags (ApiGatewayProvider.mapRestApi api) = ApiGateway.tags api) /\
  (forall stage,
      ApiGatewayProvider.s_tags (ApiGatewayProvider.mapStage stage) = ApiGateway.s_tags stage) /\
  (forall api,
      ApiGatewayProvider.h_tags (ApiGatewayProvider.mapHttpApi api) = ApiGatewayV2.Tags api) /\
  (forall stage,
      ApiGatewayProvider.hs_tags (ApiGatewayProvider.mapHttpStage stage)
      = ApiGatewayV2.s_Tags stage).
Proof.
  split; [intros secret; apply tags_or_undefined_normalized|].
  split; [intros response; apply tags_or_undefined_normalized|].
  split.
  { intros fs w st. unfold EfsProvider.mapFileSystem. rewrite bind_run.
    destruct (Efs.CreationTime fs) as [t|]; cbn [mret M_ret Date_now];
      (eexists _, _; split; [reflexivity|]; cbn [EfsProvider.tags];
       apply tags_or_undefined_normalized). }
  split; [intros ap; apply tags_or_undefined_normalized|].
  split; [intros cluster; apply tags_or_undefined_normalized|].
  split; [intros instance; apply tags_or_undefined_normalized|].
  split; [intros instance; apply tags_or_undefined_normalized|].
  split; [intros cluster; apply tags_or_undefined_normalized|].
  split.
  { intros w st accountName account functionName configuration tags Ha Hv.
    exists (LambdaProvider.with_tags (LambdaProvider.mapFunction configuration) tags).
    split; [|reflexivity].
    unfold LambdaProvider.getFunction.
    rewrite (bind_Ok _ _ _ _ _ _ (lambda_getClient_known _ _ _ _ Ha)).
    unfold tryCatch. rewrite bind_run, send_run, Hv. reflexivity. }
  repeat split.
Qed.

Lemma tags_of_entities_witness :
  let w := Fixture.world (Fixture.aws (Fixture.plan "hunter2")) in
  let listed := Some [ {| Key := Some "__proto__"; Value := Some "x" |};
                       {| Key := Some "team"; Value := Some "" |} ] in
  accounts w !! "prod" = Some Fixture.prod /\
  (exists fn,
      fst (LambdaProvider.getFunction "prod" "fn-0" w initial) = Ok (Some fn) /\
      LambdaProvider.tags fn = Some ∅) /\
  tags_or_undefined listed = None /\
  Forall (fun tag => usable tag = false) (listed ?? []).
Proof.
  intros w listed.
  assert (Ha : accounts w !! "prod" = Some Fixture.prod) by (vm_compute; reflexivity).
  split; [exact Ha|].
  destruct tags_of_entities as (_ & _ & _ & Hap & _ & _ & _ & _ & T & _).
  split.
  - apply (T w initial "prod" Fixture.prod "fn-0" (Fixture.lambdaFunction "fn-0") (Some ∅) Ha).
    reflexivity.
  - pose (ap := {| Efs.AccessPointId := None; Efs.AccessPointArn := None;
                   Efs.a_FileSystemId := None; Efs.a_Name := None;
                   Efs.a_LifeCycleState := None; Efs.PosixUser_ := None;
                   Efs.RootDirectory_ := None; Efs.a_Tags := listed |}).
    destruct (Hap ap) as [Hnone _]. cbn [EfsProvider.a_tags EfsProvider.mapAccessPoint] in Hnone.
    split; [reflexivity|]. apply Hnone. reflexivity.
Defined.

(** ** Secret parameters *)

(** C10. Without decryption, the value of a [SecureString] parameter is
    the mask ["********"], whatever the vendor stored: in the output of
    [mapParameter], in the parameter [getParameter] returns and in every
    parameter that [getParametersByPath] returns, each of which is what
    [mapParameter] makes of the vendor's parameter at the same place.
    Two worlds that differ only in the stored values of [SecureString]
    parameters give [getParameter] and [getParametersByPath] the same
    outcome and the same final state, so the undecrypted output carries
    nothing of the secret.  The stored value is returned for a
    [SecureString] only when decryption is requested. *)
Theorem secure_string_masked_without_decryption :
  (forall param withDecryption,
      Ssm.Type_ param = Some "SecureString" ->
      SsmProvider.value (SsmProvider.mapParameter param withDecryption)
      = if withDecryption then Ssm.Value param ?? "" else "********") /\
  (forall w st accountName account name withDecryption param,
      accounts w !! accountName = Some account ->
      vendor w (clientFor SSM account (clock w (ticks st))) _
             (GetParameterCommand {| Ssm.r_Name := name; Ssm.WithDecryption := withDecryption |})
        = inr {| Ssm.Parameter_ := Some param |} ->
      exists result,
        fst (SsmProvider.getParameter accountName name withDecryption w st) = Ok (Some result) /\
        result = SsmProvider.mapParameter param withDecryption /\
        (Ssm.Type_ param = Some "SecureString" ->
         SsmProvider.value result
         = if withDecryption then Ssm.Value param ?? "" else "********")) /\
  (forall w st accountName account fuel path recursive withDecryption pages,
      accounts w !! accountName = Some account ->
      serves w (clientFor SSM account (clock w (ticks st)))
             (fun cursor => GetParametersByPathCommand
                              {| Ssm.Path := path; Ssm.Recursive := recursive;
                                 Ssm.p_WithDecryption := withDecryption;
                                 Ssm.NextToken := cursor |})
             Ssm.r_NextToken None pages ->
      (length pages <= fuel)%nat ->
      exists results,
        fst (SsmProvider.getParametersByPath fuel accountName path recursive withDecryption w st)
        = Ok results /\
        Forall2 (fun param result =>
                   result = SsmProvider.mapParameter param withDecryption /\
                   (Ssm.Type_ param = Some "SecureString" ->
                    SsmProvider.value result
                    = if withDecryption then Ssm.Value param ?? "" else "********"))
                (allItems (fun page => Ssm.Parameters_ page ?? []) pages) results) /\
  (forall p1 p2,
      redact p1 = redact p2 ->
      SsmProvider.mapParameter p1 false = SsmProvider.mapParameter p2 false) /\
  (forall w1 w2 st accountName,
      sameButSecrets w1 w2 ->
      (forall name,
          SsmProvider.getParameter accountName name false w1 st
          = SsmProvider.getParameter accountName name false w2 st) /\
      (forall fuel path recursive,
          SsmProvider.getParametersByPath fuel accountName path recursive false w1 st
          = SsmProvider.getParametersByPath fuel accountName path recursive false w2 st)).
Proof.
  assert (Hmask : forall param withDecryption,
             Ssm.Type_ param = Some "SecureString" ->
             SsmProvider.value (SsmProvider.mapParameter param withDecryption)
             = if withDecryption then Ssm.Value param ?? "" else "********").
  { intros param withDecryption Htype. unfold SsmProvider.mapParameter.
    cbn [SsmProvider.value]. rewrite Htype. cbn [str_is].
    destruct withDecryption; reflexivity. }
  split; [exact Hmask|]. split; [|split; [|split]].
  - intros w st accountName account name withDecryption param Ha Hv.
    exists (SsmProvider.mapParameter param withDecryption).
    split; [|split; [reflexivity|apply Hmask]].
    unfold SsmProvider.getParameter.
    rewrite (bind_Ok _ _ _ _ _ _ (ssm_getClient_known _ _ _ _ Ha)).
    unfold tryCatch. rewrite bind_run, send_run, Hv. reflexivity.
  - intros w st accountName account fuel path recursive withDecryption pages Ha Hserves Hfuel.
    rewrite (getParametersByPath_pages w st accountName account fuel path recursive
               withDecryption pages Ha Hserves Hfuel).
    eexists. split; [reflexivity|].
    clear Hserves Hfuel. unfold allItems. induction pages as [|page pages IH]; [constructor|].
    cbn [map concat]. apply Forall2_app; [|exact IH].
    apply Forall2_fmap_r, Forall_Forall2_diag, Forall_forall.
    intros param _. split; [reflexivity|apply Hmask].
  - apply mapParameter_same_redacted.
  - intros w1 w2 st accountName Hsame. split.
    + intros name. apply getParameter_same, Hsame.
    + intros fuel path recursive. apply getParametersByPath_same, Hsame.
Qed.

Lemma secure_string_masked_without_decryption_witness :
  let w1 := Fixture.world (Fixture.aws (Fixture.plan "hunter2")) in
  let w2 := Fixture.world (Fixture.aws (Fixture.plan "correct horse battery staple")) in
  sameButSecrets w1 w2 /\
  SsmProvider.getParameter "prod" "/app/db-password" false w1 initial
  = SsmProvider.getParameter "prod" "/app/db-password" false w2 initial /\
  (exists p,
      fst (SsmProvider.getParameter "prod" "/app/db-password" false w1 initial) = Ok (Some p) /\
      SsmProvider.value p = "********") /\
  (exists results,
      fst (SsmProvider.getParametersByPath 2 "prod" "/app" true false w1 initial) = Ok results /\
      map SsmProvider.value results = ["https://example.org"; "********"; "a,b"]) /\
  SsmProvider.value (SsmProvider.mapParameter
                       (Fixture.parameter "/app/db-password" "SecureString" "hunter2") true)
  = "hunter2".
Proof.
  intros w1 w2.
  pose proof (fixture_sameButSecrets "hunter2" "correct horse battery staple") as Hsame.
  destruct secure_string_masked_without_decryption
    as (Tmask & Tone & Tpath & _ & Tsame).
  split; [exact Hsame|].
  split; [apply (Tsame w1 w2 initial "prod" Hsame)|].
  split.
  { destruct (Tone w1 initial "prod" Fixture.prod "/app/db-password" false
                (Fixture.parameter "/app/db-password" "SecureString" "hunter2"))
      as (result & Hrun & _ & Hvalue); [reflexivity|reflexivity|].
    exists result. split; [exact Hrun|]. apply Hvalue. reflexivity. }
  split.
  { destruct (Tpath w1 initial "prod" Fixture.prod 2%nat "/app" true false
                [ {| Ssm.Parameters_ :=
                       Some [ Fixture.parameter "/app/url" "String" "https://example.org";
                              Fixture.parameter "/app/db-password" "SecureString" "hunter2" ];
                     Ssm.r_NextToken := Some "p2" |};
                  {| Ssm.Parameters_ := Some [ Fixture.parameter "/app/hosts" "StringList" "a,b" ];
                     Ssm.r_NextToken := None |} ])
      as (results & Hrun & Hall); [reflexivity|serve|simpl; lia|].
    exists results. split; [exact Hrun|].
    assert (Hresults : results
                       = map (fun p => SsmProvider.mapParameter p false)
                             [ Fixture.parameter "/app/url" "String" "https://example.org";
                               Fixture.parameter "/app/db-password" "SecureString" "hunter2";
                               Fixture.parameter "/app/hosts" "StringList" "a,b" ]).
    { clear Hrun. revert Hall. unfold allItems. cbn [map concat app nullish Ssm.Parameters_].
      intros Hall. repeat (inversion Hall as [|? ? ? ? [-> _] Hrest]; subst; clear Hall;
                           rename Hrest into Hall).
      inversion Hall. reflexivity. }
    rewrite Hresults. reflexivity. }
  apply (Tmask (Fixture.parameter "/app/db-password" "SecureString" "hunter2") true).
  reflexivity.
Defined.


(** * Further properties of the code *)

(** ** The account registry *)

Lemma map_set_fresh {V} k (v : V) entries :
  k ∉ map fst entries -> map_set k v entries = entries ++ [(k, v)].
Proof.
  induction entries as [|[k' v'] entries IH]; intros Hk; [reflexivity|].
  cbn [map_set]. cbn [map fst] in Hk. apply not_elem_of_cons in Hk as [Hne Hk].
  destruct (String.eqb_spec k' k) as [->|_]; [contradiction|].
  rewrite IH by exact Hk. reflexivity.
Qed.

Lemma map_set_keys {V} k (v : V) entries k' :
  k' ∈ map fst (map_set k v entries) <-> k' = k \/ k' ∈ map fst entries.
Proof.
  induction entries as [|[k1 v1] entries IH]; cbn [map_set map fst].
  - rewrite list_elem_of_singleton, elem_of_nil. tauto.
  - destruct (String.eqb_spec k1 k) as [->|Hne]; cbn [map fst].
    + rewrite !elem_of_cons. tauto.
    + rewrite !elem_of_cons, IH. tauto.
Qed.

Lemma map_set_NoDup {V} k (v : V) entries :
  NoDup (map fst entries) -> NoDup (map fst (map_set k v entries)).
Proof.
  induction entries as [|[k1 v1] entries IH]; cbn [map_set map fst]; intros Hnd.
  - apply NoDup_singleton.
  - apply NoDup_cons in Hnd as [Hk1 Hnd].
    destruct (String.eqb_spec k1 k) as [->|Hne]; cbn [map fst].
    + apply NoDup_cons. split; assumption.
    + apply NoDup_cons. split; [|apply IH, Hnd].
      rewrite map_set_keys. intros [->|Hin]; [apply Hne; reflexivity|contradiction].
Qed.

Lemma map_set_elem {V} k (v : V) entries k' v' :
  NoDup (map fst entries) ->
  (k', v') ∈ map_set k v entries <-> (k' = k /\ v' = v) \/ (k' <> k /\ (k', v') ∈ entries).
Proof.
  induction entries as [|[k1 v1] entries IH]; cbn [map_set map fst]; intros Hnd.
  - rewrite list_elem_of_singleton, elem_of_nil. split.
    + intros [= -> ->]. left. split; reflexivity.
    + intros [[-> ->]|[_ []]]. reflexivity.
  - apply NoDup_cons in Hnd as [Hk1 Hnd].
    destruct (String.eqb_spec k1 k) as [->|Hne].
    + rewrite !elem_of_cons. split.
      * intros [[= -> ->]|Hin]; [left; split; reflexivity|].
        right. split; [|right; exact Hin].
        intros ->. apply Hk1. apply (list_elem_of_fmap_2 fst) in Hin. exact Hin.
      * intros [[-> ->]|[Hk [[= -> ->]|Hin]]]; [left; reflexivity|contradiction|].
        right. exact Hin.
    + rewrite !elem_of_cons, IH by exact Hnd. split.
      * intros [[= -> ->]|[[-> ->]|[Hk Hin]]].
        -- right. split; [exact Hne|left; reflexivity].
        -- left. split; reflexivity.
        -- right. split; [exact Hk|right; exact Hin].
      * intros [[-> ->]|[Hk [[= -> ->]|Hin]]].
        -- right. left. split; reflexivity.
        -- left. reflexivity.
        -- right. right. split; assumption.
Qed.

Lemma agrees_set entries m k v :
  agrees entries m -> agrees (map_set k v entries) (<[k := v]> m).
Proof.
  intros [Hnd Hm]. split; [apply map_set_NoDup, Hnd|].
  intros k' v'. rewrite (map_set_elem _ _ _ _ _ Hnd), Hm.
  destruct (decide (k' = k)) as [->|Hne].
  - rewrite lookup_insert_eq. split.
    + intros [[_ ->]|[Hk _]]; [reflexivity|contradiction].
    + intros [= ->]. left. split; reflexivity.
  - rewrite lookup_insert_ne by congruence. split.
    + intros [[Hk _]|[_ H]]; [contradiction|exact H].
    + intros H. right. split; assumption.
Qed.

(** The two readings of [loadAccounts] go together, whatever was loaded
    before. *)
Lemma loadAccounts_agrees accountsConfig : forall entries m,
  agrees entries m ->
  agrees (foldl (fun m account => map_set (name account) account m) entries accountsConfig)
         (foldl (fun m account => <[name account := account]> m) m accountsConfig).
Proof.
  induction accountsConfig as [|account rest IH]; intros entries m H; [exact H|].
  cbn [foldl]. apply IH, agrees_set, H.
Qed.

Lemma loadAccounts_named accountsConfig : forall entries,
  Forall (fun e => name (snd e) = fst e /\ (snd e ∈ accountsConfig \/ e ∈ entries)) entries ->
  Forall (fun e => name (snd e) = fst e /\ (snd e ∈ accountsConfig \/ e ∈ entries))
         (foldl (fun m account => map_set (name account) account m) entries accountsConfig).
Proof.
  induction accountsConfig as [|account rest IH]; intros entries H; [exact H|].
  cbn [foldl].
  assert (Hstep : Forall (fun e => name (snd e) = fst e /\
                                   (snd e ∈ account :: rest \/ e ∈ entries))
                         (map_set (name account) account entries)).
  { clear IH. revert H. generalize entries at 1 3 as before.
    induction entries as [|[k v] entries IHe]; intros before H; cbn [map_set].
    - constructor; [|constructor]. cbn. split; [reflexivity|left; left].
    - apply Forall_cons in H as [Hhead Htail].
      destruct (String.eqb k (name account)).
      + constructor; [cbn; split; [reflexivity|left; left]|exact Htail].
      + constructor; [exact Hhead|]. apply IHe, Htail. }
  assert (Hrest : Forall (fun e => name (snd e) = fst e /\
                                   (snd e ∈ rest \/
                                    e ∈ map_set (name account) account entries))
                         (map_set (name account) account entries)).
  { apply Forall_forall. intros e He. split; [|right; exact He].
    rewrite Forall_forall in Hstep. apply Hstep, He. }
  specialize (IH _ Hrest). rewrite Forall_forall in IH |- *.
  intros e He. destruct (IH e He) as [Hname Hfrom]. split; [exact Hname|].
  destruct Hfrom as [Hin|Hin]; [left; right; exact Hin|].
  rewrite Forall_forall in Hstep. apply Hstep, Hin.
Qed.

Lemma loadAccounts_last accountsConfig account : forall m : gmap string AwsAccount,
  Forall (fun a => name a <> name account) accountsConfig ->
  foldl (fun m a => <[name a := a]> m) m accountsConfig !! name account = m !! name account.
Proof.
  induction accountsConfig as [|a rest IH]; intros m H; [reflexivity|].
  apply Forall_cons in H as [Hne Hrest]. cbn [foldl].
  rewrite IH by exact Hrest. apply lookup_insert_ne. exact Hne.
Qed.

Lemma accountEntries_fresh accountsConfig : forall entries,
  NoDup (map fst entries ++ map name accountsConfig) ->
  foldl (fun m account => map_set (name account) account m) entries accountsConfig
  = entries ++ map (fun account => (name account, account)) accountsConfig.
Proof.
  induction accountsConfig as [|account rest IH]; intros entries Hnd; cbn [foldl map].
  - rewrite app_nil_r. reflexivity.
  - cbn [map] in Hnd.
    assert (Hfresh : name account ∉ map fst entries).
    { apply NoDup_app in Hnd as (_ & Hdisj & _). intros Hin.
      apply (Hdisj _ Hin). left. }
    rewrite map_set_fresh by exact Hfresh.
    rewrite IH.
    + rewrite <- app_assoc. reflexivity.
    + rewrite map_app. cbn [map fst]. rewrite <- app_assoc. exact Hnd.
Qed.

(** X1.  The registry the constructor loads: [getAccounts] lists every
    registered name once, and lists exactly the accounts [getAccount]
    finds; an account is registered under its own name and comes from
    the configuration; of several configured accounts with the same
    name the last one is registered; a configuration without repeated
    names is listed as it is, in its order. *)
Theorem registry_lists_each_account_once (accountsConfig : list AwsAccount) :
  let registry := loadAccounts accountsConfig in
  NoDup (map name (getAccounts accountsConfig)) /\
  (forall account,
      account ∈ getAccounts accountsConfig <-> registry !! name account = Some account) /\
  (forall n account,
      registry !! n = Some account -> name account = n /\ account ∈ accountsConfig) /\
  (forall before account after,
      accountsConfig = before ++ account :: after ->
      Forall (fun later => name later <> name account) after ->
      registry !! name account = Some account) /\
  (NoDup (map name accountsConfig) -> getAccounts accountsConfig = accountsConfig).
Proof.
  intros registry. subst registry. unfold loadAccounts, getAccounts, accountEntries.
  pose proof (loadAccounts_agrees accountsConfig [] ∅) as [Hnd Hm].
  { split; [constructor|]. intros k v. rewrite elem_of_nil, lookup_empty. split; [tauto|discriminate]. }
  pose proof (loadAccounts_named accountsConfig [] ltac:(constructor)) as Hnamed.
  rewrite Forall_forall in Hnamed.
  set (entries := foldl (fun m account => map_set (name account) account m) [] accountsConfig) in *.
  assert (Hkeys : map name (map snd entries) = map fst entries).
  { rewrite map_map. apply map_ext_in. intros e He.
    apply Hnamed. apply list_elem_of_In. exact He. }
  split; [rewrite Hkeys; exact Hnd|].
  split; [|split; [|split]].
  - intros account. rewrite <- Hm. split.
    + intros Hin. apply list_elem_of_fmap in Hin as ([k v] & -> & Hin).
      destruct (Hnamed _ Hin) as [Hname _]. cbn in Hname |- *. rewrite Hname. exact Hin.
    + intros Hin. apply (list_elem_of_fmap_2 snd) in Hin. exact Hin.
  - intros n account Hlook. apply Hm in Hlook.
    destruct (Hnamed _ Hlook) as [Hname Hfrom]. cbn in Hname, Hfrom.
    split; [exact Hname|].
    destruct Hfrom as [Hin|Hin]; [exact Hin|]. apply elem_of_nil in Hin. contradiction.
  - intros before account after -> Hafter.
    rewrite foldl_app. cbn [foldl].
    rewrite loadAccounts_last by exact Hafter. apply lookup_insert_eq.
  - intros Hnames. subst entries.
    rewrite accountEntries_fresh by exact Hnames.
    cbn [app]. rewrite map_map. cbn. apply map_id.
Qed.

(** The registry of a configuration that names [prod] twice. *)
Lemma registry_lists_each_account_once_witness :
  let prod2 := {| name := "prod"; accountId := "444455556666"; region := "us-east-1";
                  roleArn := "arn:aws:iam::444455556666:role/backstage";
                  externalId := None |} in
  let dev := {| name := "dev"; accountId := "777788889999"; region := "eu-west-1";
                roleArn := "arn:aws:iam::777788889999:role/backstage";
                externalId := None |} in
  let accountsConfig := [Fixture.prod; dev; prod2] in
  loadAccounts accountsConfig !! "prod" = Some prod2 /\
  getAccounts accountsConfig = [prod2; dev].
Proof.
  intros prod2 dev accountsConfig.
  destruct (registry_lists_each_account_once accountsConfig) as (_ & _ & _ & Hlast & _).
  split; [|reflexivity].
  apply (Hlast [Fixture.prod; dev] prod2 []); [reflexivity|constructor].
Defined.

(** ** The credentials cache *)

Lemma renewal_run w account accountName st :
  (now ← Date_now;
   response ← send (AwsCredentialsProvider.stsClient account)
                (AssumeRoleCommand (AwsCredentialsProvider.assumeRoleParams account now));
   match Sts.Credentials response with
   | None => throw (AssumeRoleFailed accountName)
   | Some c =>
       credentials ← alloc {| accessKeyId := Sts.AccessKeyId c;
                              secretAccessKey := Sts.SecretAccessKey c;
                              sessionToken := Sts.SessionToken c;
                              expiration := Sts.Expiration c |};
       expiresAt ← match Sts.Expiration c with
                   | Some t => mret t
                   | None => now ← Date_now; mret (now + 3600000)
                   end;
       cache_set accountName {| credentials := credentials; expiresAt := expiresAt |};;
       mret credentials
   end) w st
  = renewal w account accountName st.
Proof.
  unfold renewal. rewrite bind_run. unfold Date_now at 1. rewrite bind_run, send_run.
  cbn [ticks].
  destruct (vendor w _ _ _) as [e|[[[key secret token expiry]|]]]; try reflexivity.
  cbn [Sts.Credentials Sts.Expiration]. destruct expiry; reflexivity.
Qed.

(** [getCredentials] in one piece. *)
Lemma getCredentials_run w st accountName :
  AwsCredentialsProvider.getCredentials accountName w st =
  match accounts w !! accountName with
  | None => (Throw (UnknownAccount accountName), st)
  | Some account =>
      match credentialsCache st !! accountName with
      | Some entry =>
          if bool_decide (expiresAt entry > clock w (ticks st) + 60000)
          then (Ok (credentials entry), tick 1 st)
          else renewal w account accountName (tick 1 st)
      | None => renewal w account accountName st
      end
  end.
Proof.
  unfold AwsCredentialsProvider.getCredentials.
  rewrite bind_run. unfold accounts_get.
  destruct (accounts w !! accountName) as [account|]; [|reflexivity].
  rewrite bind_run. unfold cache_get.
  destruct (credentialsCache st !! accountName) as [entry|].
  - rewrite bind_run, bind_run. unfold Date_now at 1. cbn [mret M_ret].
    destruct (bool_decide (expiresAt entry > clock w (ticks st) + 60000)); [reflexivity|].
    apply renewal_run.
  - rewrite bind_run. cbn [mret M_ret]. apply renewal_run.
Qed.

(** What a renewal leaves behind. *)
Lemma renewal_effect w account accountName st :
  let r := renewal w account accountName st in
  (forall other, other <> accountName ->
                 credentialsCache (snd r) !! other = credentialsCache st !! other) /\
  (exists added, heap (snd r) = heap st ++ added) /\
  (forall e, fst r = Throw e ->
             credentialsCache (snd r) = credentialsCache st /\ heap (snd r) = heap st) /\
  fst r <> OutOfFuel /\
  (forall l, fst r = Ok l ->
             exists entry c,
               credentialsCache (snd r) !! accountName = Some entry /\
               credentials entry = l /\
               heap (snd r) !! l = Some c /\
               l = length (heap st) /\
               forall t, expiration c = Some t -> expiresAt entry = t).
Proof.
  unfold renewal. cbv zeta.
  destruct (vendor w _ _ _) as [e|[[c|]]]; cbn [fst snd].
  - split; [reflexivity|]. split; [exists []; cbn; rewrite app_nil_r; reflexivity|].
    split; [intros; split; reflexivity|]. split; [discriminate|discriminate].
  - split; [intros other Hne; cbn; apply lookup_insert_ne; congruence|].
    split; [eexists; reflexivity|].
    split; [discriminate|]. split; [discriminate|].
    intros l [= <-]. eexists _, (identityOf c). cbn.
    split; [apply lookup_insert_eq|]. split; [reflexivity|].
    split; [apply list_lookup_middle; reflexivity|]. split; [reflexivity|].
    intros t Ht. rewrite Ht. reflexivity.
  - split; [reflexivity|]. split; [exists []; cbn; rewrite app_nil_r; reflexivity|].
    split; [intros; split; reflexivity|]. split; [discriminate|discriminate].
Qed.

(** X2.  [getCredentials] for one account never touches the cache entry
    of another account and never changes or drops a credentials object
    that exists already (an object handed out earlier stays as it was);
    when the call fails, whatever the reason, the cache and the objects
    are exactly as before, so a stale entry is neither removed nor
    replaced by a failed renewal.  The call always ends. *)
Theorem getCredentials_touches_only_its_account w st accountName :
  let r := AwsCredentialsProvider.getCredentials accountName w st in
  (forall other, other <> accountName ->
                 credentialsCache (snd r) !! other = credentialsCache st !! other) /\
  (forall l c, heap st !! l = Some c -> heap (snd r) !! l = Some c) /\
  (forall e, fst r = Throw e ->
             credentialsCache (snd r) = credentialsCache st /\ heap (snd r) = heap st) /\
  fst r <> OutOfFuel.
Proof.
  cbv zeta. rewrite getCredentials_run.
  assert (Hrenew : forall account st1,
             credentialsCache st1 = credentialsCache st -> heap st1 = heap st ->
             let r := renewal w account accountName st1 in
             (forall other, other <> accountName ->
                            credentialsCache (snd r) !! other = credentialsCache st !! other) /\
             (forall l c, heap st !! l = Some c -> heap (snd r) !! l = Some c) /\
             (forall e, fst r = Throw e ->
                        credentialsCache (snd r) = credentialsCache st /\
                        heap (snd r) = heap st) /\
             fst r <> OutOfFuel).
  { intros account st1 Hc Hh.
    destruct (renewal_effect w account accountName st1)
      as (Hother & [added Hheap] & Hfail & Hfuel & _).
    cbv zeta. rewrite <- Hc, <- Hh.
    split; [exact Hother|]. split; [|split; assumption].
    intros l c Hl. rewrite Hheap. apply lookup_app_l_Some. exact Hl. }
  destruct (accounts w !! accountName) as [account|].
  - destruct (credentialsCache st !! accountName) as [entry|].
    + destruct (bool_decide _).
      * cbn. split; [reflexivity|]. split; [auto|]. split; [discriminate|discriminate].
      * apply Hrenew; reflexivity.
    + apply Hrenew; reflexivity.
  - cbn. split; [reflexivity|]. split; [auto|]. split; [auto|discriminate].
Qed.

(** X3.  The cache stays sound: at start-up, and from every sound state
    after any call of [getCredentials], every cache entry refers to a
    credentials object that exists and records the expiry that object
    carries (when it carries one); the reference a successful call
    returns is the one cached for the account, and its object exists. *)
Theorem cache_entries_stay_sound w :
  cacheSound initial /\
  forall st accountName,
    cacheSound st ->
    let r := AwsCredentialsProvider.getCredentials accountName w st in
    cacheSound (snd r) /\
    forall l, fst r = Ok l ->
              exists entry c,
                credentialsCache (snd r) !! accountName = Some entry /\
                credentials entry = l /\
                heap (snd r) !! l = Some c.
Proof.
  split; [intros n entry H; cbn in H; rewrite lookup_empty in H; discriminate|].
  intros st accountName Hsound. cbv zeta. rewrite getCredentials_run.
  assert (Hrenew : forall account st1,
             credentialsCache st1 = credentialsCache st -> heap st1 = heap st ->
             let r := renewal w account accountName st1 in
             cacheSound (snd r) /\
             forall l, fst r = Ok l ->
                       exists entry c,
                         credentialsCache (snd r) !! accountName = Some entry /\
                         credentials entry = l /\
                         heap (snd r) !! l = Some c).
  { intros account st1 Hc Hh.
    destruct (renewal_effect w account accountName st1)
      as (Hother & [added Hheap] & Hfail & _ & Hok).
    cbv zeta. split.
    - intros n entry Hn.
      destruct (fst (renewal w account accountName st1)) as [l| |] eqn:Hr.
      + destruct (Hok l eq_refl) as (entry' & c & Hentry & Hcred & Hl & _ & Hexp).
        destruct (decide (n = accountName)) as [->|Hne].
        * rewrite Hentry in Hn. injection Hn as <-. exists c. rewrite Hcred. auto.
        * rewrite Hother, Hc in Hn by exact Hne.
          destruct (Hsound n entry Hn) as (c' & Hc' & Hexp').
          exists c'. split; [|exact Hexp'].
          rewrite Hheap, Hh. apply lookup_app_l_Some. exact Hc'.
      + destruct (Hfail e eq_refl) as [Hcache Hheap'].
        rewrite Hcache, Hc in Hn. rewrite Hheap', Hh. apply (Hsound n entry Hn).
      + destruct (decide (n = accountName)) as [->|Hne].
        * destruct (renewal_effect w account accountName st1) as (_ & _ & _ & Hfuel & _).
          contradiction.
        * rewrite Hother, Hc in Hn by exact Hne.
          destruct (Hsound n entry Hn) as (c' & Hc' & Hexp').
          exists c'. split; [|exact Hexp'].
          rewrite Hheap, Hh. apply lookup_app_l_Some. exact Hc'.
    - intros l Hl. destruct (Hok l Hl) as (entry & c & Hentry & Hcred & Hheap' & _).
      exists entry, c. auto. }
  destruct (accounts w !! accountName) as [account|].
  - destruct (credentialsCache st !! accountName) as [entry|] eqn:Hentry.
    + destruct (bool_decide _).
      * cbn [fst snd]. split; [exact Hsound|].
        intros l [= <-]. destruct (Hsound _ _ Hentry) as (c & Hc & _).
        exists entry, c. auto.
      * apply Hrenew; reflexivity.
    + apply Hrenew; reflexivity.
  - cbn [fst snd]. split; [exact Hsound|discriminate].
Qed.

(** ** Listings that fail or do not end *)

Section PagesFailingFacts.
Context {R Item : Type}.
Variables (w : World) (client : Client).
Variable command : option string -> Command R.
Variable items : R -> list Item.
Variable next : R -> option string.

Lemma pageRound_fails acc cursor st e :
  vendor w client R (command cursor) = inl e ->
  pageRound client command items next (acc, cursor) w st
  = (Throw e, add_requests [mkCall client (command cursor)] st).
Proof.
  intros Hv. unfold pageRound. rewrite bind_run, send_run, Hv. reflexivity.
Qed.

(** An error on any page ends the loop with that error. *)
Lemma doWhile_pageRound_fails cursor pages e :
  servesUntil w client command next cursor pages e ->
  forall fuel acc st,
    (length pages < fuel)%nat ->
    doWhile fuel (pageRound client command items next)
            (fun s => truthy (snd s)) (acc, cursor) w st
    = (Throw e,
       add_requests (map (fun c => mkCall client (command c)) (attempted next cursor pages)) st).
Proof.
  induction 1 as [cursor e Hv | cursor page pages e Hv Hmore Hrest IH];
    intros fuel acc st Hfuel.
  - destruct fuel as [|fuel]; [lia|].
    cbn [doWhile]. rewrite bind_run, (pageRound_fails _ _ _ _ Hv). reflexivity.
  - destruct fuel as [|fuel]; [simpl in Hfuel; lia|].
    cbn [doWhile]. rewrite bind_run, (pageRound_run _ _ _ _ _ _ _ _ _ Hv).
    cbn [snd]. rewrite Hmore.
    rewrite IH by (simpl in Hfuel; lia).
    rewrite add_requests_app. reflexivity.
Qed.

(** Against a vendor that always has one more page the loop uses up
    any fuel, one request per round. *)
Lemma doWhile_pageRound_endless :
  endless w client command next ->
  forall fuel acc cursor st,
    exists st',
      doWhile fuel (pageRound client command items next)
              (fun s => truthy (snd s)) (acc, cursor) w st
      = (OutOfFuel, st') /\
      length (requests st') = (length (requests st) + fuel)%nat.
Proof.
  intros Hendless. induction fuel as [|fuel IH]; intros acc cursor st.
  - exists st. split; [reflexivity|lia].
  - destruct (Hendless cursor) as (page & Hv & Hmore).
    cbn [doWhile]. rewrite bind_run, (pageRound_run _ _ _ _ _ _ _ _ _ Hv).
    cbn [snd]. rewrite Hmore.
    destruct (IH (acc ++ items page) (next page)
                 (add_requests [mkCall client (command cursor)] st))
      as (st' & Hrun & Hlen).
    exists st'. split; [exact Hrun|].
    rewrite Hlen. cbn. rewrite length_app. cbn. lia.
Qed.
End PagesFailingFacts.

Ltac run_failing Hclient Ha items Hserves Hfuel :=
  rewrite (bind_Ok _ _ _ _ _ _ (Hclient _ _ _ _ Ha));
  rewrite bind_run;
  match goal with
  | |- context [doWhile ?fuel ?round ?cond ([], None) ?w ?s] =>
      let Hrun := fresh "Hrun" in
      pose proof (doWhile_pageRound_fails _ _ _ items _ _ _ _ Hserves fuel [] s Hfuel) as Hrun;
      match type of Hrun with
      | doWhile _ ?r _ _ _ _ = _ => change round with r
      end;
      rewrite Hrun
  end;
  reflexivity.

Ltac run_endless Hclient Ha items Hendless :=
  rewrite (bind_Ok _ _ _ _ _ _ (Hclient _ _ _ _ Ha));
  rewrite bind_run;
  match goal with
  | |- context [doWhile ?fuel ?round ?cond ([], None) ?w ?s] =>
      let st' := fresh "st'" in
      let Hrun := fresh "Hrun" in
      let Hlen := fresh "Hlen" in
      destruct (doWhile_pageRound_endless _ _ _ items _ Hendless fuel [] None s)
        as (st' & Hrun & Hlen);
      match type of Hrun with
      | doWhile _ ?r _ _ _ _ = _ => change round with r
      end;
      rewrite Hrun; cbn [fst snd]; split; [reflexivity|exact Hlen]
  end.

(** X4.  An error raised by the vendor for any page of a listing ends
    the listing with that very error: [listTables], [listFunctions],
    [listSecrets] and [getParametersByPath] then return nothing of what
    the earlier pages held, and no further request is sent. *)
Theorem listing_fails_with_the_page_error w st accountName account fuel e :
  accounts w !! accountName = Some account ->
  let now := clock w (ticks st) in
  let sent {R} (client : Client) (command : option string -> Command R)
           (next : R -> option string) (pages : list R) :=
    add_requests (map (fun c => mkCall client (command c)) (attempted next None pages))
                 (tick 1 st) in
  (forall pages,
      let client := clientFor DynamoDBService account now in
      servesUntil w client ListTablesCommand DynamoDB.LastEvaluatedTableName None pages e ->
      (length pages < fuel)%nat ->
      DynamoDbProvider.listTables fuel accountName w st
      = (Throw e, sent client ListTablesCommand DynamoDB.LastEvaluatedTableName pages)) /\
  (forall pages,
      let client := clientFor LambdaService account now in
      servesUntil w client ListFunctionsCommand Lambda.NextMarker None pages e ->
      (length pages < fuel)%nat ->
      LambdaProvider.listFunctions fuel accountName w st
      = (Throw e, sent client ListFunctionsCommand Lambda.NextMarker pages)) /\
  (forall pages,
      let client := clientFor SecretsManagerService account now in
      servesUntil w client ListSecretsCommand SecretsManager.NextToken None pages e ->
      (length pages < fuel)%nat ->
      SecretsManagerProvider.listSecrets fuel accountName w st
      = (Throw e, sent client ListSecretsCommand SecretsManager.NextToken pages)) /\
  (forall path recursive withDecryption pages,
      let client := clientFor SSM account now in
      let command cursor :=
        GetParametersByPathCommand
          {| Ssm.Path := path; Ssm.Recursive := recursive;
             Ssm.p_WithDecryption := withDecryption; Ssm.NextToken := cursor |} in
      servesUntil w client command Ssm.r_NextToken None pages e ->
      (length pages < fuel)%nat ->
      SsmProvider.getParametersByPath fuel accountName path recursive withDecryption w st
      = (Throw e, sent client command Ssm.r_NextToken pages)).
Proof.
  intros Ha now sent. subst now sent. cbv beta.
  split; [|split; [|split]].
  - intros pages client Hserves Hfuel. unfold DynamoDbProvider.listTables.
    run_failing dynamodb_getClient_known Ha
      (fun page => DynamoDB.TableNames page ?? []) Hserves Hfuel.
  - intros pages client Hserves Hfuel. unfold LambdaProvider.listFunctions.
    run_failing lambda_getClient_known Ha
      (fun page => map LambdaProvider.mapFunction (Lambda.Functions page ?? [])) Hserves Hfuel.
  - intros pages client Hserves Hfuel. unfold SecretsManagerProvider.listSecrets.
    run_failing secrets_getClient_known Ha
      (fun page => map SecretsManagerProvider.mapSecret (SecretsManager.SecretList page ?? []))
      Hserves Hfuel.
  - intros path recursive withDecryption pages client command Hserves Hfuel.
    unfold SsmProvider.getParametersByPath.
    run_failing ssm_getClient_known Ha
      (fun page => map (fun param => SsmProvider.mapParameter param withDecryption)
                       (Ssm.Parameters_ page ?? [])) Hserves Hfuel.
Qed.

Lemma listing_fails_with_the_page_error_witness :
  let w := Fixture.world Scenario.throttling in
  let e := {| err_name := "ThrottlingException"; err_message := "Rate exceeded" |} in
  accounts w !! "prod" = Some Fixture.prod /\
  fst (DynamoDbProvider.listTables 5 "prod" w initial) = Throw e /\
  length (requests (snd (DynamoDbProvider.listTables 5 "prod" w initial))) = 2%nat /\
  fst (LambdaProvider.listFunctions 5 "prod" w initial) = Throw e /\
  fst (SecretsManagerProvider.listSecrets 5 "prod" w initial) = Throw e /\
  fst (SsmProvider.getParametersByPath 5 "prod" "/app" true false w initial) = Throw e.
Proof.
  intros w e.
  assert (Ha : accounts w !! "prod" = Some Fixture.prod) by reflexivity.
  destruct (listing_fails_with_the_page_error w initial "prod" Fixture.prod 5 e Ha)
    as (Htables & Hfunctions & Hsecrets & Hparameters).
  split; [exact Ha|].
  rewrite (Htables [ {| DynamoDB.TableNames := Some ["a"; "b"];
                        DynamoDB.LastEvaluatedTableName := Some "b" |} ]);
    [|apply fails_after; [reflexivity|reflexivity|apply fails_at; reflexivity]|simpl; lia].
  rewrite (Hfunctions [ {| Lambda.Functions := Some [Fixture.lambdaFunction "f"];
                           Lambda.NextMarker := Some "m" |} ]);
    [|apply fails_after; [reflexivity|reflexivity|apply fails_at; reflexivity]|simpl; lia].
  rewrite (Hsecrets [ {| SecretsManager.SecretList := None;
                         SecretsManager.NextToken := Some "n" |} ]);
    [|apply fails_after; [reflexivity|reflexivity|apply fails_at; reflexivity]|simpl; lia].
  rewrite (Hparameters "/app" true false
             [ {| Ssm.Parameters_ := None; Ssm.r_NextToken := Some "n" |} ]);
    [|apply fails_after; [reflexivity|reflexivity|apply fails_at; reflexivity]|simpl; lia].
  repeat split; reflexivity.
Defined.

(** X5.  Nothing but the vendor ends a listing: as long as every page
    carries a cursor the collector asks for the next one.  Against a
    vendor that always answers with a cursor, [listTables],
    [listFunctions], [listSecrets] and [getParametersByPath] never
    return: whatever number of rounds they are given, they use them all
    up, with one request per round. *)
Theorem listing_has_no_page_limit w st accountName account :
  accounts w !! accountName = Some account ->
  let now := clock w (ticks st) in
  let unending {A} (run : nat -> M A) :=
    forall fuel,
      fst (run fuel w st) = OutOfFuel /\
      length (requests (snd (run fuel w st))) = (length (requests st) + fuel)%nat in
  (endless w (clientFor DynamoDBService account now)
           ListTablesCommand DynamoDB.LastEvaluatedTableName ->
   unending (fun fuel => DynamoDbProvider.listTables fuel accountName)) /\
  (endless w (clientFor LambdaService account now) ListFunctionsCommand Lambda.NextMarker ->
   unending (fun fuel => LambdaProvider.listFunctions fuel accountName)) /\
  (endless w (clientFor SecretsManagerService account now)
           ListSecretsCommand SecretsManager.NextToken ->
   unending (fun fuel => SecretsManagerProvider.listSecrets fuel accountName)) /\
  (forall path recursive withDecryption,
      endless w (clientFor SSM account now)
              (fun cursor =>
                 GetParametersByPathCommand
                   {| Ssm.Path := path; Ssm.Recursive := recursive;
                      Ssm.p_WithDecryption := withDecryption; Ssm.NextToken := cursor |})
              Ssm.r_NextToken ->
      unending (fun fuel =>
                  SsmProvider.getParametersByPath fuel accountName path recursive withDecryption)).
Proof.
  intros Ha now unending. subst now unending. cbv beta.
  split; [|split; [|split]].
  - intros Hendless fuel. unfold DynamoDbProvider.listTables.
    run_endless dynamodb_getClient_known Ha
      (fun page => DynamoDB.TableNames page ?? []) Hendless.
  - intros Hendless fuel. unfold LambdaProvider.listFunctions.
    run_endless lambda_getClient_known Ha
      (fun page => map LambdaProvider.mapFunction (Lambda.Functions page ?? [])) Hendless.
  - intros Hendless fuel. unfold SecretsManagerProvider.listSecrets.
    run_endless secrets_getClient_known Ha
      (fun page => map SecretsManagerProvider.mapSecret (SecretsManager.SecretList page ?? []))
      Hendless.
  - intros path recursive withDecryption Hendless fuel.
    unfold SsmProvider.getParametersByPath.
    run_endless ssm_getClient_known Ha
      (fun page => map (fun param => SsmProvider.mapParameter param withDecryption)
                       (Ssm.Parameters_ page ?? [])) Hendless.
Qed.

Lemma listing_has_no_page_limit_witness :
  let w := Fixture.world Scenario.looping in
  accounts w !! "prod" = Some Fixture.prod /\
  forall fuel,
    fst (DynamoDbProvider.listTables fuel "prod" w initial) = OutOfFuel /\
    length (requests (snd (DynamoDbProvider.listTables fuel "prod" w initial))) = fuel.
Proof.
  intros w.
  assert (Ha : accounts w !! "prod" = Some Fixture.prod) by reflexivity.
  split; [exact Ha|].
  destruct (listing_has_no_page_limit w initial "prod" Fixture.prod Ha) as (Htables & _).
  apply Htables.
  intros cursor. eexists. split; reflexivity.
Defined.

(** ** Image listings: the ceiling bounds the work, the sort is stable *)

Lemma listImages_loop_bounded w client repositoryName m :
  0 < m ->
  (forall cursor, exists page,
      vendor w client _ (EcrProvider.describeImages repositoryName cursor (Some (Num m)))
        = inr page /\
      (1 <= length (Ecr.imageDetails page ?? []))%nat) ->
  forall d fuel acc cursor st,
    (Z.to_nat m - length acc <= d)%nat -> (1 <= fuel)%nat -> (d <= fuel)%nat ->
    exists images final st',
      doWhile fuel (EcrProvider.listImages_round client repositoryName (Some (Num m)))
              (fun s => truthy (snd s)) (acc, cursor) w st
      = (Ok (images, final), st') /\
      (length (requests st') <= length (requests st) + Nat.max 1 d)%nat.
Proof.
  intros Hm Hpages.
  assert (Hround : forall fuel acc cursor st,
             exists page,
               (1 <= length (Ecr.imageDetails page ?? []))%nat /\
               doWhile (S fuel) (EcrProvider.listImages_round client repositoryName (Some (Num m)))
                       (fun s => truthy (snd s)) (acc, cursor) w st
               = let images := acc ++ imagesOf repositoryName [page] in
                 let st1 := add_requests
                              [mkCall client (EcrProvider.describeImages repositoryName cursor
                                                                         (Some (Num m)))] st in
                 if enough (Some (Num m)) images
                 then (Ok (images, Ecr.r_nextToken page), st1)
                 else if truthy (Ecr.r_nextToken page)
                      then doWhile fuel (EcrProvider.listImages_round client repositoryName
                                                                      (Some (Num m)))
                                   (fun s => truthy (snd s)) (images, Ecr.r_nextToken page) w st1
                      else (Ok (images, Ecr.r_nextToken page), st1)).
  { intros fuel acc cursor st. destruct (Hpages cursor) as (page & Hv & Hlen).
    exists page. split; [exact Hlen|].
    cbn [doWhile]. rewrite bind_run.
    rewrite (listImages_round_run w client repositoryName (Some (Num m)) acc cursor st page Hv).
    cbv zeta. destruct (enough _ _); [reflexivity|].
    cbn [snd]. destruct (truthy _); reflexivity. }
  assert (Hlength : forall acc page,
             length (acc ++ imagesOf repositoryName [page])
             = (length acc + length (Ecr.imageDetails page ?? []))%nat).
  { intros acc page. rewrite length_app. unfold imagesOf, allItems. cbn [map concat].
    rewrite app_nil_r, length_map. reflexivity. }
  assert (Henough : forall images,
             enough (Some (Num m)) images = bool_decide (Z.to_nat m <= length images)%nat).
  { intros images. unfold enough, truthy_num, length_ge. cbn [nullish].
    destruct (Z.eqb_spec m 0) as [->|_]; [lia|]. cbn [negb andb].
    destruct (Z.leb_spec m (Z.of_nat (length images))).
    - rewrite bool_decide_eq_true_2 by lia. reflexivity.
    - rewrite bool_decide_eq_false_2 by lia. reflexivity. }
  induction d as [|d IH]; intros fuel acc cursor st Hd Hfuel1 Hfuel;
    (destruct fuel as [|fuel]; [lia|]);
    destruct (Hround fuel acc cursor st) as (page & Hlen & ->); cbv zeta;
    rewrite Henough, Hlength.
  - rewrite bool_decide_eq_true_2 by lia.
    eexists _, _, _. split; [reflexivity|]. cbn. rewrite length_app. cbn. lia.
  - destruct (bool_decide _) eqn:Hdecide.
    + eexists _, _, _. split; [reflexivity|]. cbn. rewrite length_app. cbn. lia.
    + apply bool_decide_eq_false_1 in Hdecide.
      destruct (truthy (Ecr.r_nextToken page)).
      * edestruct (IH fuel (acc ++ imagesOf repositoryName [page]) (Ecr.r_nextToken page))
          as (images & final & st' & Hrun & Hrequests);
          [rewrite Hlength; lia|lia|lia|].
        eexists _, _, _. split; [exact Hrun|].
        etransitivity; [exact Hrequests|]. cbn. rewrite length_app. cbn. lia.
      * eexists _, _, _. split; [reflexivity|]. cbn. rewrite length_app. cbn. lia.
Qed.

(** X6.  With a ceiling of [m] images, [listImages] ends whatever
    cursors the vendor sends: if every page holds at least one image,
    [m] rounds are enough even against a vendor whose listing never
    ends; at most [m] requests are sent and at most [m] images
    returned. *)
Theorem listImages_ceiling_bounds_the_work w st accountName account repositoryName m fuel :
  accounts w !! accountName = Some account ->
  0 < m ->
  (forall cursor, exists page,
      vendor w (clientFor ECR account (clock w (ticks st))) _
             (EcrProvider.describeImages repositoryName cursor (Some (Num m))) = inr page /\
      (1 <= length (Ecr.imageDetails page ?? []))%nat) ->
  (Z.to_nat m <= fuel)%nat ->
  exists images st',
    EcrProvider.listImages fuel accountName repositoryName (Some (Num m)) w st
    = (Ok images, st') /\
    Z.of_nat (length images) <= m /\
    (length (requests st') <= length (requests st) + Z.to_nat m)%nat.
Proof.
  intros Ha Hm Hpages Hfuel.
  destruct (listImages_loop_bounded w _ repositoryName m Hm Hpages
              (Z.to_nat m) fuel [] None (tick 1 st))
    as (images & final & st' & Hrun & Hrequests); [cbn; lia|lia|lia|].
  unfold EcrProvider.listImages.
  rewrite (bind_Ok _ _ _ _ _ _ (ecr_getClient_known _ _ _ _ Ha)).
  rewrite bind_run, Hrun. cbn [fst mret M_ret].
  eexists _, st'. split; [reflexivity|].
  split; [|cbn in Hrequests; lia].
  unfold truthy_num. destruct (Z.eqb_spec m 0) as [->|_]; [lia|]. cbn [negb nullish slice_to].
  rewrite slice_0_pos by exact Hm. rewrite length_take. lia.
Qed.

Lemma listImages_ceiling_bounds_the_work_witness :
  let w := Fixture.world Scenario.looping in
  exists images st',
    EcrProvider.listImages 3 "prod" "app" (Some (Num 3)) w initial = (Ok images, st') /\
    length images = 3%nat /\
    length (requests st') = 3%nat.
Proof.
  intros w.
  destruct (listImages_ceiling_bounds_the_work w initial "prod" Fixture.prod "app" 3 3)
    as (images & st' & Hrun & _ & _);
    [reflexivity|lia| |simpl; lia|].
  { intros cursor. eexists. split; [reflexivity|]. simpl. lia. }
  exists images, st'. split; [exact Hrun|].
  assert (Hpair : (Ok images, st')
                  = EcrProvider.listImages 3 "prod" "app" (Some (Num 3)) w initial)
    by (symmetry; exact Hrun).
  apply (f_equal (fun r => (match fst r with Ok l => length l | _ => 0%nat end,
                            length (requests (snd r))))) in Hpair.
  cbn [fst snd] in Hpair.
  assert (Hvalue : (match fst (EcrProvider.listImages 3 "prod" "app" (Some (Num 3)) w initial) with
                    | Ok l => length l | _ => 0%nat end,
                    length (requests (snd (EcrProvider.listImages 3 "prod" "app"
                                                                  (Some (Num 3)) w initial))))
                   = (3%nat, 3%nat)) by (vm_compute; reflexivity).
  rewrite Hvalue in Hpair. injection Hpair as -> ->. split; reflexivity.
Defined.

Section SortStable.
Context {A : Type} (cmp : A -> A -> Z) (P : A -> Prop) `{!forall x, Decision (P x)}.
Hypothesis ties : forall x y, P x -> P y -> cmp x y <= 0.

Lemma sort_insert_ties x l :
  filter P (sort_insert cmp x l) = filter P (x :: l).
Proof.
  induction l as [|y l IH]; [reflexivity|].
  cbn [sort_insert]. destruct (Z.leb_spec (cmp x y) 0) as [Hle|Hgt]; [reflexivity|].
  rewrite filter_cons, IH, !filter_cons.
  destruct (decide (P x)) as [Hx|Hx]; [|reflexivity].
  destruct (decide (P y)) as [Hy|Hy]; [|reflexivity].
  specialize (ties x y Hx Hy). lia.
Qed.

Lemma sort_ties l : filter P (sort cmp l) = filter P l.
Proof.
  induction l as [|x l IH]; [reflexivity|].
  unfold sort in *. cbn [foldr]. rewrite sort_insert_ties, !filter_cons, IH. reflexivity.
Qed.
End SortStable.

Lemma sort_sorted_id {A} (cmp : A -> A -> Z) l :
  StronglySorted (fun a b => cmp a b <= 0) l -> sort cmp l = l.
Proof.
  induction 1 as [|x l Hsorted IH Hall]; [reflexivity|].
  unfold sort in *. cbn [foldr]. rewrite IH.
  destruct l as [|y l]; [reflexivity|].
  cbn [sort_insert]. apply Forall_cons in Hall as [Hxy _].
  destruct (Z.leb_spec (cmp x y) 0); [reflexivity|lia].
Qed.

(** X7.  The sort of [listImages] is stable.  Without a ceiling, the
    images with one and the same push date (an image without date counts
    as pushed at time 0) come in the order in which the vendor listed
    them, and a vendor listing that is newest-first already is returned
    as it is. *)
Theorem listImages_keeps_vendor_order_among_ties
    w st accountName account fuel repositoryName maxResults pages :
  accounts w !! accountName = Some account ->
  truthy_num maxResults = false ->
  serves w (clientFor ECR account (clock w (ticks st)))
         (fun cursor => EcrProvider.describeImages repositoryName cursor maxResults)
         Ecr.r_nextToken None pages ->
  (length pages <= fuel)%nat ->
  exists images,
    fst (EcrProvider.listImages fuel accountName repositoryName maxResults w st) = Ok images /\
    (forall date,
        filter (fun image => EcrProvider.imagePushedAt image ?? 0 = date) images
        = filter (fun image => EcrProvider.imagePushedAt image ?? 0 = date)
                 (imagesOf repositoryName pages)) /\
    (StronglySorted notOlder (imagesOf repositoryName pages) ->
     images = imagesOf repositoryName pages).
Proof.
  intros Ha Hceiling Hserves Hfuel.
  destruct (listImages_run w st accountName account fuel repositoryName maxResults pages
              Ha Hserves Hfuel) as (k & Hk & Hrun & Hstop & _).
  cbv zeta in Hrun, Hstop.
  assert (Hall : k = length pages).
  { destruct Hstop as [Hall|Henough]; [exact Hall|].
    unfold enough in Henough. rewrite Hceiling in Henough. discriminate. }
  subst k. rewrite firstn_all in Hrun. rewrite Hrun, Hceiling. cbn [fst].
  eexists. split; [reflexivity|]. split.
  - intros date. apply sort_ties.
    intros a b Ha' Hb'. unfold EcrProvider.newestFirst. cbv zeta. lia.
  - intros Hsorted. apply sort_sorted_id.
    eapply StronglySorted_weaken; [|exact Hsorted].
    unfold notOlder, EcrProvider.newestFirst. intros a b. cbv zeta. lia.
Qed.

Lemma listImages_keeps_vendor_order_among_ties_witness :
  let w := Fixture.world Scenario.churn in
  exists images,
    fst (EcrProvider.listImages 1 "prod" "app" None w initial) = Ok images /\
    map EcrProvider.imageDigest images
    = ["sha256:b"; "sha256:d"; "sha256:a"; "sha256:e"; "sha256:c"] /\
    map EcrProvider.imageDigest
        (filter (fun image => EcrProvider.imagePushedAt image ?? 0 = 5) images)
    = ["sha256:a"; "sha256:e"].
Proof.
  intros w.
  destruct (listImages_keeps_vendor_order_among_ties w initial "prod" Fixture.prod 1 "app" None
              [ {| Ecr.imageDetails :=
                     Some [ Fixture.image "sha256:a" (Some 5); Fixture.image "sha256:b" (Some 7);
                            Fixture.image "sha256:c" None; Fixture.image "sha256:d" (Some 7);
                            Fixture.image "sha256:e" (Some 5) ];
                   Ecr.r_nextToken := None |} ])
    as (images & Hrun & Hties & _);
    [reflexivity|reflexivity|apply serves_last; reflexivity|simpl; lia|].
  exists images. split; [exact Hrun|].
  rewrite (Hties 5).
  assert (Himages : Ok images = fst (EcrProvider.listImages 1 "prod" "app" None w initial))
    by (symmetry; exact Hrun).
  assert (Hvalue : fst (EcrProvider.listImages 1 "prod" "app" None w initial)
                   = Ok (map (EcrProvider.mapImage "app")
                             [ Fixture.image "sha256:b" (Some 7); Fixture.image "sha256:d" (Some 7);
                               Fixture.image "sha256:a" (Some 5); Fixture.image "sha256:e" (Some 5);
                               Fixture.image "sha256:c" None ]))
    by (vm_compute; reflexivity).
  rewrite Hvalue in Himages. injection Himages as ->.
  split; reflexivity.
Defined.

(** ** Lookups of one entity *)

Lemma getTable_found_requests w st accountName account tableName table :
  accounts w !! accountName = Some account ->
  let client := clientFor DynamoDBService account (clock w (ticks st)) in
  vendor w client _ (DescribeTableCommand tableName) = inr {| DynamoDB.Table := Some table |} ->
  snd (DynamoDbProvider.getTable accountName tableName w st)
  = add_requests [ mkCall client (DescribeTableCommand tableName);
                   mkCall client (DescribeTimeToLiveCommand tableName);
                   mkCall client (DescribeContinuousBackupsCommand tableName);
                   mkCall client (ListTagsOfResourceCommand (DynamoDB.TableArn table)) ]
                 (tick 1 st).
Proof.
  intros Ha client Hv. rewrite getTable_unfold.
  rewrite (bind_Ok _ _ _ _ _ _ (dynamodb_getClient_known _ _ _ _ Ha)).
  fold client. unfold tryCatch at 1. rewrite bind_run, send_run, Hv.
  cbn [DynamoDB.Table].
  rewrite bind_run.
  rewrite (tryCatch_send client (DescribeTimeToLiveCommand tableName) _ _
             (fun _ => (false, None))) by reflexivity.
  rewrite bind_run.
  rewrite (tryCatch_send client (DescribeContinuousBackupsCommand tableName) _ _
             (fun _ => (false, None))) by reflexivity.
  rewrite bind_run.
  rewrite (tryCatch_send client (ListTagsOfResourceCommand _) _ _
             (fun _ => None)) by reflexivity.
  cbn [snd mret M_ret]. rewrite !add_requests_app. reflexivity.
Qed.

Lemma getTable_outcomes w st accountName account tableName :
  accounts w !! accountName = Some account ->
  let client := clientFor DynamoDBService account (clock w (ticks st)) in
  let answer := vendor w client _ (DescribeTableCommand tableName) in
  let r := DynamoDbProvider.getTable accountName tableName w st in
  (fst r = Ok None <->
   answer = inr {| DynamoDB.Table := None |} \/
   exists e, answer = inl e /\ err_name e = "ResourceNotFoundException") /\
  (forall e, fst r = Throw e <->
             answer = inl e /\ err_name e <> "ResourceNotFoundException").
Proof.
  intros Ha client answer r.
  destruct (getTable_absent w st accountName account tableName Ha) as [Herror Hnone].
  fold client answer in Herror, Hnone.
  pose proof (fun table => getTable_found w st accountName account tableName table Ha) as Hfound.
  cbv zeta in Hfound. fold client answer r in Hfound.
  destruct answer as [e|[[table|]]] eqn:Hanswer.
  - specialize (Herror e eq_refl). fold r in Herror. rewrite Herror. cbn [fst].
    unfold named. destruct (String.eqb_spec (err_name e) "ResourceNotFoundException") as [Hn|Hn].
    + split; [split; [intros _; right; exists e; auto|reflexivity]|].
      intros e'; split; [discriminate|intros [[= <-] Hne]; contradiction].
    + split; [split; [discriminate|]|].
      { intros [H|(e' & [= <-] & Hname)]; [discriminate|contradiction]. }
      intros e'; split; [intros [= <-]; auto|intros [[= <-] _]; reflexivity].
  - rewrite (Hfound table eq_refl).
    split; [split; [discriminate|intros [H|(e & H & _)]; discriminate]|].
    intros e; split; [discriminate|intros [H _]; discriminate].
  - specialize (Hnone eq_refl). fold r in Hnone. rewrite Hnone. cbn [fst].
    split; [split; [intros _; left; reflexivity|reflexivity]|].
    intros e; split; [discriminate|intros [H _]; discriminate].
Qed.

(** X8.  [getTable] answers "no such table" (undefined) exactly when
    DescribeTable raised [ResourceNotFoundException] or answered without
    a table, and then it has sent that one request only; it fails
    exactly when DescribeTable raised another error, with that error.
    Otherwise it returns a table, under the name the vendor gave (not
    the name asked for), after four requests: the description, the
    time-to-live, the backups and the tags. *)
Theorem getTable_undefined_only_when_absent w st accountName account tableName :
  accounts w !! accountName = Some account ->
  let client := clientFor DynamoDBService account (clock w (ticks st)) in
  let answer := vendor w client _ (DescribeTableCommand tableName) in
  let r := DynamoDbProvider.getTable accountName tableName w st in
  (fst r = Ok None <->
   answer = inr {| DynamoDB.Table := None |} \/
   exists e, answer = inl e /\ err_name e = "ResourceNotFoundException") /\
  (forall e, fst r = Throw e <->
             answer = inl e /\ err_name e <> "ResourceNotFoundException") /\
  (fst r = Ok None \/ (exists e, fst r = Throw e) ->
   snd r = add_requests [mkCall client (DescribeTableCommand tableName)] (tick 1 st)) /\
  (forall t, fst r = Ok (Some t) ->
             exists table,
               answer = inr {| DynamoDB.Table := Some table |} /\
               DynamoDbProvider.tableName t = DynamoDB.TableName table ?? "" /\
               snd r = add_requests
                         [ mkCall client (DescribeTableCommand tableName);
                           mkCall client (DescribeTimeToLiveCommand tableName);
                           mkCall client (DescribeContinuousBackupsCommand tableName);
                           mkCall client (ListTagsOfResourceCommand (DynamoDB.TableArn table)) ]
                         (tick 1 st)).
Proof.
  intros Ha client answer r.
  destruct (getTable_absent w st accountName account tableName Ha) as [Herror Hnone].
  fold client answer in Herror, Hnone.
  pose proof (fun table => getTable_found w st accountName account tableName table Ha) as Hfound.
  pose proof (fun table => getTable_found_requests w st accountName account tableName table Ha)
    as Hrequests.
  cbv zeta in Hfound, Hrequests. fold client answer r in Hfound, Hrequests.
  destruct answer as [e|[[table|]]] eqn:Hanswer.
  - specialize (Herror e eq_refl). fold r in Herror. rewrite Herror. cbn [fst snd].
    unfold named. destruct (String.eqb_spec (err_name e) "ResourceNotFoundException") as [Hn|Hn].
    + split; [split; [intros _; right; exists e; auto|reflexivity]|].
      split; [intros e'; split; [discriminate|intros [[= <-] Hne]; contradiction]|].
      split; [reflexivity|discriminate].
    + split; [split; [discriminate|]|].
      { intros [H|(e' & [= <-] & Hname)]; [discriminate|contradiction]. }
      split; [intros e'; split; [intros [= <-]; auto|intros [[= <-] _]; reflexivity]|].
      split; [reflexivity|discriminate].
  - specialize (Hfound table eq_refl). specialize (Hrequests table eq_refl).
    rewrite Hfound, Hrequests.
    split; [split; [discriminate|intros [H|(e & H & _)]; discriminate]|].
    split; [intros e; split; [discriminate|intros [H _]; discriminate]|].
    split; [intros [H|[e H]]; discriminate|].
    intros t [= <-]. exists table. split; [reflexivity|]. split; reflexivity.
  - specialize (Hnone eq_refl). fold r in Hnone. rewrite Hnone. cbn [fst snd].
    split; [split; [intros _; left; reflexivity|reflexivity]|].
    split; [intros e; split; [discriminate|intros [H _]; discriminate]|].
    split; [reflexivity|discriminate].
Qed.

Lemma getTable_undefined_only_when_absent_witness :
  let w := Fixture.world Scenario.churn in
  fst (DynamoDbProvider.getTable "prod" "b" w initial) = Ok None /\
  length (requests (snd (DynamoDbProvider.getTable "prod" "b" w initial))) = 1%nat.
Proof.
  intros w.
  destruct (getTable_undefined_only_when_absent w initial "prod" Fixture.prod "b" eq_refl)
    as (Hnone & _ & Hsent & _).
  assert (Hr : fst (DynamoDbProvider.getTable "prod" "b" w initial) = Ok None).
  { apply Hnone. right. eexists. split; reflexivity. }
  split; [exact Hr|]. rewrite Hsent by (left; exact Hr). reflexivity.
Defined.

Lemma getFunction_outcomes w st accountName account :
  accounts w !! accountName = Some account ->
  forall functionName,
    let client := clientFor LambdaService account (clock w (ticks st)) in
    let answer := vendor w client _ (GetFunctionCommand functionName) in
    let r := LambdaProvider.getFunction accountName functionName w st in
    (fst r = Ok None <->
     (exists tags, answer = inr {| Lambda.Configuration := None; Lambda.Tags := tags |}) \/
     exists e, answer = inl e /\ err_name e = "ResourceNotFoundException") /\
    (forall e, fst r = Throw e <->
               answer = inl e /\ err_name e <> "ResourceNotFoundException") /\
    snd r = add_requests [mkCall client (GetFunctionCommand functionName)] (tick 1 st).
Proof.
  intros Ha.
  intros functionName client answer r. subst r answer.
  unfold LambdaProvider.getFunction.
  rewrite (bind_Ok _ _ _ _ _ _ (lambda_getClient_known _ _ _ _ Ha)).
  fold client. unfold tryCatch. rewrite bind_run, send_run.
  destruct (vendor w client _ (GetFunctionCommand functionName))
    as [e|[[configuration|] tags]]; cbn [Lambda.Configuration mret M_ret fst snd].
  + destruct (String.eqb_spec (err_name e) "ResourceNotFoundException") as [Hn|Hn];
      cbn [fst snd mret M_ret throw].
    * split; [split; [intros _; right; exists e; auto|reflexivity]|].
      split; [|reflexivity].
      intros e'; split; [discriminate|intros [[= <-] Hne]; contradiction].
    * split; [split; [discriminate|]|].
      { intros [[tags H]|(e' & [= <-] & Hname)]; [discriminate|contradiction]. }
      split; [|reflexivity].
      intros e'; split; [intros [= <-]; auto|intros [[= <-] _]; reflexivity].
  + split; [split; [discriminate|intros [[tags' H]|(e & H & _)]; discriminate]|].
    split; [|reflexivity].
    intros e; split; [discriminate|intros [H _]; discriminate].
  + split; [split; [intros _; left; exists tags; reflexivity|reflexivity]|].
    split; [|reflexivity].
    intros e; split; [discriminate|intros [H _]; discriminate].
Qed.

Lemma getParameter_outcomes w st accountName account :
  accounts w !! accountName = Some account ->
  forall name withDecryption,
    let client := clientFor SSM account (clock w (ticks st)) in
    let command := GetParameterCommand
                     {| Ssm.r_Name := name; Ssm.WithDecryption := withDecryption |} in
    let answer := vendor w client _ command in
    let r := SsmProvider.getParameter accountName name withDecryption w st in
    (fst r = Ok None <->
     answer = inr {| Ssm.Parameter_ := None |} \/
     exists e, answer = inl e /\ err_name e = "ParameterNotFound") /\
    (forall e, fst r = Throw e <-> answer = inl e /\ err_name e <> "ParameterNotFound") /\
    snd r = add_requests [mkCall client command] (tick 1 st).
Proof.
  intros Ha.
  intros name withDecryption client command answer r. subst r answer.
  unfold SsmProvider.getParameter.
  rewrite (bind_Ok _ _ _ _ _ _ (ssm_getClient_known _ _ _ _ Ha)).
  fold client command. unfold tryCatch. rewrite bind_run, send_run.
  destruct (vendor w client _ command) as [e|[[parameter|]]];
    cbn [Ssm.Parameter_ mret M_ret fst snd].
  + destruct (String.eqb_spec (err_name e) "ParameterNotFound") as [Hn|Hn];
      cbn [fst snd mret M_ret throw].
    * split; [split; [intros _; right; exists e; auto|reflexivity]|].
      split; [|reflexivity].
      intros e'; split; [discriminate|intros [[= <-] Hne]; contradiction].
    * split; [split; [discriminate|]|].
      { intros [H|(e' & [= <-] & Hname)]; [discriminate|contradiction]. }
      split; [|reflexivity].
      intros e'; split; [intros [= <-]; auto|intros [[= <-] _]; reflexivity].
  + split; [split; [discriminate|intros [H|(e & H & _)]; discriminate]|].
    split; [|reflexivity].
    intros e; split; [discriminate|intros [H _]; discriminate].
  + split; [split; [intros _; left; reflexivity|reflexivity]|].
    split; [|reflexivity].
    intros e; split; [discriminate|intros [H _]; discriminate].
Qed.

Lemma getFileSystem_outcomes w st accountName account :
  accounts w !! accountName = Some account ->
  forall fileSystemId,
    let client := clientFor EFS account (clock w (ticks st)) in
    let command := DescribeFileSystemsCommand
                     {| Efs.r_FileSystemId := Some fileSystemId; Efs.Marker := None |} in
    let answer := vendor w client _ command in
    let r := EfsProvider.getFileSystem accountName fileSystemId w st in
    (fst r = Ok None <->
     (exists marker, answer = inr {| Efs.FileSystems := None; Efs.NextMarker := marker |}) \/
     (exists marker, answer = inr {| Efs.FileSystems := Some []; Efs.NextMarker := marker |}) \/
     exists e, answer = inl e /\ err_name e = "FileSystemNotFound") /\
    (forall e, fst r = Throw e <-> answer = inl e /\ err_name e <> "FileSystemNotFound") /\
    (forall entity, fst r = Ok (Some entity) ->
                    exists first others marker,
                      answer = inr {| Efs.FileSystems := Some (first :: others);
                                      Efs.NextMarker := marker |} /\
                      EfsProvider.fileSystemId entity = Efs.FileSystemId first ?? "") /\
    requests (snd r) = requests st ++ [mkCall client command].
Proof.
  intros Ha.
  intros fileSystemId client command answer r. subst r answer.
  unfold EfsProvider.getFileSystem.
  rewrite (bind_Ok _ _ _ _ _ _ (efs_getClient_known _ _ _ _ Ha)).
  fold client command. unfold tryCatch. rewrite bind_run, send_run.
  destruct (vendor w client _ command) as [e|[[[|first others]|] marker]];
    cbn [Efs.FileSystems mret M_ret fst snd].
  + destruct (String.eqb_spec (err_name e) "FileSystemNotFound") as [Hn|Hn];
      cbn [fst snd mret M_ret throw].
    * split; [split; [intros _; right; right; exists e; auto|reflexivity]|].
      split; [|split; [discriminate|reflexivity]].
      intros e'; split; [discriminate|intros [[= <-] Hne]; contradiction].
    * split; [split; [discriminate|]|].
      { intros [[m H]|[[m H]|(e' & [= <-] & Hname)]]; [discriminate|discriminate|contradiction]. }
      split; [|split; [discriminate|reflexivity]].
      intros e'; split; [intros [= <-]; auto|intros [[= <-] _]; reflexivity].
  + split; [split; [intros _; right; left; exists marker; reflexivity|reflexivity]|].
    split; [|split; [discriminate|reflexivity]].
    intros e; split; [discriminate|intros [H _]; discriminate].
  + rewrite bind_run.
    destruct (mapFileSystem_run first w
                (add_requests [mkCall client command] (tick 1 st)))
      as (entity & -> & Hid & _).
    cbn [fst snd mret M_ret].
    split; [split; [discriminate|]|].
    { intros [[m H]|[[m H]|(e & H & _)]]; discriminate. }
    split; [intros e; split; [discriminate|intros [H _]; discriminate]|].
    split; [intros entity' [= <-]; exists first, others, marker; auto|].
    destruct (Efs.CreationTime first); reflexivity.
  + split; [split; [intros _; left; exists marker; reflexivity|reflexivity]|].
    split; [|split; [discriminate|reflexivity]].
    intros e; split; [discriminate|intros [H _]; discriminate].
Qed.

(** X9.  The lookups [getFunction], [getParameter] and [getFileSystem]
    send one request.  Each answers "not there" (undefined) exactly when
    the vendor raised the lookup's own not-found error
    ([ResourceNotFoundException], [ParameterNotFound],
    [FileSystemNotFound]) or answered without the entity (for a file
    system: without a list, or with an empty one), and fails exactly
    when the vendor raised another error, with that error.
    [getFileSystem] returns the first description of the answer, under
    the id the vendor gave. *)
Theorem lookups_undefined_only_when_absent w st accountName account :
  accounts w !! accountName = Some account ->
  let now := clock w (ticks st) in
  (forall functionName,
      let client := clientFor LambdaService account now in
      let answer := vendor w client _ (GetFunctionCommand functionName) in
      let r := LambdaProvider.getFunction accountName functionName w st in
      (fst r = Ok None <->
       (exists tags, answer = inr {| Lambda.Configuration := None; Lambda.Tags := tags |}) \/
       exists e, answer = inl e /\ err_name e = "ResourceNotFoundException") /\
      (forall e, fst r = Throw e <->
                 answer = inl e /\ err_name e <> "ResourceNotFoundException") /\
      snd r = add_requests [mkCall client (GetFunctionCommand functionName)] (tick 1 st)) /\
  (forall name withDecryption,
      let client := clientFor SSM account now in
      let command := GetParameterCommand
                       {| Ssm.r_Name := name; Ssm.WithDecryption := withDecryption |} in
      let answer := vendor w client _ command in
      let r := SsmProvider.getParameter accountName name withDecryption w st in
      (fst r = Ok None <->
       answer = inr {| Ssm.Parameter_ := None |} \/
       exists e, answer = inl e /\ err_name e = "ParameterNotFound") /\
      (forall e, fst r = Throw e <-> answer = inl e /\ err_name e <> "ParameterNotFound") /\
      snd r = add_requests [mkCall client command] (tick 1 st)) /\
  (forall fileSystemId,
      let client := clientFor EFS account now in
      let command := DescribeFileSystemsCommand
                       {| Efs.r_FileSystemId := Some fileSystemId; Efs.Marker := None |} in
      let answer := vendor w client _ command in
      let r := EfsProvider.getFileSystem accountName fileSystemId w st in
      (fst r = Ok None <->
       (exists marker, answer = inr {| Efs.FileSystems := None; Efs.NextMarker := marker |}) \/
       (exists marker, answer = inr {| Efs.FileSystems := Some []; Efs.NextMarker := marker |}) \/
       exists e, answer = inl e /\ err_name e = "FileSystemNotFound") /\
      (forall e, fst r = Throw e <-> answer = inl e /\ err_name e <> "FileSystemNotFound") /\
      (forall entity, fst r = Ok (Some entity) ->
                      exists first others marker,
                        answer = inr {| Efs.FileSystems := Some (first :: others);
                                        Efs.NextMarker := marker |} /\
                        EfsProvider.fileSystemId entity = Efs.FileSystemId first ?? "") /\
      requests (snd r) = requests st ++ [mkCall client command]).
Proof.
  intros Ha now. subst now. split; [|split].
  - apply getFunction_outcomes, Ha.
  - apply getParameter_outcomes, Ha.
  - apply getFileSystem_outcomes, Ha.
Qed.

Lemma lookups_undefined_only_when_absent_witness :
  let w := Fixture.world Scenario.churn in
  fst (LambdaProvider.getFunction "prod" "gone" w initial) = Ok None /\
  fst (SsmProvider.getParameter "prod" "/gone" true w initial) = Ok None /\
  fst (EfsProvider.getFileSystem "prod" "fs-0" w initial) = Ok None /\
  fst (LambdaProvider.getFunction "prod" "f" (Fixture.world Scenario.throttling) initial)
  = Throw {| err_name := "ThrottlingException"; err_message := "Rate exceeded" |}.
Proof.
  intros w.
  destruct (lookups_undefined_only_when_absent w initial "prod" Fixture.prod eq_refl)
    as (Hfunction & Hparameter & Hfs).
  destruct (lookups_undefined_only_when_absent (Fixture.world Scenario.throttling) initial
              "prod" Fixture.prod eq_refl) as (Hthrottled & _).
  split; [apply Hfunction; right; eexists; split; reflexivity|].
  split; [apply Hparameter; right; eexists; split; reflexivity|].
  split; [apply Hfs; right; right; eexists; split; reflexivity|].
  apply Hthrottled. split; [reflexivity|discriminate].
Defined.

(** ** Tags of the detail fetches *)

Lemma tags_if_any_spec tags :
  (tags_if_any tags = None <-> tags = None \/ tags = Some []) /\
  (forall o, tags_if_any tags = Some o ->
             exists l, tags = Some l /\ l <> [] /\ o = collect_tags l ∅ /\
                       (o = ∅ <-> Forall (fun tag => usable tag = false) l)).
Proof.
  destruct tags as [[|tag l]|].
  - split; [split; [auto|reflexivity]|discriminate].
  - change (tags_if_any (Some (tag :: l))) with (Some (collect_tags (tag :: l) ∅)).
    split; [split; [discriminate|intros [H|H]; discriminate]|].
    intros o Ho.
    assert (Ho' : o = collect_tags (tag :: l) ∅) by (injection Ho as <-; reflexivity).
    clear Ho. subst o.
    exists (tag :: l). split; [reflexivity|]. split; [discriminate|].
    split; [reflexivity|].
    rewrite (collect_tags_empty (tag :: l) ∅). tauto.
  - split; [split; [auto|reflexivity]|discriminate].
Qed.

(** X10.  The [tags] of a table returned by [getTable] and of a bucket
    returned by [getBucket] are undefined exactly when the tags request
    failed or answered with no tag at all; otherwise they are the map
    collected from the vendor's list, and that map is empty when the
    list holds no usable tag (each has an empty key, an empty value or
    the key [__proto__]): unlike the list mappers, the detail fetches
    can return an empty tag map. *)
Theorem detail_fetch_tags w st accountName account :
  accounts w !! accountName = Some account ->
  let describes {R} (answer : JsError + R) (tagsOf : R -> option (list Tag))
                (tags : option (gmap string string)) :=
    (tags = None <->
     (exists e, answer = inl e) \/
     exists r, answer = inr r /\ (tagsOf r = None \/ tagsOf r = Some [])) /\
    (forall o, tags = Some o ->
               exists r l, answer = inr r /\ tagsOf r = Some l /\ l <> [] /\
                           o = collect_tags l ∅ /\
                           (o = ∅ <-> Forall (fun tag => usable tag = false) l)) in
  (forall tableName table,
      let client := clientFor DynamoDBService account (clock w (ticks st)) in
      vendor w client _ (DescribeTableCommand tableName)
        = inr {| DynamoDB.Table := Some table |} ->
      exists t,
        fst (DynamoDbProvider.getTable accountName tableName w st) = Ok (Some t) /\
        describes (vendor w client _ (ListTagsOfResourceCommand (DynamoDB.TableArn table)))
                  DynamoDB.Tags (DynamoDbProvider.tags t)) /\
  (forall bucketName,
      let client := clientFor S3Service account (clock w (ticks st)) in
      exists b,
        fst (S3Provider.getBucket accountName bucketName w st) = Ok (Some b) /\
        describes (vendor w client _ (GetBucketTaggingCommand bucketName))
                  S3.TagSet (S3Provider.tags b)).
Proof.
  intros Ha describes.
  assert (Hdescribes : forall R (answer : JsError + R) tagsOf,
             describes R answer tagsOf
                       match answer with inr r => tags_if_any (tagsOf r) | inl _ => None end).
  { intros R answer tagsOf. subst describes. cbv beta.
    destruct answer as [e|r].
    - split; [split; [intros _; left; exists e; reflexivity|reflexivity]|discriminate].
    - destruct (tags_if_any_spec (tagsOf r)) as [Hnone Hsome]. split.
      + rewrite Hnone. split.
        * intros H. right. exists r. auto.
        * intros [[e H]|(r' & [= <-] & H)]; [discriminate|exact H].
      + intros o Ho. destruct (Hsome o Ho) as (l & Hl & Hne & Hmap & Hempty).
        exists r, l. auto. }
  split.
  - intros tableName table client Hv.
    eexists. split; [apply (getTable_found _ _ _ _ _ _ Ha Hv)|].
    cbn [DynamoDbProvider.tags DynamoDbProvider.mapTable]. apply Hdescribes.
  - intros bucketName client.
    eexists. split; [apply (getBucket_run _ _ _ _ bucketName Ha)|].
    cbv zeta. cbn [S3Provider.tags]. apply Hdescribes.
Qed.

Lemma detail_fetch_tags_witness :
  let w := Fixture.world Scenario.churn in
  exists t,
    fst (DynamoDbProvider.getTable "prod" "a" w initial) = Ok (Some t) /\
    DynamoDbProvider.tags t = Some ∅.
Proof.
  intros w.
  destruct (detail_fetch_tags w initial "prod" Fixture.prod eq_refl) as (Htable & _).
  destruct (Htable "a" (Fixture.table "a") eq_refl) as (t & Hrun & Hnone & Hsome).
  exists t. split; [exact Hrun|].
  destruct (DynamoDbProvider.tags t) as [o|] eqn:Htags.
  - destruct (Hsome o eq_refl) as (r & l & Hr & Hl & _ & _ & Hempty).
    injection Hr as <-. injection Hl as <-.
    f_equal. apply Hempty. repeat constructor.
  - exfalso. destruct Hnone as [Hnone _].
    destruct (Hnone eq_refl) as [[e He]|(r & Hr & [Hr'|Hr'])];
      [discriminate He|injection Hr as <-; discriminate Hr'
      |injection Hr as <-; discriminate Hr'].
Defined.

(** ** Buckets *)

Lemma getBucket_requests w st accountName account bucketName :
  accounts w !! accountName = Some account ->
  snd (S3Provider.getBucket accountName bucketName w st)
  = add_requests (bucketFetches (clientFor S3Service account (clock w (ticks st))) bucketName)
                 (tick 1 st).
Proof.
  intros Ha. rewrite getBucket_unfold.
  rewrite (bind_Ok _ _ _ _ _ _ (s3_getClient_known _ _ _ _ Ha)).
  set (client := clientFor S3Service account (clock w (ticks st))).
  unfold tryCatch at 1. rewrite bind_run.
  rewrite (tryCatch_send client (GetBucketLocationCommand bucketName) _ _
             (fun _ => None)) by reflexivity.
  rewrite bind_run.
  rewrite (tryCatch_send client (GetBucketVersioningCommand bucketName) _ _
             (fun _ => (false, false))) by reflexivity.
  rewrite bind_run.
  rewrite (tryCatch_send client (GetBucketEncryptionCommand bucketName) _ _
             (fun _ => (false, None, None))) by reflexivity.
  rewrite bind_run.
  rewrite (tryCatch_send client (GetBucketLifecycleConfigurationCommand bucketName) _ _
             (fun _ => [])) by reflexivity.
  rewrite bind_run.
  rewrite (tryCatch_send client (GetPublicAccessBlockCommand bucketName) _ _
             (fun _ => false)) by reflexivity.
  rewrite bind_run.
  rewrite (tryCatch_send client (GetBucketPolicyStatusCommand bucketName) _ _
             (fun _ => false)) by reflexivity.
  rewrite bind_run.
  rewrite (tryCatch_send client (GetBucketTaggingCommand bucketName) _ _
             (fun _ => None)) by reflexivity.
  cbn [snd mret M_ret]. rewrite !add_requests_app. reflexivity.
Qed.

Lemma getBucket_always w st accountName account bucketName :
  accounts w !! accountName = Some account ->
  exists b,
    S3Provider.getBucket accountName bucketName w st
    = (Ok (Some b),
       add_requests (bucketFetches (clientFor S3Service account (clock w (ticks st))) bucketName)
                    (tick 1 st)) /\
    S3Provider.name b = bucketName /\
    S3Provider.creationDate b = None.
Proof.
  intros Ha.
  pose proof (getBucket_run w st accountName account bucketName Ha) as Hfst.
  pose proof (getBucket_requests w st accountName account bucketName Ha) as Hsnd.
  cbv zeta in Hfst.
  destruct (S3Provider.getBucket accountName bucketName w st) as [r st'].
  cbn [fst snd] in Hfst, Hsnd. subst r st'.
  eexists. split; [reflexivity|]. split; reflexivity.
Qed.

(** X11.  The route [/s3/:account/:bucketName] never answers 404:
    [getBucket] has no way to find that a bucket does not exist.  For a
    registered account it sends its seven requests whatever they raise
    (also when every one of them raises [NoSuchBucket]) and the handler
    answers 200 with a bucket of the requested name, without creation
    date; for an unknown account the handler rethrows the error.  The
    branch of [getBucket] that returns undefined on [NoSuchBucket] and
    the handler's "Bucket not found" are never reached. *)
Theorem s3_bucket_route_never_answers_404 w st account bucketName :
  let r := Router.s3Bucket account bucketName w st in
  (forall response, fst r = Ok response -> Router.status response = 200) /\
  fst (S3Provider.getBucket account bucketName w st) <> Ok None /\
  (forall a, accounts w !! account = Some a ->
             exists bucket,
               r = (Ok (Router.json (Router.BucketJson bucket)),
                    add_requests
                      (bucketFetches (clientFor S3Service a (clock w (ticks st))) bucketName)
                      (tick 1 st)) /\
               S3Provider.name bucket = bucketName /\
               S3Provider.creationDate bucket = None) /\
  (accounts w !! account = None -> r = (Throw (UnknownAccount account), st)).
Proof.
  cbv zeta. unfold Router.s3Bucket, tryCatch, Router.rethrow. rewrite bind_run.
  destruct (accounts w !! account) as [a|] eqn:Ha.
  - destruct (getBucket_always w st account a bucketName Ha) as (b & Hrun & Hname & Hdate).
    rewrite Hrun. cbn [fst snd mret M_ret].
    split; [intros response [= <-]; reflexivity|].
    split; [discriminate|].
    split; [|discriminate].
    intros a' [= <-]. exists b. auto.
  - rewrite (s3_getBucket_unknown w st account Ha bucketName). cbn [fst snd throw].
    split; [discriminate|]. split; [discriminate|].
    split; [discriminate|reflexivity].
Qed.

Lemma s3_bucket_route_never_answers_404_witness :
  let w := Fixture.world Scenario.churn in
  exists bucket st',
    Router.s3Bucket "prod" "ghost" w initial
    = (Ok (Router.json (Router.BucketJson bucket)), st') /\
    S3Provider.name bucket = "ghost" /\
    length (requests st') = 7%nat.
Proof.
  intros w.
  destruct (s3_bucket_route_never_answers_404 w initial "prod" "ghost") as (_ & _ & Hknown & _).
  destruct (Hknown Fixture.prod eq_refl) as (bucket & Hrun & Hname & _).
  eexists bucket, _. split; [exact Hrun|]. split; [exact Hname|reflexivity].
Defined.

Lemma pushBasicInfo_run accountName rest w st : forall buckets,
  exists out,
    S3Buckets.pushBasicInfo accountName rest buckets w st = (Ok (buckets ++ out), st) /\
    map S3Provider.name out = S3Provider.bucketNames {| S3.Buckets := Some rest |} /\
    map S3Provider.creationDate out
    = map S3.CreationDate (List.filter (fun b => truthy (S3.Name b)) rest) /\
    Forall undetailed out.
Proof.
  unfold S3Provider.bucketNames. cbn [S3.Buckets nullish].
  induction rest as [|bucket rest IH]; intros buckets.
  - exists []. rewrite app_nil_r. split; [reflexivity|]. split; [reflexivity|].
    split; [reflexivity|constructor].
  - cbn [S3Buckets.pushBasicInfo omap list_omap List.filter].
    destruct (truthy (S3.Name bucket)) eqn:Hname.
    + rewrite bind_run. cbn [S3Buckets.getBucketBasicInfo mret M_ret].
      destruct (IH (buckets ++ [ {| S3Provider.name := S3.Name bucket ?? "";
                                    S3Provider.creationDate := S3.CreationDate bucket;
                                    S3Provider.region := None;
                                    S3Provider.versioningEnabled := false;
                                    S3Provider.mfaDeleteEnabled := false;
                                    S3Provider.encryptionEnabled := false;
                                    S3Provider.encryptionType := None;
                                    S3Provider.kmsKeyId := None;
                                    S3Provider.lifecycleRules := [];
                                    S3Provider.publicAccessBlocked := false;
                                    S3Provider.policyIsPublic := false;
                                    S3Provider.tags := None |} ]))
        as (out & Hrun & Hnames & Hdates & Hplain).
      eexists (_ :: out). rewrite Hrun, <- app_assoc.
      split; [reflexivity|]. cbn [map S3Provider.name S3Provider.creationDate].
      split; [|split].
      * rewrite Hnames. destruct (S3.Name bucket); [reflexivity|discriminate].
      * rewrite Hdates. reflexivity.
      * constructor; [repeat split|exact Hplain].
    + apply IH.
Qed.

Lemma listBucketsWithDetails_names w st accountName account response :
  accounts w !! accountName = Some account ->
  vendor w (clientFor S3Service account (clock w (ticks st))) _ ListBucketsCommand
    = inr response ->
  exists buckets st',
    S3Provider.listBucketsWithDetails accountName w st = (Ok buckets, st') /\
    map S3Provider.name buckets = S3Provider.bucketNames response /\
    Forall (fun b => S3Provider.creationDate b = None) buckets.
Proof.
  intros Ha Hv.
  assert (Hpos : (0 < batchSize)%nat) by (unfold batchSize; lia).
  unfold S3Provider.listBucketsWithDetails.
  rewrite (bind_Ok _ _ _ _ _ _ (s3_getClient_known _ _ _ _ Ha)).
  rewrite bind_run, send_run, Hv.
  rewrite (loop_batches _ _ (s3_detailsLoop_unfold accountName)
                        _ w (length (S3Provider.bucketNames response)) 0 []) by lia.
  rewrite drop_0.
  assert (Hall : Forall (fun name => forall s, exists r s',
                             S3Provider.getBucket accountName name w s = (Ok r, s'))
                        (concat (chunks batchSize (S3Provider.bucketNames response)))).
  { apply Forall_forall. intros name _ s.
    destruct (getBucket_always w s accountName account name Ha) as (b & Hb & _).
    eauto. }
  match goal with
  | |- context [processBatches ?d ?b ?start ?w' ?s] =>
      destruct (processBatches_total d w' b Hall start s) as (buckets & st' & Hrun)
  end.
  clear Hall. exists buckets, st'. split; [exact Hrun|].
  destruct (processBatches_Ok_inv _ _ _ _ _ _ _ Hrun) as (results & Hall & ->).
  rewrite chunks_concat in Hall by exact Hpos. cbn [app].
  assert (Heach : Forall2 (fun name result =>
                             exists b, result = Some b /\ S3Provider.name b = name /\
                                       S3Provider.creationDate b = None)
                          (S3Provider.bucketNames response) results).
  { eapply Forall2_impl; [exact Hall|].
    intros name result (s & s' & Hresult). cbv beta.
    destruct (getBucket_always w s accountName account name Ha) as (b & Hb & Hname & Hdate).
    change (awaited (S3Provider.getBucket_call accountName name))
      with (S3Provider.getBucket accountName name) in Hresult.
    rewrite Hb in Hresult. injection Hresult as <- _. eauto. }
  clear Hall Hrun. split.
  - apply defined_names. eapply Forall2_impl; [exact Heach|].
    intros name result (b & -> & Hname & _). eauto.
  - induction Heach as [|name result names results (b & -> & _ & Hdate) _ IH]; [constructor|].
    unfold defined in *. cbn. constructor; assumption.
Qed.

(** X12.  [listBuckets] sends the one ListBuckets request and nothing
    else, whatever the number of buckets: it returns the buckets that
    have a name, in the vendor's order, each with its creation date and
    with every detail at its default.  [listBucketsWithDetails] returns
    buckets of the same names in the same order, but none of them with
    a creation date.  An error of the ListBuckets request is the error
    of the listing. *)
Theorem listBuckets_sends_one_request w st accountName account :
  accounts w !! accountName = Some account ->
  let client := clientFor S3Service account (clock w (ticks st)) in
  let sent := add_requests [mkCall client ListBucketsCommand] (tick 1 st) in
  (forall response,
      vendor w client _ ListBucketsCommand = inr response ->
      exists buckets,
        S3Buckets.listBuckets accountName w st = (Ok buckets, sent) /\
        map S3Provider.name buckets = S3Provider.bucketNames response /\
        map S3Provider.creationDate buckets
        = map S3.CreationDate
              (List.filter (fun b => truthy (S3.Name b)) (S3.Buckets response ?? [])) /\
        Forall undetailed buckets /\
        exists detailed st',
          S3Provider.listBucketsWithDetails accountName w st = (Ok detailed, st') /\
          map S3Provider.name detailed = map S3Provider.name buckets /\
          Forall (fun b => S3Provider.creationDate b = None) detailed) /\
  (forall e,
      vendor w client _ ListBucketsCommand = inl e ->
      S3Buckets.listBuckets accountName w st = (Throw e, sent)).
Proof.
  intros Ha client sent. subst sent. split.
  - intros response Hv. unfold S3Buckets.listBuckets.
    rewrite (bind_Ok _ _ _ _ _ _ (s3_getClient_known _ _ _ _ Ha)).
    fold client. rewrite bind_run, send_run, Hv.
    destruct (pushBasicInfo_run accountName (S3.Buckets response ?? []) w
                (add_requests [mkCall client ListBucketsCommand] (tick 1 st)) [])
      as (out & Hrun & Hnames & Hdates & Hplain).
    cbn [app] in Hrun. exists out. split; [exact Hrun|].
    assert (Hsame : S3Provider.bucketNames {| S3.Buckets := Some (S3.Buckets response ?? []) |}
                    = S3Provider.bucketNames response)
      by (unfold S3Provider.bucketNames; destruct response as [[l|]]; reflexivity).
    rewrite Hsame in Hnames.
    split; [exact Hnames|]. split; [exact Hdates|]. split; [exact Hplain|].
    destruct (listBucketsWithDetails_names w st accountName account response Ha Hv)
      as (detailed & st' & Hdetailed & Hdnames & Hddates).
    exists detailed, st'. split; [exact Hdetailed|]. split; [congruence|exact Hddates].
  - intros e Hv. unfold S3Buckets.listBuckets.
    rewrite (bind_Ok _ _ _ _ _ _ (s3_getClient_known _ _ _ _ Ha)).
    fold client. rewrite bind_run, send_run, Hv. reflexivity.
Qed.

Lemma listBuckets_sends_one_request_witness :
  let w := Fixture.world Scenario.churn in
  exists buckets st',
    S3Buckets.listBuckets "prod" w initial = (Ok buckets, st') /\
    map S3Provider.name buckets = ["logs"; "assets"] /\
    map S3Provider.creationDate buckets = [Some 700000; None] /\
    length (requests st') = 1%nat.
Proof.
  intros w.
  destruct (listBuckets_sends_one_request w initial "prod" Fixture.prod eq_refl) as (Hok & _).
  destruct (Hok _ eq_refl) as (buckets & Hrun & Hnames & Hdates & _).
  eexists buckets, _. split; [exact Hrun|]. split; [exact Hnames|].
  split; [exact Hdates|reflexivity].
Defined.

(** ** Tables that vanish between the listing and the details *)

Lemma getTable_settled w accountName account tableName answer :
  accounts w !! accountName = Some account ->
  (forall now, vendor w (clientFor DynamoDBService account now) _
                      (DescribeTableCommand tableName) = answer) ->
  tableOrGone answer ->
  forall s, exists r s',
      DynamoDbProvider.getTable accountName tableName w s = (Ok r, s') /\
      DynamoDbProvider.tableName <$> r = describedName answer.
Proof.
  intros Ha Hv Hsettled s. specialize (Hv (clock w (ticks s))).
  destruct (getTable_absent w s accountName account tableName Ha) as [Herror Hnone].
  destruct answer as [e|[[table|]]].
  - rewrite (Herror e Hv). unfold named. rewrite (Hsettled e eq_refl).
    eexists _, _. split; reflexivity.
  - pose proof (getTable_found w s accountName account tableName table Ha Hv) as Hfound.
    destruct (DynamoDbProvider.getTable accountName tableName w s) as [r s'].
    cbn [fst] in Hfound. subst r. eexists _, _. split; reflexivity.
  - rewrite (Hnone Hv). eexists _, _. split; reflexivity.
Qed.

Lemma defined_tableNames (f : string -> option string) names results :
  Forall2 (fun name result => DynamoDbProvider.tableName <$> result = f name) names results ->
  map DynamoDbProvider.tableName (defined results) = omap f names.
Proof.
  induction 1 as [|name result names results Hhead _ IH]; [reflexivity|].
  unfold defined in *. cbn [omap list_omap]. rewrite <- Hhead.
  destruct result as [t|]; cbn; rewrite IH; reflexivity.
Qed.

(** X13.  [listTablesWithDetails] tolerates tables that are deleted
    while it runs: when DescribeTable answers every listed name with a
    table, with no table or with [ResourceNotFoundException], the
    listing succeeds and returns the tables that were still there, in
    the listed order, each under the name DescribeTable gave; the
    others are left out without a trace. *)
Theorem listTablesWithDetails_skips_vanished_tables w st accountName account fuel pages answer :
  accounts w !! accountName = Some account ->
  serves w (clientFor DynamoDBService account (clock w (ticks st)))
         ListTablesCommand DynamoDB.LastEvaluatedTableName None pages ->
  (length pages <= fuel)%nat ->
  (forall now tableName,
      vendor w (clientFor DynamoDBService account now) _ (DescribeTableCommand tableName)
      = answer tableName) ->
  (forall tableName, tableOrGone (answer tableName)) ->
  exists tables st',
    DynamoDbProvider.listTablesWithDetails fuel accountName w st = (Ok tables, st') /\
    map DynamoDbProvider.tableName tables
    = omap (fun tableName => describedName (answer tableName))
           (allItems (fun page => DynamoDB.TableNames page ?? []) pages).
Proof.
  intros Ha Hserves Hfuel Hv Hsettled.
  assert (Hpos : (0 < batchSize)%nat) by (unfold batchSize; lia).
  unfold DynamoDbProvider.listTablesWithDetails.
  rewrite (bind_Ok _ _ _ _ _ _ (listTables_pages w st accountName account fuel pages
                                   Ha Hserves Hfuel)).
  set (names := allItems (fun page => DynamoDB.TableNames page ?? []) pages).
  rewrite (loop_batches _ _ (dynamodb_detailsLoop_unfold accountName)
                        names w (length names) 0 []) by lia.
  rewrite drop_0.
  assert (Heach : forall name s, exists r s',
             DynamoDbProvider.getTable accountName name w s = (Ok r, s') /\
             DynamoDbProvider.tableName <$> r = describedName (answer name)).
  { intros name. apply (getTable_settled w accountName account name (answer name) Ha).
    - intros now. apply Hv.
    - apply Hsettled. }
  assert (Hall : Forall (fun name => forall s, exists r s',
                             DynamoDbProvider.getTable accountName name w s = (Ok r, s'))
                        (concat (chunks batchSize names))).
  { apply Forall_forall. intros name _ s.
    destruct (Heach name s) as (r & s' & Hrun & _). eauto. }
  match goal with
  | |- context [processBatches ?d ?b ?start ?w' ?s] =>
      destruct (processBatches_total d w' b Hall start s) as (tables & st' & Hrun)
  end.
  clear Hall. exists tables, st'. split; [exact Hrun|].
  destruct (processBatches_Ok_inv _ _ _ _ _ _ _ Hrun) as (results & Hall & ->).
  rewrite chunks_concat in Hall by exact Hpos. cbn [app].
  apply defined_tableNames.
  eapply Forall2_impl; [exact Hall|].
  intros name result (s & s' & Hresult). cbv beta.
  destruct (Heach name s) as (r & s'' & Hr & Hname).
  change (awaited (DynamoDbProvider.getTable_call accountName name))
    with (DynamoDbProvider.getTable accountName name) in Hresult.
  rewrite Hr in Hresult. injection Hresult as <- _. exact Hname.
Qed.

Lemma listTablesWithDetails_skips_vanished_tables_witness :
  let w := Fixture.world Scenario.churn in
  exists tables st',
    DynamoDbProvider.listTablesWithDetails 1 "prod" w initial = (Ok tables, st') /\
    map DynamoDbProvider.tableName tables = ["a"; "c"].
Proof.
  intros w.
  destruct (listTablesWithDetails_skips_vanished_tables w initial "prod" Fixture.prod 1
              [ {| DynamoDB.TableNames := Some ["a"; "b"; "c"];
                   DynamoDB.LastEvaluatedTableName := None |} ]
              (fun tableName =>
                 if String.eqb tableName "b"
                 then Fixture.notFound "ResourceNotFoundException"
                 else inr {| DynamoDB.Table := Some (Fixture.table tableName) |}))
    as (tables & st' & Hrun & Hnames);
    [reflexivity|apply serves_last; reflexivity|simpl; lia|reflexivity| |].
  { intros tableName e. destruct (String.eqb tableName "b"); [|discriminate].
    intros [= <-]. reflexivity. }
  exists tables, st'. split; [exact Hrun|exact Hnames].
Defined.

(** ** File systems *)

(** X14.  [listFileSystems] reads every page of the vendor's listing,
    in order, with one request per page, and returns one file system
    per description, in the vendor's order: each is what
    [mapFileSystem] makes of its description, under the id the vendor
    gave. *)
Theorem listFileSystems_reads_every_page w st accountName account fuel pages :
  accounts w !! accountName = Some account ->
  let client := clientFor EFS account (clock w (ticks st)) in
  serves w client EfsFileSystems.describeFileSystems Efs.NextMarker None pages ->
  (length pages <= fuel)%nat ->
  exists fileSystems st',
    EfsFileSystems.listFileSystems fuel accountName w st = (Ok fileSystems, st') /\
    requests st'
    = requests st ++ fetches client EfsFileSystems.describeFileSystems Efs.NextMarker
                             None pages /\
    Forall2 (fun fs entity => exists s, fst (EfsProvider.mapFileSystem fs w s) = Ok entity)
            (allItems (fun page => Efs.FileSystems page ?? []) pages) fileSystems /\
    map EfsProvider.fileSystemId fileSystems
    = map (fun fs => Efs.FileSystemId fs ?? "")
          (allItems (fun page => Efs.FileSystems page ?? []) pages).
Proof.
  intros Ha client Hserves Hfuel. unfold EfsFileSystems.listFileSystems.
  rewrite (bind_Ok _ _ _ _ _ _ (efs_getClient_known _ _ _ _ Ha)). fold client.
  rewrite bind_run.
  destruct (listFileSystems_loop w client None pages Hserves fuel [] (tick 1 st) Hfuel)
    as (out & final & st' & Hrun & Hrequests & Hall & Hids).
  rewrite Hrun. cbn [app fst mret M_ret].
  exists out, st'. split; [reflexivity|]. split; [exact Hrequests|]. split; assumption.
Qed.

Lemma listFileSystems_reads_every_page_witness :
  let w := Fixture.world Scenario.churn in
  exists fileSystems st',
    EfsFileSystems.listFileSystems 2 "prod" w initial = (Ok fileSystems, st') /\
    map EfsProvider.fileSystemId fileSystems = ["fs-1"; "fs-2"; "fs-3"] /\
    length (requests st') = 2%nat.
Proof.
  intros w.
  destruct (listFileSystems_reads_every_page w initial "prod" Fixture.prod 2
              [ {| Efs.FileSystems := Some [Scenario.fileSystem "fs-1"; Scenario.fileSystem "fs-2"];
                   Efs.NextMarker := Some "more" |};
                {| Efs.FileSystems := Some [Scenario.fileSystem "fs-3"];
                   Efs.NextMarker := None |} ])
    as (fileSystems & st' & Hrun & Hrequests & _ & Hids);
    [reflexivity
    |apply serves_more; [reflexivity|reflexivity|apply serves_last; reflexivity]
    |simpl; lia|].
  exists fileSystems, st'. split; [exact Hrun|]. split; [exact Hids|].
  rewrite Hrequests. reflexivity.
Defined.

(** ** The router *)

Lemma lowercase_empty s : Router.lowercase s = "" -> s = "".
Proof. destruct s; [reflexivity|discriminate]. Qed.

(** Whatever matches the path of the access-points route matches the
    path of the file-system route, which is registered before it. *)
Lemma access_points_path_matches_file_system path :
  Router.matchPath ["efs"; ":account"; "access-points"] path <> None ->
  Router.matchPath ["efs"; ":account"; ":fileSystemId"] path <> None.
Proof.
  destruct path as [|s1 [|s2 [|s3 [|s4 path]]]]; cbn [Router.matchPath];
    try (intros H; exact H);
    cbn [Router.is_param String.eqb Ascii.eqb Bool.eqb];
    (destruct (String.eqb _ (Router.lowercase s1)); [|intros H; exact H]);
    (destruct (String.eqb s2 ""); [intros H; exact H|]).
  - destruct (String.eqb_spec (Router.lowercase "access-points") (Router.lowercase s3))
      as [Heq|Hne]; [|intros H; exfalso; apply H; reflexivity].
    intros _. destruct (String.eqb_spec s3 "") as [->|_]; [discriminate Heq|].
    discriminate.
  - destruct (String.eqb _ (Router.lowercase s3)); intros H; exfalso; apply H; reflexivity.
Qed.

Lemma dispatch_in_app before after path :
  Router.dispatch_in (before ++ after) path
  = match Router.dispatch_in before path with
    | Some found => Some found
    | None => Router.dispatch_in after path
    end.
Proof.
  induction before as [|[pattern route] before IH]; [reflexivity|].
  cbn [app Router.dispatch_in]. destruct (Router.matchPath pattern path); [reflexivity|exact IH].
Qed.

Lemma dispatch_in_route table path route params :
  Router.dispatch_in table path = Some (route, params) ->
  exists pattern, (pattern, route) ∈ table /\ Router.matchPath pattern path = Some params.
Proof.
  induction table as [|[pattern route'] table IH]; [discriminate|].
  cbn [Router.dispatch_in]. destruct (Router.matchPath pattern path) as [params'|] eqn:Hmatch.
  - intros [= <- <-]. exists pattern. split; [left|exact Hmatch].
  - intros H. destruct (IH H) as (pattern' & Hin & Hmatch').
    exists pattern'. split; [right; exact Hin|exact Hmatch'].
Qed.

(** X15.  The order of registration makes one route dead: every
    request path that matches [/efs/:account/access-points] matches
    [/efs/:account/:fileSystemId], registered before it, so no request
    is ever answered by the access-points handler.  Every other route
    of the table is reachable. *)
Theorem access_points_route_is_shadowed :
  (forall path params, Router.dispatch path <> Some (Router.EfsAccessPoints, params)) /\
  (forall route,
      route <> Router.EfsAccessPoints ->
      exists params, Router.dispatch (Router.pathOf route) = Some (route, params)).
Proof.
  split.
  - intros path params Hdispatch. unfold Router.dispatch in Hdispatch.
    change Router.routes
      with (take 15 Router.routes
              ++ [(["efs"; ":account"; ":fileSystemId"], Router.EfsFileSystem)]
              ++ drop 16 Router.routes) in Hdispatch.
    rewrite dispatch_in_app in Hdispatch.
    destruct (Router.dispatch_in (take 15 Router.routes) path) as [found|] eqn:Hbefore.
    + injection Hdispatch as ->.
      apply dispatch_in_route in Hbefore as (pattern & Hin & _).
      apply (list_elem_of_fmap_2 snd) in Hin. cbn [snd] in Hin.
      revert Hin. vm_compute. intros Hin.
      repeat (apply elem_of_cons in Hin as [Hin|Hin]; [discriminate Hin|]).
      apply elem_of_nil in Hin. exact Hin.
    + rewrite dispatch_in_app in Hdispatch. cbn [Router.dispatch_in] in Hdispatch.
      destruct (Router.matchPath ["efs"; ":account"; ":fileSystemId"] path) eqn:Hfs;
        [discriminate Hdispatch|].
      apply dispatch_in_route in Hdispatch as (pattern & Hin & Hmatch).
      assert (Hpattern : pattern = ["efs"; ":account"; "access-points"]).
      { revert Hin. vm_compute. intros Hin.
        repeat (apply elem_of_cons in Hin as [Hin|Hin];
                [first [discriminate Hin | injection Hin as ->; reflexivity]|]).
        apply elem_of_nil in Hin. contradiction. }
      subst pattern.
      apply (access_points_path_matches_file_system path); [|exact Hfs].
      rewrite Hmatch. discriminate.
  - intros route Hroute.
    assert (Hfound : fst <$> Router.dispatch (Router.pathOf route) = Some route)
      by (destruct route; first [contradiction Hroute; reflexivity | vm_compute; reflexivity]).
    destruct (Router.dispatch (Router.pathOf route)) as [[found params]|];
      [|discriminate Hfound].
    injection Hfound as ->. exists params. reflexivity.
Qed.

(** X16.  A GET request for [/efs/<account>/access-points] is answered
    by the file-system handler with the file-system id
    ["access-points"], whatever the query says: for a registered account
    it sends one DescribeFileSystems request for that id, and when the
    vendor knows no such file system the answer is 404 "File system not
    found". *)
Theorem access_points_request_is_a_file_system_lookup w st fuel account a query :
  account <> "" ->
  accounts w !! account = Some a ->
  let client := clientFor EFS a (clock w (ticks st)) in
  let command := DescribeFileSystemsCommand
                   {| Efs.r_FileSystemId := Some "access-points"; Efs.Marker := None |} in
  Router.serve fuel ["efs"; account; "access-points"] query
  = Router.Handled (Router.efsFileSystem account "access-points") /\
  requests (snd (Router.efsFileSystem account "access-points" w st))
  = requests st ++ [mkCall client command] /\
  (forall e, vendor w client _ command = inl e ->
             err_name e = "FileSystemNotFound" ->
             fst (Router.efsFileSystem account "access-points" w st)
             = Ok (Router.error_json 404 "File system not found")).
Proof.
  intros Hne Ha client command.
  assert (Haccount : String.eqb account "" = false) by (apply String.eqb_neq; exact Hne).
  split; [|split].
  - unfold Router.serve, Router.dispatch, Router.routes.
    cbn [Router.dispatch_in Router.matchPath].
    cbn [Router.is_param String.eqb Ascii.eqb Bool.eqb].
    rewrite Haccount.
    change (Router.lowercase "health") with "health".
    change (Router.lowercase "accounts") with "accounts".
    change (Router.lowercase "lambda") with "lambda".
    change (Router.lowercase "ecs") with "ecs".
    change (Router.lowercase "ssm") with "ssm".
    change (Router.lowercase "secrets") with "secrets".
    change (Router.lowercase "efs") with "efs".
    change (Router.lowercase "access-points") with "access-points".
    cbn [String.eqb Ascii.eqb Bool.eqb mbind option_bind].
    reflexivity.
  - unfold Router.efsFileSystem, tryCatch, Router.rethrow. rewrite bind_run.
    destruct (getFileSystem_outcomes w st account a Ha "access-points")
      as (_ & _ & _ & Hrequests).
    fold client command in Hrequests.
    destruct (EfsProvider.getFileSystem account "access-points" w st) as [[[fs|]| |] st'];
      exact Hrequests.
  - intros e Hv Hname.
    unfold Router.efsFileSystem, tryCatch, Router.rethrow. rewrite bind_run.
    destruct (getFileSystem_outcomes w st account a Ha "access-points")
      as (Hnone & _ & _ & _).
    fold client command in Hnone.
    assert (Hr : fst (EfsProvider.getFileSystem account "access-points" w st) = Ok None)
      by (apply Hnone; right; right; exists e; auto).
    destruct (EfsProvider.getFileSystem account "access-points" w st) as [r st'].
    cbn [fst] in Hr. subst r. reflexivity.
Qed.

Lemma access_points_request_is_a_file_system_lookup_witness :
  let w := Fixture.world Scenario.churn in
  Router.serve 1 ["efs"; "prod"; "access-points"] ∅
  = Router.Handled (Router.efsFileSystem "prod" "access-points") /\
  fst (Router.efsFileSystem "prod" "access-points" w initial)
  = Ok (Router.error_json 404 "File system not found").
Proof.
  intros w.
  destruct (access_points_request_is_a_file_system_lookup w initial 1 "prod" Fixture.prod ∅)
    as (Hserve & _ & Hgone); [discriminate|reflexivity|].
  split; [exact Hserve|].
  eapply Hgone; reflexivity.
Defined.

(** X17.  The SSM routes decrypt only when the query says
    [decrypt=true], spelled exactly so: with any other value, or none,
    what [/ssm/:account/parameter] and [/ssm/:account/parameters] answer
    does not depend on the stored values of [SecureString] parameters.
    A missing, empty or repeated [name] (or [path]) is answered with 400
    before anything else happens: no request is sent, not even the
    account is looked up. *)
Theorem ssm_routes_decrypt_only_on_true w1 w2 st fuel account query :
  sameButSecrets w1 w2 ->
  Router.query_is (query !! "decrypt") "true" = false ->
  Router.ssmParameter account query w1 st = Router.ssmParameter account query w2 st /\
  Router.ssmParameters fuel account query w1 st
  = Router.ssmParameters fuel account query w2 st /\
  (Router.required (query !! "name") = None ->
   Router.ssmParameter account query w1 st
   = (Ok (Router.error_json 400 "Missing required query parameter: name"), st)) /\
  (Router.required (query !! "path") = None ->
   Router.ssmParameters fuel account query w1 st
   = (Ok (Router.error_json 400 "Missing required query parameter: path"), st)).
Proof.
  intros Hsame Hdecrypt. split; [|split; [|split]].
  - unfold Router.ssmParameter.
    destruct (Router.required (query !! "name")) as [name|]; [|reflexivity].
    unfold tryCatch. rewrite !bind_run, Hdecrypt.
    rewrite (getParameter_same w1 w2 st account name Hsame).
    destruct (SsmProvider.getParameter account name false w2 st) as [[[param|]| |] st'];
      reflexivity.
  - unfold Router.ssmParameters.
    destruct (Router.required (query !! "path")) as [path|]; [|reflexivity].
    unfold tryCatch. rewrite !bind_run, Hdecrypt.
    rewrite (getParametersByPath_same w1 w2 st fuel account path _ Hsame).
    destruct (SsmProvider.getParametersByPath fuel account path _ false w2 st)
      as [[params| |] st']; reflexivity.
  - intros Hname. unfold Router.ssmParameter. rewrite Hname. reflexivity.
  - intros Hpath. unfold Router.ssmParameters. rewrite Hpath. reflexivity.
Qed.

Lemma ssm_routes_decrypt_only_on_true_witness :
  let w1 := Fixture.world (Fixture.aws (Fixture.plan "hunter2")) in
  let w2 := Fixture.world (Fixture.aws (Fixture.plan "correct horse")) in
  let query : Router.Query :=
    <["name" := Router.QueryString "/app/db-password"]>
      (<["decrypt" := Router.QueryString "TRUE"]> ∅) in
  Router.ssmParameter "prod" query w1 initial = Router.ssmParameter "prod" query w2 initial /\
  exists param,
    fst (Router.ssmParameter "prod" query w1 initial)
    = Ok (Router.json (Router.ParameterJson param)) /\
    SsmProvider.value param = "********".
Proof.
  intros w1 w2 query.
  destruct (ssm_routes_decrypt_only_on_true w1 w2 initial 1 "prod" query
              (fixture_sameButSecrets "hunter2" "correct horse") eq_refl)
    as (Hparameter & _).
  split; [exact Hparameter|].
  exists (SsmProvider.mapParameter
            (Fixture.parameter "/app/db-password" "SecureString" "hunter2") false).
  split; [vm_compute; reflexivity|reflexivity].
Defined.

(** ** The providers and the credentials cache *)

Lemma blind_accountsList : cacheBlind Router.accountsList.
Proof. intros w st cache objects. reflexivity. Qed.
#[global] Hint Resolve blind_accountsList : blind.

(** Every handler is built from provider operations, none of which
    goes near the cache. *)
Lemma blind_handler fuel route params query :
  cacheBlind (Router.handler fuel route params query).
Proof. destruct route; cbn [Router.handler]; blind. Qed.

Lemma blind_traffic fuel w gets cache objects : forall st,
  traffic fuel w gets (withCache cache objects st)
  = withCache cache objects (traffic fuel w gets st).
Proof.
  unfold traffic. induction gets as [|get gets IH]; intros st; [reflexivity|].
  cbn [foldl]. unfold Router.serve at 2 4.
  destruct (Router.dispatch (fst get)) as [[route params]|]; [|apply IH].
  rewrite (blind_handler fuel route params (snd get) w st cache objects).
  apply IH.
Qed.

(** X18.  No handler of any of the 46 routes, and no provider operation
    that has no route, ever reads or writes the credentials cache or
    the credential objects: started with whatever cache, a handler
    gives the same answer, sends the same requests, reads the clock as
    often, and leaves the cache and the objects as it found them.  So
    does any sequence of requests; the clients get their credentials
    from the SDK's own provider, and under any traffic the cache of
    [AwsCredentialsProvider] stays empty from start-up on. *)
Theorem requests_never_touch_the_credentials_cache :
  (forall fuel route params query, cacheBlind (Router.handler fuel route params query)) /\
  (forall fuel path query m, Router.serve fuel path query = Router.Handled m -> cacheBlind m) /\
  (forall accountName functionName,
      cacheBlind (LambdaProvider.getFunctionConfiguration accountName functionName)) /\
  (forall accountName repositoryName,
      cacheBlind (EcrProvider.getRepositoryPolicy accountName repositoryName)) /\
  (forall accountName dbInstanceIdentifier,
      cacheBlind (DocumentDbProvider.getInstance accountName dbInstanceIdentifier)) /\
  (forall fuel accountName dbClusterIdentifier,
      cacheBlind (DocumentDbProvider.listSnapshots fuel accountName dbClusterIdentifier)) /\
  (forall fuel accountName,
      cacheBlind (RdsProvider.listClusterParameterGroups fuel accountName)) /\
  (forall fuel accountName dbClusterIdentifier,
      cacheBlind (RdsProvider.listClusterSnapshots fuel accountName dbClusterIdentifier)) /\
  (forall fuel accountName restApiId,
      cacheBlind (ApiGatewayProvider.getRestApiDeployments fuel accountName restApiId)) /\
  (forall fuel w gets cache objects st,
      traffic fuel w gets (withCache cache objects st)
      = withCache cache objects (traffic fuel w gets st)) /\
  (forall fuel w gets,
      credentialsCache (traffic fuel w gets initial) = ∅ /\
      heap (traffic fuel w gets initial) = []).
Proof.
  split; [exact blind_handler|].
  split.
  { intros fuel path query m. unfold Router.serve.
    destruct (Router.dispatch path) as [[route params]|]; [|discriminate].
    intros [= <-]. apply blind_handler. }
  split; [intros; apply blind_lambda_getFunctionConfiguration|].
  split; [intros; apply blind_ecr_getRepositoryPolicy|].
  split; [intros; apply blind_docdb_getInstance|].
  split; [intros; apply blind_docdb_listSnapshots|].
  split; [intros; apply blind_rds_listClusterParameterGroups|].
  split; [intros; apply blind_rds_listClusterSnapshots|].
  split; [intros; apply blind_apigateway_getRestApiDeployments|].
  split; [intros; apply blind_traffic|].
  intros fuel w gets.
  pose proof (blind_traffic fuel w gets ∅ [] initial) as Hrun.
  change (withCache ∅ [] initial) with initial in Hrun.
  rewrite Hrun. split; reflexivity.
Qed.

(** ** Unknown accounts at the router *)

(** The handler of the route at hand fails where the provider
    operation it starts with fails. *)
Ltac rethrown :=
  lazymatch goal with |- ?m _ _ = _ => let h := head_of m in unfold h end;
  unfold Router.listRoute, Router.itemRoute;
  apply rethrow_rejected;
  repeat match goal with |- (if ?b then _ else _) _ _ = _ => destruct b end;
  apply bind_Throw; auto with unknown.

(** X19.  No route answers for an account that is not registered: the
    handler of every route that has an account parameter, which is
    every route but [/health] and [/accounts], rethrows the error
    "Unknown AWS account: <name>" without any request to AWS and
    without any change of state; it never answers 404 or 200.  The only
    answer that can come before is the 400 of the two SSM routes for a
    missing query parameter. *)
Theorem unknown_account_is_rethrown_by_every_route w st fuel route params query :
  route <> Router.Health ->
  route <> Router.Accounts ->
  accounts w !! Router.param params "account" = None ->
  Router.handler fuel route params query w st
  = (Throw (UnknownAccount (Router.param params "account")), st) \/
  ((route = Router.SsmParameter \/ route = Router.SsmParameters) /\
   exists message,
     Router.handler fuel route params query w st = (Ok (Router.error_json 400 message), st)).
Proof.
  intros Hhealth Haccounts Ha. set (account := Router.param params "account") in *.
  destruct route; try contradiction; cbn [Router.handler]; fold account.
  all: try (left; rethrown; fail).
  - unfold Router.ssmParameter. destruct (Router.required _).
    + left. apply handler_rethrows. auto with unknown.
    + right. split; [left; reflexivity|]. eexists. reflexivity.
  - unfold Router.ssmParameters. destruct (Router.required _).
    + left. apply handler_rethrows. auto with unknown.
    + right. split; [right; reflexivity|]. eexists. reflexivity.
Qed.

Lemma unknown_account_is_rethrown_by_every_route_witness :
  let w := Fixture.world Scenario.churn in
  Router.serve 1 ["dynamodb"; "staging"; "tables"; "orders"] ∅
  = Router.Handled (Router.dynamodbTable "staging" "orders") /\
  Router.dynamodbTable "staging" "orders" w initial
  = (Throw (mkError "Unknown AWS account: staging"), initial) /\
  Router.serve 1 ["apigateway"; "staging"; "http-apis"; "a1"; "routes"] ∅
  = Router.Handled (Router.httpApiRoutes 1 "staging" "a1") /\
  Router.httpApiRoutes 1 "staging" "a1" w initial
  = (Throw (mkError "Unknown AWS account: staging"), initial).
Proof.
  intros w. split; [reflexivity|]. split; [|split; [reflexivity|]].
  - destruct (unknown_account_is_rethrown_by_every_route w initial 1 Router.DynamodbTable
                [("account", "staging"); ("tableName", "orders")] ∅)
      as [Hrun|[[Hroute|Hroute] _]];
      [discriminate|discriminate|reflexivity|exact Hrun
      |discriminate Hroute|discriminate Hroute].
  - destruct (unknown_account_is_rethrown_by_every_route w initial 1 Router.HttpApiRoutes
                [("account", "staging"); ("apiId", "a1")] ∅)
      as [Hrun|[[Hroute|Hroute] _]];
      [discriminate|discriminate|reflexivity|exact Hrun
      |discriminate Hroute|discriminate Hroute].
Defined.

(** ** The lookup routes *)

Lemma lookup_route {A} (op : M (option A)) message (wrap : A -> Router.Body) w st :
  let r := tryCatch (found ← op;
                     match found with
                     | None => mret (Router.error_json 404 message)
                     | Some a => mret (Router.json (wrap a))
                     end) Router.rethrow w st in
  (fst r = Ok (Router.error_json 404 message) <-> fst (op w st) = Ok None) /\
  (forall e, fst r = Throw e <-> fst (op w st) = Throw e) /\
  (forall response, fst r = Ok response ->
                    Router.status response = 404 \/
                    Router.status response = 200 /\ exists a, fst (op w st) = Ok (Some a) /\
                                                              Router.body response = wrap a) /\
  snd r = snd (op w st).
Proof.
  cbv zeta. unfold tryCatch, Router.rethrow. rewrite bind_run.
  destruct (op w st) as [[[a|]|e|] st']; cbn [fst snd mret M_ret throw].
  - split; [split; discriminate|]. split; [intros e; split; discriminate|].
    split; [|reflexivity]. intros response [= <-]. right. split; [reflexivity|].
    exists a. split; reflexivity.
  - split; [split; reflexivity|]. split; [intros e; split; discriminate|].
    split; [|reflexivity]. intros response [= <-]. left. reflexivity.
  - split; [split; discriminate|].
    split; [intros e'; split; intros [= <-]; reflexivity|].
    split; [discriminate|reflexivity].
  - split; [split; discriminate|]. split; [intros e; split; discriminate|].
    split; [discriminate|reflexivity].
Qed.

(** X20.  The 404 of a lookup route means that the vendor said so.  For
    a registered account, [/lambda/:account/:functionName],
    [/dynamodb/:account/tables/:tableName], [/ssm/:account/parameter]
    and [/efs/:account/:fileSystemId] answer 404 exactly when the
    vendor raised the lookup's own not-found error or answered without
    the entity; an error of any other name is never turned into a 404:
    the handler rethrows it. *)
Theorem lookup_routes_answer_404_only_when_absent w st account a :
  accounts w !! account = Some a ->
  let now := clock w (ticks st) in
  let absent {R} (answer : JsError + R) (literal : string) (empty : R -> Prop) :=
    (exists r, answer = inr r /\ empty r) \/
    exists e, answer = inl e /\ err_name e = literal in
  let failed {R} (answer : JsError + R) (literal : string) (e : JsError) :=
    answer = inl e /\ err_name e <> literal in
  (forall functionName,
      let answer := vendor w (clientFor LambdaService a now) _ (GetFunctionCommand functionName) in
      let r := Router.lambdaFunction account functionName w st in
      (fst r = Ok (Router.error_json 404 "Function not found") <->
       absent answer "ResourceNotFoundException" (fun r => Lambda.Configuration r = None)) /\
      (forall e, fst r = Throw e <-> failed answer "ResourceNotFoundException" e)) /\
  (forall tableName,
      let answer := vendor w (clientFor DynamoDBService a now) _
                           (DescribeTableCommand tableName) in
      let r := Router.dynamodbTable account tableName w st in
      (fst r = Ok (Router.error_json 404 "Table not found") <->
       absent answer "ResourceNotFoundException" (fun r => DynamoDB.Table r = None)) /\
      (forall e, fst r = Throw e <-> failed answer "ResourceNotFoundException" e)) /\
  (forall query name,
      Router.required (query !! "name") = Some name ->
      let answer := vendor w (clientFor SSM a now) _
                           (GetParameterCommand
                              {| Ssm.r_Name := name;
                                 Ssm.WithDecryption :=
                                   Router.query_is (query !! "decrypt") "true" |}) in
      let r := Router.ssmParameter account query w st in
      (fst r = Ok (Router.error_json 404 "Parameter not found") <->
       absent answer "ParameterNotFound" (fun r => Ssm.Parameter_ r = None)) /\
      (forall e, fst r = Throw e <-> failed answer "ParameterNotFound" e)) /\
  (forall fileSystemId,
      let answer := vendor w (clientFor EFS a now) _
                           (DescribeFileSystemsCommand
                              {| Efs.r_FileSystemId := Some fileSystemId;
                                 Efs.Marker := None |}) in
      let r := Router.efsFileSystem account fileSystemId w st in
      (fst r = Ok (Router.error_json 404 "File system not found") <->
       absent answer "FileSystemNotFound"
              (fun r => Efs.FileSystems r = None \/ Efs.FileSystems r = Some [])) /\
      (forall e, fst r = Throw e <-> failed answer "FileSystemNotFound" e)).
Proof.
  intros Ha now absent failed. subst now absent failed. cbv beta.
  split; [|split; [|split]].
  - intros functionName answer r. subst r.
    destruct (lookup_route (LambdaProvider.getFunction account functionName)
                "Function not found" Router.FunctionJson w st) as (H404 & Hthrow & _).
    destruct (getFunction_outcomes w st account a Ha functionName) as (Hnone & Herror & _).
    cbv zeta in H404, Hthrow, Hnone, Herror. fold answer in Hnone, Herror.
    unfold Router.lambdaFunction. split.
    + rewrite H404, Hnone. split.
      * intros [[tags H]|H]; [left; eexists; split; [exact H|reflexivity]|right; exact H].
      * intros [([configuration tags] & H & Hempty)|H]; [|right; exact H].
        cbn in Hempty. subst configuration. left. exists tags. exact H.
    + intros e. rewrite Hthrow. apply Herror.
  - intros tableName answer r. subst r.
    destruct (lookup_route (DynamoDbProvider.getTable account tableName)
                "Table not found" Router.TableJson w st) as (H404 & Hthrow & _).
    destruct (getTable_outcomes w st account a tableName Ha) as (Hnone & Herror).
    cbv zeta in H404, Hthrow, Hnone, Herror. fold answer in Hnone, Herror.
    unfold Router.dynamodbTable. split.
    + rewrite H404, Hnone. split.
      * intros [H|H]; [left; eexists; split; [exact H|reflexivity]|right; exact H].
      * intros [([table] & H & Hempty)|H]; [|right; exact H].
        cbn in Hempty. subst table. left. exact H.
    + intros e. rewrite Hthrow. apply Herror.
  - intros query name Hname answer r. subst r.
    destruct (lookup_route (SsmProvider.getParameter account name
                              (Router.query_is (query !! "decrypt") "true"))
                "Parameter not found" Router.ParameterJson w st) as (H404 & Hthrow & _).
    destruct (getParameter_outcomes w st account a Ha name
                (Router.query_is (query !! "decrypt") "true")) as (Hnone & Herror & _).
    cbv zeta in H404, Hthrow, Hnone, Herror. fold answer in Hnone, Herror.
    unfold Router.ssmParameter. rewrite Hname. split.
    + rewrite H404, Hnone. split.
      * intros [H|H]; [left; eexists; split; [exact H|reflexivity]|right; exact H].
      * intros [([parameter] & H & Hempty)|H]; [|right; exact H].
        cbn in Hempty. subst parameter. left. exact H.
    + intros e. rewrite Hthrow. apply Herror.
  - intros fileSystemId answer r. subst r.
    destruct (lookup_route (EfsProvider.getFileSystem account fileSystemId)
                "File system not found" Router.FileSystemJson w st) as (H404 & Hthrow & _).
    destruct (getFileSystem_outcomes w st account a Ha fileSystemId) as (Hnone & Herror & _).
    cbv zeta in H404, Hthrow, Hnone, Herror. fold answer in Hnone, Herror.
    unfold Router.efsFileSystem. split.
    + rewrite H404, Hnone. split.
      * intros [[marker H]|[[marker H]|H]].
        -- left. eexists. split; [exact H|left; reflexivity].
        -- left. eexists. split; [exact H|right; reflexivity].
        -- right. exact H.
      * intros [([fileSystems marker] & H & [Hempty|Hempty])|H].
        -- cbn in Hempty. subst fileSystems. left. exists marker. exact H.
        -- cbn in Hempty. subst fileSystems. right. left. exists marker. exact H.
        -- right. right. exact H.
    + intros e. rewrite Hthrow. apply Herror.
Qed.

Lemma lookup_routes_answer_404_only_when_absent_witness :
  let gone := Fixture.world Scenario.churn in
  let busy := Fixture.world Scenario.throttling in
  fst (Router.lambdaFunction "prod" "f" gone initial)
  = Ok (Router.error_json 404 "Function not found") /\
  fst (Router.lambdaFunction "prod" "f" busy initial)
  = Throw {| err_name := "ThrottlingException"; err_message := "Rate exceeded" |} /\
  fst (Router.dynamodbTable "prod" "b" gone initial)
  = Ok (Router.error_json 404 "Table not found").
Proof.
  intros gone busy.
  destruct (lookup_routes_answer_404_only_when_absent gone initial "prod" Fixture.prod eq_refl)
    as (Hfunction & Htable & _).
  destruct (lookup_routes_answer_404_only_when_absent busy initial "prod" Fixture.prod eq_refl)
    as (Hbusy & _).
  split; [apply Hfunction; right; eexists; split; reflexivity|].
  split; [apply Hbusy; split; [reflexivity|discriminate]|].
  apply Htable. right. eexists. split; reflexivity.
Defined.

(** ** A detail fetch that fails *)

(** X21.  One failing DescribeTable fails the whole detailed listing.
    When DescribeTable raises, for a listed table, an error other than
    [ResourceNotFoundException], [listTablesWithDetails] returns no
    table at all, also none of those it had fetched before: it fails
    with the error of one of its detail fetches. *)
Theorem listTablesWithDetails_fails_as_a_whole w st accountName account fuel pages tableName e :
  accounts w !! accountName = Some account ->
  serves w (clientFor DynamoDBService account (clock w (ticks st)))
         ListTablesCommand DynamoDB.LastEvaluatedTableName None pages ->
  (length pages <= fuel)%nat ->
  tableName ∈ allItems (fun page => DynamoDB.TableNames page ?? []) pages ->
  (forall now, vendor w (clientFor DynamoDBService account now) _
                      (DescribeTableCommand tableName) = inl e) ->
  err_name e <> "ResourceNotFoundException" ->
  exists e' listed s,
    fst (DynamoDbProvider.listTablesWithDetails fuel accountName w st) = Throw e' /\
    listed ∈ allItems (fun page => DynamoDB.TableNames page ?? []) pages /\
    fst (DynamoDbProvider.getTable accountName listed w s) = Throw e'.
Proof.
  intros Ha Hserves Hfuel Hlisted Hv Hname.
  assert (Hpos : (0 < batchSize)%nat) by (unfold batchSize; lia).
  unfold DynamoDbProvider.listTablesWithDetails.
  rewrite (bind_Ok _ _ _ _ _ _ (listTables_pages w st accountName account fuel pages
                                   Ha Hserves Hfuel)).
  set (names := allItems (fun page => DynamoDB.TableNames page ?? []) pages) in *.
  rewrite (loop_batches _ _ (dynamodb_detailsLoop_unfold accountName)
                        names w (length names) 0 []) by lia.
  rewrite drop_0.
  match goal with
  | |- context [processBatches ?d ?b ?start ?w' ?s] =>
      destruct (processBatches_outcome d w' (getTable_settles w' accountName) b start s)
        as [[out Hok]|(e' & listed & s' & Hrun & Hin & Hfail)];
      [exfalso; destruct (processBatches d b start w' s) as [r st'] eqn:Hpair|]
  end.
  - cbn [fst] in Hok. subst r.
    destruct (processBatches_Ok_inv _ _ _ _ _ _ _ Hpair) as (results & Hall & _).
    rewrite chunks_concat in Hall by exact Hpos.
    apply list_elem_of_lookup in Hlisted as [i Hi].
    destruct (Forall2_lookup_l _ _ _ _ _ Hall Hi) as (result & _ & s1 & s2 & Hresult).
    destruct (getTable_absent w s1 accountName account tableName Ha) as [Herror _].
    change (awaited (DynamoDbProvider.getTable_call accountName tableName))
      with (DynamoDbProvider.getTable accountName tableName) in Hresult.
    rewrite (Herror e (Hv _)) in Hresult. unfold named in Hresult.
    destruct (String.eqb_spec (err_name e) "ResourceNotFoundException");
      [contradiction|discriminate Hresult].
  - rewrite chunks_concat in Hin by exact Hpos.
    exists e', listed, s'. split; [exact Hrun|]. split; assumption.
Qed.

Lemma listTablesWithDetails_fails_as_a_whole_witness :
  let w := Fixture.world Scenario.flaky in
  fst (DynamoDbProvider.listTablesWithDetails 1 "prod" w initial)
  = Throw {| err_name := "ThrottlingException"; err_message := "Rate exceeded" |}.
Proof.
  intros w.
  destruct (listTablesWithDetails_fails_as_a_whole w initial "prod" Fixture.prod 1
              [ {| DynamoDB.TableNames := Some ["a"; "b"];
                   DynamoDB.LastEvaluatedTableName := None |} ]
              "b" {| err_name := "ThrottlingException"; err_message := "Rate exceeded" |})
    as (e' & listed & s & Hrun & Hlisted & Hfail);
    [reflexivity|apply serves_last; reflexivity|simpl; lia
    |right; left|intros now; reflexivity|discriminate|].
  rewrite Hrun. f_equal.
  assert (Hvalue : fst (DynamoDbProvider.listTablesWithDetails 1 "prod" w initial)
                   = Throw {| err_name := "ThrottlingException";
                              err_message := "Rate exceeded" |})
    by (vm_compute; reflexivity).
  rewrite Hvalue in Hrun. injection Hrun as <-. reflexivity.
Defined.

